(** * NativeQL: the metadata-driven mapping core, embedded in Rocq

    A shallow embedding of [src/enums.ts], [src/metadata.ts],
    [src/sql-generator.ts] and the persistence and materialisation parts of
    [src/data-source.ts].  JavaScript values are a small inductive type,
    exceptions are an error result, the awaited calls to the SQLite driver are
    explicit state passing over the driver together with the trace of the
    statements that were issued. *)

From Stdlib Require Import String Ascii List ZArith Bool Lia DecimalString.
Import ListNotations.
Open Scope list_scope.
Open Scope string_scope.

(** ** JavaScript values *)

Module Js.

(** Numbers are the integers among the JavaScript numbers (no fractional
    part, no NaN, no infinity), and arithmetic on them rounds as the doubles
    do, see [to_double].  They are printed in decimal digits, as JavaScript
    prints the integers from [-2^53] to [2^53]; the text of a larger number,
    which JavaScript prints with the fewest digits that identify it and with
    an exponent from [10^21] on, is not that of the embedding.  A [Date] is
    its instant in milliseconds, [None] being the invalid date.  An object is
    the list of its own enumerable properties in the order they were added,
    which is the [Object.keys] order of the properties whose name is not a
    numeral, see [numeral]: JavaScript enumerates the names of array indices
    first, in ascending order.  An array or a date has no properties but its
    elements or its instant. *)
#[warnings="-register-all"]
Inductive value : Type :=
| VUndefined
| VNull
| VBool (b : bool)
| VNum (n : Z)
| VStr (s : string)
| VDate (t : option Z)
| VArr (items : list value)
| VObj (fields : list (string * value)).

Inductive error : Type :=
| Error (message : string)      (* [throw new Error(message)] *)
| TypeError                     (* raised by the runtime *)
| RangeError
| SyntaxError
| Thrown (v : value).           (* anything else a callee throws *)

Inductive result (A : Type) : Type :=
| Ok (a : A)
| Throw (e : error).
Arguments Ok {A} a.
Arguments Throw {A} e.

Definition bind {A B} (r : result A) (k : A -> result B) : result B :=
  match r with
  | Ok a => k a
  | Throw e => Throw e
  end.

Notation "'let*' x ':=' r 'in' k" := (bind r (fun x => k))
  (at level 10, x pattern, r at level 100, k at level 200).

(** [xs.map(f)] where [f] may throw: the first exception aborts the loop. *)
Fixpoint mapM {A B} (f : A -> result B) (xs : list A) : result (list B) :=
  match xs with
  | [] => Ok []
  | x :: xs' =>
      let* y := f x in
      let* ys := mapM f xs' in
      Ok (y :: ys)
  end.

Definition truthy (v : value) : bool :=
  match v with
  | VUndefined | VNull => false
  | VBool b => b
  | VNum n => negb (n =? 0)%Z
  | VStr s => negb (s =? "")
  | VDate _ | VArr _ | VObj _ => true
  end.

(** [a || b] *)
Definition or_else (a b : value) : value := if truthy a then a else b.

(** [typeof v === 'object'] *)
Definition typeof_object (v : value) : bool :=
  match v with
  | VNull | VDate _ | VArr _ | VObj _ => true
  | _ => false
  end.

Definition isArray (v : value) : bool :=
  match v with VArr _ => true | _ => false end.

Definition is_undefined (v : value) : bool :=
  match v with VUndefined => true | _ => false end.

Definition nullish (v : value) : bool :=
  match v with VUndefined | VNull => true | _ => false end.

(** [a === b].  Two objects are identical only when they are the same
    reference; the model compares an object only with values of another
    origin, so the answer on objects is [false]. *)
Definition strict_eq (a b : value) : bool :=
  match a, b with
  | VUndefined, VUndefined => true
  | VNull, VNull => true
  | VBool x, VBool y => Bool.eqb x y
  | VNum x, VNum y => (x =? y)%Z
  | VStr x, VStr y => (x =? y)
  | _, _ => false
  end.

Definition index_key (i : nat) : string :=
  NilZero.string_of_uint (Nat.to_uint i).

Definition index_keys (n : nat) : list string := map index_key (seq 0 n).

Fixpoint assoc {A} (k : string) (fields : list (string * A)) : option A :=
  match fields with
  | [] => None
  | (k', v) :: rest => if k' =? k then Some v else assoc k rest
  end.

Fixpoint position (k : string) (ks : list string) : option nat :=
  match ks with
  | [] => None
  | k' :: rest => if k' =? k then Some 0%nat else option_map S (position k rest)
  end.

Definition chars (s : string) : list value :=
  map (fun c => VStr (String c EmptyString)) (list_ascii_of_string s).

Definition at_index (k : string) (items : list value) : value :=
  match position k (index_keys (List.length items)) with
  | Some i => nth i items VUndefined
  | None => if k =? "length" then VNum (Z.of_nat (List.length items)) else VUndefined
  end.

(** [v[k]] for a receiver that is neither [null] nor [undefined].  Members
    inherited from the built-in prototypes are not modelled: property names
    are column, relation and operator-node names. *)
Definition prop (v : value) (k : string) : value :=
  match v with
  | VObj fields => match assoc k fields with Some x => x | None => VUndefined end
  | VArr items => at_index k items
  | VStr s => at_index k (chars s)
  | _ => VUndefined
  end.

(** [v[k]] in general: reading a property of [null] or [undefined] throws. *)
Definition get (v : value) (k : string) : result value :=
  if nullish v then Throw TypeError else Ok (prop v k).

(** [Object.keys(v)] *)
Definition keys (v : value) : result (list string) :=
  match v with
  | VUndefined | VNull => Throw TypeError
  | VObj fields => Ok (map fst fields)
  | VArr items => Ok (index_keys (List.length items))
  | VStr s => Ok (index_keys (String.length s))
  | _ => Ok []
  end.

(** [obj[k] = x] on a property list: an existing property keeps its place. *)
Fixpoint set_field (k : string) (x : value) (fields : list (string * value))
  : list (string * value) :=
  match fields with
  | [] => [(k, x)]
  | (k', v) :: rest =>
      if k' =? k then (k, x) :: rest else (k', v) :: set_field k x rest
  end.

(** [obj[k] = x] where [obj] is a plain object or an entity instance. *)
Definition assign (obj : value) (k : string) (x : value) : value :=
  match obj with
  | VObj fields => VObj (set_field k x fields)
  | _ => obj
  end.

(** [obj[k] = x] for an arbitrary receiver, in strict mode: a receiver that
    is not an object throws.  An array or a date accepts the property, which
    has no place in the [value] that stands for it: the embedding drops it. *)
Definition assign_strict (obj : value) (k : string) (x : value) : result value :=
  match obj with
  | VObj fields => Ok (VObj (set_field k x fields))
  | VArr _ | VDate _ => Ok obj
  | _ => Throw TypeError
  end.

(** [{ ...v }] *)
Definition spread (v : value) : value :=
  match v with
  | VObj fields => VObj fields
  | VArr items => VObj (combine (index_keys (List.length items)) items)
  | VStr s => VObj (combine (index_keys (String.length s)) (chars s))
  | _ => VObj []
  end.

(** A loop whose body may throw. *)
Fixpoint foldM {A S} (f : S -> A -> result S) (xs : list A) (s : S) : result S :=
  match xs with
  | [] => Ok s
  | x :: xs' => let* s' := f s x in foldM f xs' s'
  end.

(** [s.split(",")] *)
Fixpoint split_comma (s : string) : list string :=
  match s with
  | EmptyString => [""]
  | String c rest =>
      if Ascii.eqb c "," then "" :: split_comma rest
      else match split_comma rest with
           | [] => [String c ""]
           | piece :: pieces => String c piece :: pieces
           end
  end.

(** The largest integer below which every integer is a double: [2^53]. *)
Definition exact : Z := 9007199254740992.

(** The double nearest to an integer, a tie going to the even significand
    (the rounding of every arithmetic operation on numbers).  A significand
    has 53 bits, so the integers up to [2^53] in magnitude are doubles
    themselves; beyond, the bits below the 53 leading ones are rounded off.
    (Past the largest double, near [2^1024], the sum would be an infinity,
    which is not a value of the embedding.) *)
Definition to_double (n : Z) : Z :=
  let magnitude := Z.abs n in
  if (magnitude <=? exact)%Z then n
  else
    let dropped := (Z.log2 magnitude - 52)%Z in
    let significand := Z.shiftr magnitude dropped in
    let rest := (magnitude - Z.shiftl significand dropped)%Z in
    let half := Z.shiftl 1 (dropped - 1) in
    let rounded :=
      if (half <? rest)%Z || ((rest =? half)%Z && Z.odd significand)
      then (significand + 1)%Z else significand in
    (Z.sgn n * Z.shiftl rounded dropped)%Z.

Definition digit (c : ascii) : bool :=
  (48 <=? nat_of_ascii c)%nat && (nat_of_ascii c <=? 57)%nat.

(** The name is the decimal numeral of a natural number ([0], [7], [42]; not
    [007]): the names JavaScript takes for array indices are among these. *)
Definition numeral (k : string) : bool :=
  match k with
  | EmptyString => false
  | String c EmptyString => digit c
  | String c rest =>
      digit c && negb (Ascii.eqb c "0") && forallb digit (list_ascii_of_string rest)
  end.

(** The built-ins of the host that the repository calls and does not define. *)
Class Host : Type := {
  Date_toString : option Z -> string;
  Date_toISOString : Z -> string;
  Date_parse : string -> option Z;
  JSON_stringify : value -> result value;
  JSON_parse : string -> result value
}.

Section Conversions.
Context `{Host}.

(** [String(v)], also what a template literal and [Array.prototype.join]
    apply to an element.  The text of a number is the one JavaScript prints
    for the integers from [-2^53] to [2^53]. *)
Fixpoint String_ (v : value) : string :=
  match v with
  | VUndefined => "undefined"
  | VNull => "null"
  | VBool true => "true"
  | VBool false => "false"
  | VNum n => NilZero.string_of_int (Z.to_int n)
  | VStr s => s
  | VDate t => Date_toString t
  | VArr items =>
      String.concat ","
        (map (fun x => match x with
                       | VUndefined | VNull => ""
                       | _ => String_ x
                       end) items)
  | VObj _ => "[object Object]"
  end.

(** [items.join(sep)] *)
Definition join (sep : string) (items : list value) : string :=
  String.concat sep
    (map (fun x => if nullish x then "" else String_ x) items).

(** [v + 1]: the sum of two numbers is the double nearest to it. *)
Definition plus_one (v : value) : value :=
  match v with
  | VNum n => VNum (to_double (n + 1))
  | VBool b => VNum (if b then 2 else 1)
  | VNull => VNum 1
  | VUndefined => VUndefined       (* NaN is not a value of the model *)
  | _ => VStr (String_ v ++ "1")
  end.

(** [d.toISOString()] *)
Definition toISOString (t : option Z) : result value :=
  match t with
  | Some ms => Ok (VStr (Date_toISOString ms))
  | None => Throw RangeError
  end.

End Conversions.

(** [s.split(sep)] for a separator of one character *)
Fixpoint split_on (sep : ascii) (s : string) : list string :=
  match s with
  | EmptyString => [""]
  | String c rest =>
      if Ascii.eqb c sep then "" :: split_on sep rest
      else match split_on sep rest with
           | [] => [String c ""]
           | piece :: pieces => String c piece :: pieces
           end
  end.

(** The own properties that [...v] copies into an object literal. *)
Definition own (v : value) : list (string * value) :=
  match spread v with
  | VObj fields => fields
  | _ => []
  end.

(** [{ ...a, ...b }]: the properties of [a], then those of [b]; a property of
    both keeps the place it has in [a] and takes the value it has in [b].
    This is the order of JavaScript for names that are not numerals. *)
Definition merge (a b : value) : value :=
  VObj (fold_left (fun fields kv => set_field (fst kv) (snd kv) fields) (own b) (own a)).

(** [xs[0]] for an array held as a list *)
Definition first (xs : list value) : value :=
  match xs with
  | x :: _ => x
  | [] => VUndefined
  end.

End Js.
Import Js.

(** ** [src/enums.ts] *)

Module ColumnType.
Inductive t : Set :=
| String | Number | Boolean | Integer | SimpleArray | SimpleJson | Text
| DateTime | Date.

Definition eqb (a b : t) : bool :=
  match a, b with
  | String, String | Number, Number | Boolean, Boolean | Integer, Integer
  | SimpleArray, SimpleArray | SimpleJson, SimpleJson | Text, Text
  | DateTime, DateTime | Date, Date => true
  | _, _ => false
  end.
End ColumnType.

Module RelationType.
Inductive t : Set := OneToOne | OneToMany | ManyToOne | ManyToMany.

Definition eqb (a b : t) : bool :=
  match a, b with
  | OneToOne, OneToOne | OneToMany, OneToMany
  | ManyToOne, ManyToOne | ManyToMany, ManyToMany => true
  | _, _ => false
  end.
End RelationType.

Module ListenerType.
Inductive t : Set :=
| BeforeInsert | AfterInsert | BeforeUpdate | AfterUpdate
| BeforeRemove | AfterRemove | AfterLoad.

Definition eqb (a b : t) : bool :=
  match a, b with
  | BeforeInsert, BeforeInsert | AfterInsert, AfterInsert
  | BeforeUpdate, BeforeUpdate | AfterUpdate, AfterUpdate
  | BeforeRemove, BeforeRemove | AfterRemove, AfterRemove
  | AfterLoad, AfterLoad => true
  | _, _ => false
  end.
End ListenerType.

(** The filter operators are a string enum; an operator node carries the
    string, and the generator compares strings.  The values are those of the
    source, where [NotEqual] and [Not] are the same string. *)
Module OperatorType.
Definition Equal : string := "EQUAL".
Definition NotEqual : string := "NOT".
Definition LessThan : string := "LT".
Definition GreaterThan : string := "GT".
Definition LessThanOrEqual : string := "LTE".
Definition GreaterThanOrEqual : string := "GTE".
Definition Between : string := "BETWEEN".
Definition Like : string := "LIKE".
Definition ILike : string := "ILIKE".
Definition In : string := "IN".
Definition IsNull : string := "IS_NULL".
Definition Raw : string := "RAW".
Definition Not : string := "NOT".
End OperatorType.

(** ** [src/operators.ts]: the constructors of operator nodes *)

Module Operators.
Definition node (operator : string) (v : value) : value :=
  VObj [("operator", VStr operator); ("value", v)].

Definition Like (v : string) : value := node OperatorType.Like (VStr v).
Definition ILike (v : string) : value := node OperatorType.ILike (VStr v).
Definition In (values : list value) : value := node OperatorType.In (VArr values).
Definition Not (v : value) : value := node OperatorType.Not v.
Definition LessThan (v : Z) : value := node OperatorType.LessThan (VNum v).
Definition MoreThan (v : Z) : value := node OperatorType.GreaterThan (VNum v).
Definition Between (a b : value) : value := node OperatorType.Between (VArr [a; b]).
Definition IsNull : value := node OperatorType.IsNull VNull.
Definition Equal (v : value) : value := node OperatorType.Equal v.
Definition Raw (v : string) : value := node OperatorType.Raw (VStr v).
Definition LessThanOrEqual (v : Z) : value := node OperatorType.LessThanOrEqual (VNum v).
Definition MoreThanOrEqual (v : Z) : value :=
  node OperatorType.GreaterThanOrEqual (VNum v).
Definition Contains (v : string) : value := node OperatorType.Like (VStr ("%" ++ v ++ "%")).
Definition IContains (v : string) : value :=
  node OperatorType.ILike (VStr ("%" ++ v ++ "%")).
Definition StartsWith (v : string) : value := node OperatorType.Like (VStr (v ++ "%")).
Definition IStartsWith (v : string) : value := node OperatorType.ILike (VStr (v ++ "%")).
Definition EndsWith (v : string) : value := node OperatorType.Like (VStr ("%" ++ v)).
Definition IEndsWith (v : string) : value := node OperatorType.ILike (VStr ("%" ++ v)).
End Operators.

(** ** [src/metadata.ts] *)

Module Metadata.

(** An entity class.  Identity is the identity of the reference, carried by
    [class_id]; [class_methods] are the methods of its prototype. *)
Record class : Type := { class_id : nat; class_methods : list string }.

Definition same (a b : class) : bool := Nat.eqb (class_id a) (class_id b).

(** What an expression of type [Function | string] may evaluate to when it is
    used as a lookup target. *)
Inductive ref : Type :=
| IsClass (c : class)
| IsUndefined
| IsOther.          (* a string, or a function that is not a registered class *)

(** The [type] of a relation: the class itself, an arrow function that is
    called at each use (and returns a target or throws), or a name. *)
Inductive type_ref : Type :=
| ClassRef (c : class)
| Arrow (returns : option ref)
| TypeName (name : string).

(** [let t = r.type; try { if (typeof t === 'function' && !t.prototype) t = t(); } catch (e) { }] *)
Definition resolve (t : type_ref) : ref :=
  match t with
  | ClassRef c => IsClass c
  | Arrow (Some r) => r
  | Arrow None => IsOther
  | TypeName _ => IsOther
  end.

(** [x === c] for a resolved target [x] and a class [c] *)
Definition identical (x : ref) (c : class) : bool :=
  match x with
  | IsClass c' => same c' c
  | _ => false
  end.

Module ValueTransformer.
Record t : Type := { to : value -> result value; from : value -> result value }.
End ValueTransformer.

Module ColumnOptions.
Record t : Type := {
  name : option string;
  type : option ColumnType.t;
  primary : bool;
  generated : bool;
  nullable : option bool;
  transformer : option ValueTransformer.t
}.
End ColumnOptions.

Inductive Mode : Set :=
| regular | createDate | updateDate | deleteDate | version | objectId.

Definition has_mode (m : option Mode) (x : Mode) : bool :=
  match m, x with
  | Some regular, regular | Some createDate, createDate
  | Some updateDate, updateDate | Some deleteDate, deleteDate
  | Some version, version | Some objectId, objectId => true
  | _, _ => false
  end.

Module ColumnMetadata.
Record t : Type := {
  target : class;
  propertyName : string;
  options : ColumnOptions.t;
  mode : option Mode
}.
End ColumnMetadata.

Module EntityListenerMetadata.
Record t : Type := {
  target : class;
  propertyName : string;
  type : ListenerType.t
}.
End EntityListenerMetadata.

Module EntityMetadata.
Record t : Type := { target : class; name : string; tableName : string }.
End EntityMetadata.

Inductive Cascade : Type :=
| CascadeFlag (b : bool)
| CascadeList (operations : list string).

Module RelationOptions.
Record t : Type := {
  eager : bool;
  nullable : option bool;
  onDelete : option string;
  cascade : option Cascade
}.
End RelationOptions.

(** [inverseSide]: a property name, or a function of the related object,
    given by the name it selects ([None] when the call throws). *)
Inductive InverseSide : Type :=
| InverseName (property : string)
| InverseSelector (selected : option string).

Module RelationMetadata.
Record t : Type := {
  target : class;
  propertyName : string;
  relationType : RelationType.t;
  type : type_ref;
  inverseSide : option InverseSide;
  options : option RelationOptions.t;
  joinTable : bool;
  joinTableName : option string;
  joinColumn : bool;
  joinColumnName : option string
}.
End RelationMetadata.

Module JoinColumnMetadata.
Record t : Type := { target : class; propertyName : string; name : option string }.
End JoinColumnMetadata.

Module JoinTableMetadata.
Record t : Type := { target : class; propertyName : string; name : option string }.
End JoinTableMetadata.

Module IndexMetadata.
Record t : Type := {
  target : class;
  name : option string;
  columns : list string;
  unique : bool
}.
End IndexMetadata.

(** [a || b] for an optional string [a]: the empty string is falsy too. *)
Definition or_name (a : option string) (b : string) : string :=
  match a with
  | Some s => if s =? "" then b else s
  | None => b
  end.

Record MetadataArgsStorage : Type := {
  columns : list ColumnMetadata.t;
  tables : list EntityMetadata.t;
  relations : list RelationMetadata.t;
  indices : list IndexMetadata.t;
  entityListeners : list EntityListenerMetadata.t;
  joinTables : list JoinTableMetadata.t;
  joinColumns : list JoinColumnMetadata.t
}.


Section Lookups.
Variable storage : MetadataArgsStorage.

Definition findTable (target : ref) : option EntityMetadata.t :=
  find (fun table => identical target (EntityMetadata.target table)) (tables storage).

(** The filters read [target.constructor] at each element, which throws on
    [undefined] as soon as there is an element. *)
Definition guarded {A} (target : ref) (all found : list A) : result (list A) :=
  match target, all with
  | IsUndefined, _ :: _ => Throw TypeError
  | _, _ => Ok found
  end.

Definition columnsOf (target : ref) : list ColumnMetadata.t :=
  filter (fun column => identical target (ColumnMetadata.target column)) (columns storage).

Definition relationsOf (target : ref) : list RelationMetadata.t :=
  filter (fun relation => identical target (RelationMetadata.target relation))
    (relations storage).

Definition findColumns (target : ref) : result (list ColumnMetadata.t) :=
  guarded target (columns storage) (columnsOf target).

Definition findRelations (target : ref) : result (list RelationMetadata.t) :=
  guarded target (relations storage) (relationsOf target).

Definition findIndices (target : ref) : result (list IndexMetadata.t) :=
  guarded target (indices storage)
    (filter (fun index => identical target (IndexMetadata.target index)) (indices storage)).

Definition listenersOf (target : ref) (type : ListenerType.t)
  : list EntityListenerMetadata.t :=
  filter (fun listener =>
            identical target (EntityListenerMetadata.target listener)
            && ListenerType.eqb (EntityListenerMetadata.type listener) type)
    (entityListeners storage).

Definition findListeners (target : ref) (type : ListenerType.t)
  : result (list EntityListenerMetadata.t) :=
  guarded target (entityListeners storage) (listenersOf target type).

End Lookups.

End Metadata.
Import Metadata.

(** ** [src/sql-generator.ts] *)

Module SqlGenerator.

Record Query : Type := { query : string; params : list value }.

Section Generator.
Context `{Host}.
Variable storage : MetadataArgsStorage.

Definition columnName (c : ColumnMetadata.t) : string :=
  or_name (ColumnOptions.name (ColumnMetadata.options c)) (ColumnMetadata.propertyName c).

Definition placeholders {A} (xs : list A) : string :=
  String.concat ", " (map (fun _ => "?") xs).

(** [entity] is an object here: [save] and [insert] of the data source pass
    the object they have filled, and [upsert] below has read the properties
    before.  (Reading a property of [null] or [undefined] throws.) *)
Definition insert (metadata : EntityMetadata.t) (columns : list ColumnMetadata.t)
    (entity : value) : Query :=
  let columnNames := map columnName columns in
  let values := map (fun c => prop entity (ColumnMetadata.propertyName c)) columns in
  {| query := "INSERT INTO " ++ EntityMetadata.tableName metadata
              ++ " (" ++ String.concat ", " columnNames ++ ") VALUES ("
              ++ placeholders columnNames ++ ")";
     params := values |}.

(** The [switch] compares the operator of the node with each label by [===],
    in the order of the [case]s. *)
Definition matches (operator : value) (label : string) : bool :=
  strict_eq operator (VStr label).

(** [typeof v === 'object' && v.operator] as a condition *)
Definition is_node (v : value) : result bool :=
  if typeof_object v then
    let* operator := get v "operator" in Ok (truthy operator)
  else Ok false.

(** The callback of [Object.keys(where).map] in [buildConditions]: the text of
    one condition and the values it pushes. *)
Definition condition (key : string) (value : value) : result (string * list Js.value) :=
  if truthy value && typeof_object value && truthy (prop value "operator") then
    let operator := prop value "operator" in
    let inner := prop value "value" in
    if matches operator OperatorType.Like then Ok (key ++ " LIKE ?", [inner])
    else if matches operator OperatorType.In then
      match inner with
      | VArr items => Ok (key ++ " IN (" ++ placeholders items ++ ")", items)
      | _ => Throw TypeError
      end
    else if matches operator OperatorType.NotEqual then
      let* nested := is_node inner in
      if nested then Ok (key ++ " != ?", [inner])
      else Ok (key ++ " != ?", [inner])
    else if matches operator OperatorType.LessThan then Ok (key ++ " < ?", [inner])
    else if matches operator OperatorType.GreaterThan then Ok (key ++ " > ?", [inner])
    else if matches operator OperatorType.LessThanOrEqual then Ok (key ++ " <= ?", [inner])
    else if matches operator OperatorType.GreaterThanOrEqual then Ok (key ++ " >= ?", [inner])
    else if matches operator OperatorType.Between then
      let* low := get inner "0" in
      let* high := get inner "1" in
      Ok (key ++ " BETWEEN ? AND ?", [low; high])
    else if matches operator OperatorType.IsNull then Ok (key ++ " IS NULL", [])
    else if matches operator OperatorType.Equal then Ok (key ++ " = ?", [inner])
    else if matches operator OperatorType.ILike then Ok (key ++ " LIKE ?", [inner])
    else if matches operator OperatorType.Raw then Ok (key ++ " " ++ String_ inner, [])
    else if matches operator OperatorType.Not then
      let* nested := is_node inner in
      let innerOp := prop inner "operator" in
      let innerVal := prop inner "value" in
      if nested && matches innerOp OperatorType.In then
        match innerVal with
        | VArr items => Ok (key ++ " NOT IN (" ++ placeholders items ++ ")", items)
        | _ => Throw TypeError
        end
      else if nested && matches innerOp OperatorType.Like then
        Ok (key ++ " NOT LIKE ?", [innerVal])
      else if nested && matches innerOp OperatorType.IsNull then
        Ok (key ++ " IS NOT NULL", [])
      else Ok (key ++ " != ?", [inner])
    else Ok (key ++ " = ?", [value])
  else Ok (key ++ " = ?", [value]).

Definition buildConditions (where_ : value) : result (string * list value) :=
  let* ks := keys where_ in
  let* conditions := mapM (fun key => condition key (prop where_ key)) ks in
  Ok (String.concat " AND " (map fst conditions), concat (map snd conditions)).

Definition createJunctionTable (metadata : EntityMetadata.t)
    (relation : RelationMetadata.t) (relatedMetadata : EntityMetadata.t) : string :=
  let table := EntityMetadata.tableName metadata in
  let related := EntityMetadata.tableName relatedMetadata in
  let junctionTableName :=
    or_name (RelationMetadata.joinTableName relation) (table ++ "_" ++ related) in
  let col1 := table ++ "Id" in
  let col2 := related ++ "Id" in
  "CREATE TABLE IF NOT EXISTS " ++ junctionTableName ++ " (
            " ++ col1 ++ " INTEGER, 
            " ++ col2 ++ " INTEGER, 
            PRIMARY KEY(" ++ col1 ++ ", " ++ col2 ++ "),
            FOREIGN KEY (" ++ col1 ++ ") REFERENCES " ++ table ++ "(id) ON DELETE CASCADE,
            FOREIGN KEY (" ++ col2 ++ ") REFERENCES " ++ related ++ "(id) ON DELETE CASCADE
        )".

Definition insertJunction (junctionTableName : string) (val1 val2 : value) : Query :=
  {| query := "INSERT INTO " ++ junctionTableName ++ " VALUES (?, ?)";
     params := [val1; val2] |}.

Definition delete (metadata : EntityMetadata.t) (where_ : value) : result Query :=
  let query := "DELETE FROM " ++ EntityMetadata.tableName metadata in
  if truthy where_ then
    let* (clause, values) := buildConditions where_ in
    Ok {| query := query ++ " WHERE " ++ clause; params := values |}
  else Throw (Error "DELETE requires a WHERE clause (for safety in this simple ORM)").

Definition update (metadata : EntityMetadata.t) (values where_ : value) : result Query :=
  let query := "UPDATE " ++ EntityMetadata.tableName metadata in
  let* ks := keys values in
  let params := map (prop values) ks in
  let setClauses := map (fun key => key ++ " = ?") ks in
  let query := query ++ " SET " ++ String.concat ", " setClauses in
  if truthy where_ then
    let* (clause, whereValues) := buildConditions where_ in
    Ok {| query := query ++ " WHERE " ++ clause; params := params ++ whereValues |}
  else Throw (Error "UPDATE requires a WHERE clause").

Definition count (metadata : EntityMetadata.t) (where_ : value) : result Query :=
  let query := "SELECT COUNT(*) as count FROM " ++ EntityMetadata.tableName metadata in
  if truthy where_ then
    let* (clause, values) := buildConditions where_ in
    Ok {| query := query ++ " WHERE " ++ clause; params := values |}
  else Ok {| query := query; params := [] |}.

(** *** [select] *)

Definition findRelation (metadata : EntityMetadata.t) (relationName : string)
  : option RelationMetadata.t :=
  find (fun r => RelationMetadata.propertyName r =? relationName)
    (relationsOf storage (IsClass (EntityMetadata.target metadata))).

Definition selectClause (metadata : EntityMetadata.t) (select : option (list string))
  : string :=
  let table := EntityMetadata.tableName metadata in
  match select with
  | Some ((_ :: _) as cols) =>
      String.concat ", " (map (fun col => table ++ "." ++ col) cols)
  | _ => table ++ ".*"
  end.

(** First loop over [relations]: the aliased columns of one relation. *)
Definition relationColumns (metadata : EntityMetadata.t) (relationName : string)
  : string :=
  match findRelation metadata relationName with
  | Some relation =>
      let relatedClass := resolve (RelationMetadata.type relation) in
      match findTable storage relatedClass with
      | Some relatedTableMeta =>
          let relatedTableName := EntityMetadata.tableName relatedTableMeta in
          String.concat ""
            (map (fun col =>
                    let colName := columnName col in
                    let alias := relationName ++ "_" ++ colName in
                    ", " ++ relatedTableName ++ "." ++ colName ++ " as " ++ alias)
                 (columnsOf storage relatedClass))
      | None => ""
      end
  | None => ""
  end.

(** The column an inverse relation stores the foreign key in. *)
Definition fkColumn (relation : RelationMetadata.t) : string :=
  or_name (RelationMetadata.joinColumnName relation)
    (RelationMetadata.propertyName relation ++ "Id").

(** The inverse-side lookup of a one-to-many join. *)
Definition pointsBack (metadata : EntityMetadata.t) (r : RelationMetadata.t) : bool :=
  identical (resolve (RelationMetadata.type r)) (EntityMetadata.target metadata)
  && RelationType.eqb (RelationMetadata.relationType r) RelationType.ManyToOne.

(** The inverse-side lookup of a non-owning one-to-one join. *)
Definition ownsBack (metadata : EntityMetadata.t) (r : RelationMetadata.t) : bool :=
  identical (resolve (RelationMetadata.type r)) (EntityMetadata.target metadata)
  && RelationType.eqb (RelationMetadata.relationType r) RelationType.OneToOne
  && RelationMetadata.joinColumn r.

Definition inverseFk (matching : RelationMetadata.t -> bool)
    (relatedTableMeta : option EntityMetadata.t) : string :=
  match relatedTableMeta with
  | Some related =>
      match find matching
              (relationsOf storage (IsClass (EntityMetadata.target related))) with
      | Some matchingRelation => fkColumn matchingRelation
      | None => "foreignKey"
      end
  | None => "foreignKey"
  end.

(** The table a join names: the table of the related type, or the relation
    name followed by [Table] when the type is not registered. *)
Definition relatedTableNameOf (relationName : string) (relation : RelationMetadata.t)
  : string :=
  match findTable storage (resolve (RelationMetadata.type relation)) with
  | Some m => EntityMetadata.tableName m
  | None => relationName ++ "Table"
  end.

(** Second loop over [relations]: the [LEFT JOIN] of one relation. *)
Definition joinClause (metadata : EntityMetadata.t) (relationName : string) : string :=
  let table := EntityMetadata.tableName metadata in
  match findRelation metadata relationName with
  | Some relation =>
      let relatedClass := resolve (RelationMetadata.type relation) in
      let relatedTableMeta := findTable storage relatedClass in
      let relatedTableName :=
        match relatedTableMeta with
        | Some m => EntityMetadata.tableName m
        | None => relationName ++ "Table"
        end in
      match RelationMetadata.relationType relation, RelationMetadata.joinColumn relation with
      | RelationType.ManyToMany, _ =>
          let joinTableMeta :=
            find (fun jt => same (JoinTableMetadata.target jt) (EntityMetadata.target metadata)
                            && (JoinTableMetadata.propertyName jt =? relationName))
              (joinTables storage) in
          let junctionTableName :=
            match joinTableMeta with
            | Some jt => or_name (JoinTableMetadata.name jt) (table ++ "_" ++ relatedTableName)
            | None => table ++ "_" ++ relatedTableName
            end in
          " LEFT JOIN " ++ junctionTableName ++ " ON " ++ junctionTableName ++ "."
            ++ table ++ "Id = " ++ table ++ ".id"
          ++ " LEFT JOIN " ++ relatedTableName ++ " ON " ++ relatedTableName ++ ".id = "
            ++ junctionTableName ++ "." ++ relatedTableName ++ "Id"
      | RelationType.ManyToOne, _ | RelationType.OneToOne, true =>
          let fkName :=
            or_name (RelationMetadata.joinColumnName relation) (relationName ++ "Id") in
          " LEFT JOIN " ++ relatedTableName ++ " ON " ++ relatedTableName ++ ".id = "
            ++ table ++ "." ++ fkName
      | RelationType.OneToMany, _ =>
          let fkName := inverseFk (pointsBack metadata) relatedTableMeta in
          " LEFT JOIN " ++ relatedTableName ++ " ON " ++ relatedTableName ++ "."
            ++ fkName ++ " = " ++ table ++ ".id"
      | RelationType.OneToOne, false =>
          let fkName := inverseFk (ownsBack metadata) relatedTableMeta in
          " LEFT JOIN " ++ relatedTableName ++ " ON " ++ relatedTableName ++ "."
            ++ fkName ++ " = " ++ table ++ ".id"
      end
  | None => ""
  end.

Definition deleteDateCol (target : class) : option ColumnMetadata.t :=
  find (fun c => has_mode (ColumnMetadata.mode c) deleteDate)
    (columnsOf storage (IsClass target)).

(** The soft-delete condition that [select] pushes first. *)
Definition softDeleteClauses (metadata : EntityMetadata.t) (withDeleted : bool)
  : list string :=
  if negb withDeleted then
    match deleteDateCol (EntityMetadata.target metadata) with
    | Some c => [EntityMetadata.tableName metadata ++ "." ++ columnName c ++ " IS NULL"]
    | None => []
    end
  else [].

(** The condition built from the caller's filter, with its parameters. *)
Definition filterClauses (where_ : value) : result (list string * list value) :=
  if truthy where_ then
    let* ks := keys where_ in
    if (0 <? List.length ks)%nat then
      let* (clause, values) := buildConditions where_ in
      if negb (clause =? "") then Ok ([clause], values) else Ok ([], [])
    else Ok ([], [])
  else Ok ([], []).

Definition whereSql (whereClauses : list string) : string :=
  match whereClauses with
  | [] => ""
  | _ :: _ => " WHERE " ++ String.concat " AND " whereClauses
  end.

Definition direction (dir : value) : string :=
  if strict_eq dir (VStr "DESC") || strict_eq dir (VStr "desc") || strict_eq dir (VNum (-1))
  then "DESC" else "ASC".

Definition orderSql (order : value) : result string :=
  if truthy order then
    let* ks := keys order in
    match ks with
    | [] => Ok ""
    | _ :: _ =>
        Ok (" ORDER BY "
            ++ String.concat ", "
                 (map (fun key => key ++ " " ++ direction (prop order key)) ks))
    end
  else Ok "".

Definition limitSql (take skip : value) : string :=
  (if is_undefined take then "" else " LIMIT " ++ String_ take)
  ++ (if is_undefined skip then "" else " OFFSET " ++ String_ skip).

(** Everything [select] emits before the [WHERE] clause. *)
Definition selectFrom (metadata : EntityMetadata.t) (relations : list string)
    (select : option (list string)) : string :=
  "SELECT " ++ selectClause metadata select
  ++ String.concat "" (map (relationColumns metadata) relations)
  ++ " FROM " ++ EntityMetadata.tableName metadata
  ++ String.concat "" (map (joinClause metadata) relations).

Definition select (metadata : EntityMetadata.t) (where_ : value)
    (relations : list string) (order take skip : value)
    (select : option (list string)) (withDeleted : bool) : result Query :=
  let* (clauses, params) := filterClauses where_ in
  let whereClauses := (softDeleteClauses metadata withDeleted ++ clauses)%list in
  let* ordering := orderSql order in
  Ok {| query := selectFrom metadata relations select
                 ++ whereSql whereClauses ++ ordering ++ limitSql take skip;
        params := params |}.

(** *** [createTable] *)

Definition getType (type : option ColumnType.t) : string :=
  match type with
  | Some ColumnType.String => "TEXT"
  | Some ColumnType.SimpleArray => "TEXT"
  | Some ColumnType.SimpleJson => "TEXT"
  | Some ColumnType.Text => "TEXT"
  | Some ColumnType.Number => "INTEGER"
  | Some ColumnType.Boolean => "INTEGER"
  | Some ColumnType.Integer => "INTEGER"
  | Some ColumnType.DateTime => "INTEGER"
  | Some ColumnType.Date => "TEXT"
  | None => "TEXT"
  end.

Definition columnDef (col : ColumnMetadata.t) : string :=
  let o := ColumnMetadata.options col in
  columnName col ++ " " ++ getType (ColumnOptions.type o)
  ++ (if ColumnOptions.primary o then " PRIMARY KEY" else "")
  ++ (if ColumnOptions.generated o then " AUTOINCREMENT" else "")
  ++ (match ColumnOptions.nullable o with Some false => " NOT NULL" | _ => "" end).

(** This side stores the foreign key. *)
Definition owning (relation : RelationMetadata.t) : bool :=
  match RelationMetadata.relationType relation with
  | RelationType.ManyToOne => true
  | RelationType.OneToOne => RelationMetadata.joinColumn relation
  | _ => false
  end.

Definition onDeleteOf (relation : RelationMetadata.t) : string :=
  match RelationMetadata.options relation with
  | Some o =>
      match RelationOptions.onDelete o with
      | Some action => if action =? "" then "" else " ON DELETE " ++ action
      | None => ""
      end
  | None => ""
  end.

(** The definitions one relation adds to [columnDefs]. *)
Definition relationDefs (relation : RelationMetadata.t) : list string :=
  if owning relation then
    let fkName := fkColumn relation in
    match findTable storage (resolve (RelationMetadata.type relation)) with
    | Some relatedTable =>
        [fkName ++ " INTEGER";
         "FOREIGN KEY (" ++ fkName ++ ") REFERENCES "
           ++ EntityMetadata.tableName relatedTable ++ "(id)" ++ onDeleteOf relation]
    | None => [fkName ++ " INTEGER"]
    end
  else [].

Definition createTable (metadata : EntityMetadata.t) (columns : list ColumnMetadata.t)
  : string :=
  let columnDefs :=
    (map columnDef columns
     ++ flat_map relationDefs
          (relationsOf storage (IsClass (EntityMetadata.target metadata))))%list in
  "CREATE TABLE IF NOT EXISTS " ++ EntityMetadata.tableName metadata
  ++ " (" ++ String.concat ", " columnDefs ++ ")".

(** *** The other statements *)

(** The columns [upsert] rewrites on a conflict: all but the conflict keys. *)
Definition updateClauses (columnNames conflictPaths : list string) : list string :=
  map (fun col => col ++ "=excluded." ++ col)
    (filter (fun col => negb (existsb (String.eqb col) conflictPaths)) columnNames).

(** [entity] is what the caller passed: reading a property of [null] or
    [undefined] throws. *)
Definition upsert (metadata : EntityMetadata.t) (columns : list ColumnMetadata.t)
    (entity : value) (conflictPaths : list string) : result Query :=
  let columnNames := map columnName columns in
  let* values := mapM (fun c => get entity (ColumnMetadata.propertyName c)) columns in
  let query :=
    "INSERT INTO " ++ EntityMetadata.tableName metadata
    ++ " (" ++ String.concat ", " columnNames ++ ") VALUES ("
    ++ placeholders columnNames ++ ")" in
  match conflictPaths with
  | [] => Ok {| query := query; params := values |}
  | _ :: _ =>
      Ok {| query := query ++ " ON CONFLICT(" ++ String.concat ", " conflictPaths
                     ++ ") DO UPDATE SET "
                     ++ String.concat ", " (updateClauses columnNames conflictPaths);
            params := values |}
  end.

Definition createIndex (metadata : EntityMetadata.t) (index : IndexMetadata.t) : string :=
  let table := EntityMetadata.tableName metadata in
  let columns := String.concat ", " (IndexMetadata.columns index) in
  let unique := if IndexMetadata.unique index then "UNIQUE " else "" in
  let indexName :=
    or_name (IndexMetadata.name index)
      ("IDX_" ++ table ++ "_" ++ String.concat "_" (IndexMetadata.columns index)) in
  "CREATE " ++ unique ++ "INDEX IF NOT EXISTS " ++ indexName ++ " ON " ++ table
  ++ " (" ++ columns ++ ")".

Definition clear (metadata : EntityMetadata.t) : string :=
  "DELETE FROM " ++ EntityMetadata.tableName metadata.

Inductive CounterMode : Set := increment | decrement.

Definition updateCounter (metadata : EntityMetadata.t) (where_ : value)
    (propertyPath : string) (value : value) (mode : CounterMode) : result Query :=
  let symbol := match mode with increment => "+" | decrement => "-" end in
  let query :=
    "UPDATE " ++ EntityMetadata.tableName metadata ++ " SET " ++ propertyPath ++ " = "
    ++ propertyPath ++ " " ++ symbol ++ " ?" in
  if truthy where_ then
    let* (clause, values) := buildConditions where_ in
    Ok {| query := query ++ " WHERE " ++ clause; params := value :: values |}
  else Ok {| query := query; params := [value] |}.

(** The timestamp parameter of the statement is left to the caller. *)
Definition softRemove (metadata : EntityMetadata.t) (where_ : value) : result Query :=
  match deleteDateCol (EntityMetadata.target metadata) with
  | None =>
      Throw (Error ("Entity " ++ EntityMetadata.tableName metadata
                    ++ " does not have a @DeleteDateColumn. Cannot soft remove."))
  | Some deleteDateCol =>
      let query :=
        "UPDATE " ++ EntityMetadata.tableName metadata ++ " SET "
        ++ columnName deleteDateCol ++ " = ?" in
      if truthy where_ then
        let* (clause, values) := buildConditions where_ in
        Ok {| query := query ++ " WHERE " ++ clause; params := values |}
      else Throw (Error "softRemove requires a WHERE clause")
  end.

Definition recover (metadata : EntityMetadata.t) (where_ : value) : result Query :=
  match deleteDateCol (EntityMetadata.target metadata) with
  | None =>
      Throw (Error ("Entity " ++ EntityMetadata.tableName metadata
                    ++ " does not have a @DeleteDateColumn. Cannot recover."))
  | Some deleteDateCol =>
      let query :=
        "UPDATE " ++ EntityMetadata.tableName metadata ++ " SET "
        ++ columnName deleteDateCol ++ " = NULL" in
      if truthy where_ then
        let* (clause, values) := buildConditions where_ in
        Ok {| query := query ++ " WHERE " ++ clause; params := values |}
      else Throw (Error "recover requires a WHERE clause")
  end.

End Generator.
End SqlGenerator.

(** ** [src/data-source.ts] *)

Module DataSource.

(** What an operation of the data source asks of its surroundings: the driver
    executes a statement ([this.driver.executeSql]), a method of an entity is
    called (a lifecycle listener, awaited by [save] and called directly by
    [mapResults]; the answer is the receiver as the call left it), another
    object is saved ([this.save(other)]; the answer is that object as the
    nested save left it, which stands for the mutation in place). *)
Inductive event : Type :=
| ExecuteSql (sql : string) (params : list value)
| Invoke (receiver : value) (method : string)
| Save (entity : value).

(** An operation: it returns, throws, or awaits the answer to an event, which
    is a value when the promise resolves and an error when it rejects. *)
Inductive Async (T : Type) : Type :=
| Return (t : T)
| Raise (e : error)
| Await (ev : event) (k : result value -> Async T).
Arguments Return {T} t.
Arguments Raise {T} e.
Arguments Await {T} ev k.

Fixpoint bind {A B} (p : Async A) (f : A -> Async B) : Async B :=
  match p with
  | Return a => f a
  | Raise e => Raise e
  | Await ev k => Await ev (fun r => bind (k r) f)
  end.

Notation "'let!' x ':=' p 'in' k" := (bind p (fun x => k))
  (at level 10, x pattern, p at level 100, k at level 200).

(** [try { p } catch (err) { handler(err) }] *)
Fixpoint catch {A} (p : Async A) (handler : error -> Async A) : Async A :=
  match p with
  | Return a => Return a
  | Raise e => handler e
  | Await ev k => Await ev (fun r => catch (k r) handler)
  end.

Definition lift {A} (r : result A) : Async A :=
  match r with
  | Ok a => Return a
  | Throw e => Raise e
  end.

(** [await] of an event *)
Definition await (ev : event) : Async value := Await ev lift.

Fixpoint forEach {A S} (f : S -> A -> Async S) (xs : list A) (s : S) : Async S :=
  match xs with
  | [] => Return s
  | x :: xs' => let! s' := f s x in forEach f xs' s'
  end.

(** *** Running an operation *)

(** The surroundings answer each event and move on. *)
Class World (W : Type) : Type := { respond : W -> event -> result value * W }.

Section Run.
Context {W : Type} `{World W}.

(** The outcome, the final state of the surroundings, and the events in the
    order they happened. *)
Fixpoint run {T} (p : Async T) (w : W) : result T * W * list event :=
  match p with
  | Return t => (Ok t, w, [])
  | Raise e => (Throw e, w, [])
  | Await ev k =>
      let (r, w1) := respond w ev in
      let '(out, w2, trace) := run (k r) w1 in
      (out, w2, ev :: trace)
  end.

Definition outcome {T} (x : result T * W * list event) : result T := fst (fst x).
Definition final {T} (x : result T * W * list event) : W := snd (fst x).
Definition events {T} (x : result T * W * list event) : list event := snd x.

End Run.

Definition is_sql (ev : event) : bool :=
  match ev with ExecuteSql _ _ => true | _ => false end.

(** The statements among the events: those the operation issued itself. *)
Definition statements (trace : list event) : list event := filter is_sql trace.

(** *** Transactions *)

Definition query (sql : string) (params : list value) : Async value :=
  await (ExecuteSql sql params).

Definition startTransaction : Async value := query "BEGIN TRANSACTION" [].
Definition commitTransaction : Async value := query "COMMIT" [].
Definition rollbackTransaction : Async value := query "ROLLBACK" [].

Definition transaction {T} (runInTransaction : Async T) : Async T :=
  let! _ := startTransaction in
  catch
    (let! result := runInTransaction in
     let! _ := commitTransaction in
     Return result)
    (fun err =>
       let! _ := rollbackTransaction in
       Raise err).


(** The three statements of the wrapper, as events. *)
Definition BEGIN : event := ExecuteSql "BEGIN TRANSACTION" [].
Definition COMMIT : event := ExecuteSql "COMMIT" [].
Definition ROLLBACK : event := ExecuteSql "ROLLBACK" [].

(** *** Persistence *)

Section Operations.
Context `{Host}.
Variable storage : MetadataArgsStorage.

(** The instant [new Date()] reads; taken as one value for the run of an
    operation. *)
Variable now : Z.

Definition tableOf (target : class) : Async EntityMetadata.t :=
  match findTable storage (IsClass target) with
  | Some table => Return table
  | None => Raise (Error "Entity not found in metadata")
  end.

Definition pkColumn (target : class) : option ColumnMetadata.t :=
  find (fun c => ColumnOptions.primary (ColumnMetadata.options c))
    (columnsOf storage (IsClass target)).

Definition pkName (target : class) : option string :=
  option_map ColumnMetadata.propertyName (pkColumn target).

(** [pkName && entity[pkName]] as a condition *)
Definition isUpdate (target : class) (entity : value) : bool :=
  match pkName target with
  | Some name => negb (name =? "") && truthy (prop entity name)
  | None => false
  end.

(** [cascade === true || (Array.isArray(cascade) && cascade.includes(isUpdate ? 'update' : 'insert'))] *)
Definition cascades (relation : RelationMetadata.t) (isUpdate : bool) : bool :=
  match RelationMetadata.options relation with
  | Some o =>
      match RelationOptions.cascade o with
      | Some (CascadeFlag b) => b
      | Some (CascadeList operations) =>
          existsb (String.eqb (if isUpdate then "update" else "insert")) operations
      | None => false
      end
  | None => false
  end.

(** [save], first loop: the objects this entity holds a foreign key to are
    saved first.  The nested save mutates the related object in place; its
    answer is stored back under the property. *)
Definition saveOwners (relations : list RelationMetadata.t) (isUpdate : bool)
    (entity : value) : Async value :=
  forEach
    (fun entity relation =>
       if cascades relation isUpdate && SqlGenerator.owning relation then
         let relatedEntity := prop entity (RelationMetadata.propertyName relation) in
         if truthy relatedEntity then
           let! saved := await (Save relatedEntity) in
           Return (assign entity (RelationMetadata.propertyName relation) saved)
         else Return entity
       else Return entity)
    relations entity.

(** [typeof entity[name] === 'function']: a method of the class that no own
    property hides. *)
Definition callable (target : class) (entity : value) (name : string) : bool :=
  match entity with
  | VObj fields =>
      match assoc name fields with
      | Some _ => false
      | None => existsb (String.eqb name) (class_methods target)
      end
  | _ => false
  end.

Definition callListeners (target : class) (type : ListenerType.t) (entity : value)
  : Async value :=
  forEach
    (fun entity listener =>
       let name := EntityListenerMetadata.propertyName listener in
       if callable target entity name then await (Invoke entity name)
       else Return entity)
    (listenersOf storage (IsClass target) type) entity.

(** [save], lines 243-256: the body of the stamping loop. *)
Definition stamp (isUpdate : bool) (entity : value) (col : ColumnMetadata.t) : value :=
  let p := ColumnMetadata.propertyName col in
  let mode := ColumnMetadata.mode col in
  let entity :=
    if has_mode mode createDate && negb isUpdate && negb (truthy (prop entity p))
    then assign entity p (VDate (Some now)) else entity in
  let entity :=
    if has_mode mode updateDate then assign entity p (VDate (Some now)) else entity in
  if has_mode mode version && negb isUpdate then assign entity p (VNum 1)
  else if has_mode mode version && isUpdate then
    assign entity p (plus_one (or_else (prop entity p) (VNum 0)))
  else entity.

Definition stampColumns (isUpdate : bool) (columns : list ColumnMetadata.t)
    (entity : value) : value :=
  fold_left (stamp isUpdate) columns entity.

(** What [stamp] leaves in the property of its column, from the value [old]
    the property held. *)
Definition stampedValue (isUpdate : bool) (mode : option Mode) (old : value) : value :=
  match mode with
  | Some createDate =>
      if negb isUpdate && negb (truthy old) then VDate (Some now) else old
  | Some updateDate => VDate (Some now)
  | Some version =>
      if isUpdate then plus_one (or_else old (VNum 0)) else VNum 1
  | _ => old
  end.

(** The built-in rules the write path applies to a property value. *)
Definition serialize (col : ColumnMetadata.t) (val : value) : result value :=
  match ColumnOptions.type (ColumnMetadata.options col), val with
  | Some ColumnType.SimpleArray, VArr items => Ok (VStr (join "," items))
  | Some ColumnType.SimpleJson, VUndefined => Ok val
  | Some ColumnType.SimpleJson, _ => JSON_stringify val
  | Some ColumnType.Date, VDate t => toISOString t
  | _, _ => Ok val
  end.

(** [save], lines 258-278: the body of the loop that fills [entityToPersist]. *)
Definition persistColumn (entity entityToPersist : value) (col : ColumnMetadata.t)
  : result value :=
  let p := ColumnMetadata.propertyName col in
  let* val := serialize col (prop entity p) in
  match ColumnOptions.transformer (ColumnMetadata.options col) with
  | Some transformer =>
      if negb (is_undefined val) then
        let* written := ValueTransformer.to transformer val in
        Ok (assign entityToPersist p written)
      else Ok entityToPersist
  | None =>
      if negb (is_undefined val) then Ok (assign entityToPersist p val)
      else Ok entityToPersist
  end.

Definition persistColumns (columns : list ColumnMetadata.t) (entity : value)
  : result value :=
  foldM (persistColumn entity) columns (VObj []).

(** [save], lines 280-289: the foreign keys of the owning to-one relations. *)
Definition injectForeignKey (entity entityToPersist : value)
    (relation : RelationMetadata.t) : value :=
  if SqlGenerator.owning relation then
    let relatedEntity := prop entity (RelationMetadata.propertyName relation) in
    if truthy relatedEntity then
      assign entityToPersist (SqlGenerator.fkColumn relation) (prop relatedEntity "id")
    else entityToPersist
  else entityToPersist.

Definition injectForeignKeys (relations : list RelationMetadata.t)
    (entity entityToPersist : value) : value :=
  fold_left (injectForeignKey entity) relations entityToPersist.

(** The pseudo-column the insert path adds for a foreign key that was set. *)
Definition fkPseudoColumn (target : class) (fkName : string) : ColumnMetadata.t :=
  {| ColumnMetadata.target := target;
     ColumnMetadata.propertyName := fkName;
     ColumnMetadata.options :=
       {| ColumnOptions.name := Some fkName;
          ColumnOptions.type := None;
          ColumnOptions.primary := false;
          ColumnOptions.generated := false;
          ColumnOptions.nullable := None;
          ColumnOptions.transformer := None |};
     ColumnMetadata.mode := None |}.

Definition fkColumns (target : class) (relations : list RelationMetadata.t)
    (entityToPersist : value) : list ColumnMetadata.t :=
  flat_map
    (fun relation =>
       let fkName := SqlGenerator.fkColumn relation in
       if SqlGenerator.owning relation
          && negb (is_undefined (prop entityToPersist fkName))
       then [fkPseudoColumn target fkName] else [])
    relations.

Definition criteriaOf (target : class) (entity : value) : value :=
  match pkName target with
  | Some name => if name =? "" then VObj [] else VObj [(name, prop entity name)]
  | None => VObj []
  end.

(** [save], lines 291-322: the statement for the row of the entity. *)
Definition persist (table : EntityMetadata.t) (target : class)
    (columns : list ColumnMetadata.t) (relations : list RelationMetadata.t)
    (isUpdate : bool) (entity entityToPersist : value) : Async value :=
  if isUpdate then
    let criteria := criteriaOf target entity in
    let! q := lift (SqlGenerator.update table entityToPersist criteria) in
    let! res := query (SqlGenerator.query q) (SqlGenerator.params q) in
    Return entity
  else
    let allColumns := (columns ++ fkColumns target relations entityToPersist)%list in
    let q := SqlGenerator.insert table allColumns entityToPersist in
    let! res := query (SqlGenerator.query q) (SqlGenerator.params q) in
    let! insertId := lift (get res "insertId") in
    match pkName target with
    | Some name =>
        if truthy insertId && negb (name =? "") then Return (assign entity name insertId)
        else Return entity
    | None => Return entity
    end.

Definition inversePropName (relation : RelationMetadata.t) : string :=
  match RelationMetadata.inverseSide relation with
  | Some (InverseName property) => property
  | Some (InverseSelector (Some selected)) => selected
  | _ => ""
  end.

(** One child of a cascading relation: it is pointed back at the entity and
    saved; the answer is the child as the nested save left it. *)
Definition saveChild (relation : RelationMetadata.t) (entity child : value)
  : Async value :=
  let inverse := inversePropName relation in
  if negb (inverse =? "") then
    let! child := lift (assign_strict child inverse entity) in
    await (Save child)
  else Return child.

Fixpoint saveChildren (relation : RelationMetadata.t) (entity : value)
    (children : list value) : Async (list value) :=
  match children with
  | [] => Return []
  | child :: rest =>
      let! saved := saveChild relation entity child in
      let! others := saveChildren relation entity rest in
      Return (saved :: others)
  end.

(** [save], lines 341-388: cascades to the relations whose other side holds
    the foreign key. *)
Definition cascadeChildren (relations : list RelationMetadata.t) (isUpdate : bool)
    (entity : value) : Async value :=
  forEach
    (fun entity relation =>
       let p := RelationMetadata.propertyName relation in
       if cascades relation isUpdate then
         match RelationMetadata.relationType relation, RelationMetadata.joinColumn relation with
         | RelationType.OneToMany, _ =>
             match prop entity p with
             | VArr children =>
                 let! saved := saveChildren relation entity children in
                 Return (assign entity p (VArr saved))
             | _ => Return entity
             end
         | RelationType.OneToOne, false =>
             let child := prop entity p in
             if truthy child then
               let! saved := saveChild relation entity child in
               Return (assign entity p saved)
             else Return entity
         | _, _ => Return entity
         end
       else Return entity)
    relations entity.

Fixpoint saveItems (items : list value) : Async (list value) :=
  match items with
  | [] => Return []
  | item :: rest =>
      let! saved := await (Save item) in
      let! others := saveItems rest in
      Return (saved :: others)
  end.

(** One junction row; a failed insertion is ignored. *)
Definition linkItem (target : class) (junctionTableName : string) (entity item : value)
  : Async unit :=
  let! relatedId := lift (get item "id") in
  let ownerId := prop entity (or_name (pkName target) "id") in
  if truthy relatedId && truthy ownerId then
    let q := SqlGenerator.insertJunction junctionTableName ownerId relatedId in
    catch
      (let! _ := query (SqlGenerator.query q) (SqlGenerator.params q) in Return tt)
      (fun _ => Return tt)
  else Return tt.

(** [save], lines 391-432: the many-to-many relations. *)
Definition linkManyToMany (table : EntityMetadata.t) (target : class)
    (relations : list RelationMetadata.t) (isUpdate : bool) (entity : value)
  : Async value :=
  forEach
    (fun entity relation =>
       match RelationMetadata.relationType relation with
       | RelationType.ManyToMany =>
           let p := RelationMetadata.propertyName relation in
           let! entity :=
             match prop entity p with
             | VArr relatedItems =>
                 if cascades relation isUpdate then
                   let! saved := saveItems relatedItems in
                   Return (assign entity p (VArr saved))
                 else Return entity
             | _ => Return entity
             end in
           match prop entity p with
           | VArr ((_ :: _) as relatedItems) =>
               match findTable storage (resolve (RelationMetadata.type relation)) with
               | Some relatedTable =>
                   let junctionTableName :=
                     or_name (RelationMetadata.joinTableName relation)
                       (EntityMetadata.tableName table ++ "_"
                        ++ EntityMetadata.tableName relatedTable) in
                   let! _ :=
                     forEach (fun _ item => linkItem target junctionTableName entity item)
                       relatedItems tt in
                   Return entity
               | None => Return entity
               end
           | _ => Return entity
           end
       | _ => Return entity
       end)
    relations entity.

(** [save(entity)], with [target] the class [entity.constructor]. *)
Definition save (target : class) (entity : value) : Async value :=
  let! table := tableOf target in
  let isUpdate := isUpdate target entity in
  let relations := relationsOf storage (IsClass target) in
  let! entity := saveOwners relations isUpdate entity in
  let! entity :=
    callListeners target
      (if isUpdate then ListenerType.BeforeUpdate else ListenerType.BeforeInsert)
      entity in
  let columns := columnsOf storage (IsClass target) in
  let entity := stampColumns isUpdate columns entity in
  let! entityToPersist := lift (persistColumns columns entity) in
  let entityToPersist := injectForeignKeys relations entity entityToPersist in
  let! entity := persist table target columns relations isUpdate entity entityToPersist in
  let! entity :=
    callListeners target
      (if isUpdate then ListenerType.AfterUpdate else ListenerType.AfterInsert)
      entity in
  let! entity := cascadeChildren relations isUpdate entity in
  linkManyToMany table target relations isUpdate entity.

(** *** Bulk update and delete *)

(** [update(target, criteria, partialEntity)] *)
Definition update (target : class) (criteria partialEntity : value) : Async unit :=
  let! table := tableOf target in
  let columns := columnsOf storage (IsClass target) in
  let! partialEntity :=
    lift (foldM (fun partial col =>
                   if has_mode (ColumnMetadata.mode col) updateDate then
                     assign_strict partial (ColumnMetadata.propertyName col)
                       (VDate (Some now))
                   else Ok partial)
                columns partialEntity) in
  let! entityToPersist :=
    lift (foldM (fun persisted col =>
                   let p := ColumnMetadata.propertyName col in
                   match ColumnOptions.transformer (ColumnMetadata.options col) with
                   | Some transformer =>
                       let* own := get partialEntity p in
                       if negb (is_undefined own) then
                         let* written := ValueTransformer.to transformer own in
                         Ok (assign persisted p written)
                       else Ok persisted
                   | None => Ok persisted
                   end)
                columns (spread partialEntity)) in
  let! q := lift (SqlGenerator.update table entityToPersist criteria) in
  let! _ := query (SqlGenerator.query q) (SqlGenerator.params q) in
  Return tt.

(** [delete(target, criteria)] *)
Definition delete (target : class) (criteria : value) : Async unit :=
  let! table := tableOf target in
  match SqlGenerator.deleteDateCol storage target with
  | Some deleteDateColumn =>
      let p := ColumnMetadata.propertyName deleteDateColumn in
      let! stamp :=
        match ColumnOptions.transformer (ColumnMetadata.options deleteDateColumn) with
        | Some transformer => lift (ValueTransformer.to transformer (VDate (Some now)))
        | None => Return (VDate (Some now))
        end in
      let updateSet := VObj [(p, stamp)] in
      let! q := lift (SqlGenerator.update table updateSet criteria) in
      let! _ := query (SqlGenerator.query q) (SqlGenerator.params q) in
      Return tt
  | None =>
      let! q := lift (SqlGenerator.delete table criteria) in
      let! _ := query (SqlGenerator.query q) (SqlGenerator.params q) in
      Return tt
  end.

(** *** Materialisation *)

(** [transformValue(col, val)] *)
Definition transformValue (col : ColumnMetadata.t) (val : value) : result value :=
  match ColumnOptions.transformer (ColumnMetadata.options col) with
  | Some transformer => ValueTransformer.from transformer val
  | None =>
      match ColumnOptions.type (ColumnMetadata.options col), val with
      | Some ColumnType.SimpleArray, VStr s =>
          Ok (if s =? "" then VArr [] else VArr (map VStr (split_comma s)))
      | Some ColumnType.SimpleJson, VStr s =>
          match JSON_parse s with
          | Ok parsed => Ok parsed
          | Throw _ => Ok val
          end
      | Some ColumnType.Date, VStr s => Ok (VDate (Date_parse s))
      | _, _ => Ok val
      end
  end.

(** [columns.find(c => c.options.primary) || columns[0]], then
    [pk.options.name || pk.propertyName]: it throws without a column. *)
Definition keyColumn (columns : list ColumnMetadata.t) : result ColumnMetadata.t :=
  match find (fun c => ColumnOptions.primary (ColumnMetadata.options c)) columns with
  | Some c => Ok c
  | None => match columns with
            | c :: _ => Ok c
            | [] => Throw TypeError
            end
  end.

(** The entity map: keys in insertion order; a [Map] finds a key by
    SameValueZero, which is [===] on the values of the model. *)
Definition entityMap : Type := list (value * value).

Fixpoint mapGet (m : entityMap) (key : value) : option value :=
  match m with
  | [] => None
  | (k, e) :: rest => if strict_eq k key then Some e else mapGet rest key
  end.

Fixpoint mapSet (m : entityMap) (key entity : value) : entityMap :=
  match m with
  | [] => [(key, entity)]
  | (k, e) :: rest =>
      if strict_eq k key then (k, entity) :: rest else (k, e) :: mapSet rest key entity
  end.

(** Copies the columns of a row onto a fresh instance; [aliasOf] names the
    row entry of a column. *)
Definition readColumns (aliasOf : string -> string) (columns : list ColumnMetadata.t)
    (row entity : value) : result value :=
  foldM (fun entity col =>
           let* val := get row (aliasOf (SqlGenerator.columnName col)) in
           if negb (is_undefined val) then
             let* read := transformValue col val in
             Ok (assign entity (ColumnMetadata.propertyName col) read)
           else Ok entity)
        columns entity.

Definition toMany (relation : RelationMetadata.t) : bool :=
  match RelationMetadata.relationType relation with
  | RelationType.OneToMany | RelationType.ManyToMany => true
  | _ => false
  end.

Definition relationOf (target : class) (relationName : string)
  : option RelationMetadata.t :=
  find (fun r => RelationMetadata.propertyName r =? relationName)
    (relationsOf storage (IsClass target)).

(** A root object for a key that was not seen before: [new target()], taken
    to have no own property yet, then the columns and the relations. *)
Definition newRoot (target : class) (columns : list ColumnMetadata.t)
    (relations : list string) (row : value) : result value :=
  let* entity := readColumns (fun colName => colName) columns row (VObj []) in
  Ok (fold_left
        (fun entity relationName =>
           match relationOf target relationName with
           | Some relation =>
               if toMany relation then assign entity relationName (VArr [])
               else assign entity relationName VNull
           | None => entity
           end)
        relations entity).

(** [entity[relationName].find(e => e[p] === relatedPkValue)] as a condition *)
Definition present (p : string) (relatedPkValue : value) (items : list value) : bool :=
  existsb (fun e => strict_eq (prop e p) relatedPkValue) items.

(** The part of a row that belongs to one relation, added to the root. *)
Definition attach (target : class) (row entity : value) (relationName : string)
  : result value :=
  match relationOf target relationName with
  | Some relation =>
      let relatedClass := resolve (RelationMetadata.type relation) in
      let* relatedColumns := findColumns storage relatedClass in
      let* relatedPkCol := keyColumn relatedColumns in
      let relatedPkAlias := relationName ++ "_" ++ SqlGenerator.columnName relatedPkCol in
      let* relatedPkValue := get row relatedPkAlias in
      if negb (nullish relatedPkValue) then
        let* relatedEntity :=
          readColumns (fun colName => relationName ++ "_" ++ colName)
            relatedColumns row (VObj []) in
        if toMany relation then
          match prop entity relationName with
          | VArr items =>
              if present (ColumnMetadata.propertyName relatedPkCol) relatedPkValue items
              then Ok entity
              else Ok (assign entity relationName (VArr (items ++ [relatedEntity])))
          | _ => Throw TypeError
          end
        else Ok (assign entity relationName relatedEntity)
      else Ok entity
  | None => Ok entity
  end.

(** The callback of [results.forEach].  The root of a key that was seen
    before is updated where it stands; a new root goes to the end. *)
Definition addRow (target : class) (columns : list ColumnMetadata.t) (pkName : string)
    (relations : list string) (m : entityMap) (row : value) : result entityMap :=
  let* pkValue := get row pkName in
  if nullish pkValue then Ok m
  else
    match mapGet m pkValue with
    | Some entity =>
        let* entity := foldM (attach target row) relations entity in
        Ok (mapSet m pkValue entity)
    | None =>
        let* entity := newRoot target columns relations row in
        let* entity := foldM (attach target row) relations entity in
        Ok (m ++ [(pkValue, entity)])%list
    end.

(** The entity map after all rows. *)
Definition materialize (target : class) (results : list value) (relations : list string)
  : result entityMap :=
  let columns := columnsOf storage (IsClass target) in
  let* pkColumn := keyColumn columns in
  let pkName := SqlGenerator.columnName pkColumn in
  foldM (addRow target columns pkName relations) results [].

Fixpoint loadAll (target : class) (entities : list value) : Async (list value) :=
  match entities with
  | [] => Return []
  | entity :: rest =>
      let! loaded := callListeners target ListenerType.AfterLoad entity in
      let! others := loadAll target rest in
      Return (loaded :: others)
  end.

(** [mapResults(target, results, relations)] *)
Definition mapResults (target : class) (results : value) (relations : list string)
  : Async (list value) :=
  match results with
  | VArr ((_ :: _) as rows) =>
      let! m := lift (materialize target rows relations) in
      loadAll target (map snd m)
  | _ => Return []
  end.

(** [find(target, options)], the options spelled out. *)
Definition find (target : class) (where_ : value) (relations : list string)
    (order take skip : value) (select : option (list string)) (withDeleted : bool)
  : Async (list value) :=
  let! table := tableOf target in
  let! q := lift (SqlGenerator.select storage table where_ relations order take skip
                    select withDeleted) in
  let! results := query (SqlGenerator.query q) (SqlGenerator.params q) in
  mapResults target results relations.

(** [findOne(target, options)]: the options of [FindOneOptions], which has
    neither [take] nor [skip]. *)
Definition findOne (target : class) (where_ : value) (relations : list string)
    (order : value) (select : option (list string)) (withDeleted : bool)
  : Async value :=
  let! found := find target where_ relations order VUndefined VUndefined select
                  withDeleted in
  Return (first found).

(** [count(target, where)] *)
Definition count (target : class) (where_ : value) : Async value :=
  let! table := tableOf target in
  let! q := lift (SqlGenerator.count table where_) in
  let! result := query (SqlGenerator.query q) (SqlGenerator.params q) in
  let! row := lift (get result "0") in
  lift (get row "count").

(** *** Soft removal *)

(** A number or a date stands for the row with that [id], an array for the
    rows whose [id] is among its elements. *)
Definition criteriaWhere (criteria : value) : value :=
  match criteria with
  | VNum _ | VDate _ => VObj [("id", criteria)]
  | VArr _ => VObj [("id", VObj [("operator", VStr "IN"); ("value", criteria)])]
  | _ => criteria
  end.

(** [softRemove(target, criteria)]; [Date.now()] is the instant as a number. *)
Definition softRemove (target : class) (criteria : value) : Async unit :=
  let! table := tableOf target in
  let where_ := criteriaWhere criteria in
  let! q := lift (SqlGenerator.softRemove storage table where_) in
  let! _ := query (SqlGenerator.query q) (VNum now :: SqlGenerator.params q) in
  Return tt.

(** [recover(target, criteria)] *)
Definition recover (target : class) (criteria : value) : Async unit :=
  let! table := tableOf target in
  let where_ := criteriaWhere criteria in
  let! q := lift (SqlGenerator.recover storage table where_) in
  let! _ := query (SqlGenerator.query q) (SqlGenerator.params q) in
  Return tt.

(** [remove(entity)], with [target] the class [entity.constructor].  The
    criteria are read from the entity as the [BeforeRemove] listeners left
    it. *)
Definition remove (target : class) (entity : value) : Async value :=
  let! table := tableOf target in
  match pkName target with
  | Some name =>
      if negb (name =? "") && truthy (prop entity name) then
        let! entity := callListeners target ListenerType.BeforeRemove entity in
        let criteria := VObj [(name, prop entity name)] in
        let! _ := delete target criteria in
        callListeners target ListenerType.AfterRemove entity
      else Raise (Error "Cannot remove entity without primary key")
  | None => Raise (Error "Cannot remove entity without primary key")
  end.

(** *** Insertion without the life cycle of [save] *)

(** [upsert(target, entityOrEntities, conflictPaths)] *)
Definition upsert (target : class) (entityOrEntities : value)
    (conflictPaths : list string) : Async unit :=
  let! table := tableOf target in
  let columns := columnsOf storage (IsClass target) in
  let! q := lift (SqlGenerator.upsert table columns entityOrEntities conflictPaths) in
  let! _ := query (SqlGenerator.query q) (SqlGenerator.params q) in
  Return tt.

(** [insert], the body of the loop over the columns. *)
Definition insertColumn (entity entityToPersist : value) (col : ColumnMetadata.t)
  : result value :=
  let p := ColumnMetadata.propertyName col in
  let mode := ColumnMetadata.mode col in
  let* val := get entity p in
  let val :=
    if has_mode mode createDate || has_mode mode updateDate then VDate (Some now)
    else val in
  let* val := serialize col val in
  match ColumnOptions.transformer (ColumnMetadata.options col) with
  | Some transformer =>
      if negb (is_undefined val) then
        let* written := ValueTransformer.to transformer val in
        Ok (assign entityToPersist p written)
      else Ok entityToPersist
  | None =>
      if negb (is_undefined val) then Ok (assign entityToPersist p val)
      else Ok entityToPersist
  end.

(** [insert], the body of the loop over the entities. *)
Definition insertOne (table : EntityMetadata.t) (columns : list ColumnMetadata.t)
    (entity : value) : Async unit :=
  let! entityToPersist := lift (foldM (insertColumn entity) columns (VObj [])) in
  let q := SqlGenerator.insert table columns entityToPersist in
  let! _ := query (SqlGenerator.query q) (SqlGenerator.params q) in
  Return tt.

(** [insert(target, entityOrEntities)] *)
Definition insert (target : class) (entityOrEntities : value) : Async unit :=
  let! table := tableOf target in
  let columns := columnsOf storage (IsClass target) in
  let entities :=
    match entityOrEntities with
    | VArr items => items
    | _ => [entityOrEntities]
    end in
  forEach (fun _ entity => insertOne table columns entity) entities tt.

(** *** Whole-table statements and counters *)

(** [clear(target)] *)
Definition clear (target : class) : Async unit :=
  let! table := tableOf target in
  let! _ := query (SqlGenerator.clear table) [] in
  Return tt.

Definition counter (mode : SqlGenerator.CounterMode) (target : class)
    (conditions : value) (propertyPath : string) (value : Js.value) : Async unit :=
  let! table := tableOf target in
  let! q := lift (SqlGenerator.updateCounter table conditions propertyPath value mode) in
  let! _ := query (SqlGenerator.query q) (SqlGenerator.params q) in
  Return tt.

(** [increment(target, conditions, propertyPath, value)] *)
Definition increment : class -> value -> string -> value -> Async unit :=
  counter SqlGenerator.increment.

(** [decrement(target, conditions, propertyPath, value)] *)
Definition decrement : class -> value -> string -> value -> Async unit :=
  counter SqlGenerator.decrement.

End Operations.

(** *** Nested saves

    [this.save(other)] inside [save] is [save] itself, on another object; its
    class is [other.constructor], and reading that off [null] or [undefined]
    throws.  An object of this embedding is its own
    properties, so the class of an object is read off it by [constructorOf],
    as [save] is given its [target].

    [perform] runs an operation with its nested saves performed in place:
    what a nested save does takes the place of the [Save] event in the trace,
    and what it returns or throws is the answer of the event.  [nestedSave]
    is the nested save, to a given depth of nesting; beyond that depth there
    is no run.  (A listener may go on adding children to what it is called
    on, and two objects that cascade to each other are saved in turn without
    end, so the nesting has no bound of its own.) *)
Section Nested.
Context `{Host} {W : Type} `{World W}.
Variable storage : MetadataArgsStorage.
Variable now : Z.
Variable constructorOf : value -> class.

Fixpoint perform (nested : value -> W -> option (result value * W * list event))
    {T} (p : Async T) (w : W) : option (result T * W * list event) :=
  match p with
  | Return t => Some (Ok t, w, [])
  | Raise e => Some (Throw e, w, [])
  | Await (Save other) k =>
      match nested other w with
      | Some (answer, w1, inner) =>
          match perform nested (k answer) w1 with
          | Some (out, w2, trace) => Some (out, w2, (inner ++ trace)%list)
          | None => None
          end
      | None => None
      end
  | Await ev k =>
      let (answer, w1) := respond w ev in
      match perform nested (k answer) w1 with
      | Some (out, w2, trace) => Some (out, w2, ev :: trace)
      | None => None
      end
  end.

Fixpoint nestedSave (depth : nat) (other : value) (w : W)
  : option (result value * W * list event) :=
  match depth with
  | 0 => None
  | S depth' =>
      if nullish other then Some (Throw TypeError, w, [])
      else perform (nestedSave depth') (save storage now (constructorOf other) other) w
  end.

(** The run of an operation whose saves nest to [depth] at most. *)
Definition execute (depth : nat) {T} (p : Async T) (w : W)
  : option (result T * W * list event) :=
  perform (nestedSave depth) p w.

End Nested.

(** *** Initialisation *)

(** [const r = xs.find(p); if (r) { ... }], the body changing [r] in place *)
Fixpoint updateFirst {A} (p : A -> bool) (f : A -> A) (xs : list A) : list A :=
  match xs with
  | [] => []
  | x :: rest => if p x then f x :: rest else x :: updateFirst p f rest
  end.

(** [r.target === target && r.propertyName === propertyName] *)
Definition declaredOn (target : class) (propertyName : string)
    (r : RelationMetadata.t) : bool :=
  same (RelationMetadata.target r) target
  && (RelationMetadata.propertyName r =? propertyName).

(** [name] when it is a string that is not empty, else what was there. *)
Definition named (name previous : option string) : option string :=
  match name with
  | Some s => if s =? "" then previous else Some s
  | None => previous
  end.

Definition withJoinTable (joinTable : JoinTableMetadata.t) (r : RelationMetadata.t)
  : RelationMetadata.t :=
  {| RelationMetadata.target := RelationMetadata.target r;
     RelationMetadata.propertyName := RelationMetadata.propertyName r;
     RelationMetadata.relationType := RelationMetadata.relationType r;
     RelationMetadata.type := RelationMetadata.type r;
     RelationMetadata.inverseSide := RelationMetadata.inverseSide r;
     RelationMetadata.options := RelationMetadata.options r;
     RelationMetadata.joinTable := true;
     RelationMetadata.joinTableName :=
       named (JoinTableMetadata.name joinTable) (RelationMetadata.joinTableName r);
     RelationMetadata.joinColumn := RelationMetadata.joinColumn r;
     RelationMetadata.joinColumnName := RelationMetadata.joinColumnName r |}.

Definition withJoinColumn (joinColumn : JoinColumnMetadata.t) (r : RelationMetadata.t)
  : RelationMetadata.t :=
  {| RelationMetadata.target := RelationMetadata.target r;
     RelationMetadata.propertyName := RelationMetadata.propertyName r;
     RelationMetadata.relationType := RelationMetadata.relationType r;
     RelationMetadata.type := RelationMetadata.type r;
     RelationMetadata.inverseSide := RelationMetadata.inverseSide r;
     RelationMetadata.options := RelationMetadata.options r;
     RelationMetadata.joinTable := RelationMetadata.joinTable r;
     RelationMetadata.joinTableName := RelationMetadata.joinTableName r;
     RelationMetadata.joinColumn := true;
     RelationMetadata.joinColumnName :=
       named (JoinColumnMetadata.name joinColumn) (RelationMetadata.joinColumnName r) |}.

(** The two loops of [initialize], on the relations of the registry. *)
Definition mergeJoinTables (joinTables : list JoinTableMetadata.t)
    (relations : list RelationMetadata.t) : list RelationMetadata.t :=
  fold_left
    (fun relations joinTable =>
       updateFirst
         (declaredOn (JoinTableMetadata.target joinTable)
            (JoinTableMetadata.propertyName joinTable))
         (withJoinTable joinTable) relations)
    joinTables relations.

Definition mergeJoinColumns (joinColumns : list JoinColumnMetadata.t)
    (relations : list RelationMetadata.t) : list RelationMetadata.t :=
  fold_left
    (fun relations joinColumn =>
       updateFirst
         (declaredOn (JoinColumnMetadata.target joinColumn)
            (JoinColumnMetadata.propertyName joinColumn))
         (withJoinColumn joinColumn) relations)
    joinColumns relations.

(** The registry as [initialize] leaves it. *)
Definition merged (storage : MetadataArgsStorage) : MetadataArgsStorage :=
  {| columns := columns storage;
     tables := tables storage;
     relations :=
       mergeJoinColumns (joinColumns storage)
         (mergeJoinTables (joinTables storage) (relations storage));
     indices := indices storage;
     entityListeners := entityListeners storage;
     joinTables := joinTables storage;
     joinColumns := joinColumns storage |}.

Section Schema.
Context `{Host}.
Variable storage : MetadataArgsStorage.

(** [jt.target === table.target && jt.propertyName === relation.propertyName] *)
Definition hasJoinTable (table : EntityMetadata.t) (relation : RelationMetadata.t)
  : option JoinTableMetadata.t :=
  List.find (fun jt => same (JoinTableMetadata.target jt) (EntityMetadata.target table)
                       && (JoinTableMetadata.propertyName jt
                           =? RelationMetadata.propertyName relation))
    (joinTables storage).

(** [synchronize], the junction table of one relation of [table]. *)
Definition synchronizeRelation (table : EntityMetadata.t)
    (relation : RelationMetadata.t) : Async unit :=
  match RelationMetadata.relationType relation with
  | RelationType.ManyToMany =>
      match hasJoinTable table relation with
      | Some _ =>
          match findTable storage (resolve (RelationMetadata.type relation)) with
          | Some relatedTable =>
              let! _ :=
                query (SqlGenerator.createJunctionTable table relation relatedTable) [] in
              Return tt
          | None => Return tt
          end
      | None => Return tt
      end
  | _ => Return tt
  end.

(** [synchronize], the body of the loop over the tables. *)
Definition synchronizeTable (table : EntityMetadata.t) : Async unit :=
  let target := IsClass (EntityMetadata.target table) in
  let columns := columnsOf storage target in
  let! _ := query (SqlGenerator.createTable storage table columns) [] in
  let! indices := lift (findIndices storage target) in
  let! _ :=
    forEach
      (fun _ index =>
         let! _ := query (SqlGenerator.createIndex table index) [] in
         Return tt)
      indices tt in
  forEach (fun _ relation => synchronizeRelation table relation)
    (relationsOf storage target) tt.

(** [synchronize()] *)
Definition synchronize : Async unit :=
  forEach (fun _ table => synchronizeTable table) (tables storage) tt.

End Schema.

(** [initialize()]: what it awaits, on the registry it has merged;
    [synchronize_] is the option of the data source. *)
Definition initialize `{Host} (storage : MetadataArgsStorage) (synchronize_ : bool)
  : Async unit :=
  let! _ := query "PRAGMA foreign_keys = ON" [] in
  if synchronize_ then synchronize (merged storage) else Return tt.

End DataSource.

(** ** [src/query-builder.ts] *)

Module QueryBuilder.

(** The builder is an object that each method changes and returns: a method
    is a function from the builder to the builder. *)
Record t : Type := {
  metadata : option EntityMetadata.t;
  alias : option string;
  whereClauses : value;
  relations : list string;
  order : value;
  skipCount : value;
  takeCount : value
}.

(** What the builder is made for: a function (an entity class or not), the
    name of a table, or nothing. *)
Inductive source : Type :=
| OfClass (c : class)
| OfTable (name : string)
| OfNothing.

(** [new QueryBuilder(dataSource, entityOrTableName, alias)] *)
Definition create (storage : MetadataArgsStorage) (entityOrTableName : source)
    (alias : option string) : t :=
  {| metadata :=
       match entityOrTableName with
       | OfClass c => findTable storage (IsClass c)
       | _ => None
       end;
     alias := alias;
     whereClauses := VObj [];
     relations := [];
     order := VUndefined;
     skipCount := VUndefined;
     takeCount := VUndefined |}.

Definition select (selection : option string) (qb : t) : t := qb.

Definition where_ (w : value) (qb : t) : t :=
  {| metadata := metadata qb;
     alias := alias qb;
     whereClauses := w;
     relations := relations qb;
     order := order qb;
     skipCount := skipCount qb;
     takeCount := takeCount qb |}.

Definition andWhere (w : value) (qb : t) : t :=
  {| metadata := metadata qb;
     alias := alias qb;
     whereClauses := merge (whereClauses qb) w;
     relations := relations qb;
     order := order qb;
     skipCount := skipCount qb;
     takeCount := takeCount qb |}.

(** [property.split('.')[1] || property] *)
Definition relationOfPath (property : string) : string :=
  match nth_error (split_on "." property) 1 with
  | Some part => if part =? "" then property else part
  | None => property
  end.

Definition leftJoinAndSelect (property alias_ : string) (qb : t) : t :=
  {| metadata := metadata qb;
     alias := alias qb;
     whereClauses := whereClauses qb;
     relations := (relations qb ++ [relationOfPath property])%list;
     order := order qb;
     skipCount := skipCount qb;
     takeCount := takeCount qb |}.

(** The type ['ASC' | 'DESC'] of the second parameter of [orderBy]. *)
Inductive Direction : Set := ASC | DESC.

Definition text (direction : Direction) : string :=
  match direction with
  | ASC => "ASC"
  | DESC => "DESC"
  end.

(** [orderBy(sort, order)]; [order] is [ASC] when it is left out. *)
Definition orderBy (sort : string) (direction : Direction) (qb : t) : t :=
  {| metadata := metadata qb;
     alias := alias qb;
     whereClauses := whereClauses qb;
     relations := relations qb;
     order := VObj [(sort, VStr (text direction))];
     skipCount := skipCount qb;
     takeCount := takeCount qb |}.

Definition skip (n : Z) (qb : t) : t :=
  {| metadata := metadata qb;
     alias := alias qb;
     whereClauses := whereClauses qb;
     relations := relations qb;
     order := order qb;
     skipCount := VNum n;
     takeCount := takeCount qb |}.

Definition take (n : Z) (qb : t) : t :=
  {| metadata := metadata qb;
     alias := alias qb;
     whereClauses := whereClauses qb;
     relations := relations qb;
     order := order qb;
     skipCount := skipCount qb;
     takeCount := VNum n |}.

(** A call of one of the chaining methods, and a chain of calls on a
    builder. *)
Inductive call : Type :=
| Select (selection : option string)
| Where (w : value)
| AndWhere (w : value)
| LeftJoinAndSelect (property alias_ : string)
| OrderBy (sort : string) (direction : Direction)
| Skip (n : Z)
| Take (n : Z).

Definition apply (c : call) (qb : t) : t :=
  match c with
  | Select selection => select selection qb
  | Where w => where_ w qb
  | AndWhere w => andWhere w qb
  | LeftJoinAndSelect property alias_ => leftJoinAndSelect property alias_ qb
  | OrderBy sort direction => orderBy sort direction qb
  | Skip n => skip n qb
  | Take n => take n qb
  end.

Definition chain (calls : list call) (qb : t) : t :=
  fold_left (fun qb c => apply c qb) calls qb.

Section Execution.
Context `{Host}.
Variable storage : MetadataArgsStorage.

(** What [getMany] appends to the statement of the generator. *)
Definition ordering (qb : t) : result string :=
  if truthy (order qb) then
    let* ks := keys (order qb) in
    Ok (" ORDER BY "
        ++ String.concat ", "
             (map (fun key => key ++ " " ++ String_ (prop (order qb) key)) ks))
  else Ok "".

Definition paging (qb : t) : string :=
  (if is_undefined (takeCount qb) then "" else " LIMIT " ++ String_ (takeCount qb))
  ++ (if is_undefined (skipCount qb) then "" else " OFFSET " ++ String_ (skipCount qb)).

(** [getMany()] *)
Definition getMany (qb : t) : DataSource.Async (list value) :=
  match metadata qb with
  | None => DataSource.Raise (Error "Entity metadata not found for QueryBuilder")
  | Some metadata =>
      DataSource.bind
        (DataSource.lift
           (let* q := SqlGenerator.select storage metadata (whereClauses qb)
                        (relations qb) VUndefined VUndefined VUndefined None false in
            let* ordered := ordering qb in
            Ok {| SqlGenerator.query := SqlGenerator.query q ++ ordered ++ paging qb;
                  SqlGenerator.params := SqlGenerator.params q |}))
        (fun q =>
           DataSource.bind
             (DataSource.query (SqlGenerator.query q) (SqlGenerator.params q))
             (fun results =>
                DataSource.mapResults storage (EntityMetadata.target metadata) results
                  (relations qb)))
  end.

(** [getOne()] *)
Definition getOne (qb : t) : DataSource.Async value :=
  DataSource.bind (getMany qb) (fun results => DataSource.Return (first results)).

End Execution.

End QueryBuilder.

(** ** [src/repository.ts] *)

Module Repository.

Record t : Type := { target : class; metadata : EntityMetadata.t }.

Section Delegation.
Context `{Host}.
Variable storage : MetadataArgsStorage.
Variable now : Z.

(** [DataSource.getRepository(target)] *)
Definition getRepository (target : class) : result t :=
  match findTable storage (IsClass target) with
  | Some table => Ok {| target := target; metadata := table |}
  | None => Throw (Error "Entity not found in metadata")
  end.

Definition createQueryBuilder (repository : t) (alias : option string)
  : QueryBuilder.t :=
  QueryBuilder.create storage (QueryBuilder.OfClass (target repository)) alias.

Definition delete (repository : t) (criteria : value) : DataSource.Async unit :=
  DataSource.delete storage now (target repository) criteria.

Definition softDelete (repository : t) (criteria : value) : DataSource.Async unit :=
  DataSource.softRemove storage now (target repository) criteria.

Definition restore (repository : t) (criteria : value) : DataSource.Async unit :=
  DataSource.recover storage (target repository) criteria.

Definition update (repository : t) (criteria partialEntity : value)
  : DataSource.Async unit :=
  DataSource.update storage now (target repository) criteria partialEntity.

Definition count (repository : t) (where_ : value) : DataSource.Async value :=
  DataSource.count storage (target repository) where_.

Definition clear (repository : t) : DataSource.Async unit :=
  DataSource.clear storage (target repository).

End Delegation.

End Repository.

(** ** A small schema to run the operations on *)

Module Blog.

Definition host : Host :=
  {| Date_toString := fun _ => "Thu Jan 01 1970 00:00:00 GMT+0000";
     Date_toISOString := fun _ => "1970-01-01T00:00:00.000Z";
     Date_parse := fun _ => Some 0%Z;
     JSON_stringify := fun _ => Ok (VStr "{}");
     JSON_parse := fun _ => Ok (VObj []) |}.

Definition User : class := {| class_id := 1; class_methods := ["onLoad"] |}.
Definition Post : class := {| class_id := 2; class_methods := [] |}.
Definition Category : class := {| class_id := 3; class_methods := [] |}.
Definition Ticket : class := {| class_id := 4; class_methods := [] |}.

Definition plain (type : ColumnType.t) : ColumnOptions.t :=
  {| ColumnOptions.name := None;
     ColumnOptions.type := Some type;
     ColumnOptions.primary := false;
     ColumnOptions.generated := false;
     ColumnOptions.nullable := None;
     ColumnOptions.transformer := None |}.

Definition generatedKey : ColumnOptions.t :=
  {| ColumnOptions.name := None;
     ColumnOptions.type := Some ColumnType.Integer;
     ColumnOptions.primary := true;
     ColumnOptions.generated := true;
     ColumnOptions.nullable := None;
     ColumnOptions.transformer := None |}.

(** The key of [@Column({ primary: true, type: 'integer' })]. *)
Definition declaredKey : ColumnOptions.t :=
  {| ColumnOptions.name := None;
     ColumnOptions.type := Some ColumnType.Integer;
     ColumnOptions.primary := true;
     ColumnOptions.generated := false;
     ColumnOptions.nullable := None;
     ColumnOptions.transformer := None |}.

(** What [@DeleteDateColumn()] registers. *)
Definition deleteDateOptions : ColumnOptions.t :=
  {| ColumnOptions.name := None;
     ColumnOptions.type := Some ColumnType.DateTime;
     ColumnOptions.primary := false;
     ColumnOptions.generated := false;
     ColumnOptions.nullable := Some true;
     ColumnOptions.transformer := None |}.

(** A descriptor; [@Column] and [@PrimaryGeneratedColumn] register no mode. *)
Definition column (target : class) (propertyName : string) (options : ColumnOptions.t)
    (mode : option Mode) : ColumnMetadata.t :=
  {| ColumnMetadata.target := target;
     ColumnMetadata.propertyName := propertyName;
     ColumnMetadata.options := options;
     ColumnMetadata.mode := mode |}.

(** A transformer that boxes the value on the way to the database. *)
Definition boxed : ValueTransformer.t :=
  {| ValueTransformer.to := fun v => Ok (VObj [("boxed", v)]);
     ValueTransformer.from := fun v => Ok (prop v "boxed") |}.

(** A transformer that shifts a numeric key. *)
Definition shifted : ValueTransformer.t :=
  {| ValueTransformer.to :=
       fun v => match v with VNum n => Ok (VNum (n - 1000)) | _ => Ok v end;
     ValueTransformer.from :=
       fun v => match v with VNum n => Ok (VNum (n + 1000)) | _ => Ok v end |}.

Definition withTransformer (o : ColumnOptions.t) (t : ValueTransformer.t)
  : ColumnOptions.t :=
  {| ColumnOptions.name := ColumnOptions.name o;
     ColumnOptions.type := ColumnOptions.type o;
     ColumnOptions.primary := ColumnOptions.primary o;
     ColumnOptions.generated := ColumnOptions.generated o;
     ColumnOptions.nullable := ColumnOptions.nullable o;
     ColumnOptions.transformer := Some t |}.

Definition relation (target : class) (propertyName : string) (kind : RelationType.t)
    (related : class) (inverse : option string) : RelationMetadata.t :=
  {| RelationMetadata.target := target;
     RelationMetadata.propertyName := propertyName;
     RelationMetadata.relationType := kind;
     RelationMetadata.type := Arrow (Some (IsClass related));
     RelationMetadata.inverseSide := option_map InverseName inverse;
     RelationMetadata.options := None;
     RelationMetadata.joinTable := false;
     RelationMetadata.joinTableName := None;
     RelationMetadata.joinColumn := false;
     RelationMetadata.joinColumnName := None |}.

Definition table (target : class) (name tableName : string) : EntityMetadata.t :=
  {| EntityMetadata.target := target;
     EntityMetadata.name := name;
     EntityMetadata.tableName := tableName |}.

Definition users : EntityMetadata.t := table User "User" "users".
Definition posts : EntityMetadata.t := table Post "Post" "posts".
Definition categories : EntityMetadata.t := table Category "Category" "categories".
Definition tickets : EntityMetadata.t := table Ticket "Ticket" "tickets".

Definition storage : MetadataArgsStorage :=
  {| columns :=
       [ column User "id" generatedKey None;
         column User "name" (plain ColumnType.String) None;
         column User "tags" (withTransformer (plain ColumnType.SimpleArray) boxed) None;
         column User "createdAt" (plain ColumnType.DateTime) (Some createDate);
         column User "updatedAt" (plain ColumnType.DateTime) (Some updateDate);
         column User "version" (plain ColumnType.Integer) (Some version);
         column User "deletedAt" deleteDateOptions (Some deleteDate);
         column Post "id" generatedKey None;
         column Post "title" (plain ColumnType.String) None;
         column Category "id" generatedKey None;
         column Category "label" (plain ColumnType.String) None;
         column Ticket "id" (withTransformer declaredKey shifted) None;
         column Ticket "subject" (plain ColumnType.String) None ];
     tables := [users; posts; categories; tickets];
     relations :=
       [ relation User "posts" RelationType.OneToMany Post (Some "author");
         relation Post "author" RelationType.ManyToOne User None;
         relation User "categories" RelationType.ManyToMany Category None;
         relation User "tickets" RelationType.OneToMany Ticket None ];
     indices := [];
     entityListeners :=
       [ {| EntityListenerMetadata.target := User;
            EntityListenerMetadata.propertyName := "onLoad";
            EntityListenerMetadata.type := ListenerType.AfterLoad |} ];
     joinTables :=
       [ {| JoinTableMetadata.target := User;
            JoinTableMetadata.propertyName := "categories";
            JoinTableMetadata.name := None |} ];
     joinColumns := [] |}.

(** The sample registry with the author of a post declared
    [{ cascade: true }]. *)
Definition cascading : MetadataArgsStorage :=
  {| columns := columns storage;
     tables := tables storage;
     relations :=
       [ relation User "posts" RelationType.OneToMany Post (Some "author");
         {| RelationMetadata.target := Post;
            RelationMetadata.propertyName := "author";
            RelationMetadata.relationType := RelationType.ManyToOne;
            RelationMetadata.type := Arrow (Some (IsClass User));
            RelationMetadata.inverseSide := None;
            RelationMetadata.options :=
              Some {| RelationOptions.eager := false;
                      RelationOptions.nullable := None;
                      RelationOptions.onDelete := None;
                      RelationOptions.cascade := Some (CascadeFlag true) |};
            RelationMetadata.joinTable := false;
            RelationMetadata.joinTableName := None;
            RelationMetadata.joinColumn := false;
            RelationMetadata.joinColumnName := None |};
         relation User "categories" RelationType.ManyToMany Category None;
         relation User "tickets" RelationType.OneToMany Ticket None ];
     indices := indices storage;
     entityListeners := entityListeners storage;
     joinTables := joinTables storage;
     joinColumns := joinColumns storage |}.

(** A post that was never saved, by an author that was never saved. *)
Definition hello : value :=
  VObj [("title", VStr "Hello"); ("author", VObj [("name", VStr "Ann")])].

(** A driver that accepts every statement and numbers the rows it inserts;
    listeners and nested saves leave their object as it is. *)
Definition accepting : DataSource.World nat :=
  {| DataSource.respond := fun (inserted : nat) ev =>
       match ev with
       | DataSource.ExecuteSql _ _ =>
           (Ok (VObj [("insertId", VNum (Z.of_nat (S inserted)));
                      ("rowsAffected", VNum 1)]),
            S inserted)
       | DataSource.Invoke receiver _ => (Ok receiver, inserted)
       | DataSource.Save entity => (Ok entity, inserted)
       end |}.

(** A driver that refuses the statement [refused] and accepts every
    other. *)
Definition refusing (refused : string) : DataSource.World nat :=
  {| DataSource.respond := fun (inserted : nat) ev =>
       match ev with
       | DataSource.ExecuteSql sql _ =>
           if sql =? refused then (Throw (Error "database is locked"), inserted)
           else
             (Ok (VObj [("insertId", VNum (Z.of_nat (S inserted)));
                        ("rowsAffected", VNum 1)]),
              S inserted)
       | DataSource.Invoke receiver _ => (Ok receiver, inserted)
       | DataSource.Save entity => (Ok entity, inserted)
       end |}.

(** The class of a sample object, by what it holds: a category has a
    label, a post a title, a ticket a subject, and the others are users. *)
Definition constructorOf (v : value) : class :=
  if negb (is_undefined (prop v "label")) then Category
  else if negb (is_undefined (prop v "title")) then Post
  else if negb (is_undefined (prop v "subject")) then Ticket
  else User.

(** A saved user linked to one category. *)
Definition alice : value :=
  VObj [("id", VNum 7); ("name", VStr "Alice");
        ("categories", VArr [VObj [("id", VNum 2); ("label", VStr "news")]])].

(** The rows of users joined with their posts and their tickets: user 1 has
    the posts 5 and 6 and the ticket 7, which the join repeats per post. *)
Definition joinedRow (post : Z) (title : string) : value :=
  VObj [("id", VNum 1); ("name", VStr "Alice");
        ("posts_id", VNum post); ("posts_title", VStr title);
        ("tickets_id", VNum 7); ("tickets_subject", VStr "login")].

Definition joined : value := VArr [joinedRow 5 "first"; joinedRow 6 "second"].

(** Two callbacks for a transaction: one completes, one throws after its
    statement. *)
Definition rename : DataSource.Async value :=
  DataSource.bind
    (DataSource.query "UPDATE posts SET title = ? WHERE id = ?" [VStr "t"; VNum 5])
    (fun _ => DataSource.Return (VNum 1)).

Definition failing : DataSource.Async value :=
  DataSource.bind
    (DataSource.query "UPDATE posts SET title = ? WHERE id = ?" [VStr "t"; VNum 5])
    (fun _ => DataSource.Raise (Error "no such post")).

End Blog.

(** ** A second sample schema

    A customer with a profile (one-to-one, [@JoinColumn({ name: 'profile_id' })])
    and tags (many-to-many, [@JoinTable({ name: 'customer_tags' })]); no column
    has a transformer.  [Draft] is a class without [@Entity]. *)

Module Shop.

Definition Customer : class :=
  {| class_id := 11; class_methods := ["touch"; "audit"] |}.
Definition Profile : class := {| class_id := 12; class_methods := [] |}.
Definition Tag : class := {| class_id := 13; class_methods := [] |}.
Definition Draft : class := {| class_id := 14; class_methods := [] |}.

Definition customers : EntityMetadata.t := Blog.table Customer "Customer" "customers".
Definition profiles : EntityMetadata.t := Blog.table Profile "Profile" "profiles".
Definition tags : EntityMetadata.t := Blog.table Tag "Tag" "tags".

Definition listener (propertyName : string) (type : ListenerType.t)
  : EntityListenerMetadata.t :=
  {| EntityListenerMetadata.target := Customer;
     EntityListenerMetadata.propertyName := propertyName;
     EntityListenerMetadata.type := type |}.

Definition storage : MetadataArgsStorage :=
  {| columns :=
       [ Blog.column Customer "id" Blog.generatedKey None;
         Blog.column Customer "name" (Blog.plain ColumnType.String) None;
         Blog.column Customer "visits" (Blog.plain ColumnType.Integer) None;
         Blog.column Customer "labels" (Blog.plain ColumnType.SimpleArray) None;
         Blog.column Customer "updatedAt" (Blog.plain ColumnType.DateTime)
           (Some updateDate);
         Blog.column Customer "deletedAt" Blog.deleteDateOptions (Some deleteDate);
         Blog.column Profile "id" Blog.generatedKey None;
         Blog.column Profile "bio" (Blog.plain ColumnType.String) None;
         Blog.column Tag "id" Blog.generatedKey None;
         Blog.column Tag "label" (Blog.plain ColumnType.String) None ];
     tables := [customers; profiles; tags];
     relations :=
       [ Blog.relation Customer "profile" RelationType.OneToOne Profile None;
         Blog.relation Customer "tags" RelationType.ManyToMany Tag None ];
     indices :=
       [ {| IndexMetadata.target := Customer;
            IndexMetadata.name := None;
            IndexMetadata.columns := ["name"];
            IndexMetadata.unique := true |} ];
     entityListeners :=
       [ listener "touch" ListenerType.BeforeInsert;
         listener "audit" ListenerType.AfterInsert;
         listener "touch" ListenerType.BeforeRemove ];
     joinTables :=
       [ {| JoinTableMetadata.target := Customer;
            JoinTableMetadata.propertyName := "tags";
            JoinTableMetadata.name := Some "customer_tags" |} ];
     joinColumns :=
       [ {| JoinColumnMetadata.target := Customer;
            JoinColumnMetadata.propertyName := "profile";
            JoinColumnMetadata.name := Some "profile_id" |} ] |}.

(** The class of a sample object, by what it holds: a profile has a bio, a
    tag a label, and the others are customers. *)
Definition constructorOf (v : value) : class :=
  if negb (is_undefined (prop v "bio")) then Profile
  else if negb (is_undefined (prop v "label")) then Tag
  else Customer.

(** A customer that was never saved, and one that was. *)
Definition bob : value := VObj [("name", VStr "Bob"); ("visits", VNum 0)].

Definition carol : value :=
  VObj [("id", VNum 3); ("name", VStr "Carol"); ("visits", VNum 4)].

(** The column of the labels. *)
Definition labels : ColumnMetadata.t :=
  Blog.column Customer "labels" (Blog.plain ColumnType.SimpleArray) None.

End Shop.

(** ** The words of the specification *)

Module Spec.

(** "A many-to-one relation whose (lazily evaluated) type resolves to the
    owner type": [r] is many-to-one and its type, once resolved, is the class
    that [metadata] describes. *)
Definition PointsBack (metadata : EntityMetadata.t) (r : RelationMetadata.t) : Prop :=
  (exists c, resolve (RelationMetadata.type r) = IsClass c
             /\ class_id c = class_id (EntityMetadata.target metadata))
  /\ RelationMetadata.relationType r = RelationType.ManyToOne.

(** "This side owns the foreign key": many-to-one, or one-to-one with
    [joinColumn] set. *)
Definition Owning (r : RelationMetadata.t) : Prop :=
  RelationMetadata.relationType r = RelationType.ManyToOne
  \/ (RelationMetadata.relationType r = RelationType.OneToOne
      /\ RelationMetadata.joinColumn r = true).

(** "One root per distinct primary-key value, in first-seen order": the keys
    of a row set without repetition, each where it first occurs.  Two keys
    are the same when [===] says so. *)
Definition seen (keys : list value) (k : value) : bool :=
  existsb (fun k' => strict_eq k' k) keys.

Fixpoint firstSeen (known keys : list value) : list value :=
  match keys with
  | [] => known
  | k :: rest => firstSeen (if seen known k then known else known ++ [k])%list rest
  end.

(** No value of the list is [===] to a later one. *)
Definition Distinct (xs : list value) : Prop :=
  forall i j a b,
    (i < j)%nat -> nth_error xs i = Some a -> nth_error xs j = Some b ->
    strict_eq a b = false.

(** The elements of a relation array, by the key they carry under [p]. *)
Definition keysOf (p : string) (items : list value) : list value :=
  map (fun e => prop e p) items.

(** "At most one element per distinct related primary-key value": the root
    is an object whose relation array holds no two elements with the same
    key. *)
Definition Deduplicated (relationName keyProperty : string) (entity : value) : Prop :=
  exists fields items,
    entity = VObj fields
    /\ prop entity relationName = VArr items
    /\ Distinct (keysOf keyProperty items).

(** An [INSERT] of a junction row. *)
Definition JunctionInsert (ev : DataSource.event) : Prop :=
  exists junctionTableName ownerId relatedId,
    ev = DataSource.ExecuteSql
           ("INSERT INTO " ++ junctionTableName ++ " VALUES (?, ?)")
           [ownerId; relatedId].

Section Issued.
Context {W : Type} `{DataSource.World W}.

(** The statements an operation issues itself when it runs from [w]. *)
Definition issued {T} (p : DataSource.Async T) (w : W) : list DataSource.event :=
  DataSource.statements (DataSource.events (DataSource.run p w)).

(** Every statement the operation issues is a [P]. *)
Definition Only (P : DataSource.event -> Prop) {T} (p : DataSource.Async T) : Prop :=
  forall w, Forall P (issued p w).

(** The operation issues no statement. *)
Definition Quiet {T} (p : DataSource.Async T) : Prop := Only (fun _ => False) p.

End Issued.

End Spec.

(** ** The shape of statements and of runs *)

Module Shape.

(** The number of placeholders [?] in a text. *)
Fixpoint placeholdersIn (sql : string) : nat :=
  match sql with
  | EmptyString => 0
  | String c rest => (if Ascii.eqb c "?" then 1 else 0) + placeholdersIn rest
  end.

(** The character occurs in the text. *)
Fixpoint mentions (c : ascii) (s : string) : bool :=
  match s with
  | EmptyString => false
  | String c' rest => Ascii.eqb c' c || mentions c rest
  end.

(** The statement has a condition on [column] right after [WHERE]. *)
Definition FilteredBy (column : string) (sql : string) : Prop :=
  exists head tail, sql = head ++ " WHERE " ++ column ++ " " ++ tail.

(** A filter whose keys hold no placeholder and whose values are not [Raw]
    nodes: all its placeholders are those the generator writes. *)
Definition Plain (where_ : value) : Prop :=
  exists ks,
    keys where_ = Ok ks
    /\ forall k, In k ks ->
         placeholdersIn k = 0%nat
         /\ SqlGenerator.matches (prop (prop where_ k) "operator") OperatorType.Raw
            = false.

(** The statement creates a table or an index, and only if it is missing. *)
Definition creates (sql : string) : bool :=
  String.prefix "CREATE TABLE IF NOT EXISTS " sql
  || String.prefix "CREATE INDEX IF NOT EXISTS " sql
  || String.prefix "CREATE UNIQUE INDEX IF NOT EXISTS " sql.

(** The event is the statement [sql], with some parameters. *)
Definition Executes (sql : string) (ev : DataSource.event) : Prop :=
  exists params, ev = DataSource.ExecuteSql sql params.

(** The event is a statement whose text begins with [start]. *)
Definition Begins (start : string) (ev : DataSource.event) : Prop :=
  exists sql params,
    ev = DataSource.ExecuteSql sql params /\ String.prefix start sql = true.

(** The event is a statement with a condition on [column]. *)
Definition Filters (column : string) (ev : DataSource.event) : Prop :=
  exists sql params, ev = DataSource.ExecuteSql sql params /\ FilteredBy column sql.

(** The event is a statement without parameters that creates a table or an
    index if it is missing. *)
Definition Creates (ev : DataSource.event) : Prop :=
  exists sql, ev = DataSource.ExecuteSql sql [] /\ creates sql = true.

(** The event is the call of one of the methods [names] of an entity. *)
Definition Calls (names : list string) (ev : DataSource.event) : Prop :=
  exists receiver method, ev = DataSource.Invoke receiver method /\ In method names.

(** The event is the save of another object. *)
Definition Saves (ev : DataSource.event) : Prop :=
  exists entity, ev = DataSource.Save entity.

(** The names under which listeners of a kind are registered for a class. *)
Definition listenerNames (storage : MetadataArgsStorage) (target : class)
    (type : ListenerType.t) : list string :=
  map EntityListenerMetadata.propertyName (listenersOf storage (IsClass target) type).

(** The merge of join declarations into the relations, for any kind of
    declaration [J]: the declaration [j] is on the property of the relation
    [r]; the relation [r] after the changes of the declarations [js], in
    their order; the relations after each declaration has changed the first
    relation it is on. *)
Section Declarations.
Context {J : Type}.
Variable owner : J -> class.
Variable property : J -> string.
Variable change : J -> RelationMetadata.t -> RelationMetadata.t.

Definition declaredBy (r : RelationMetadata.t) (j : J) : bool :=
  DataSource.declaredOn (owner j) (property j) r.

Definition changedBy (js : list J) (r : RelationMetadata.t) : RelationMetadata.t :=
  fold_left (fun r j => change j r) js r.

Definition mergedBy (js : list J) (rs : list RelationMetadata.t)
  : list RelationMetadata.t :=
  fold_left
    (fun rs j =>
       DataSource.updateFirst (DataSource.declaredOn (owner j) (property j))
         (change j) rs)
    js rs.

(** The declarations on the property [p] of the class [c]. *)
Definition declarationsOn (c : class) (p : string) (js : list J) : list J :=
  filter (fun j => same (owner j) c && (property j =? p)) js.

End Declarations.

(** The list without the first element that [p] holds of. *)
Fixpoint removeFirst {A} (p : A -> bool) (xs : list A) : list A :=
  match xs with
  | [] => []
  | x :: rest => if p x then rest else x :: removeFirst p rest
  end.

(** The registry without the relation declared on the property [p] of the
    class [c] (the first one, which is the one the lookups find). *)
Definition withoutRelation (c : class) (p : string) (storage : MetadataArgsStorage)
  : MetadataArgsStorage :=
  {| columns := columns storage;
     tables := tables storage;
     relations := removeFirst (DataSource.declaredOn c p) (relations storage);
     indices := indices storage;
     entityListeners := entityListeners storage;
     joinTables := joinTables storage;
     joinColumns := joinColumns storage |}.

(** The relation [r'] is [r] but for what the join declarations set. *)
Definition sameButJoins (r r' : RelationMetadata.t) : Prop :=
  RelationMetadata.target r' = RelationMetadata.target r
  /\ RelationMetadata.propertyName r' = RelationMetadata.propertyName r
  /\ RelationMetadata.relationType r' = RelationMetadata.relationType r
  /\ RelationMetadata.type r' = RelationMetadata.type r
  /\ RelationMetadata.inverseSide r' = RelationMetadata.inverseSide r
  /\ RelationMetadata.options r' = RelationMetadata.options r.

Section Events.
Context {W : Type} `{DataSource.World W}.

(** Every event of every run of the operation is a [P]. *)
Definition Always (P : DataSource.event -> Prop) {T} (p : DataSource.Async T) : Prop :=
  forall w, Forall P (DataSource.events (DataSource.run p w)).

(** The operation fails with [e] before anything happens. *)
Definition Rejects {T} (p : DataSource.Async T) (e : error) : Prop :=
  forall w, DataSource.run p w = (Throw e, w, []).

End Events.

(** Whatever answers it gets, the operation awaits events of kind [P] only. *)
Inductive Emits (P : DataSource.event -> Prop) {T} : DataSource.Async T -> Prop :=
| emits_return (t : T) : Emits P (DataSource.Return t)
| emits_raise (e : error) : Emits P (DataSource.Raise e)
| emits_await (ev : DataSource.event) (k : result value -> DataSource.Async T) :
    P ev -> (forall answer, Emits P (k answer)) -> Emits P (DataSource.Await ev k).

(** The event is not the save of another object. *)
Definition Own (ev : DataSource.event) : Prop :=
  forall other, ev <> DataSource.Save other.

(** The kinds of listener a save calls around the statement for the row. *)
Definition beforeRow (isUpdate : bool) : ListenerType.t :=
  if isUpdate then ListenerType.BeforeUpdate else ListenerType.BeforeInsert.

Definition afterRow (isUpdate : bool) : ListenerType.t :=
  if isUpdate then ListenerType.AfterUpdate else ListenerType.AfterInsert.

(** The relation writes the column [fk] of the row of [entity]: it holds
    the foreign key, the entity has a related object, and [fk] is the name of
    its column. *)
Definition writes (entity : value) (fk : string) (r : RelationMetadata.t) : bool :=
  SqlGenerator.owning r
  && truthy (prop entity (RelationMetadata.propertyName r))
  && (SqlGenerator.fkColumn r =? fk).

(** The course of a save, with its nested saves performed. *)
Section Saving.
Context `{Host} {W : Type} `{DataSource.World W}.
Variable storage : MetadataArgsStorage.
Variable now : Z.
Variable constructorOf : value -> class.

(** The events are those of nested saves, each from its first event to its
    last, and events of kind [P] between them. *)
Inductive Nested (P : DataSource.event -> Prop) : list DataSource.event -> Prop :=
| nested_done : Nested P []
| nested_own (ev : DataSource.event) (rest : list DataSource.event) :
    P ev -> Nested P rest -> Nested P (ev :: rest)
| nested_save (depth : nat) (other : value) (w w1 : W) (answer : result value)
    (inner rest : list DataSource.event) :
    DataSource.nestedSave storage now constructorOf depth other w
    = Some (answer, w1, inner) ->
    Nested P rest -> Nested P (inner ++ rest)%list.

(** The statement that [save] builds for the row of the entity, from the
    object [entityToPersist] it has filled. *)
Definition rowQuery (table : EntityMetadata.t) (target : class) (isUpdate : bool)
    (entity entityToPersist : value) : result SqlGenerator.Query :=
  if isUpdate then
    SqlGenerator.update table entityToPersist (DataSource.criteriaOf storage target entity)
  else
    Ok (SqlGenerator.insert table
          (columnsOf storage (IsClass target)
           ++ DataSource.fkColumns target (relationsOf storage (IsClass target))
                entityToPersist)
          entityToPersist).

(** The entity after the statement for the row: on the insert path the
    insert identifier of the answer, when there is one, is in its primary-key
    property. *)
Definition identified (target : class) (isUpdate : bool) (entity answer : value)
  : value :=
  if isUpdate then entity
  else
    match DataSource.pkName storage target with
    | Some name =>
        if truthy (prop answer "insertId") && negb (name =? "")
        then assign entity name (prop answer "insertId") else entity
    | None => entity
    end.


(** The save of [entity] gets as far as the statement for its row: the
    objects it holds a foreign key to are saved, which leaves the events
    [owners]; the listeners are called, which leaves the events [before] and
    the entity as [received]; [current] is the entity with its special
    columns stamped and [persisted] the object filled from it, the foreign
    keys included. *)
Definition Reaches (depth : nat) (target : class) (entity : value) (w : W)
    (owners before : list DataSource.event) (received current persisted : value)
    (w2 : W) : Prop :=
  let isUpdate := DataSource.isUpdate storage target entity in
  let relations := relationsOf storage (IsClass target) in
  let columns := columnsOf storage (IsClass target) in
  exists owned w1 written,
    DataSource.execute storage now constructorOf depth
      (DataSource.saveOwners relations isUpdate entity) w
    = Some (Ok owned, w1, owners)
    /\ DataSource.run
         (DataSource.callListeners storage target (beforeRow isUpdate) owned) w1
       = (Ok received, w2, before)
    /\ current = DataSource.stampColumns now isUpdate columns received
    /\ DataSource.persistColumns columns current = Ok written
    /\ persisted = DataSource.injectForeignKeys relations current written.

End Saving.

End Shape.

(** * Properties *)

(** ** Values and results *)

Module JsFacts.

Lemma assoc_set_field (k k' : string) (x : value) (fields : list (string * value)) :
  assoc k' (set_field k x fields) = if k =? k' then Some x else assoc k' fields.
Proof.
  induction fields as [|[k0 v0] rest IH]; simpl.
  - reflexivity.
  - destruct (k0 =? k) eqn:E0; simpl.
    + apply String.eqb_eq in E0; subst k0.
      destruct (k =? k'); reflexivity.
    + rewrite IH. destruct (k0 =? k') eqn:E1; [|reflexivity].
      apply String.eqb_eq in E1; subst k0. rewrite String.eqb_sym, E0. reflexivity.
Qed.

Lemma prop_assign (k k' : string) (x : value) (fields : list (string * value)) :
  prop (assign (VObj fields) k x) k'
  = if k =? k' then x else prop (VObj fields) k'.
Proof.
  simpl. rewrite assoc_set_field. destruct (k =? k'); reflexivity.
Qed.

Lemma prop_assign_same (k : string) (x : value) (fields : list (string * value)) :
  prop (assign (VObj fields) k x) k = x.
Proof. rewrite prop_assign, String.eqb_refl. reflexivity. Qed.

Lemma assign_object (k : string) (x : value) (fields : list (string * value)) :
  exists fields', assign (VObj fields) k x = VObj fields'.
Proof. eexists; reflexivity. Qed.

Lemma prefix_append (a b : string) : String.prefix a (a ++ b) = true.
Proof.
  induction a as [|c a IH]; simpl.
  - destruct b; reflexivity.
  - destruct (ascii_dec c c) as [_|Hc]; [exact IH | contradiction].
Qed.

Lemma append_assoc (a b c : string) : (a ++ b) ++ c = a ++ (b ++ c).
Proof. induction a as [|x a IH]; simpl; [reflexivity | now rewrite IH]. Qed.

Lemma prefix_empty (s : string) : String.prefix "" s = true.
Proof. destruct s; reflexivity. Qed.

Lemma prefix_app_l (a b c : string) :
  String.prefix (a ++ b) (a ++ c) = String.prefix b c.
Proof.
  induction a as [|x a IH]; simpl; [reflexivity|].
  destruct (ascii_dec x x) as [_|Hx]; [exact IH | contradiction].
Qed.

(** Brings both sides of an equation between texts to one shape. *)
Ltac normalise := repeat first [rewrite append_assoc | progress simpl].

End JsFacts.

(** ** The filter algebra *)

Module FilterFacts.
Import JsFacts.

Section WithHost.
Context `{Host}.

(** A [Not] node carries the operator string of [NotEqual], and the [switch]
    reaches the [NotEqual] case first: whatever the node wraps, the
    condition is [key != ?] with the wrapped value as its parameter. *)
Lemma condition_Not (key : string) (inner : value) :
  SqlGenerator.condition key (Operators.Not inner)
  = (let* _ := SqlGenerator.is_node inner in Ok (key ++ " != ?", [inner])).
Proof.
  unfold SqlGenerator.condition, Operators.Not, Operators.node. simpl.
  destruct (SqlGenerator.is_node inner) as [[|]|]; reflexivity.
Qed.

Lemma buildConditions_single (key : string) (v : value) :
  SqlGenerator.buildConditions (VObj [(key, v)])
  = (let* c := SqlGenerator.condition key v in Ok (fst c, (snd c ++ [])%list)).
Proof.
  unfold SqlGenerator.buildConditions. simpl. rewrite String.eqb_refl.
  destruct (SqlGenerator.condition key v) as [[clause values]|]; reflexivity.
Qed.

(** C1, at the inputs the claim names.  A filter [{ key: Not(In(items)) }]
    yields [key != ?] with the whole [In] node as the parameter, where the
    claim has [key NOT IN (?, ...)]; [Not(Like(p))] yields [key != ?], not
    [key NOT LIKE ?]; [Not(IsNull())] yields [key != ?], not
    [key IS NOT NULL]. *)
Theorem Not_node_takes_the_NotEqual_case (key : string) (items : list value)
    (pattern : string) :
  SqlGenerator.buildConditions (VObj [(key, Operators.Not (Operators.In items))])
    = Ok (key ++ " != ?", [Operators.In items])
  /\ SqlGenerator.buildConditions (VObj [(key, Operators.Not (Operators.Like pattern))])
    = Ok (key ++ " != ?", [Operators.Like pattern])
  /\ SqlGenerator.buildConditions (VObj [(key, Operators.Not Operators.IsNull)])
    = Ok (key ++ " != ?", [Operators.IsNull]).
Proof.
  repeat split; rewrite buildConditions_single, condition_Not; reflexivity.
Qed.

(** The part of C1 that the code does satisfy: [Not] of a bare value that is
    not [null] degrades to [key != ?]. *)
Lemma Not_of_a_value (key : string) (v : value) :
  typeof_object v = false ->
  SqlGenerator.buildConditions (VObj [(key, Operators.Not v)])
  = Ok (key ++ " != ?", [v]).
Proof.
  intros Hv. rewrite buildConditions_single, condition_Not.
  unfold SqlGenerator.is_node. rewrite Hv. reflexivity.
Qed.

End WithHost.
End FilterFacts.

(** ** Running operations *)

Module RunFacts.

Section Running.
Context {W : Type} `{DataSource.World W}.

Lemma run_bind {A B} (p : DataSource.Async A) (f : A -> DataSource.Async B) (w : W) :
  DataSource.run (DataSource.bind p f) w
  = match DataSource.run p w with
    | (Ok a, w1, t1) =>
        let '(r, w2, t2) := DataSource.run (f a) w1 in (r, w2, (t1 ++ t2)%list)
    | (Throw e, w1, t1) => (Throw e, w1, t1)
    end.
Proof.
  revert w. induction p as [a|e|ev k IH]; intros w; simpl.
  - destruct (DataSource.run (f a) w) as [[r w2] t2]. reflexivity.
  - reflexivity.
  - destruct (DataSource.respond w ev) as [r w1]. rewrite IH.
    destruct (DataSource.run (k r) w1) as [[[a|e] w2] t1].
    + destruct (DataSource.run (f a) w2) as [[r' w3] t2]. reflexivity.
    + reflexivity.
Qed.

Lemma run_catch {A} (p : DataSource.Async A) (h : error -> DataSource.Async A) (w : W) :
  DataSource.run (DataSource.catch p h) w
  = match DataSource.run p w with
    | (Ok a, w1, t1) => (Ok a, w1, t1)
    | (Throw e, w1, t1) =>
        let '(r, w2, t2) := DataSource.run (h e) w1 in (r, w2, (t1 ++ t2)%list)
    end.
Proof.
  revert w. induction p as [a|e|ev k IH]; intros w; simpl.
  - reflexivity.
  - destruct (DataSource.run (h e) w) as [[r w2] t2]. reflexivity.
  - destruct (DataSource.respond w ev) as [r w1]. rewrite IH.
    destruct (DataSource.run (k r) w1) as [[[a|e] w2] t1].
    + reflexivity.
    + destruct (DataSource.run (h e) w2) as [[r' w3] t2]. reflexivity.
Qed.

Lemma run_await (ev : DataSource.event) (w : W) :
  DataSource.run (DataSource.await ev) w
  = (fst (DataSource.respond w ev), snd (DataSource.respond w ev), [ev]).
Proof.
  unfold DataSource.await. simpl.
  destruct (DataSource.respond w ev) as [[v|e] w1]; reflexivity.
Qed.

Lemma run_query (sql : string) (params : list value) (w : W) :
  DataSource.run (DataSource.query sql params) w
  = (fst (DataSource.respond w (DataSource.ExecuteSql sql params)),
     snd (DataSource.respond w (DataSource.ExecuteSql sql params)),
     [DataSource.ExecuteSql sql params]).
Proof.
  unfold DataSource.query, DataSource.await. simpl.
  destruct (DataSource.respond w (DataSource.ExecuteSql sql params)) as [[v|e] w1];
    reflexivity.
Qed.

End Running.
End RunFacts.

(** ** The safety rail of [delete] and [update] *)

Module SafetyFacts.
Import JsFacts.

Section WithHost.
Context `{Host}.

(** An object without keys is truthy: the generator builds the statement,
    with nothing after [WHERE]. *)
Lemma delete_without_keys (metadata : EntityMetadata.t) :
  SqlGenerator.delete metadata (VObj [])
  = Ok {| SqlGenerator.query :=
            "DELETE FROM " ++ EntityMetadata.tableName metadata ++ " WHERE ";
          SqlGenerator.params := [] |}.
Proof. unfold SqlGenerator.delete. simpl. reflexivity. Qed.

Lemma update_without_keys (metadata : EntityMetadata.t)
    (fields : list (string * value)) :
  exists q assignments,
    SqlGenerator.update metadata (VObj fields) (VObj []) = Ok q
    /\ SqlGenerator.query q
       = "UPDATE " ++ EntityMetadata.tableName metadata ++ " SET " ++ assignments
         ++ " WHERE ".
Proof.
  unfold SqlGenerator.update. simpl.
  exists {| SqlGenerator.query :=
              ("UPDATE " ++ EntityMetadata.tableName metadata ++ " SET "
               ++ String.concat ", " (map (fun key => key ++ " = ?") (map fst fields)))
              ++ " WHERE ";
            SqlGenerator.params :=
              (map (prop (VObj fields)) (map fst fields) ++ [])%list |}.
  exists (String.concat ", " (map (fun key => key ++ " = ?") (map fst fields))).
  split; [reflexivity|]. simpl. now rewrite !append_assoc.
Qed.

(** A filter that is absent ([undefined], [null]) or otherwise falsy is
    rejected by the generator. *)
Lemma delete_rejects_absent (metadata : EntityMetadata.t) (where_ : value) :
  truthy where_ = false ->
  SqlGenerator.delete metadata where_
  = Throw (Error "DELETE requires a WHERE clause (for safety in this simple ORM)").
Proof. intros Hf. unfold SqlGenerator.delete. now rewrite Hf. Qed.

Lemma update_rejects_absent (metadata : EntityMetadata.t) (values where_ : value) :
  truthy where_ = false ->
  exists e, SqlGenerator.update metadata values where_ = Throw e.
Proof.
  intros Hf. unfold SqlGenerator.update.
  destruct (keys values) as [ks|e]; simpl; [rewrite Hf|]; eexists; reflexivity.
Qed.

Lemma update_rejects_absent_object (metadata : EntityMetadata.t)
    (fields : list (string * value)) (where_ : value) :
  truthy where_ = false ->
  SqlGenerator.update metadata (VObj fields) where_
  = Throw (Error "UPDATE requires a WHERE clause").
Proof. intros Hf. unfold SqlGenerator.update. simpl. now rewrite Hf. Qed.

Section Running.
Context {W : Type} `{DataSource.World W}.
Variable storage : MetadataArgsStorage.
Variable now : Z.

Lemma run_lift_throw {A B} (e : error) (k : A -> DataSource.Async B) (w : W) :
  DataSource.run (DataSource.bind (DataSource.lift (Throw e)) k) w = (Throw e, w, []).
Proof. reflexivity. Qed.

(** With an absent filter [delete] fails before any statement is issued. *)
Lemma delete_absent_issues_nothing (target : class) (criteria : value) (w : W) :
  truthy criteria = false ->
  exists e,
    DataSource.run (DataSource.delete storage now target criteria) w = (Throw e, w, []).
Proof.
  intros Hf. unfold DataSource.delete, DataSource.tableOf.
  destruct (findTable storage (IsClass target)) as [table|]; simpl;
    [|eexists; reflexivity].
  destruct (SqlGenerator.deleteDateCol storage target) as [c|].
  - destruct (ColumnOptions.transformer (ColumnMetadata.options c)) as [t|]; simpl.
    + destruct (ValueTransformer.to t (VDate (Some now))) as [stamp|e]; simpl;
        [|eexists; reflexivity].
      rewrite update_rejects_absent_object by exact Hf. eexists; reflexivity.
    + rewrite update_rejects_absent_object by exact Hf. eexists; reflexivity.
  - rewrite delete_rejects_absent by exact Hf. eexists; reflexivity.
Qed.

(** With the filter [{}], on any type without a soft-delete column, the
    [DELETE] reaches the driver. *)
Lemma delete_without_keys_is_issued (target : class) (table : EntityMetadata.t)
    (w : W) :
  findTable storage (IsClass target) = Some table ->
  SqlGenerator.deleteDateCol storage target = None ->
  DataSource.events (DataSource.run (DataSource.delete storage now target (VObj [])) w)
  = [DataSource.ExecuteSql
       ("DELETE FROM " ++ EntityMetadata.tableName table ++ " WHERE ") []].
Proof.
  intros Htable Hnone. unfold DataSource.delete, DataSource.tableOf.
  rewrite Htable. cbn [DataSource.bind]. rewrite Hnone, delete_without_keys.
  cbn [DataSource.lift DataSource.bind SqlGenerator.query SqlGenerator.params].
  rewrite RunFacts.run_bind, RunFacts.run_query.
  destruct (DataSource.respond w _) as [[v|e] w1]; reflexivity.
Qed.

End Running.
End WithHost.

(** C2, at the empty mapping.  On the sample schema, [delete] with the
    filter [{}] does not fail: the driver receives [DELETE FROM posts WHERE ]
    for a type without a soft-delete column and
    [UPDATE users SET deletedAt = ? WHERE ] for a type with one; [update]
    with the filter [{}] sends [UPDATE posts SET title = ? WHERE ]. *)
Theorem empty_filter_reaches_the_driver :
  @DataSource.run nat Blog.accepting unit
    (@DataSource.delete Blog.host Blog.storage 0 Blog.Post (VObj [])) 0%nat
  = (Ok tt, 1%nat, [DataSource.ExecuteSql "DELETE FROM posts WHERE " []])
  /\ @DataSource.run nat Blog.accepting unit
       (@DataSource.delete Blog.host Blog.storage 0 Blog.User (VObj [])) 0%nat
     = (Ok tt, 1%nat,
        [DataSource.ExecuteSql "UPDATE users SET deletedAt = ? WHERE "
           [VDate (Some 0%Z)]])
  /\ @DataSource.run nat Blog.accepting unit
       (@DataSource.update Blog.host Blog.storage 0 Blog.Post (VObj [])
          (VObj [("title", VStr "x")])) 0%nat
     = (Ok tt, 1%nat,
        [DataSource.ExecuteSql "UPDATE posts SET title = ? WHERE " [VStr "x"]]).
Proof. repeat split; vm_compute; reflexivity. Qed.

End SafetyFacts.

(** ** Transactions *)

Module TransactionFacts.
Import RunFacts DataSource.

Section Running.
Context {W : Type} `{World W}.

(** Every run of the wrapper, by the answers of the driver and the outcome
    of the callback. *)
Lemma run_transaction {T} (callback : Async T) (w : W) :
  run (transaction callback) w
  = match respond w BEGIN with
    | (Throw e, w1) => (Throw e, w1, [BEGIN])
    | (Ok _, w1) =>
        match run callback w1 with
        | (Ok r, w2, trace) =>
            match respond w2 COMMIT with
            | (Ok _, w3) => (Ok r, w3, (BEGIN :: trace ++ [COMMIT])%list)
            | (Throw e, w3) =>
                match respond w3 ROLLBACK with
                | (Ok _, w4) => (Throw e, w4, (BEGIN :: trace ++ [COMMIT; ROLLBACK])%list)
                | (Throw e', w4) =>
                    (Throw e', w4, (BEGIN :: trace ++ [COMMIT; ROLLBACK])%list)
                end
            end
        | (Throw e, w2, trace) =>
            match respond w2 ROLLBACK with
            | (Ok _, w3) => (Throw e, w3, (BEGIN :: trace ++ [ROLLBACK])%list)
            | (Throw e', w3) => (Throw e', w3, (BEGIN :: trace ++ [ROLLBACK])%list)
            end
        end
    end.
Proof.
  unfold transaction, startTransaction, commitTransaction, rollbackTransaction.
  rewrite run_bind, run_query. fold BEGIN.
  destruct (respond w BEGIN) as [[began|e] w1]; simpl; [|reflexivity].
  rewrite run_catch, run_bind.
  destruct (run callback w1) as [[[r|e] w2] trace]; simpl.
  - fold COMMIT. destruct (respond w2 COMMIT) as [[committed|e] w3]; simpl.
    + reflexivity.
    + fold ROLLBACK.
      destruct (respond w3 ROLLBACK) as [[undone|e'] w4]; simpl;
        rewrite <- app_assoc; reflexivity.
  - fold ROLLBACK.
    destruct (respond w2 ROLLBACK) as [[undone|e'] w3]; simpl; reflexivity.
Qed.

End Running.
End TransactionFacts.

(** ** Value transformers *)

Module TransformFacts.

Section WithHost.
Context `{Host}.

(** On the read path a transformer is the only rule applied. *)
Lemma transformValue_with_transformer (col : ColumnMetadata.t)
    (t : ValueTransformer.t) (val : value) :
  ColumnOptions.transformer (ColumnMetadata.options col) = Some t ->
  DataSource.transformValue col val = ValueTransformer.from t val.
Proof. intros Ht. unfold DataSource.transformValue. now rewrite Ht. Qed.

(** On the write path of [save] the transformer receives what the built-in
    rules made of the property value. *)
Lemma persistColumn_with_transformer (entity persisted : value)
    (col : ColumnMetadata.t) (t : ValueTransformer.t) :
  ColumnOptions.transformer (ColumnMetadata.options col) = Some t ->
  DataSource.persistColumn entity persisted col
  = (let* val :=
       DataSource.serialize col (prop entity (ColumnMetadata.propertyName col)) in
     if is_undefined val then Ok persisted
     else let* written := ValueTransformer.to t val in
          Ok (assign persisted (ColumnMetadata.propertyName col) written)).
Proof.
  intros Ht. unfold DataSource.persistColumn. rewrite Ht.
  destruct (DataSource.serialize col _) as [val|e]; simpl; [|reflexivity].
  destruct (is_undefined val); reflexivity.
Qed.

(** An array in an array-typed column reaches the transformer joined. *)
Lemma array_is_joined_before_the_transformer (entity persisted : value)
    (col : ColumnMetadata.t) (t : ValueTransformer.t) (items : list value) :
  ColumnOptions.transformer (ColumnMetadata.options col) = Some t ->
  ColumnOptions.type (ColumnMetadata.options col) = Some ColumnType.SimpleArray ->
  prop entity (ColumnMetadata.propertyName col) = VArr items ->
  DataSource.persistColumn entity persisted col
  = (let* written := ValueTransformer.to t (VStr (join "," items)) in
     Ok (assign persisted (ColumnMetadata.propertyName col) written)).
Proof.
  intros Ht Hty Hp. rewrite (persistColumn_with_transformer _ _ _ t Ht).
  unfold DataSource.serialize. rewrite Hty, Hp. reflexivity.
Qed.

End WithHost.

(** C3, on the write path.  The sample column [tags] is array-typed and has
    the transformer [boxed].  Saving an entity whose [tags] is the array
    [["a", "b"]] persists [to("a,b")]: the array-join rule was applied first,
    where the claim has [to(["a", "b"])]; the statement that reaches the
    driver carries that value, and reading it back returns the string
    ["a,b"]. *)
Theorem save_transforms_the_serialized_value :
  let tags := Blog.column Blog.User "tags"
                (Blog.withTransformer (Blog.plain ColumnType.SimpleArray) Blog.boxed)
                None in
  let entity := VObj [("tags", VArr [VStr "a"; VStr "b"])] in
  @DataSource.persistColumns Blog.host [tags] entity
    = Ok (VObj [("tags", VObj [("boxed", VStr "a,b")])])
  /\ ValueTransformer.to Blog.boxed (VArr [VStr "a"; VStr "b"])
     = Ok (VObj [("boxed", VArr [VStr "a"; VStr "b"])])
  /\ DataSource.events
       (@DataSource.run nat Blog.accepting value
          (@DataSource.save Blog.host Blog.storage 0 Blog.User entity) 0%nat)
     = [DataSource.ExecuteSql
          "INSERT INTO users (id, name, tags, createdAt, updatedAt, version, deletedAt) VALUES (?, ?, ?, ?, ?, ?, ?)"
          [VUndefined; VUndefined; VObj [("boxed", VStr "a,b")];
           VDate (Some 0%Z); VDate (Some 0%Z); VNum 1; VUndefined]]
  /\ @DataSource.transformValue Blog.host tags (VObj [("boxed", VStr "a,b")])
     = Ok (VStr "a,b").
Proof. repeat split; vm_compute; reflexivity. Qed.

End TransformFacts.

(** ** Stamping of the special columns *)

Module StampFacts.
Import JsFacts.

Section WithHost.
Context `{Host}.
Variable now : Z.

Lemma stamp_object (isUpdate : bool) (fields : list (string * value))
    (col : ColumnMetadata.t) :
  exists fields', DataSource.stamp now isUpdate (VObj fields) col = VObj fields'.
Proof.
  unfold DataSource.stamp.
  repeat match goal with
         | |- context [if ?b then _ else _] => destruct b
         end; simpl; eexists; reflexivity.
Qed.

(** One step of the loop, at the property of its column. *)
Lemma stamp_self (isUpdate : bool) (fields : list (string * value))
    (col : ColumnMetadata.t) :
  prop (DataSource.stamp now isUpdate (VObj fields) col) (ColumnMetadata.propertyName col)
  = DataSource.stampedValue now isUpdate (ColumnMetadata.mode col)
      (prop (VObj fields) (ColumnMetadata.propertyName col)).
Proof.
  unfold DataSource.stamp, DataSource.stampedValue.
  destruct (ColumnMetadata.mode col) as [[| | | | |]|]; destruct isUpdate; simpl;
    try reflexivity;
    try (destruct (truthy _); simpl);
    try reflexivity;
    try (rewrite assoc_set_field, String.eqb_refl; reflexivity).
Qed.

(** One step of the loop, at any other property. *)
Lemma stamp_other (isUpdate : bool) (fields : list (string * value))
    (col : ColumnMetadata.t) (k : string) :
  ColumnMetadata.propertyName col <> k ->
  prop (DataSource.stamp now isUpdate (VObj fields) col) k = prop (VObj fields) k.
Proof.
  intros Hk. apply String.eqb_neq in Hk. unfold DataSource.stamp.
  destruct (ColumnMetadata.mode col) as [[| | | | |]|]; destruct isUpdate; simpl;
    try reflexivity;
    try (destruct (truthy _); simpl);
    try reflexivity;
    try (rewrite assoc_set_field, Hk; reflexivity).
Qed.

Lemma stampColumns_cons (isUpdate : bool) (c : ColumnMetadata.t)
    (rest : list ColumnMetadata.t) (entity : value) :
  DataSource.stampColumns now isUpdate (c :: rest) entity
  = DataSource.stampColumns now isUpdate rest (DataSource.stamp now isUpdate entity c).
Proof. reflexivity. Qed.

Lemma stampColumns_other (isUpdate : bool) (columns : list ColumnMetadata.t)
    (k : string) :
  ~ In k (map ColumnMetadata.propertyName columns) ->
  forall fields,
    prop (DataSource.stampColumns now isUpdate columns (VObj fields)) k
    = prop (VObj fields) k.
Proof.
  induction columns as [|c rest IH]; intros Hk fields; [reflexivity|].
  rewrite stampColumns_cons.
  destruct (stamp_object isUpdate fields c) as [fields' Hs]. rewrite Hs.
  rewrite IH by (intros Hin; apply Hk; right; exact Hin).
  rewrite <- Hs. apply stamp_other. intros Heq. apply Hk. left. exact Heq.
Qed.

(** The whole loop, at the property of one of its columns. *)
Lemma stampColumns_at (isUpdate : bool) (columns : list ColumnMetadata.t)
    (col : ColumnMetadata.t) :
  NoDup (map ColumnMetadata.propertyName columns) ->
  In col columns ->
  forall fields,
    prop (DataSource.stampColumns now isUpdate columns (VObj fields))
      (ColumnMetadata.propertyName col)
    = DataSource.stampedValue now isUpdate (ColumnMetadata.mode col)
        (prop (VObj fields) (ColumnMetadata.propertyName col)).
Proof.
  induction columns as [|c rest IH]; intros Hnd Hin fields; [contradiction|].
  inversion Hnd as [|? ? Hnotin Hnd']; subst.
  rewrite stampColumns_cons.
  destruct (stamp_object isUpdate fields c) as [fields' Hs]. rewrite Hs.
  destruct Hin as [Heq|Hin].
  - subst c. rewrite (stampColumns_other isUpdate rest _ Hnotin fields').
    rewrite <- Hs. apply stamp_self.
  - rewrite (IH Hnd' Hin fields'). f_equal.
    rewrite <- Hs. apply stamp_other.
    intros Heq. apply Hnotin. rewrite Heq. apply in_map. exact Hin.
Qed.

End WithHost.
End StampFacts.

(** ** The generated [SELECT] *)

Module SelectFacts.
Import JsFacts.

Lemma concat_empty_cons (x : string) (xs : list string) :
  String.concat "" (x :: xs) = x ++ String.concat "" xs.
Proof.
  destruct xs as [|y ys]; simpl.
  - induction x as [|c x IH]; simpl; [reflexivity | now rewrite <- IH].
  - reflexivity.
Qed.

Lemma concat_empty_in {A} (f : A -> string) (x : A) (xs : list A) :
  In x xs ->
  exists before after, String.concat "" (map f xs) = before ++ f x ++ after.
Proof.
  induction xs as [|y ys IH]; intros Hin; [contradiction|].
  simpl map. rewrite concat_empty_cons. destruct Hin as [->|Hin].
  - exists "", (String.concat "" (map f ys)). reflexivity.
  - destruct (IH Hin) as (before & after & ->).
    exists (f y ++ before), after. now rewrite append_assoc.
Qed.

Section WithHost.
Context `{Host}.
Variable storage : MetadataArgsStorage.

(** Every relation that is asked for contributes its join to the text. *)
Lemma select_contains_join (metadata : EntityMetadata.t) (where_ : value)
    (relations : list string) (order take skip : value)
    (select : option (list string)) (withDeleted : bool) (q : SqlGenerator.Query)
    (relationName : string) :
  SqlGenerator.select storage metadata where_ relations order take skip select
    withDeleted = Ok q ->
  In relationName relations ->
  exists before after,
    SqlGenerator.query q
    = before ++ SqlGenerator.joinClause storage metadata relationName ++ after.
Proof.
  intros Hq Hin. unfold SqlGenerator.select in Hq.
  destruct (SqlGenerator.filterClauses where_) as [[clauses params]|e];
    simpl in Hq; [|discriminate].
  destruct (SqlGenerator.orderSql order) as [ordering|e]; simpl in Hq; [|discriminate].
  injection Hq as <-. simpl SqlGenerator.query.
  destruct (concat_empty_in (SqlGenerator.joinClause storage metadata) _ _ Hin)
    as (before & after & Hj).
  unfold SqlGenerator.selectFrom. rewrite Hj.
  exists (("SELECT " ++ SqlGenerator.selectClause metadata select
           ++ String.concat "" (map (SqlGenerator.relationColumns storage metadata) relations)
           ++ " FROM " ++ EntityMetadata.tableName metadata) ++ before).
  exists (after
          ++ SqlGenerator.whereSql
               (SqlGenerator.softDeleteClauses storage metadata withDeleted ++ clauses)%list
          ++ ordering ++ SqlGenerator.limitSql take skip).
  normalise. reflexivity.
Qed.

(** C6.  A generated [SELECT] is the projection and the joins, then the
    [WHERE] clause, then ordering and paging.  When the entity type has a
    soft-delete column and [withDeleted] is not set, the [WHERE] clause is
    [<table>.<softDeleteColumn> IS NULL], AND-combined with the conditions of
    the caller's filter; when [withDeleted] is set, or the type has no
    soft-delete column, the [WHERE] clause holds the conditions of the
    caller's filter only (and is absent without them). *)
Theorem select_filters_soft_deleted (metadata : EntityMetadata.t) (where_ : value)
    (relations : list string) (order take skip : value)
    (select : option (list string)) (withDeleted : bool) (q : SqlGenerator.Query) :
  SqlGenerator.select storage metadata where_ relations order take skip select
    withDeleted = Ok q ->
  exists clauses ordering,
    SqlGenerator.filterClauses where_ = Ok (clauses, SqlGenerator.params q)
    /\ SqlGenerator.orderSql order = Ok ordering
    /\ let before := SqlGenerator.selectFrom storage metadata relations select in
       let after := ordering ++ SqlGenerator.limitSql take skip in
       (forall c,
           SqlGenerator.deleteDateCol storage (EntityMetadata.target metadata) = Some c ->
           withDeleted = false ->
           SqlGenerator.query q
           = before ++ " WHERE "
             ++ String.concat " AND "
                  ((EntityMetadata.tableName metadata ++ "."
                    ++ SqlGenerator.columnName c ++ " IS NULL") :: clauses)
             ++ after)
       /\ (withDeleted = true
           \/ SqlGenerator.deleteDateCol storage (EntityMetadata.target metadata) = None ->
           SqlGenerator.query q = before ++ SqlGenerator.whereSql clauses ++ after).
Proof.
  intros Hq. unfold SqlGenerator.select in Hq.
  destruct (SqlGenerator.filterClauses where_) as [[clauses params]|e];
    simpl in Hq; [|discriminate].
  destruct (SqlGenerator.orderSql order) as [ordering|e]; simpl in Hq; [|discriminate].
  injection Hq as <-. exists clauses, ordering. simpl.
  split; [reflexivity|]. split; [reflexivity|]. split.
  - intros c Hc ->. unfold SqlGenerator.softDeleteClauses. rewrite Hc.
    normalise. reflexivity.
  - intros [-> | Hnone]; unfold SqlGenerator.softDeleteClauses.
    + reflexivity.
    + rewrite Hnone. destruct withDeleted; reflexivity.
Qed.

(** Without a filter and an ordering the generator does return a statement. *)
Lemma select_without_filter (metadata : EntityMetadata.t)
    (relations : list string) (take skip : value)
    (select : option (list string)) (withDeleted : bool) :
  exists q,
    SqlGenerator.select storage metadata VUndefined relations VUndefined take skip
      select withDeleted = Ok q.
Proof. eexists. reflexivity. Qed.

End WithHost.
End SelectFacts.

(** ** Relations: joins, foreign keys, junction rows *)

Module RelationFacts.
Import JsFacts RunFacts.

Lemma find_first {A} (f : A -> bool) (before : list A) (x : A) (after : list A) :
  (forall y, In y before -> f y = false) ->
  f x = true ->
  find f (before ++ x :: after)%list = Some x.
Proof.
  induction before as [|y ys IH]; intros Hb Hx; simpl.
  - now rewrite Hx.
  - rewrite (Hb y (or_introl eq_refl)). apply IH; [|exact Hx].
    intros z Hz. apply Hb. now right.
Qed.

Lemma find_nowhere {A} (f : A -> bool) (xs : list A) :
  (forall y, In y xs -> f y = false) -> find f xs = None.
Proof.
  induction xs as [|y ys IH]; intros Hb; simpl; [reflexivity|].
  rewrite (Hb y (or_introl eq_refl)). apply IH. intros z Hz. apply Hb. now right.
Qed.

Lemma pointsBack_spec (metadata : EntityMetadata.t) (r : RelationMetadata.t) :
  SqlGenerator.pointsBack metadata r = true <-> Spec.PointsBack metadata r.
Proof.
  unfold SqlGenerator.pointsBack, Spec.PointsBack, identical, same.
  rewrite andb_true_iff. split.
  - intros [Hid Hty]. split.
    + destruct (resolve (RelationMetadata.type r)) as [c| |]; try discriminate.
      exists c. split; [reflexivity|]. now apply Nat.eqb_eq.
    + destruct (RelationMetadata.relationType r); try discriminate. reflexivity.
  - intros [(c & Hc & Hid) Hty]. rewrite Hc, Hty. split; [|reflexivity].
    now apply Nat.eqb_eq.
Qed.

Lemma pointsBack_false (metadata : EntityMetadata.t) (r : RelationMetadata.t) :
  ~ Spec.PointsBack metadata r -> SqlGenerator.pointsBack metadata r = false.
Proof.
  intros Hn. destruct (SqlGenerator.pointsBack metadata r) eqn:E; [|reflexivity].
  exfalso. apply Hn. now apply pointsBack_spec.
Qed.

Lemma owning_spec (r : RelationMetadata.t) :
  SqlGenerator.owning r = true <-> Spec.Owning r.
Proof.
  unfold SqlGenerator.owning, Spec.Owning.
  destruct (RelationMetadata.relationType r); split; intros Ho;
    try discriminate; try (left; reflexivity);
    try (right; split; [reflexivity | exact Ho]);
    try reflexivity;
    destruct Ho as [Ho | [Ho Hj]]; try discriminate; try exact Hj.
Qed.

Section WithHost.
Context `{Host}.
Variable storage : MetadataArgsStorage.

(** C8.  For a one-to-many relation asked for as an eager join, the join is
    [LEFT JOIN <related> ON <related>.<fk> = <owner>.id].  The column [fk] is
    taken from the first relation registered on the related type that is
    many-to-one and whose type resolves to the owner type: its explicit
    join-column name, or else its property name followed by [Id].  When the
    related type is not registered, or has no such relation, [fk] is the
    placeholder [foreignKey].  The join is part of the generated [SELECT]. *)
Theorem one_to_many_join_column (metadata : EntityMetadata.t) (relationName : string)
    (relation : RelationMetadata.t) :
  SqlGenerator.findRelation storage metadata relationName = Some relation ->
  RelationMetadata.relationType relation = RelationType.OneToMany ->
  let table := EntityMetadata.tableName metadata in
  let relatedTableMeta := findTable storage (resolve (RelationMetadata.type relation)) in
  let relatedTableName :=
    match relatedTableMeta with
    | Some m => EntityMetadata.tableName m
    | None => relationName ++ "Table"
    end in
  exists fkName,
    SqlGenerator.joinClause storage metadata relationName
    = " LEFT JOIN " ++ relatedTableName ++ " ON " ++ relatedTableName ++ "."
      ++ fkName ++ " = " ++ table ++ ".id"
    /\ (forall related before inverse after,
           relatedTableMeta = Some related ->
           relationsOf storage (IsClass (EntityMetadata.target related))
           = (before ++ inverse :: after)%list ->
           (forall r, In r before -> ~ Spec.PointsBack metadata r) ->
           Spec.PointsBack metadata inverse ->
           (forall name, RelationMetadata.joinColumnName inverse = Some name ->
                         name <> "" -> fkName = name)
           /\ (RelationMetadata.joinColumnName inverse = None
               \/ RelationMetadata.joinColumnName inverse = Some "" ->
               fkName = RelationMetadata.propertyName inverse ++ "Id"))
    /\ (relatedTableMeta = None
        \/ (exists related,
               relatedTableMeta = Some related
               /\ forall r,
                    In r (relationsOf storage (IsClass (EntityMetadata.target related))) ->
                    ~ Spec.PointsBack metadata r) ->
        fkName = "foreignKey")
    /\ (forall where_ relations order take skip select withDeleted q,
           SqlGenerator.select storage metadata where_ relations order take skip select
             withDeleted = Ok q ->
           In relationName relations ->
           exists before after,
             SqlGenerator.query q
             = before
               ++ (" LEFT JOIN " ++ relatedTableName ++ " ON " ++ relatedTableName ++ "."
                   ++ fkName ++ " = " ++ table ++ ".id")
               ++ after).
Proof.
  intros Hrel Hkind table relatedTableMeta relatedTableName.
  exists (SqlGenerator.inverseFk storage (SqlGenerator.pointsBack metadata) relatedTableMeta).
  assert (Hjoin :
    SqlGenerator.joinClause storage metadata relationName
    = " LEFT JOIN " ++ relatedTableName ++ " ON " ++ relatedTableName ++ "."
      ++ SqlGenerator.inverseFk storage (SqlGenerator.pointsBack metadata) relatedTableMeta
      ++ " = " ++ table ++ ".id").
  { unfold SqlGenerator.joinClause. rewrite Hrel, Hkind. reflexivity. }
  split; [exact Hjoin|]. split; [|split].
  - intros related before inverse after Hsome Hsplit Hbefore Hinv.
    unfold SqlGenerator.inverseFk. rewrite Hsome, Hsplit.
    rewrite find_first.
    + unfold SqlGenerator.fkColumn, or_name. split.
      * intros name Hn Hne. rewrite Hn. apply String.eqb_neq in Hne. now rewrite Hne.
      * intros [Hn | Hn]; rewrite Hn; reflexivity.
    + intros r Hr. apply pointsBack_false. now apply Hbefore.
    + now apply pointsBack_spec.
  - intros [Hnone | (related & Hsome & Hall)]; unfold SqlGenerator.inverseFk.
    + now rewrite Hnone.
    + rewrite Hsome, find_nowhere; [reflexivity|].
      intros r Hr. apply pointsBack_false. now apply Hall.
  - intros where_ relations order take skip select withDeleted q Hq Hin.
    rewrite <- Hjoin.
    exact (SelectFacts.select_contains_join storage metadata where_ relations order
             take skip select withDeleted q relationName Hq Hin).
Qed.

End WithHost.
End RelationFacts.

(** ** The literal [id] of related tables *)

Module RelatedKeyFacts.
Import JsFacts RunFacts RelationFacts.

Section WithHost.
Context `{Host}.
Variable storage : MetadataArgsStorage.



(** The join of a relation whose other side stores the foreign key. *)
Lemma inverse_join (metadata : EntityMetadata.t) (relationName : string)
    (relation : RelationMetadata.t) :
  SqlGenerator.findRelation storage metadata relationName = Some relation ->
  ~ Spec.Owning relation ->
  RelationMetadata.relationType relation <> RelationType.ManyToMany ->
  exists fkName,
    SqlGenerator.joinClause storage metadata relationName
    = " LEFT JOIN " ++ SqlGenerator.relatedTableNameOf storage relationName relation
      ++ " ON " ++ SqlGenerator.relatedTableNameOf storage relationName relation
      ++ "." ++ fkName ++ " = " ++ EntityMetadata.tableName metadata ++ ".id".
Proof.
  intros Hrel Hnot Hkind. unfold SqlGenerator.joinClause, SqlGenerator.relatedTableNameOf.
  rewrite Hrel. unfold Spec.Owning in Hnot.
  destruct (RelationMetadata.relationType relation) eqn:Ek.
  - destruct (RelationMetadata.joinColumn relation) eqn:Ej.
    + exfalso. apply Hnot. right. now split.
    + eexists. reflexivity.
  - eexists. reflexivity.
  - exfalso. apply Hnot. now left.
  - contradiction.
Qed.


(** The foreign key [save] injects for an owning to-one relation. *)
Lemma injected_foreign_key (entity : value) (persisted : list (string * value))
    (relation : RelationMetadata.t) :
  Spec.Owning relation ->
  truthy (prop entity (RelationMetadata.propertyName relation)) = true ->
  prop (DataSource.injectForeignKey entity (VObj persisted) relation)
    (SqlGenerator.fkColumn relation)
  = prop (prop entity (RelationMetadata.propertyName relation)) "id".
Proof.
  intros Hown Ht. apply owning_spec in Hown.
  unfold DataSource.injectForeignKey. rewrite Hown, Ht. apply prop_assign_same.
Qed.

Section Running.
Context {W : Type} `{DataSource.World W}.

(** The junction row [save] inserts for one related item. *)
Lemma junction_row (target : class) (junctionTableName : string)
    (entity item : value) (w : W) :
  nullish item = false ->
  truthy (prop item "id") = true ->
  truthy (prop entity (or_name (DataSource.pkName storage target) "id")) = true ->
  DataSource.events
    (DataSource.run (DataSource.linkItem storage target junctionTableName entity item) w)
  = [DataSource.ExecuteSql ("INSERT INTO " ++ junctionTableName ++ " VALUES (?, ?)")
       [prop entity (or_name (DataSource.pkName storage target) "id");
        prop item "id"]].
Proof.
  intros Hn Hid Hown. unfold DataSource.linkItem, get. rewrite Hn. simpl.
  rewrite Hid, Hown. simpl.
  destruct (DataSource.respond w _) as [[v|e] w1]; reflexivity.
Qed.

End Running.
End WithHost.
End RelatedKeyFacts.

(** ** The statements of a save *)

Module SaveFacts.
Import JsFacts RunFacts Spec.

Section Running.
Context `{Host} {W : Type} `{DataSource.World W}.

Lemma issued_bind {A B} (p : DataSource.Async A) (f : A -> DataSource.Async B) (w : W) :
  issued (DataSource.bind p f) w
  = match DataSource.run p w with
    | (Ok a, w1, _) => (issued p w ++ issued (f a) w1)%list
    | (Throw _, _, _) => issued p w
    end.
Proof.
  unfold issued. rewrite run_bind.
  destruct (DataSource.run p w) as [[[a|e] w1] t1]; [|reflexivity].
  destruct (DataSource.run (f a) w1) as [[r w2] t2]. simpl.
  unfold DataSource.statements. apply filter_app.
Qed.

Lemma outcome_bind_throw {A B} (p : DataSource.Async A) (f : A -> DataSource.Async B)
    (w : W) (e : error) :
  DataSource.outcome (DataSource.run p w) = Throw e ->
  DataSource.outcome (DataSource.run (DataSource.bind p f) w) = Throw e.
Proof.
  intros Hp. rewrite run_bind.
  destruct (DataSource.run p w) as [[[a|e'] w1] t1]; simpl in *; [discriminate|].
  unfold DataSource.outcome in *. simpl in *. now injection Hp as ->.
Qed.

Lemma only_return (P : DataSource.event -> Prop) {A} (a : A) :
  Only P (DataSource.Return a).
Proof. intros w. constructor. Qed.

Lemma only_raise (P : DataSource.event -> Prop) {A} (e : error) :
  Only P (@DataSource.Raise A e).
Proof. intros w. constructor. Qed.

Lemma only_lift (P : DataSource.event -> Prop) {A} (r : result A) :
  Only P (DataSource.lift r).
Proof. destruct r; [apply only_return | apply only_raise]. Qed.

Lemma only_bind (P : DataSource.event -> Prop) {A B} (p : DataSource.Async A)
    (f : A -> DataSource.Async B) :
  Only P p -> (forall a, Only P (f a)) -> Only P (DataSource.bind p f).
Proof.
  intros Hp Hf w. rewrite issued_bind.
  destruct (DataSource.run p w) as [[[a|e] w1] t1] eqn:E.
  - apply Forall_app. split; [apply Hp | apply Hf].
  - apply Hp.
Qed.

Lemma only_catch (P : DataSource.event -> Prop) {A} (p : DataSource.Async A)
    (h : error -> DataSource.Async A) :
  Only P p -> (forall e, Only P (h e)) -> Only P (DataSource.catch p h).
Proof.
  intros Hp Hh w. unfold issued. rewrite run_catch.
  specialize (Hp w). unfold issued in Hp.
  destruct (DataSource.run p w) as [[[a|e] w1] t1]; [exact Hp|].
  specialize (Hh e w1). unfold issued in Hh.
  destruct (DataSource.run (h e) w1) as [[r w2] t2]. simpl in *.
  unfold DataSource.statements in *. rewrite filter_app. apply Forall_app. now split.
Qed.

Lemma only_await (P : DataSource.event -> Prop) (ev : DataSource.event) :
  (DataSource.is_sql ev = true -> P ev) -> Only P (DataSource.await ev).
Proof.
  intros Hev w. unfold issued, DataSource.await. simpl.
  destruct (DataSource.respond w ev) as [[v|e] w1]; simpl;
    destruct (DataSource.is_sql ev); constructor; auto.
Qed.

Lemma only_query (P : DataSource.event -> Prop) (sql : string) (params : list value) :
  P (DataSource.ExecuteSql sql params) -> Only P (DataSource.query sql params).
Proof. intros HP. apply only_await. intros _. exact HP. Qed.

Lemma only_forEach (P : DataSource.event -> Prop) {A S}
    (f : S -> A -> DataSource.Async S) (xs : list A) :
  (forall s x, Only P (f s x)) -> forall s, Only P (DataSource.forEach f xs s).
Proof.
  intros Hf. induction xs as [|x xs IH]; intros s; simpl.
  - apply only_return.
  - apply only_bind; [apply Hf | exact IH].
Qed.

Lemma only_weaken (P Q : DataSource.event -> Prop) {A} (p : DataSource.Async A) :
  (forall ev, P ev -> Q ev) -> Only P p -> Only Q p.
Proof. intros HPQ Hp w. eapply Forall_impl; [exact HPQ | apply Hp]. Qed.

Lemma quiet_issued {A} (p : DataSource.Async A) (w : W) :
  Quiet p -> issued p w = [].
Proof.
  intros Hp. specialize (Hp w). destruct (issued p w) as [|ev rest]; [reflexivity|].
  inversion Hp; contradiction.
Qed.

(** The parts of [save] that issue no statement themselves. *)

Lemma quiet_only (P : DataSource.event -> Prop) {A} (p : DataSource.Async A) :
  Quiet p -> Only P p.
Proof. apply only_weaken. contradiction. Qed.

Lemma quiet_call (ev : DataSource.event) :
  DataSource.is_sql ev = false -> Quiet (DataSource.await ev).
Proof. intros Hev. apply only_await. rewrite Hev. discriminate. Qed.

Section Parts.
Variable storage : MetadataArgsStorage.
Variable now : Z.

Lemma quiet_tableOf (target : class) : Quiet (DataSource.tableOf storage target).
Proof.
  unfold DataSource.tableOf.
  destruct (findTable storage (IsClass target)); [apply only_return | apply only_raise].
Qed.

Lemma quiet_saveOwners (relations : list RelationMetadata.t) (isUpdate : bool)
    (entity : value) :
  Quiet (DataSource.saveOwners relations isUpdate entity).
Proof.
  unfold DataSource.saveOwners. apply only_forEach. intros e relation.
  destruct (_ && _); [|apply only_return].
  destruct (truthy _); [|apply only_return].
  apply only_bind; [now apply quiet_call | intros; apply only_return].
Qed.

Lemma quiet_callListeners (target : class) (type : ListenerType.t) (entity : value) :
  Quiet (DataSource.callListeners storage target type entity).
Proof.
  unfold DataSource.callListeners. apply only_forEach. intros e listener.
  destruct (DataSource.callable _ _ _); [now apply quiet_call | apply only_return].
Qed.

Lemma quiet_saveChild (relation : RelationMetadata.t) (entity child : value) :
  Quiet (DataSource.saveChild relation entity child).
Proof.
  unfold DataSource.saveChild. destruct (negb _); [|apply only_return].
  apply only_bind; [apply only_lift | intros; now apply quiet_call].
Qed.

Lemma quiet_saveChildren (relation : RelationMetadata.t) (entity : value)
    (children : list value) :
  Quiet (DataSource.saveChildren relation entity children).
Proof.
  induction children as [|child rest IH]; simpl; [apply only_return|].
  apply only_bind; [apply quiet_saveChild|]. intros saved.
  apply only_bind; [exact IH | intros; apply only_return].
Qed.

Lemma quiet_cascadeChildren (relations : list RelationMetadata.t) (isUpdate : bool)
    (entity : value) :
  Quiet (DataSource.cascadeChildren relations isUpdate entity).
Proof.
  unfold DataSource.cascadeChildren. apply only_forEach. intros e relation.
  destruct (DataSource.cascades _ _); [|apply only_return].
  destruct (RelationMetadata.relationType relation); try apply only_return.
  - destruct (RelationMetadata.joinColumn relation); [apply only_return|].
    destruct (truthy _); [|apply only_return].
    apply only_bind; [apply quiet_saveChild | intros; apply only_return].
  - destruct (RelationMetadata.joinColumn relation);
      (destruct (prop e _); try apply only_return;
       apply only_bind; [apply quiet_saveChildren | intros; apply only_return]).
Qed.

Lemma quiet_saveItems (items : list value) : Quiet (DataSource.saveItems items).
Proof.
  induction items as [|item rest IH]; cbn [DataSource.saveItems];
    [apply only_return|].
  apply only_bind; [now apply quiet_call|]. intros saved.
  apply only_bind; [exact IH | intros; apply only_return].
Qed.

(** The many-to-many part issues junction rows only. *)
Lemma only_linkItem (target : class) (junctionTableName : string)
    (entity item : value) :
  Only JunctionInsert
    (DataSource.linkItem storage target junctionTableName entity item).
Proof.
  unfold DataSource.linkItem. apply only_bind; [apply only_lift|]. intros relatedId.
  destruct (_ && _); [|apply only_return].
  apply only_catch; [|intros; apply only_return].
  apply only_bind; [|intros; apply only_return].
  apply only_query. unfold JunctionInsert. simpl. eauto.
Qed.

Lemma only_linkManyToMany (table : EntityMetadata.t) (target : class)
    (relations : list RelationMetadata.t) (isUpdate : bool) (entity : value) :
  Only JunctionInsert
    (DataSource.linkManyToMany storage table target relations isUpdate entity).
Proof.
  unfold DataSource.linkManyToMany. apply only_forEach. intros e relation.
  destruct (RelationMetadata.relationType relation); try apply only_return.
  apply only_bind.
  - destruct (prop e _); try apply only_return.
    destruct (DataSource.cascades _ _); [|apply only_return].
    apply only_bind; [apply quiet_only, quiet_saveItems | intros; apply only_return].
  - intros e'. destruct (prop e' _) as [| | | | | |[|item items]|]; try apply only_return.
    destruct (findTable storage _); [|apply only_return].
    apply only_bind; [|intros; apply only_return].
    apply only_forEach. intros [] x. apply only_linkItem.
Qed.

(** The statement for the row of the entity. *)

(** On the insert path a truthy insert identifier ends up in the
    primary-key property. *)
Lemma persist_assigns_insertId (table : EntityMetadata.t) (target : class)
    (columns : list ColumnMetadata.t) (relations : list RelationMetadata.t)
    (entity persisted res : value) (pk : string) (w w1 : W) :
  DataSource.pkName storage target = Some pk ->
  pk <> "" ->
  (let q := SqlGenerator.insert table
              (columns ++ DataSource.fkColumns target relations persisted) persisted in
   DataSource.respond w
     (DataSource.ExecuteSql (SqlGenerator.query q) (SqlGenerator.params q))
   = (Ok res, w1)) ->
  nullish res = false ->
  truthy (prop res "insertId") = true ->
  DataSource.outcome
    (DataSource.run
       (DataSource.persist storage table target columns relations false entity persisted)
       w)
  = Ok (assign entity pk (prop res "insertId")).
Proof.
  intros Hpk Hne Hres Hn Ht. unfold DataSource.persist. simpl in *.
  rewrite Hres. simpl. unfold get. rewrite Hn. simpl. rewrite Hpk, Ht.
  apply String.eqb_neq in Hne. rewrite Hne. reflexivity.
Qed.

(** The text of the two kinds of row statement. *)
Lemma update_text (table : EntityMetadata.t) (values where_ : value)
    (q : SqlGenerator.Query) :
  SqlGenerator.update table values where_ = Ok q ->
  String.prefix ("UPDATE " ++ EntityMetadata.tableName table ++ " SET ")
    (SqlGenerator.query q) = true.
Proof.
  unfold SqlGenerator.update. intros Hq.
  destruct (keys values) as [ks|e]; cbn [Js.bind] in Hq; [|discriminate].
  destruct (truthy where_); [|discriminate].
  destruct (SqlGenerator.buildConditions where_) as [[clause whereValues]|e];
    cbn [Js.bind] in Hq; [|discriminate].
  injection Hq as <-. cbn [SqlGenerator.query].
  repeat first [rewrite append_assoc | rewrite prefix_app_l | progress simpl].
  apply prefix_empty.
Qed.

(** The [UPDATE] of the update path is filtered by the primary key. *)
Lemma update_by_primary_key (table : EntityMetadata.t) (target : class)
    (entity : value) (fields : list (string * value)) (pk : string) :
  DataSource.pkName storage target = Some pk ->
  pk <> "" ->
  typeof_object (prop entity pk) = false ->
  exists q assignments,
    SqlGenerator.update table (VObj fields) (DataSource.criteriaOf storage target entity)
    = Ok q
    /\ SqlGenerator.query q
       = "UPDATE " ++ EntityMetadata.tableName table ++ " SET " ++ assignments
         ++ " WHERE " ++ pk ++ " = ?"
    /\ SqlGenerator.params q
       = (map (prop (VObj fields)) (map fst fields) ++ [prop entity pk])%list.
Proof.
  intros Hpk Hne Hprim. apply String.eqb_neq in Hne.
  unfold DataSource.criteriaOf. rewrite Hpk, Hne.
  unfold SqlGenerator.update. cbn [keys bind truthy].
  rewrite FilterFacts.buildConditions_single.
  unfold SqlGenerator.condition. rewrite Hprim, andb_false_r. cbn [andb bind fst snd].
  eexists. exists (String.concat ", " (map (fun key => key ++ " = ?") (map fst fields))).
  split; [reflexivity|]. cbn [SqlGenerator.query SqlGenerator.params].
  split; [normalise; reflexivity | reflexivity].
Qed.

(** The entity handed to the database is an object. *)
Lemma isUpdate_spec (target : class) (entity : value) :
  DataSource.isUpdate storage target entity = true
  <-> exists pk, DataSource.pkName storage target = Some pk
                 /\ pk <> "" /\ truthy (prop entity pk) = true.
Proof.
  unfold DataSource.isUpdate. split.
  - destruct (DataSource.pkName storage target) as [pk|]; [|discriminate].
    intros Hb. apply andb_true_iff in Hb as [Hne Ht]. exists pk.
    repeat split; [|exact Ht].
    apply String.eqb_neq. now apply negb_true_iff in Hne.
  - intros (pk & -> & Hne & Ht). apply String.eqb_neq in Hne. now rewrite Hne, Ht.
Qed.

End Parts.

End Running.
End SaveFacts.

(** ** Materialisation of joined rows *)

Module MaterializeFacts.
Import JsFacts Spec.

(** *** The roots *)

Lemma seen_false (keys : list value) (k : value) :
  seen keys k = false -> forall a, In a keys -> strict_eq a k = false.
Proof.
  unfold seen. intros Hs a Ha.
  destruct (strict_eq a k) eqn:E; [|reflexivity].
  assert (existsb (fun k' => strict_eq k' k) keys = true)
    by (apply existsb_exists; exists a; now split).
  congruence.
Qed.

Lemma distinct_snoc (known : list value) (k : value) :
  Distinct known -> seen known k = false -> Distinct (known ++ [k])%list.
Proof.
  intros Hd Hs i j a b Hij Ha Hb.
  destruct (Nat.lt_ge_cases j (List.length known)) as [Hj|Hj].
  - rewrite nth_error_app1 in Ha by lia. rewrite nth_error_app1 in Hb by lia.
    exact (Hd i j a b Hij Ha Hb).
  - assert (Hlen : (j < List.length (known ++ [k]))%nat)
      by (apply nth_error_Some; congruence).
    rewrite length_app in Hlen. simpl in Hlen.
    assert (j = List.length known) by lia. subst j.
    rewrite nth_error_app2, Nat.sub_diag in Hb by lia. simpl in Hb.
    injection Hb as <-.
    rewrite nth_error_app1 in Ha by lia.
    apply (seen_false known k Hs). eapply nth_error_In. exact Ha.
Qed.

Lemma firstSeen_distinct (keys known : list value) :
  Distinct known -> Distinct (firstSeen known keys).
Proof.
  revert known. induction keys as [|k rest IH]; intros known Hd; simpl; [exact Hd|].
  apply IH. destruct (seen known k) eqn:E; [exact Hd | now apply distinct_snoc].
Qed.

Lemma distinct_nil : Distinct [].
Proof. intros i j a b _ Ha. destruct i; discriminate. Qed.

Lemma mapGet_seen (m : DataSource.entityMap) (k : value) :
  seen (map fst m) k = match DataSource.mapGet m k with Some _ => true | None => false end.
Proof.
  induction m as [|[k0 e0] rest IH]; simpl; [reflexivity|].
  destruct (strict_eq k0 k); simpl; [reflexivity | exact IH].
Qed.

Lemma mapSet_keys (m : DataSource.entityMap) (k e e0 : value) :
  DataSource.mapGet m k = Some e0 -> map fst (DataSource.mapSet m k e) = map fst m.
Proof.
  induction m as [|[k1 e1] rest IH]; simpl; [discriminate|].
  destruct (strict_eq k1 k); simpl; [reflexivity|].
  intros Hg. now rewrite IH.
Qed.

Section WithHost.
Context `{Host}.
Variable storage : MetadataArgsStorage.

(** What one row does to the keys of the entity map. *)
Lemma addRow_keys (target : class) (columns : list ColumnMetadata.t) (pkName : string)
    (relations : list string) (m m' : DataSource.entityMap) (row : value) :
  DataSource.addRow storage target columns pkName relations m row = Ok m' ->
  exists k,
    get row pkName = Ok k
    /\ map fst m'
       = (if nullish k then map fst m
          else if seen (map fst m) k then map fst m
               else (map fst m ++ [k])%list).
Proof.
  unfold DataSource.addRow. intros Hadd.
  destruct (get row pkName) as [k|e]; cbn [Js.bind] in Hadd; [|discriminate].
  exists k. split; [reflexivity|].
  destruct (nullish k); [now injection Hadd as <-|].
  rewrite mapGet_seen.
  destruct (DataSource.mapGet m k) as [entity|] eqn:Eg.
  - destruct (foldM _ relations entity) as [entity'|e]; cbn [Js.bind] in Hadd;
      [|discriminate].
    injection Hadd as <-. eapply mapSet_keys. exact Eg.
  - destruct (DataSource.newRoot storage target columns relations row) as [root|e];
      cbn [Js.bind] in Hadd; [|discriminate].
    destruct (foldM _ relations root) as [root'|e]; cbn [Js.bind] in Hadd;
      [|discriminate].
    injection Hadd as <-. rewrite map_app. reflexivity.
Qed.

Lemma addRows_keys (target : class) (columns : list ColumnMetadata.t) (pkName : string)
    (relations : list string) (rows : list value) :
  forall m m',
    foldM (DataSource.addRow storage target columns pkName relations) rows m = Ok m' ->
    exists raws,
      mapM (fun row => get row pkName) rows = Ok raws
      /\ map fst m' = firstSeen (map fst m) (filter (fun k => negb (nullish k)) raws).
Proof.
  induction rows as [|row rest IH]; intros m m' Hfold; simpl in *.
  - injection Hfold as <-. exists []. split; reflexivity.
  - destruct (DataSource.addRow storage target columns pkName relations m row)
      as [m1|e] eqn:Eadd; cbn [Js.bind] in Hfold; [|discriminate].
    destruct (addRow_keys _ _ _ _ _ _ _ Eadd) as (k & Hget & Hkeys).
    destruct (IH m1 m' Hfold) as (raws & Hraws & Hm').
    exists (k :: raws). rewrite Hget, Hraws. split; [reflexivity|].
    rewrite Hm', Hkeys. simpl. destruct (nullish k); reflexivity.
Qed.

(** The part of C4 on roots: the entity map has one entry per distinct
    primary-key value that is neither [null] nor [undefined], in the order in
    which the values first occur in the rows. *)
Lemma roots_in_first_seen_order (target : class) (rows : list value)
    (relations : list string) (m : DataSource.entityMap) :
  DataSource.materialize storage target rows relations = Ok m ->
  exists pkColumn raws,
    DataSource.keyColumn (columnsOf storage (IsClass target)) = Ok pkColumn
    /\ mapM (fun row => get row (SqlGenerator.columnName pkColumn)) rows = Ok raws
    /\ map fst m = firstSeen [] (filter (fun k => negb (nullish k)) raws)
    /\ Distinct (map fst m).
Proof.
  unfold DataSource.materialize. intros Hm.
  destruct (DataSource.keyColumn _) as [pkColumn|e]; cbn [Js.bind] in Hm;
    [|discriminate].
  destruct (addRows_keys _ _ _ _ _ _ _ Hm) as (raws & Hraws & Hkeys).
  exists pkColumn, raws. repeat split; try assumption.
  rewrite Hkeys. apply firstSeen_distinct, distinct_nil.
Qed.

(** *** The elements of a to-many relation *)

Lemma keyColumn_In (columns : list ColumnMetadata.t) (c : ColumnMetadata.t) :
  DataSource.keyColumn columns = Ok c -> In c columns.
Proof.
  unfold DataSource.keyColumn.
  destruct (find _ columns) as [c'|] eqn:Ef.
  - intros Hc. injection Hc as <-. now apply find_some in Ef.
  - destruct columns as [|c' rest]; [discriminate|].
    intros Hc. injection Hc as <-. now left.
Qed.

Lemma readColumns_cons (aliasOf : string -> string) (col : ColumnMetadata.t)
    (rest : list ColumnMetadata.t) (row entity : value) :
  DataSource.readColumns aliasOf (col :: rest) row entity
  = (let* entity :=
       (let* val := get row (aliasOf (SqlGenerator.columnName col)) in
        if negb (is_undefined val) then
          let* read := DataSource.transformValue col val in
          Ok (assign entity (ColumnMetadata.propertyName col) read)
        else Ok entity) in
     DataSource.readColumns aliasOf rest row entity).
Proof. reflexivity. Qed.

(** Reading the columns of a row leaves a property alone when no column
    writes to it. *)
Lemma readColumns_other (aliasOf : string -> string) (columns : list ColumnMetadata.t)
    (row : value) (p : string) :
  ~ In p (map ColumnMetadata.propertyName columns) ->
  forall fields entity,
    DataSource.readColumns aliasOf columns row (VObj fields) = Ok entity ->
    (exists fields', entity = VObj fields') /\ prop entity p = prop (VObj fields) p.
Proof.
  induction columns as [|col rest IH]; intros Hp fields entity Hread.
  - injection Hread as <-. split; [eexists|]; reflexivity.
  - rewrite readColumns_cons in Hread.
    destruct (get row _) as [val|e]; cbn [Js.bind] in Hread; [|discriminate].
    assert (Hrest : ~ In p (map ColumnMetadata.propertyName rest))
      by (intros Hin; apply Hp; now right).
    assert (Hne : (ColumnMetadata.propertyName col =? p) = false)
      by (apply String.eqb_neq; intros Heq; apply Hp; now left).
    destruct (negb (is_undefined val)).
    + destruct (DataSource.transformValue col val) as [read|e]; cbn [Js.bind] in Hread;
        [|discriminate].
      destruct (IH Hrest _ _ Hread) as [Hobj Hprop]. split; [exact Hobj|].
      rewrite Hprop. simpl. rewrite assoc_set_field, Hne. reflexivity.
    + cbn [Js.bind] in Hread. exact (IH Hrest _ _ Hread).
Qed.

(** The property of a column that is read back unchanged holds the value of
    the row. *)
Lemma readColumns_at (aliasOf : string -> string) (columns : list ColumnMetadata.t)
    (row : value) (c : ColumnMetadata.t) (v : value) :
  NoDup (map ColumnMetadata.propertyName columns) ->
  In c columns ->
  get row (aliasOf (SqlGenerator.columnName c)) = Ok v ->
  is_undefined v = false ->
  DataSource.transformValue c v = Ok v ->
  forall fields entity,
    DataSource.readColumns aliasOf columns row (VObj fields) = Ok entity ->
    prop entity (ColumnMetadata.propertyName c) = v.
Proof.
  induction columns as [|col rest IH]; intros Hnd Hin Hget Hdef Hplain fields entity Hread;
    [contradiction|].
  inversion Hnd as [|? ? Hnotin Hnd']; subst.
  rewrite readColumns_cons in Hread. destruct Hin as [->|Hin].
  - rewrite Hget in Hread. cbn [Js.bind] in Hread. rewrite Hdef in Hread.
    cbn [negb] in Hread. rewrite Hplain in Hread. cbn [Js.bind] in Hread.
    destruct (readColumns_other _ _ _ _ Hnotin _ _ Hread) as [_ Hprop].
    rewrite Hprop. apply prop_assign_same.
  - destruct (get row (aliasOf (SqlGenerator.columnName col))) as [val|e];
      cbn [Js.bind] in Hread; [|discriminate].
    destruct (negb (is_undefined val)).
    + destruct (DataSource.transformValue col val) as [read|e]; cbn [Js.bind] in Hread;
        [|discriminate].
      exact (IH Hnd' Hin Hget Hdef Hplain _ _ Hread).
    + cbn [Js.bind] in Hread. exact (IH Hnd' Hin Hget Hdef Hplain _ _ Hread).
Qed.

Lemma keysOf_app (p : string) (xs ys : list value) :
  keysOf p (xs ++ ys) = (keysOf p xs ++ keysOf p ys)%list.
Proof. apply map_app. Qed.

Lemma present_seen (p : string) (k : value) (items : list value) :
  DataSource.present p k items = seen (keysOf p items) k.
Proof.
  unfold DataSource.present, seen, keysOf.
  induction items as [|e rest IH]; simpl; [reflexivity | now rewrite IH].
Qed.

Lemma mapGet_In (m : DataSource.entityMap) (k e : value) :
  DataSource.mapGet m k = Some e -> exists k', In (k', e) m.
Proof.
  induction m as [|[k1 e1] rest IH]; simpl; [discriminate|].
  destruct (strict_eq k1 k).
  - intros He. injection He as <-. exists k1. now left.
  - intros Hg. destruct (IH Hg) as [k' Hin]. exists k'. now right.
Qed.

Lemma mapSet_In (m : DataSource.entityMap) (k e k1 e1 : value) :
  In (k1, e1) (DataSource.mapSet m k e) -> In (k1, e1) m \/ e1 = e.
Proof.
  induction m as [|[k0 e0] rest IH]; simpl.
  - intros [Heq|[]]. right. now injection Heq.
  - destruct (strict_eq k0 k); simpl.
    + intros [Heq|Hin]; [right; now injection Heq | left; now right].
    + intros [Heq|Hin]; [left; now left|].
      destruct (IH Hin) as [Hm|He]; [left; now right | now right].
Qed.

Section ToMany.
Variable target : class.
Variable relationName : string.
Variable relation : RelationMetadata.t.
Variable relatedClass : class.
Variable relatedPkCol : ColumnMetadata.t.

Hypothesis relation_found :
  DataSource.relationOf storage target relationName = Some relation.
Hypothesis relation_toMany : DataSource.toMany relation = true.
Hypothesis relation_resolves :
  resolve (RelationMetadata.type relation) = IsClass relatedClass.
Hypothesis related_key :
  DataSource.keyColumn (columnsOf storage (IsClass relatedClass)) = Ok relatedPkCol.
Hypothesis related_properties :
  NoDup (map ColumnMetadata.propertyName (columnsOf storage (IsClass relatedClass))).

(** The related primary key is read back as the row has it: the column has
    no transformer and no built-in rule rewrites its values. *)
Hypothesis related_key_unchanged :
  forall v, DataSource.transformValue relatedPkCol v = Ok v.

Lemma attach_deduplicated (row entity entity' : value) (name : string) :
  Deduplicated relationName (ColumnMetadata.propertyName relatedPkCol) entity ->
  DataSource.attach storage target row entity name = Ok entity' ->
  Deduplicated relationName (ColumnMetadata.propertyName relatedPkCol) entity'.
Proof.
  intros (fields & items & -> & Hitems & Hd). unfold DataSource.attach.
  destruct (name =? relationName) eqn:Ename.
  - apply String.eqb_eq in Ename. subst name.
    rewrite relation_found, relation_resolves. unfold findColumns, guarded.
    cbn [Js.bind]. rewrite related_key. cbn [Js.bind].
    destruct (get row _) as [relatedPkValue|e] eqn:Eget; cbn [Js.bind];
      [|discriminate].
    destruct (nullish relatedPkValue) eqn:Enull; cbn [negb].
    { intros He. injection He as <-. exists fields, items. now repeat split. }
    destruct (DataSource.readColumns _ _ row (VObj [])) as [relatedEntity|e] eqn:Eread;
      cbn [Js.bind]; [|discriminate].
    rewrite relation_toMany, Hitems.
    destruct (DataSource.present _ relatedPkValue items) eqn:Epresent.
    { intros He. injection He as <-. exists fields, items. now repeat split. }
    intros He. injection He as <-.
    destruct (assign_object relationName (VArr (items ++ [relatedEntity])) fields)
      as [fields' Hassign].
    exists fields', (items ++ [relatedEntity])%list. rewrite <- Hassign.
    split; [reflexivity|]. split; [apply prop_assign_same|].
    rewrite keysOf_app. cbn [keysOf map].
    assert (Hkey : prop relatedEntity (ColumnMetadata.propertyName relatedPkCol)
                   = relatedPkValue).
    { eapply (readColumns_at (fun colName => relationName ++ "_" ++ colName)).
      - exact related_properties.
      - apply keyColumn_In. exact related_key.
      - exact Eget.
      - destruct relatedPkValue; try reflexivity; discriminate.
      - apply related_key_unchanged.
      - exact Eread. }
    rewrite Hkey. apply distinct_snoc; [exact Hd|].
    rewrite <- present_seen. exact Epresent.
  - assert (Hother : forall x,
              Deduplicated relationName (ColumnMetadata.propertyName relatedPkCol)
                  (assign (VObj fields) name x)).
    { intros x. destruct (assign_object name x fields) as [fields' Hassign].
      exists fields', items. rewrite <- Hassign. split; [reflexivity|].
      split; [|exact Hd]. rewrite prop_assign, Ename. exact Hitems. }
    assert (Hsame :
      Deduplicated relationName (ColumnMetadata.propertyName relatedPkCol)
        (VObj fields))
      by (exists fields, items; now repeat split).
    destruct (DataSource.relationOf storage target name) as [other|];
      [|intros He; injection He as <-; exact Hsame].
    destruct (findColumns storage _) as [relatedColumns|e]; cbn [Js.bind];
      [|discriminate].
    destruct (DataSource.keyColumn relatedColumns) as [pk|e]; cbn [Js.bind];
      [|discriminate].
    destruct (get row _) as [relatedPkValue|e]; cbn [Js.bind]; [|discriminate].
    destruct (negb (nullish relatedPkValue));
      [|intros He; injection He as <-; exact Hsame].
    destruct (DataSource.readColumns _ _ row (VObj [])) as [relatedEntity|e];
      cbn [Js.bind]; [|discriminate].
    destruct (DataSource.toMany other).
    + destruct (prop (VObj fields) name) as [| | | | | |others|]; try discriminate.
      destruct (DataSource.present _ _ others);
        intros He; injection He as <-; [exact Hsame | apply Hother].
    + intros He. injection He as <-. apply Hother.
Qed.

Lemma attachAll_deduplicated (row : value) (relations : list string) :
  forall entity entity',
    Deduplicated relationName (ColumnMetadata.propertyName relatedPkCol) entity ->
    foldM (DataSource.attach storage target row) relations entity = Ok entity' ->
    Deduplicated relationName (ColumnMetadata.propertyName relatedPkCol) entity'.
Proof.
  induction relations as [|name rest IH]; intros entity entity' Hd Hfold; simpl in Hfold.
  - now injection Hfold as <-.
  - destruct (DataSource.attach storage target row entity name) as [e1|e] eqn:E1;
      cbn [Js.bind] in Hfold; [|discriminate].
    eapply IH; [|exact Hfold]. eapply attach_deduplicated; eassumption.
Qed.

(** A new root starts with an empty array for the relation. *)
Lemma newRoot_deduplicated (columns : list ColumnMetadata.t) (relations : list string)
    (row root : value) :
  In relationName relations ->
  DataSource.newRoot storage target columns relations row = Ok root ->
  Deduplicated relationName (ColumnMetadata.propertyName relatedPkCol) root.
Proof.
  intros Hin. unfold DataSource.newRoot.
  destruct (DataSource.readColumns _ columns row (VObj [])) as [entity|e] eqn:Eread;
    cbn [Js.bind]; [|discriminate].
  intros Hroot. injection Hroot as <-.
  assert (Hobj : exists fields, entity = VObj fields).
  { clear Hin. revert Eread. generalize (@nil (string * value)).
    induction columns as [|col rest IH]; intros fields Hread.
    - injection Hread as <-. eexists; reflexivity.
    - rewrite readColumns_cons in Hread.
      destruct (get row _) as [val|e]; cbn [Js.bind] in Hread; [|discriminate].
      destruct (negb (is_undefined val)).
      + destruct (DataSource.transformValue col val) as [read|e];
          cbn [Js.bind] in Hread; [|discriminate].
        destruct (assign_object (ColumnMetadata.propertyName col) read fields)
          as [fields' Hassign].
        rewrite Hassign in Hread. exact (IH _ Hread).
      + cbn [Js.bind] in Hread. exact (IH _ Hread). }
  destruct Hobj as [fields ->]. clear Eread.
  assert (Hgen : forall names fields0,
    In relationName names \/ prop (VObj fields0) relationName = VArr [] ->
    exists fields1,
      fold_left
        (fun entity name =>
           match DataSource.relationOf storage target name with
           | Some r =>
               if DataSource.toMany r then assign entity name (VArr [])
               else assign entity name VNull
           | None => entity
           end) names (VObj fields0) = VObj fields1
      /\ prop (VObj fields1) relationName = VArr []).
  { induction names as [|name rest IH]; intros fields0 Hor.
    - destruct Hor as [[]|Hp]. exists fields0. now split.
    - cbn [fold_left]. destruct (name =? relationName) eqn:Ename.
      + apply String.eqb_eq in Ename. subst name.
        rewrite relation_found, relation_toMany.
        destruct (assign_object relationName (VArr []) fields0) as [f1 Hf1].
        rewrite Hf1. apply IH. right. rewrite <- Hf1. apply prop_assign_same.
      + assert (Hrest : In relationName rest
                        \/ prop (VObj fields0) relationName = VArr []).
        { destruct Hor as [[Heq|Hin']|Hp]; [|now left|now right].
          subst name. now rewrite String.eqb_refl in Ename. }
        destruct (DataSource.relationOf storage target name) as [r|]; [|now apply IH].
        destruct (DataSource.toMany r).
        * destruct (assign_object name (VArr []) fields0) as [f1 Hf1].
          rewrite Hf1. apply IH. destruct Hrest as [Hr|Hp]; [now left|right].
          rewrite <- Hf1, prop_assign, Ename. exact Hp.
        * destruct (assign_object name VNull fields0) as [f1 Hf1].
          rewrite Hf1. apply IH. destruct Hrest as [Hr|Hp]; [now left|right].
          rewrite <- Hf1, prop_assign, Ename. exact Hp. }
  destruct (Hgen relations fields (or_introl Hin)) as (fields1 & Hfold & Hprop).
  rewrite Hfold. exists fields1, []. repeat split; [exact Hprop|].
  apply distinct_nil.
Qed.

Lemma addRow_deduplicated (columns : list ColumnMetadata.t) (pkName : string)
    (relations : list string) (m m' : DataSource.entityMap) (row : value) :
  In relationName relations ->
  (forall k e, In (k, e) m ->
    Deduplicated relationName (ColumnMetadata.propertyName relatedPkCol)
      e) ->
  DataSource.addRow storage target columns pkName relations m row = Ok m' ->
  forall k e, In (k, e) m' ->
    Deduplicated relationName (ColumnMetadata.propertyName relatedPkCol)
      e.
Proof.
  intros Hin Hall. unfold DataSource.addRow.
  destruct (get row pkName) as [pkValue|e0]; cbn [Js.bind]; [|discriminate].
  destruct (nullish pkValue); [intros Hm; now injection Hm as <-|].
  destruct (DataSource.mapGet m pkValue) as [entity|] eqn:Eg.
  - destruct (foldM _ relations entity) as [entity'|e0] eqn:Ef; cbn [Js.bind];
      [|discriminate].
    intros Hm. injection Hm as <-. intros k e Hke.
    destruct (mapSet_In _ _ _ _ _ Hke) as [Hold | ->]; [now apply (Hall k)|].
    destruct (mapGet_In _ _ _ Eg) as [k' Hk'].
    eapply attachAll_deduplicated; [|exact Ef]. now apply (Hall k').
  - destruct (DataSource.newRoot storage target columns relations row) as [root|e0]
      eqn:Er; cbn [Js.bind]; [|discriminate].
    destruct (foldM _ relations root) as [root'|e0] eqn:Ef; cbn [Js.bind];
      [|discriminate].
    intros Hm. injection Hm as <-. intros k e Hke.
    apply in_app_or in Hke as [Hold|[Hnew|[]]]; [now apply (Hall k)|].
    injection Hnew as <- <-.
    eapply attachAll_deduplicated; [|exact Ef].
    eapply newRoot_deduplicated; eassumption.
Qed.

(** The part of C4 on relation arrays, where it holds: when the primary key
    of the related type is read back unchanged, the array of a to-many
    relation that was asked for holds no two elements with the same key. *)
Lemma relation_array_without_duplicates (rows : list value) (relations : list string)
    (m : DataSource.entityMap) :
  In relationName relations ->
  DataSource.materialize storage target rows relations = Ok m ->
  forall k root, In (k, root) m ->
    Deduplicated relationName (ColumnMetadata.propertyName relatedPkCol)
      root.
Proof.
  intros Hin. unfold DataSource.materialize.
  destruct (DataSource.keyColumn (columnsOf storage (IsClass target)))
    as [pkColumn|e]; cbn [Js.bind]; [|discriminate].
  assert (Hgen : forall rows m0 m1,
    (forall k e, In (k, e) m0 ->
      Deduplicated relationName (ColumnMetadata.propertyName relatedPkCol)
        e) ->
    foldM (DataSource.addRow storage target (columnsOf storage (IsClass target))
             (SqlGenerator.columnName pkColumn) relations) rows m0 = Ok m1 ->
    forall k e, In (k, e) m1 ->
      Deduplicated relationName (ColumnMetadata.propertyName relatedPkCol)
        e).
  { clear rows m. induction rows as [|row rest IH]; intros m0 m1 Hall Hfold;
      simpl in Hfold.
    - now injection Hfold as <-.
    - destruct (DataSource.addRow _ _ _ _ _ m0 row) as [m2|e] eqn:Eadd;
        cbn [Js.bind] in Hfold; [|discriminate].
      eapply IH; [|exact Hfold].
      eapply addRow_deduplicated; eassumption. }
  intros Hm. eapply Hgen; [|exact Hm]. intros k e [].
Qed.

End ToMany.

(** *** The listeners *)

Section Listeners.
Context {W : Type} `{DataSource.World W}.
Variable target : class.

(** Listeners that return and leave their receiver as it is. *)
Hypothesis listeners_return :
  forall w receiver method,
    fst (DataSource.respond w (DataSource.Invoke receiver method)) = Ok receiver.

Lemma callListeners_events (type : ListenerType.t) (entity : value) (w : W) :
  exists w',
    DataSource.run (DataSource.callListeners storage target type entity) w
    = (Ok entity, w',
       map (fun l => DataSource.Invoke entity (EntityListenerMetadata.propertyName l))
         (filter (fun l => DataSource.callable target entity
                             (EntityListenerMetadata.propertyName l))
            (listenersOf storage (IsClass target) type))).
Proof.
  unfold DataSource.callListeners.
  generalize (listenersOf storage (IsClass target) type) as listeners.
  intros listeners. revert w.
  induction listeners as [|l rest IH]; intros w; cbn [DataSource.forEach].
  - exists w. reflexivity.
  - rewrite RunFacts.run_bind. cbn [filter].
    destruct (DataSource.callable target entity (EntityListenerMetadata.propertyName l)).
    + rewrite RunFacts.run_await, listeners_return.
      destruct (IH (snd (DataSource.respond w
                           (DataSource.Invoke entity
                              (EntityListenerMetadata.propertyName l))))) as [w' ->].
      exists w'. reflexivity.
    + cbn [DataSource.run]. destruct (IH w) as [w' ->]. exists w'. reflexivity.
Qed.

(** The part of C4 on listeners: each root, in order, gets one call of each
    [AfterLoad] listener that is a method of it. *)
Lemma listeners_called_once_per_root (roots : list value) (w : W) :
  exists w',
    DataSource.run (DataSource.loadAll storage target roots) w
    = (Ok roots, w',
       flat_map
         (fun root =>
            map (fun l => DataSource.Invoke root (EntityListenerMetadata.propertyName l))
              (filter (fun l => DataSource.callable target root
                                  (EntityListenerMetadata.propertyName l))
                 (listenersOf storage (IsClass target) ListenerType.AfterLoad)))
         roots).
Proof.
  revert w. induction roots as [|root rest IH]; intros w; cbn [DataSource.loadAll].
  - exists w. reflexivity.
  - rewrite RunFacts.run_bind.
    destruct (callListeners_events ListenerType.AfterLoad root w) as [w1 ->].
    rewrite RunFacts.run_bind. destruct (IH w1) as [w' ->].
    exists w'. cbn [DataSource.run flat_map]. rewrite app_nil_r. reflexivity.
Qed.

End Listeners.

End WithHost.

(** C4, at a related type whose primary-key column has a transformer.  The
    sample rows join user 1 with the posts 5 and 6 and with the ticket 7, so
    the ticket comes twice.  The posts are kept once each, but the ticket,
    whose key the transformer [shifted] reads back as 1007, is kept twice:
    the search compares the transformed key of the elements with the raw key
    of the row.  There is one root, and its [AfterLoad] listener is called
    once. *)
Theorem transformed_key_defeats_deduplication :
  @DataSource.run nat Blog.accepting (list value)
    (@DataSource.mapResults Blog.host Blog.storage Blog.User Blog.joined
       ["posts"; "tickets"]) 0%nat
  = (let root :=
       VObj [("id", VNum 1); ("name", VStr "Alice");
             ("posts",
              VArr [VObj [("id", VNum 5); ("title", VStr "first")];
                    VObj [("id", VNum 6); ("title", VStr "second")]]);
             ("tickets",
              VArr [VObj [("id", VNum 1007); ("subject", VStr "login")];
                    VObj [("id", VNum 1007); ("subject", VStr "login")]])] in
     (Ok [root], 0%nat, [DataSource.Invoke root "onLoad"])).
Proof. vm_compute. reflexivity. Qed.

End MaterializeFacts.

(** ** The theorems at work on the sample schema *)

Module Checks.

(** C7 as stated fails: the save of a user that has a primary key takes the
    update path, and issues an [INSERT] for the junction row of its
    category. *)
Lemma update_path_inserts_a_junction_row :
  @DataSource.isUpdate Blog.storage Blog.User Blog.alice = true
  /\ @Spec.issued nat Blog.accepting value
       (@DataSource.save Blog.host Blog.storage 0 Blog.User Blog.alice) 0%nat
     = [DataSource.ExecuteSql
          "UPDATE users SET id = ?, name = ?, updatedAt = ?, version = ? WHERE id = ?"
          [VNum 7; VStr "Alice"; VDate (Some 0%Z); VNum 1; VNum 7];
        DataSource.ExecuteSql "INSERT INTO users_categories VALUES (?, ?)"
          [VNum 7; VNum 2]]
  /\ exists sql params,
       In (DataSource.ExecuteSql sql params)
         (@Spec.issued nat Blog.accepting value
            (@DataSource.save Blog.host Blog.storage 0 Blog.User Blog.alice) 0%nat)
       /\ String.prefix "INSERT" sql = true.
Proof.
  split; [reflexivity|]. split; [vm_compute; reflexivity|].
  exists "INSERT INTO users_categories VALUES (?, ?)", [VNum 7; VNum 2].
  split; [vm_compute; right; left; reflexivity | reflexivity].
Qed.

(** C5 as stated fails on the update path: a version of [2^53] is followed
    by [2^53], not by [2^53 + 1], which is not a number of JavaScript. *)
Lemma version_stops_at_the_largest_exact_number :
  let entity :=
    VObj [("id", VNum 7); ("name", VStr "Alice"); ("version", VNum 9007199254740992)] in
  @DataSource.isUpdate Blog.storage Blog.User entity = true
  /\ @DataSource.execute Blog.host nat Blog.accepting Blog.storage 0 Blog.constructorOf 1
       value (@DataSource.save Blog.host Blog.storage 0 Blog.User entity) 0%nat
     = Some
         (Ok (VObj [("id", VNum 7); ("name", VStr "Alice");
                    ("version", VNum 9007199254740992);
                    ("updatedAt", VDate (Some 0%Z))]),
          1%nat,
          [DataSource.ExecuteSql
             "UPDATE users SET id = ?, name = ?, updatedAt = ?, version = ? WHERE id = ?"
             [VNum 7; VStr "Alice"; VDate (Some 0%Z); VNum 9007199254740992; VNum 7]])
  /\ VNum 9007199254740992 <> VNum (9007199254740992 + 1).
Proof.
  split; [reflexivity|]. split; [vm_compute; reflexivity | discriminate].
Qed.

(** C9 as stated fails when the driver refuses a statement of the wrapper.
    The callback [rename] completes, and the driver refuses [COMMIT]: the
    result of the callback is not returned, [ROLLBACK] follows [COMMIT], and
    the error of [COMMIT] is thrown.  The callback [failing] throws
    [Error "no such post"], and the driver refuses [ROLLBACK]: the caller gets
    the error of [ROLLBACK], not the original one. *)
Lemma refused_commit_is_not_a_result :
  @DataSource.run nat (Blog.refusing "COMMIT") value Blog.rename 1%nat
  = (Ok (VNum 1), 2%nat,
     [DataSource.ExecuteSql "UPDATE posts SET title = ? WHERE id = ?" [VStr "t"; VNum 5]])
  /\ @DataSource.execute Blog.host nat (Blog.refusing "COMMIT") Blog.storage 0
       Blog.constructorOf 0 value (DataSource.transaction Blog.rename) 0%nat
     = Some
         (Throw (Error "database is locked"), 3%nat,
          [DataSource.BEGIN;
           DataSource.ExecuteSql "UPDATE posts SET title = ? WHERE id = ?"
             [VStr "t"; VNum 5];
           DataSource.COMMIT; DataSource.ROLLBACK])
  /\ @DataSource.run nat (Blog.refusing "ROLLBACK") value Blog.failing 1%nat
     = (Throw (Error "no such post"), 2%nat,
        [DataSource.ExecuteSql "UPDATE posts SET title = ? WHERE id = ?"
           [VStr "t"; VNum 5]])
  /\ @DataSource.execute Blog.host nat (Blog.refusing "ROLLBACK") Blog.storage 0
       Blog.constructorOf 0 value (DataSource.transaction Blog.failing) 0%nat
     = Some
         (Throw (Error "database is locked"), 2%nat,
          [DataSource.BEGIN;
           DataSource.ExecuteSql "UPDATE posts SET title = ? WHERE id = ?"
             [VStr "t"; VNum 5];
           DataSource.ROLLBACK]).
Proof. repeat split; vm_compute; reflexivity. Qed.

(** The posts of the sample schema have a plain key: whatever the rows, no
    root holds a post twice. *)
Lemma sample_posts_are_deduplicated (rows : list value) (m : DataSource.entityMap) :
  @DataSource.materialize Blog.host Blog.storage Blog.User rows ["posts"; "tickets"]
  = Ok m ->
  forall k root, In (k, root) m -> Spec.Deduplicated "posts" "id" root.
Proof.
  intros Hm k root Hin.
  refine (@MaterializeFacts.relation_array_without_duplicates Blog.host Blog.storage
            Blog.User "posts"
            (Blog.relation Blog.User "posts" RelationType.OneToMany Blog.Post
               (Some "author"))
            Blog.Post (Blog.column Blog.Post "id" Blog.generatedKey None)
            eq_refl eq_refl eq_refl eq_refl _ _ rows ["posts"; "tickets"] m _ Hm k root
            Hin).
  - simpl. repeat constructor; simpl; intuition discriminate.
  - intros v. unfold DataSource.transformValue. simpl. reflexivity.
  - now left.
Qed.

Lemma select_filters_soft_deleted_witness :
  let q := {| SqlGenerator.query :=
                "SELECT users.* FROM users WHERE users.deletedAt IS NULL";
              SqlGenerator.params := [] |} in
  @SqlGenerator.select Blog.host Blog.storage Blog.users VUndefined [] VUndefined
    VUndefined VUndefined None false = Ok q
  /\ exists clauses ordering,
       @SqlGenerator.filterClauses Blog.host VUndefined
       = Ok (clauses, SqlGenerator.params q)
       /\ SqlGenerator.orderSql VUndefined = Ok ordering.
Proof.
  intros q. split; [reflexivity|].
  destruct (@SelectFacts.select_filters_soft_deleted Blog.host Blog.storage Blog.users
              VUndefined [] VUndefined VUndefined VUndefined None false q eq_refl)
    as (clauses & ordering & Hf & Ho & _).
  exists clauses, ordering. split; assumption.
Defined.

Lemma one_to_many_join_column_witness :
  exists fkName,
    @SqlGenerator.joinClause Blog.storage Blog.users "posts"
    = " LEFT JOIN posts ON posts." ++ fkName ++ " = users.id".
Proof.
  destruct (@RelationFacts.one_to_many_join_column Blog.host Blog.storage Blog.users
              "posts"
              (Blog.relation Blog.User "posts" RelationType.OneToMany Blog.Post
                 (Some "author"))
              eq_refl eq_refl)
    as (fkName & Hjoin & _).
  exists fkName. exact Hjoin.
Defined.

End Checks.

(** ** Texts *)

Module TextFacts.
Import JsFacts Shape.

Lemma append_empty (s : string) : s ++ "" = s.
Proof. induction s as [|c s IH]; simpl; [reflexivity | now rewrite IH]. Qed.

Lemma placeholdersIn_app (a b : string) :
  placeholdersIn (a ++ b) = (placeholdersIn a + placeholdersIn b)%nat.
Proof. induction a as [|c a IH]; simpl; [reflexivity | rewrite IH; lia]. Qed.

Lemma concat_cons (sep x y : string) (rest : list string) :
  String.concat sep (x :: y :: rest) = x ++ sep ++ String.concat sep (y :: rest).
Proof. reflexivity. Qed.

Lemma placeholdersIn_concat (sep : string) (xs : list string) :
  placeholdersIn sep = 0%nat ->
  placeholdersIn (String.concat sep xs) = list_sum (map placeholdersIn xs).
Proof.
  intros Hsep. induction xs as [|x [|y rest] IH].
  - reflexivity.
  - simpl. lia.
  - rewrite concat_cons, !placeholdersIn_app, Hsep, IH. simpl. lia.
Qed.

Lemma placeholdersIn_placeholders {A} (xs : list A) :
  placeholdersIn (SqlGenerator.placeholders xs) = List.length xs.
Proof.
  unfold SqlGenerator.placeholders. rewrite placeholdersIn_concat by reflexivity.
  induction xs as [|x xs IH]; simpl; [reflexivity | now rewrite IH].
Qed.

Lemma length_concat {A} (xss : list (list A)) :
  List.length (concat xss) = list_sum (map (@List.length A) xss).
Proof.
  induction xss as [|xs xss IH]; simpl; [reflexivity|].
  now rewrite length_app, IH.
Qed.

Lemma existsb_In (k : string) (ks : list string) :
  existsb (String.eqb k) ks = true <-> In k ks.
Proof.
  rewrite existsb_exists. split.
  - intros (k' & Hin & Heq). apply String.eqb_eq in Heq. now subst k'.
  - intros Hin. exists k. split; [exact Hin | apply String.eqb_refl].
Qed.

End TextFacts.
(** ** Filters, operator by operator *)

Module OperatorFacts.
Import JsFacts TextFacts Shape.

Section WithHost.
Context `{Host}.

Lemma buildConditions_one (key : string) (v : value) (text : string)
    (values : list value) :
  SqlGenerator.condition key v = Ok (text, values) ->
  SqlGenerator.buildConditions (VObj [(key, v)]) = Ok (text, values).
Proof.
  intros Hc. rewrite FilterFacts.buildConditions_single, Hc. simpl.
  now rewrite app_nil_r.
Qed.

(** X1.  Each operator of [operators.ts] other than [Not], used as the value
    of one key, yields the comparison of its own case: the case-insensitive
    operators yield a plain [LIKE], the pattern operators add their [%] to the
    parameter, [In] one placeholder per element, [IsNull] and [Raw] no
    parameter. *)
Theorem operators_reach_their_case (key : string) (s : string) (n : Z)
    (a b v : value) (items : list value) :
  let where_ := fun operand => SqlGenerator.buildConditions (VObj [(key, operand)]) in
  where_ (Operators.Like s) = Ok (key ++ " LIKE ?", [VStr s])
  /\ where_ (Operators.ILike s) = Ok (key ++ " LIKE ?", [VStr s])
  /\ where_ (Operators.Contains s) = Ok (key ++ " LIKE ?", [VStr ("%" ++ s ++ "%")])
  /\ where_ (Operators.IContains s) = Ok (key ++ " LIKE ?", [VStr ("%" ++ s ++ "%")])
  /\ where_ (Operators.StartsWith s) = Ok (key ++ " LIKE ?", [VStr (s ++ "%")])
  /\ where_ (Operators.IStartsWith s) = Ok (key ++ " LIKE ?", [VStr (s ++ "%")])
  /\ where_ (Operators.EndsWith s) = Ok (key ++ " LIKE ?", [VStr ("%" ++ s)])
  /\ where_ (Operators.IEndsWith s) = Ok (key ++ " LIKE ?", [VStr ("%" ++ s)])
  /\ where_ (Operators.In items)
     = Ok (key ++ " IN (" ++ SqlGenerator.placeholders items ++ ")", items)
  /\ where_ (Operators.LessThan n) = Ok (key ++ " < ?", [VNum n])
  /\ where_ (Operators.MoreThan n) = Ok (key ++ " > ?", [VNum n])
  /\ where_ (Operators.LessThanOrEqual n) = Ok (key ++ " <= ?", [VNum n])
  /\ where_ (Operators.MoreThanOrEqual n) = Ok (key ++ " >= ?", [VNum n])
  /\ where_ (Operators.Between a b) = Ok (key ++ " BETWEEN ? AND ?", [a; b])
  /\ where_ Operators.IsNull = Ok (key ++ " IS NULL", [])
  /\ where_ (Operators.Equal v) = Ok (key ++ " = ?", [v])
  /\ where_ (Operators.Raw s) = Ok (key ++ " " ++ s, []).
Proof.
  intros where_. unfold where_.
  repeat split; apply buildConditions_one; reflexivity.
Qed.

(** One condition has as many placeholders as it pushes values, when the key
    has none and the node is not [Raw]. *)
Lemma condition_placeholders (key : string) (v : value) (text : string)
    (values : list value) :
  placeholdersIn key = 0%nat ->
  SqlGenerator.matches (prop v "operator") OperatorType.Raw = false ->
  SqlGenerator.condition key v = Ok (text, values) ->
  placeholdersIn text = List.length values.
Proof.
  intros Hkey Hraw. unfold SqlGenerator.condition. rewrite Hraw.
  repeat match goal with
         | |- context [if ?b then _ else _] => destruct b
         | |- context [match prop ?x "value" with _ => _ end] =>
             destruct (prop x "value")
         | |- context [Js.bind ?r _] => destruct r; simpl
         end;
    try discriminate;
    intros [= <- <-];
    rewrite ?placeholdersIn_app, ?Hkey; simpl;
    rewrite ?placeholdersIn_app, ?placeholdersIn_placeholders; simpl; lia.
Qed.

End WithHost.
End OperatorFacts.
(** ** Placeholders and parameters *)

Module PlaceholderFacts.
Import JsFacts TextFacts OperatorFacts Shape.

Lemma mapM_Forall {A B} (f : A -> result B) (P : B -> Prop) (xs : list A)
    (ys : list B) :
  (forall x y, In x xs -> f x = Ok y -> P y) ->
  mapM f xs = Ok ys -> Forall P ys.
Proof.
  revert ys. induction xs as [|x xs IH]; intros ys Hf; simpl.
  - intros [= <-]. constructor.
  - destruct (f x) as [y|e] eqn:Ey; simpl; [|discriminate].
    destruct (mapM f xs) as [ys'|e] eqn:Eys; simpl; [|discriminate].
    intros [= <-]. constructor.
    + apply (Hf x y); [now left | exact Ey].
    + apply IH; [|reflexivity]. intros x' y' Hin. apply Hf. now right.
Qed.


Section WithHost.
Context `{Host}.

Lemma buildConditions_placeholders (where_ : value) (clause : string)
    (values : list value) :
  Plain where_ ->
  SqlGenerator.buildConditions where_ = Ok (clause, values) ->
  placeholdersIn clause = List.length values.
Proof.
  intros (ks & Hks & Hplain). unfold SqlGenerator.buildConditions. rewrite Hks. simpl.
  destruct (mapM _ ks) as [conditions|e] eqn:Em; simpl; [|discriminate].
  intros [= <- <-].
  rewrite placeholdersIn_concat by reflexivity. rewrite length_concat.
  assert (Hall : Forall (fun c => placeholdersIn (fst c) = List.length (snd c))
                   conditions).
  { eapply mapM_Forall; [|exact Em]. intros k [text vs] Hin Hc. simpl.
    destruct (Hplain k Hin) as [Hk Hraw].
    exact (condition_placeholders k _ text vs Hk Hraw Hc). }
  clear Em. induction Hall as [|c cs Hc _ IH]; simpl; [reflexivity|].
  now rewrite Hc, IH.
Qed.

Section Filtered.
Variable storage : MetadataArgsStorage.
Variable metadata : EntityMetadata.t.
Variable where_ : value.
Hypothesis table_is_a_name : placeholdersIn (EntityMetadata.tableName metadata) = 0%nat.
Hypothesis filter_is_plain : Plain where_.

Ltac count_placeholders :=
  repeat first
    [ rewrite placeholdersIn_app
    | rewrite placeholdersIn_concat by reflexivity
    | rewrite table_is_a_name
    | progress simpl ].

(** X2.  The statements built on a filter bind one value per placeholder: the
    condition itself, [DELETE], [SELECT COUNT], [UPDATE] (its assignments
    first), the counter update (the amount first).  The statements of
    [softRemove] and [recover] are returned with the values of the condition
    only:  [softRemove] leaves the value of its first placeholder, the
    timestamp, to its caller. *)
Theorem filters_bind_one_value_per_placeholder :
  (forall clause values,
      SqlGenerator.buildConditions where_ = Ok (clause, values) ->
      placeholdersIn clause = List.length values)
  /\ (forall q,
         SqlGenerator.delete metadata where_ = Ok q ->
         placeholdersIn (SqlGenerator.query q) = List.length (SqlGenerator.params q))
  /\ (forall q,
         SqlGenerator.count metadata where_ = Ok q ->
         placeholdersIn (SqlGenerator.query q) = List.length (SqlGenerator.params q))
  /\ (forall values assigned q,
         keys values = Ok assigned ->
         Forall (fun key => placeholdersIn key = 0%nat) assigned ->
         SqlGenerator.update metadata values where_ = Ok q ->
         placeholdersIn (SqlGenerator.query q) = List.length (SqlGenerator.params q))
  /\ (forall propertyPath amount mode q,
         placeholdersIn propertyPath = 0%nat ->
         SqlGenerator.updateCounter metadata where_ propertyPath amount mode = Ok q ->
         placeholdersIn (SqlGenerator.query q) = List.length (SqlGenerator.params q))
  /\ (forall deleteDateCol q,
         SqlGenerator.deleteDateCol storage (EntityMetadata.target metadata)
         = Some deleteDateCol ->
         placeholdersIn (SqlGenerator.columnName deleteDateCol) = 0%nat ->
         (SqlGenerator.softRemove storage metadata where_ = Ok q ->
          placeholdersIn (SqlGenerator.query q)
          = S (List.length (SqlGenerator.params q)))
         /\ (SqlGenerator.recover storage metadata where_ = Ok q ->
             placeholdersIn (SqlGenerator.query q)
             = List.length (SqlGenerator.params q))).
Proof.
  pose proof (fun clause values => buildConditions_placeholders where_ clause values
                                     filter_is_plain) as Hb.
  split; [exact Hb|]. split; [|split; [|split; [|split]]].
  - intros q. unfold SqlGenerator.delete.
    destruct (truthy where_); [|discriminate].
    destruct (SqlGenerator.buildConditions where_) as [[clause values]|e] eqn:E;
      simpl; [|discriminate].
    intros [= <-]. count_placeholders. now rewrite (Hb clause values).
  - intros q. unfold SqlGenerator.count.
    destruct (truthy where_).
    + destruct (SqlGenerator.buildConditions where_) as [[clause values]|e] eqn:E;
        simpl; [|discriminate].
      intros [= <-]. count_placeholders. now rewrite (Hb clause values).
    + intros [= <-]. count_placeholders. reflexivity.
  - intros values assigned q Hkeys Hclean. unfold SqlGenerator.update.
    rewrite Hkeys. simpl.
    destruct (truthy where_); [|discriminate].
    destruct (SqlGenerator.buildConditions where_) as [[clause whereValues]|e] eqn:E;
      simpl; [|discriminate].
    intros [= <-]. count_placeholders.
    rewrite (Hb clause whereValues) by reflexivity.
    rewrite length_app, length_map. f_equal.
    clear Hkeys. induction Hclean as [|key rest Hkey _ IH]; simpl; [reflexivity|].
    rewrite placeholdersIn_app, Hkey, IH. reflexivity.
  - intros propertyPath amount mode q Hpath. unfold SqlGenerator.updateCounter.
    destruct (truthy where_).
    + destruct (SqlGenerator.buildConditions where_) as [[clause values]|e] eqn:E;
        simpl; [|discriminate].
      intros [= <-]. count_placeholders. rewrite Hpath, (Hb clause values) by reflexivity.
      destruct mode; simpl; lia.
    + intros [= <-]. count_placeholders. rewrite Hpath. destruct mode; reflexivity.
  - intros c q Hcol Hname. unfold SqlGenerator.softRemove, SqlGenerator.recover.
    rewrite Hcol. split.
    + destruct (truthy where_); [|discriminate].
      destruct (SqlGenerator.buildConditions where_) as [[clause values]|e] eqn:E;
        simpl; [|discriminate].
      intros [= <-]. count_placeholders. rewrite Hname, (Hb clause values) by reflexivity.
      simpl. lia.
    + destruct (truthy where_); [|discriminate].
      destruct (SqlGenerator.buildConditions where_) as [[clause values]|e] eqn:E;
        simpl; [|discriminate].
      intros [= <-]. count_placeholders. rewrite Hname, (Hb clause values) by reflexivity.
      simpl. lia.
Qed.

End Filtered.
End WithHost.
End PlaceholderFacts.
(** ** [INSERT] and upsert *)

Module InsertFacts.
Import JsFacts TextFacts PlaceholderFacts Shape.




(** Reading the properties of an entity that is there never throws. *)
Lemma read_properties (entity : value) (columns : list ColumnMetadata.t) :
  nullish entity = false ->
  mapM (fun c => get entity (ColumnMetadata.propertyName c)) columns
  = Ok (map (fun c => prop entity (ColumnMetadata.propertyName c)) columns).
Proof.
  intros Hthere. induction columns as [|c columns IH]; simpl; [reflexivity|].
  unfold get at 1. rewrite Hthere. simpl. now rewrite IH.
Qed.

(** Two texts [x ++ s ++ x] and [y ++ s ++ y] are equal only if [x = y]. *)
Lemma append_same_length (x y a b : string) :
  String.length x = String.length y -> x ++ a = y ++ b -> x = y.
Proof.
  revert y. induction x as [|c x IH]; intros [|d y]; simpl; try discriminate.
  - reflexivity.
  - intros [= Hlen] [= -> Hrest]. f_equal. now apply IH.
Qed.

Lemma length_append (a b : string) :
  String.length (a ++ b) = (String.length a + String.length b)%nat.
Proof. induction a as [|c a IH]; simpl; [reflexivity | now rewrite IH]. Qed.

Lemma clause_of_column (x y : string) :
  x ++ "=excluded." ++ x = y ++ "=excluded." ++ y -> x = y.
Proof.
  intros Heq. apply (append_same_length x y ("=excluded." ++ x) ("=excluded." ++ y));
    [|exact Heq].
  apply (f_equal String.length) in Heq. rewrite !length_append in Heq. simpl in Heq. lia.
Qed.

Section Inserted.
Variable metadata : EntityMetadata.t.
Variable columns : list ColumnMetadata.t.
Hypothesis table_is_a_name : placeholdersIn (EntityMetadata.tableName metadata) = 0%nat.
Hypothesis columns_are_names :
  Forall (fun c => placeholdersIn (SqlGenerator.columnName c) = 0%nat) columns.




End Inserted.

(** X4.  An upsert of an entity that is there always builds its statement.
    Without conflict paths it is the [INSERT] itself; with conflict paths the
    [INSERT] is followed by [ON CONFLICT(paths) DO UPDATE SET] and one
    assignment [col=excluded.col] for each column that is not a conflict path,
    and for no other. *)
Theorem upsert_updates_the_other_columns (metadata : EntityMetadata.t)
    (columns : list ColumnMetadata.t) (entity : value) :
  nullish entity = false ->
  let q := SqlGenerator.insert metadata columns entity in
  let names := map SqlGenerator.columnName columns in
  SqlGenerator.upsert metadata columns entity [] = Ok q
  /\ (forall path paths,
         SqlGenerator.upsert metadata columns entity (path :: paths)
         = Ok {| SqlGenerator.query :=
                   SqlGenerator.query q ++ " ON CONFLICT("
                   ++ String.concat ", " (path :: paths) ++ ") DO UPDATE SET "
                   ++ String.concat ", "
                        (SqlGenerator.updateClauses names (path :: paths));
                 SqlGenerator.params := SqlGenerator.params q |})
  /\ forall conflictPaths col,
       In (col ++ "=excluded." ++ col) (SqlGenerator.updateClauses names conflictPaths)
       <-> In col names /\ ~ In col conflictPaths.
Proof.
  intros Hthere q names. split; [|split].
  - unfold SqlGenerator.upsert. rewrite (read_properties entity columns Hthere).
    reflexivity.
  - intros path paths. unfold SqlGenerator.upsert.
    rewrite (read_properties entity columns Hthere). reflexivity.
  - intros conflictPaths col. unfold SqlGenerator.updateClauses.
    rewrite in_map_iff. split.
    + intros (col' & Heq & Hin). apply clause_of_column in Heq. subst col'.
      apply filter_In in Hin. destruct Hin as [Hin Hnot]. split; [exact Hin|].
      intros Hc. apply existsb_In in Hc. rewrite Hc in Hnot. discriminate.
    + intros [Hin Hnot]. exists col. split; [reflexivity|].
      apply filter_In. split; [exact Hin|].
      destruct (existsb (String.eqb col) conflictPaths) eqn:E; [|reflexivity].
      apply existsb_In in E. contradiction.
Qed.

End InsertFacts.
(** ** Events of a run *)

Module EventFacts.
Import JsFacts RunFacts Shape.

Section Running.
Context {W : Type} `{DataSource.World W}.

Lemma events_bind {A B} (p : DataSource.Async A) (f : A -> DataSource.Async B) (w : W) :
  DataSource.events (DataSource.run (DataSource.bind p f) w)
  = match DataSource.run p w with
    | (Ok a, w1, t1) => (t1 ++ DataSource.events (DataSource.run (f a) w1))%list
    | (Throw _, _, t1) => t1
    end.
Proof.
  rewrite run_bind. destruct (DataSource.run p w) as [[[a|e] w1] t1]; [|reflexivity].
  destruct (DataSource.run (f a) w1) as [[r w2] t2]. reflexivity.
Qed.

Lemma always_return (P : DataSource.event -> Prop) {A} (a : A) :
  Always P (DataSource.Return a).
Proof. intros w. constructor. Qed.

Lemma always_raise (P : DataSource.event -> Prop) {A} (e : error) :
  Always P (@DataSource.Raise A e).
Proof. intros w. constructor. Qed.

Lemma always_lift (P : DataSource.event -> Prop) {A} (r : result A) :
  Always P (DataSource.lift r).
Proof. destruct r; [apply always_return | apply always_raise]. Qed.

Lemma always_bind (P : DataSource.event -> Prop) {A B} (p : DataSource.Async A)
    (f : A -> DataSource.Async B) :
  Always P p -> (forall a, Always P (f a)) -> Always P (DataSource.bind p f).
Proof.
  intros Hp Hf w. rewrite events_bind. specialize (Hp w).
  destruct (DataSource.run p w) as [[[a|e] w1] t1]; [|exact Hp].
  apply Forall_app. split; [exact Hp | apply Hf].
Qed.

Lemma always_catch (P : DataSource.event -> Prop) {A} (p : DataSource.Async A)
    (h : error -> DataSource.Async A) :
  Always P p -> (forall e, Always P (h e)) -> Always P (DataSource.catch p h).
Proof.
  intros Hp Hh w. rewrite run_catch. specialize (Hp w).
  destruct (DataSource.run p w) as [[[a|e] w1] t1]; [exact Hp|].
  specialize (Hh e w1). destruct (DataSource.run (h e) w1) as [[r w2] t2].
  apply Forall_app. split; assumption.
Qed.

Lemma always_await (P : DataSource.event -> Prop) (ev : DataSource.event) :
  P ev -> Always P (DataSource.await ev).
Proof. intros Hev w. rewrite run_await. repeat constructor. exact Hev. Qed.

Lemma always_query (P : DataSource.event -> Prop) (sql : string) (params : list value) :
  P (DataSource.ExecuteSql sql params) -> Always P (DataSource.query sql params).
Proof. apply always_await. Qed.

Lemma always_forEach (P : DataSource.event -> Prop) {A S}
    (f : S -> A -> DataSource.Async S) (xs : list A) :
  (forall s x, In x xs -> Always P (f s x)) ->
  forall s, Always P (DataSource.forEach f xs s).
Proof.
  induction xs as [|x xs IH]; intros Hf s; simpl.
  - apply always_return.
  - apply always_bind; [apply Hf; now left|].
    intros s'. apply IH. intros s0 x0 Hin. apply Hf. now right.
Qed.

Lemma always_weaken (P Q : DataSource.event -> Prop) {A} (p : DataSource.Async A) :
  (forall ev, P ev -> Q ev) -> Always P p -> Always Q p.
Proof. intros HPQ Hp w. eapply Forall_impl; [exact HPQ | apply Hp]. Qed.

(** A statement and nothing after it: one event at most. *)
Lemma one_query {A} (sql : string) (params : list value) (a : A) (w : W) :
  DataSource.events
    (DataSource.run
       (DataSource.bind (DataSource.query sql params) (fun _ => DataSource.Return a)) w)
  = [DataSource.ExecuteSql sql params].
Proof.
  rewrite events_bind, run_query.
  destruct (DataSource.respond w _) as [[v|e] w1]; reflexivity.
Qed.

Lemma rejects_bind {A B} (p : DataSource.Async A) (f : A -> DataSource.Async B)
    (e : error) :
  Rejects p e -> Rejects (DataSource.bind p f) e.
Proof. intros Hp w. rewrite run_bind, (Hp w). reflexivity. Qed.

Lemma rejects_raise {A} (e : error) : Rejects (@DataSource.Raise A e) e.
Proof. intros w. reflexivity. Qed.

End Running.
End EventFacts.

(** ** Entities that are not registered *)

Module RegistryFacts.
Import JsFacts RunFacts EventFacts Shape.

Section Running.
Context `{Host} {W : Type} `{DataSource.World W}.
Variable storage : MetadataArgsStorage.
Variable now : Z.

Lemma rejects_tableOf (target : class) :
  findTable storage (IsClass target) = None ->
  Rejects (DataSource.tableOf storage target) (Error "Entity not found in metadata").
Proof. intros Hnone w. unfold DataSource.tableOf. now rewrite Hnone. Qed.

(** X5.  Every operation of the data source on a class that is not registered
    as an entity fails with [Entity not found in metadata] before anything
    happens: no statement is issued, no listener is called.  A repository for
    such a class cannot be obtained. *)
Theorem unregistered_entity_is_rejected (target : class) :
  findTable storage (IsClass target) = None ->
  let e := Error "Entity not found in metadata" in
  (forall entity, Rejects (DataSource.save storage now target entity) e)
  /\ (forall entity, Rejects (DataSource.remove storage now target entity) e)
  /\ (forall entities, Rejects (DataSource.insert storage now target entities) e)
  /\ (forall entity paths, Rejects (DataSource.upsert storage target entity paths) e)
  /\ (forall criteria partial,
         Rejects (DataSource.update storage now target criteria partial) e)
  /\ (forall criteria, Rejects (DataSource.delete storage now target criteria) e)
  /\ (forall criteria, Rejects (DataSource.softRemove storage now target criteria) e)
  /\ (forall criteria, Rejects (DataSource.recover storage target criteria) e)
  /\ (forall where_, Rejects (DataSource.count storage target where_) e)
  /\ (forall where_ relations order take skip select withDeleted,
         Rejects (DataSource.find storage target where_ relations order take skip
                    select withDeleted) e)
  /\ (forall where_ relations order select withDeleted,
         Rejects (DataSource.findOne storage target where_ relations order select
                    withDeleted) e)
  /\ Rejects (DataSource.clear storage target) e
  /\ (forall conditions path amount,
         Rejects (DataSource.increment storage target conditions path amount) e)
  /\ (forall conditions path amount,
         Rejects (DataSource.decrement storage target conditions path amount) e)
  /\ Repository.getRepository storage target = Throw e.
Proof.
  intros Hnone e. pose proof (rejects_tableOf target Hnone) as Ht.
  repeat match goal with |- _ /\ _ => split end;
    try (intros; apply rejects_bind; exact Ht).
  - intros; unfold DataSource.findOne. apply rejects_bind, rejects_bind. exact Ht.
  - unfold Repository.getRepository. now rewrite Hnone.
Qed.

End Running.
End RegistryFacts.
(** ** Deleting and removing *)

Module RemovalFacts.
Import JsFacts RunFacts EventFacts Shape.

Section WithHost.
Context `{Host}.

(** The text of a condition begins with its key. *)
Lemma condition_key (key : string) (v : value) (text : string) (values : list value) :
  SqlGenerator.condition key v = Ok (text, values) ->
  exists tail, text = key ++ " " ++ tail.
Proof.
  unfold SqlGenerator.condition.
  repeat match goal with
         | |- context [if ?b then _ else _] => destruct b
         | |- context [match prop ?x "value" with _ => _ end] =>
             destruct (prop x "value")
         | |- context [Js.bind ?r _] => destruct r; cbn [Js.bind]
         end;
    try discriminate; intros [= <- <-]; eexists; reflexivity.
Qed.

Lemma buildConditions_key (key : string) (v : value) (clause : string)
    (values : list value) :
  SqlGenerator.buildConditions (VObj [(key, v)]) = Ok (clause, values) ->
  exists tail, clause = key ++ " " ++ tail.
Proof.
  rewrite FilterFacts.buildConditions_single.
  destruct (SqlGenerator.condition key v) as [[text vs]|e] eqn:Ec; simpl;
    [|discriminate].
  intros [= <- <-]. exact (condition_key key v text vs Ec).
Qed.

Lemma delete_text (metadata : EntityMetadata.t) (where_ : value) (q : SqlGenerator.Query) :
  SqlGenerator.delete metadata where_ = Ok q ->
  exists clause values,
    SqlGenerator.buildConditions where_ = Ok (clause, values)
    /\ SqlGenerator.query q
       = "DELETE FROM " ++ EntityMetadata.tableName metadata ++ " WHERE " ++ clause.
Proof.
  unfold SqlGenerator.delete. destruct (truthy where_); [|discriminate].
  destruct (SqlGenerator.buildConditions where_) as [[clause values]|e]; simpl;
    [|discriminate].
  intros [= <-]. exists clause, values. split; [reflexivity|]. normalise. reflexivity.
Qed.

Lemma soft_delete_text (metadata : EntityMetadata.t) (p : string) (stamp where_ : value)
    (q : SqlGenerator.Query) :
  SqlGenerator.update metadata (VObj [(p, stamp)]) where_ = Ok q ->
  exists clause values,
    SqlGenerator.buildConditions where_ = Ok (clause, values)
    /\ SqlGenerator.query q
       = "UPDATE " ++ EntityMetadata.tableName metadata ++ " SET " ++ p ++ " = ? WHERE "
         ++ clause.
Proof.
  unfold SqlGenerator.update. simpl. destruct (truthy where_); [|discriminate].
  destruct (SqlGenerator.buildConditions where_) as [[clause values]|e]; simpl;
    [|discriminate].
  intros [= <-]. exists clause, values. split; [reflexivity|]. normalise. reflexivity.
Qed.

Section Running.
Context {W : Type} `{DataSource.World W}.
Variable storage : MetadataArgsStorage.
Variable now : Z.

(** What [delete] sends, and how much: one statement at most, whose text is
    built from the table, the soft-delete column if there is one, and the
    conditions of the criteria. *)
Lemma delete_events (target : class) (table : EntityMetadata.t) (criteria : value)
    (w : W) :
  findTable storage (IsClass target) = Some table ->
  DataSource.events (DataSource.run (DataSource.delete storage now target criteria) w)
  = []
  \/ exists clause values params,
       SqlGenerator.buildConditions criteria = Ok (clause, values)
       /\ DataSource.events
            (DataSource.run (DataSource.delete storage now target criteria) w)
          = [DataSource.ExecuteSql
               (match SqlGenerator.deleteDateCol storage target with
                | Some c =>
                    "UPDATE " ++ EntityMetadata.tableName table ++ " SET "
                    ++ ColumnMetadata.propertyName c ++ " = ? WHERE " ++ clause
                | None =>
                    "DELETE FROM " ++ EntityMetadata.tableName table ++ " WHERE "
                    ++ clause
                end)
               params].
Proof.
  intros Htable. unfold DataSource.delete, DataSource.tableOf. rewrite Htable.
  cbn [DataSource.bind].
  destruct (SqlGenerator.deleteDateCol storage target) as [c|].
  - rewrite events_bind.
    destruct (DataSource.run _ w) as [[[stamp|e] w1] t1] eqn:Es.
    + assert (Ht1 : t1 = [] /\ w1 = w).
      { destruct (ColumnOptions.transformer (ColumnMetadata.options c)) as [t|].
        - destruct (ValueTransformer.to t (VDate (Some now))); simpl in Es;
            inversion Es; now subst.
        - simpl in Es. inversion Es. now subst. }
      destruct Ht1 as [-> ->]. cbn [app].
      destruct (SqlGenerator.update table _ criteria) as [q|e] eqn:Eq;
        cbn [DataSource.lift DataSource.bind]; [|now left].
      right. destruct (soft_delete_text _ _ _ _ _ Eq) as (clause & values & Hb & Hq).
      exists clause, values, (SqlGenerator.params q). split; [exact Hb|].
      rewrite one_query, Hq. reflexivity.
    + left.
      destruct (ColumnOptions.transformer (ColumnMetadata.options c)) as [t|].
      * destruct (ValueTransformer.to t (VDate (Some now))); simpl in Es;
          inversion Es; now subst.
      * simpl in Es. inversion Es.
  - destruct (SqlGenerator.delete table criteria) as [q|e] eqn:Eq;
      cbn [DataSource.lift DataSource.bind]; [|now left].
    right. destruct (delete_text _ _ _ Eq) as (clause & values & Hb & Hq).
    exists clause, values, (SqlGenerator.params q). split; [exact Hb|].
    rewrite one_query, Hq. reflexivity.
Qed.

(** X6.  [delete] on an entity with a delete-date column never deletes a row:
    all it sends is one [UPDATE] at most, which sets the column named after
    the property of that column.  On an entity without such a column all it
    sends is one [DELETE] at most, with a [WHERE] clause. *)
Theorem delete_is_soft_with_a_delete_date_column (target : class)
    (table : EntityMetadata.t) (criteria : value) :
  findTable storage (IsClass target) = Some table ->
  let t := EntityMetadata.tableName table in
  let operation := DataSource.delete storage now target criteria in
  (forall c,
      SqlGenerator.deleteDateCol storage target = Some c ->
      Always (Begins ("UPDATE " ++ t ++ " SET " ++ ColumnMetadata.propertyName c
                      ++ " = ? WHERE "))
        operation)
  /\ (SqlGenerator.deleteDateCol storage target = None ->
      Always (Begins ("DELETE FROM " ++ t ++ " WHERE ")) operation)
  /\ forall w, (List.length (DataSource.events (DataSource.run operation w)) <= 1)%nat.
Proof.
  intros Htable t operation. subst t operation. split; [|split].
  - intros c Hc w.
    destruct (delete_events target table criteria w Htable)
      as [Hnone | (clause & values & params & _ & Hev)].
    + rewrite Hnone. constructor.
    + rewrite Hev, Hc. repeat constructor. eexists _, _. split; [reflexivity|].
      rewrite <- !append_assoc. apply prefix_append.
  - intros Hc w.
    destruct (delete_events target table criteria w Htable)
      as [Hnone | (clause & values & params & _ & Hev)].
    + rewrite Hnone. constructor.
    + rewrite Hev, Hc. repeat constructor. eexists _, _. split; [reflexivity|].
      rewrite <- !append_assoc. apply prefix_append.
  - intros w.
    destruct (delete_events target table criteria w Htable)
      as [Hnone | (clause & values & params & _ & Hev)].
    + rewrite Hnone. simpl. lia.
    + rewrite Hev. simpl. lia.
Qed.

(** The listeners of one kind: the only events are calls of the methods
    registered for the class under that kind. *)
Lemma callListeners_calls (target : class) (type : ListenerType.t) (entity : value) :
  Always (Calls (listenerNames storage target type))
    (DataSource.callListeners storage target type entity).
Proof.
  unfold DataSource.callListeners. apply always_forEach.
  intros s listener Hin.
  destruct (DataSource.callable target s _); [|apply always_return].
  apply always_await. eexists _, _. split; [reflexivity|].
  unfold listenerNames. apply in_map. exact Hin.
Qed.

Lemma delete_by_key (target : class) (table : EntityMetadata.t) (name : string)
    (v : value) (w : W) :
  findTable storage (IsClass target) = Some table ->
  let sent :=
    DataSource.events
      (DataSource.run (DataSource.delete storage now target (VObj [(name, v)])) w) in
  Forall (Filters name) sent /\ (List.length sent <= 1)%nat.
Proof.
  intros Htable sent. subst sent.
  destruct (delete_events target table (VObj [(name, v)]) w Htable)
    as [Hnone | (clause & values & params & Hb & Hev)].
  - rewrite Hnone. split; [constructor | simpl; lia].
  - rewrite Hev. split; [|simpl; lia]. repeat constructor.
    destruct (buildConditions_key name v clause values Hb) as [tail ->].
    eexists _, _. split; [reflexivity|].
    destruct (SqlGenerator.deleteDateCol storage target) as [c|].
    + exists ("UPDATE " ++ EntityMetadata.tableName table ++ " SET "
              ++ ColumnMetadata.propertyName c ++ " = ?"), tail.
      normalise. reflexivity.
    + exists ("DELETE FROM " ++ EntityMetadata.tableName table), tail.
      normalise. reflexivity.
Qed.

(** X7.  [remove] of an entity whose primary-key property holds nothing fails
    before anything happens.  Otherwise what happens is, in this order: calls
    of the [BeforeRemove] listeners of the class, one statement at most, which
    has a condition on the primary-key property right after [WHERE], and calls
    of the [AfterRemove] listeners. *)
Theorem remove_filters_by_the_primary_key (target : class) (table : EntityMetadata.t)
    (entity : value) :
  findTable storage (IsClass target) = Some table ->
  let operation := DataSource.remove storage now target entity in
  (DataSource.isUpdate storage target entity = false ->
   Rejects operation (Error "Cannot remove entity without primary key"))
  /\ forall name,
       DataSource.pkName storage target = Some name ->
       DataSource.isUpdate storage target entity = true ->
       forall w, exists before sent after,
         DataSource.events (DataSource.run operation w)
         = (before ++ sent ++ after)%list
         /\ Forall (Calls (listenerNames storage target ListenerType.BeforeRemove))
              before
         /\ Forall (Filters name) sent
         /\ (List.length sent <= 1)%nat
         /\ Forall (Calls (listenerNames storage target ListenerType.AfterRemove))
              after.
Proof.
  intros Htable operation. subst operation.
  unfold DataSource.remove, DataSource.isUpdate, DataSource.tableOf.
  rewrite Htable. cbn [DataSource.bind]. split.
  - intros Hkey w. destruct (DataSource.pkName storage target) as [name|];
      [rewrite Hkey|]; reflexivity.
  - intros name Hname Hkey w. rewrite Hname in *. rewrite Hkey.
    rewrite events_bind.
    pose proof (callListeners_calls target ListenerType.BeforeRemove entity w) as Hb.
    destruct (DataSource.run _ w) as [[[entity'|e] w1] before].
    + rewrite events_bind.
      destruct (delete_by_key target table name (prop entity' name) w1 Htable)
        as [Hsent Hone].
      destruct (DataSource.run (DataSource.delete _ _ _ _) w1) as [[[u|e] w2] sent].
      * exists before, sent,
          (DataSource.events
             (DataSource.run
                (DataSource.callListeners storage target ListenerType.AfterRemove
                   entity') w2)).
        repeat split; try assumption.
        apply callListeners_calls.
      * exists before, sent, []. rewrite app_nil_r. repeat split; try assumption.
        constructor.
    + exists before, [], []. rewrite app_nil_r. repeat split; try assumption;
        try constructor. simpl. lia.
Qed.

End Running.
End WithHost.
End RemovalFacts.
(** ** Soft removal, counters, counting *)

Module SoftRemovalFacts.
Import JsFacts RunFacts EventFacts OperatorFacts Shape.

Section WithHost.
Context `{Host}.

Lemma where_id (v : value) :
  typeof_object v = false \/ (exists t, v = VDate t) ->
  SqlGenerator.buildConditions (VObj [("id", v)]) = Ok ("id = ?", [v]).
Proof.
  intros Hv. apply buildConditions_one. unfold SqlGenerator.condition.
  destruct Hv as [Hv | [t ->]]; [|reflexivity].
  rewrite Hv, andb_false_r. reflexivity.
Qed.

Lemma where_id_in (items : list value) :
  SqlGenerator.buildConditions
    (VObj [("id", VObj [("operator", VStr "IN"); ("value", VArr items)])])
  = Ok ("id IN (" ++ SqlGenerator.placeholders items ++ ")", items).
Proof. apply buildConditions_one. reflexivity. Qed.

Section Running.
Context {W : Type} `{DataSource.World W}.
Variable storage : MetadataArgsStorage.
Variable now : Z.

(** The table found for a class is the table of that class. *)
Lemma findTable_target (target : class) (table : EntityMetadata.t) :
  findTable storage (IsClass target) = Some table ->
  class_id (EntityMetadata.target table) = class_id target.
Proof.
  unfold findTable. intros Hfind. apply find_some in Hfind. destruct Hfind as [_ Hsame].
  simpl in Hsame. unfold same in Hsame. apply Nat.eqb_eq in Hsame. now symmetry.
Qed.

Lemma columnsOf_same (a b : class) :
  class_id a = class_id b ->
  columnsOf storage (IsClass a) = columnsOf storage (IsClass b).
Proof.
  intros Hid. unfold columnsOf. apply filter_ext. intros column. simpl.
  unfold same. now rewrite Hid.
Qed.

Lemma deleteDateCol_of_table (target : class) (table : EntityMetadata.t) :
  findTable storage (IsClass target) = Some table ->
  SqlGenerator.deleteDateCol storage (EntityMetadata.target table)
  = SqlGenerator.deleteDateCol storage target.
Proof.
  intros Hfind. unfold SqlGenerator.deleteDateCol.
  now rewrite (columnsOf_same _ _ (findTable_target target table Hfind)).
Qed.

(** What [softRemove] and [recover] send for criteria whose conditions are
    known. *)
Lemma softRemove_events (target : class) (table : EntityMetadata.t)
    (c : ColumnMetadata.t) (criteria : value) (clause : string) (values : list value)
    (w : W) :
  findTable storage (IsClass target) = Some table ->
  SqlGenerator.deleteDateCol storage target = Some c ->
  truthy (DataSource.criteriaWhere criteria) = true ->
  SqlGenerator.buildConditions (DataSource.criteriaWhere criteria)
  = Ok (clause, values) ->
  let set := "UPDATE " ++ EntityMetadata.tableName table ++ " SET "
             ++ SqlGenerator.columnName c in
  DataSource.events (DataSource.run (DataSource.softRemove storage now target criteria) w)
  = [DataSource.ExecuteSql (set ++ " = ? WHERE " ++ clause) (VNum now :: values)]
  /\ DataSource.events (DataSource.run (DataSource.recover storage target criteria) w)
     = [DataSource.ExecuteSql (set ++ " = NULL WHERE " ++ clause) values].
Proof.
  intros Htable Hc Hwhere Hb set. subst set.
  unfold DataSource.softRemove, DataSource.recover, DataSource.tableOf.
  rewrite Htable. cbn [DataSource.bind].
  unfold SqlGenerator.softRemove, SqlGenerator.recover.
  rewrite (deleteDateCol_of_table target table Htable), Hc, Hwhere, Hb.
  cbn [Js.bind DataSource.lift DataSource.bind SqlGenerator.query SqlGenerator.params].
  rewrite !one_query. split; f_equal; f_equal; normalise; reflexivity.
Qed.

(** X8.  Soft removal needs a delete-date column and criteria.  Without the
    column [softRemove] and [recover] fail before anything happens, whatever
    the criteria; with the column and without criteria they fail as well.  A
    number or a date stands for the row with that [id], an array for the rows
    whose [id] is one of its elements:  [softRemove] sends one [UPDATE] that
    sets the column, its first parameter being the instant as a number;
    [recover] sends the same [UPDATE] with [NULL] in place of the placeholder. *)
Theorem soft_removal_by_id (target : class) (table : EntityMetadata.t) :
  findTable storage (IsClass target) = Some table ->
  let t := EntityMetadata.tableName table in
  (SqlGenerator.deleteDateCol storage target = None ->
   forall criteria,
     Rejects (DataSource.softRemove storage now target criteria)
       (Error ("Entity " ++ t ++ " does not have a @DeleteDateColumn. Cannot soft remove."))
     /\ Rejects (DataSource.recover storage target criteria)
          (Error ("Entity " ++ t ++ " does not have a @DeleteDateColumn. Cannot recover.")))
  /\ forall c,
       SqlGenerator.deleteDateCol storage target = Some c ->
       let set := "UPDATE " ++ t ++ " SET " ++ SqlGenerator.columnName c in
       (forall criteria,
           truthy (DataSource.criteriaWhere criteria) = false ->
           Rejects (DataSource.softRemove storage now target criteria)
             (Error "softRemove requires a WHERE clause")
           /\ Rejects (DataSource.recover storage target criteria)
                (Error "recover requires a WHERE clause"))
       /\ (forall id w,
              (exists n, id = VNum n) \/ (exists d, id = VDate d) ->
              DataSource.events
                (DataSource.run (DataSource.softRemove storage now target id) w)
              = [DataSource.ExecuteSql (set ++ " = ? WHERE id = ?") [VNum now; id]]
              /\ DataSource.events
                   (DataSource.run (DataSource.recover storage target id) w)
                 = [DataSource.ExecuteSql (set ++ " = NULL WHERE id = ?") [id]])
       /\ forall ids w,
            DataSource.events
              (DataSource.run (DataSource.softRemove storage now target (VArr ids)) w)
            = [DataSource.ExecuteSql
                 (set ++ " = ? WHERE id IN (" ++ SqlGenerator.placeholders ids ++ ")")
                 (VNum now :: ids)]
            /\ DataSource.events
                 (DataSource.run (DataSource.recover storage target (VArr ids)) w)
               = [DataSource.ExecuteSql
                    (set ++ " = NULL WHERE id IN (" ++ SqlGenerator.placeholders ids
                     ++ ")")
                    ids].
Proof.
  intros Htable t. subst t. split.
  - intros Hnone criteria. split; intros w;
      unfold DataSource.softRemove, DataSource.recover, DataSource.tableOf;
      rewrite Htable; cbn [DataSource.bind];
      unfold SqlGenerator.softRemove, SqlGenerator.recover;
      rewrite (deleteDateCol_of_table target table Htable), Hnone; reflexivity.
  - intros c Hc set. subst set. split; [|split].
    + intros criteria Hfalsy. split; intros w;
        unfold DataSource.softRemove, DataSource.recover, DataSource.tableOf;
        rewrite Htable; cbn [DataSource.bind];
        unfold SqlGenerator.softRemove, SqlGenerator.recover;
        rewrite (deleteDateCol_of_table target table Htable), Hc, Hfalsy; reflexivity.
    + intros id w Hid.
      assert (Hwhere : DataSource.criteriaWhere id = VObj [("id", id)]).
      { destruct Hid as [[n ->] | [d ->]]; reflexivity. }
      apply (softRemove_events target table c id "id = ?" [id] w Htable Hc).
      * now rewrite Hwhere.
      * rewrite Hwhere. apply where_id.
        destruct Hid as [[n ->] | [d ->]]; [now left | right; now exists d].
    + intros ids w.
      apply (softRemove_events target table c (VArr ids) _ ids w Htable Hc);
        [reflexivity | apply where_id_in].
Qed.

End Running.
End WithHost.
End SoftRemovalFacts.
(** ** Counters, counting, inserting *)

Module BulkFacts.
Import JsFacts RunFacts EventFacts OperatorFacts Shape.

Section WithHost.
Context `{Host}.

Lemma first_row (row : value) (rest : list value) : at_index "0" (row :: rest) = row.
Proof. reflexivity. Qed.

Section Running.
Context {W : Type} `{DataSource.World W}.
Variable storage : MetadataArgsStorage.
Variable now : Z.

(** X9.  [increment] and [decrement] send one [UPDATE] that adds to, or takes
    from, the column in place, the amount being the first parameter.  They
    have no safety rail: with absent conditions the statement has no [WHERE]
    clause and reaches every row; with conditions it has theirs. *)
Theorem counters_update_in_place (target : class) (table : EntityMetadata.t)
    (conditions : value) (path : string) (amount : value) (w : W) :
  findTable storage (IsClass target) = Some table ->
  let set := "UPDATE " ++ EntityMetadata.tableName table ++ " SET " ++ path ++ " = "
             ++ path in
  let sent := fun operation => DataSource.events (DataSource.run operation w) in
  (truthy conditions = false ->
   sent (DataSource.increment storage target conditions path amount)
   = [DataSource.ExecuteSql (set ++ " + ?") [amount]]
   /\ sent (DataSource.decrement storage target conditions path amount)
      = [DataSource.ExecuteSql (set ++ " - ?") [amount]])
  /\ forall clause values,
       truthy conditions = true ->
       SqlGenerator.buildConditions conditions = Ok (clause, values) ->
       sent (DataSource.increment storage target conditions path amount)
       = [DataSource.ExecuteSql (set ++ " + ? WHERE " ++ clause) (amount :: values)]
       /\ sent (DataSource.decrement storage target conditions path amount)
          = [DataSource.ExecuteSql (set ++ " - ? WHERE " ++ clause) (amount :: values)].
Proof.
  intros Htable set sent. subst set sent.
  unfold DataSource.increment, DataSource.decrement, DataSource.counter,
    DataSource.tableOf.
  rewrite Htable. cbn [DataSource.bind]. unfold SqlGenerator.updateCounter. split.
  - intros Hfalsy. rewrite Hfalsy.
    cbn [DataSource.lift DataSource.bind SqlGenerator.query SqlGenerator.params].
    rewrite !one_query. split; f_equal; f_equal; normalise; reflexivity.
  - intros clause values Htruthy Hb. rewrite Htruthy, Hb.
    cbn [Js.bind DataSource.lift DataSource.bind SqlGenerator.query SqlGenerator.params].
    rewrite !one_query. split; f_equal; f_equal; normalise; reflexivity.
Qed.

(** X10.  [count] does not know of soft deletion.  For an entity with a
    delete-date column and no filter, [find] selects the rows whose column [IS
    NULL] while [count] counts all rows of the table.  [count] returns the
    [count] property of the first row of the answer, and fails with a
    [TypeError] if the answer has no row. *)
Theorem count_ignores_the_delete_date_column (target : class)
    (table : EntityMetadata.t) (c : ColumnMetadata.t) (where_ : value) (w : W) :
  findTable storage (IsClass target) = Some table ->
  SqlGenerator.deleteDateCol storage target = Some c ->
  truthy where_ = false ->
  let t := EntityMetadata.tableName table in
  let counting := DataSource.ExecuteSql ("SELECT COUNT(*) as count FROM " ++ t) [] in
  let counted := DataSource.run (DataSource.count storage target where_) w in
  DataSource.events counted = [counting]
  /\ hd_error
       (DataSource.events
          (DataSource.run
             (DataSource.find storage target where_ [] VUndefined VUndefined
                VUndefined None false) w))
     = Some (DataSource.ExecuteSql
               ("SELECT " ++ t ++ ".* FROM " ++ t ++ " WHERE " ++ t ++ "."
                ++ SqlGenerator.columnName c ++ " IS NULL") [])
  /\ (forall row rest w1,
         DataSource.respond w counting = (Ok (VArr (row :: rest)), w1) ->
         nullish row = false ->
         DataSource.outcome counted = Ok (prop row "count"))
  /\ (forall w1,
         DataSource.respond w counting = (Ok (VArr []), w1) ->
         DataSource.outcome counted = Throw TypeError).
Proof.
  intros Htable Hc Hfalsy t counting counted. subst t counting counted.
  assert (Hcount :
    DataSource.count storage target where_
    = DataSource.bind
        (DataSource.query
           ("SELECT COUNT(*) as count FROM " ++ EntityMetadata.tableName table) [])
        (fun result =>
           DataSource.bind (DataSource.lift (get result "0"))
             (fun row => DataSource.lift (get row "count")))).
  { unfold DataSource.count, DataSource.tableOf. rewrite Htable.
    cbn [DataSource.bind]. unfold SqlGenerator.count. rewrite Hfalsy. reflexivity. }
  rewrite Hcount. split; [|split; [|split]].
  - rewrite events_bind, run_query.
    destruct (DataSource.respond w _) as [[result|e] w1]; [|reflexivity].
    cbn [fst snd app]. destruct (get result "0") as [row|e]; [|reflexivity].
    cbn [DataSource.lift DataSource.bind]. destruct (get row "count"); reflexivity.
  - unfold DataSource.find, DataSource.tableOf. rewrite Htable.
    cbn [DataSource.bind]. unfold SqlGenerator.select, SqlGenerator.filterClauses.
    rewrite Hfalsy. cbn [Js.bind]. unfold SqlGenerator.softDeleteClauses.
    rewrite (SoftRemovalFacts.deleteDateCol_of_table storage target table Htable), Hc.
    cbn [negb app SqlGenerator.orderSql truthy Js.bind DataSource.lift DataSource.bind
         SqlGenerator.query SqlGenerator.params].
    rewrite events_bind, run_query.
    destruct (DataSource.respond w _) as [[results|e] w1]; cbn [fst snd app hd_error];
      f_equal; f_equal; unfold SqlGenerator.selectFrom, SqlGenerator.selectClause,
        SqlGenerator.whereSql, SqlGenerator.limitSql; normalise;
      rewrite ?TextFacts.append_empty; reflexivity.
  - intros row rest w1 Hanswer Hrow. rewrite run_bind, run_query, Hanswer.
    cbn [fst snd]. unfold get. cbn [nullish prop]. rewrite first_row.
    cbn [DataSource.lift DataSource.bind]. rewrite Hrow. reflexivity.
  - intros w1 Hanswer. rewrite run_bind, run_query, Hanswer. reflexivity.
Qed.

(** One entity of [insert]: the conversion of a value fails and nothing is
    sent, or one [INSERT] is sent. *)
Lemma insertOne_run (table : EntityMetadata.t) (columns : list ColumnMetadata.t)
    (entity : value) (w : W) :
  let text := SqlGenerator.query (SqlGenerator.insert table columns VUndefined) in
  (exists e,
      DataSource.run (DataSource.insertOne now table columns entity) w = (Throw e, w, []))
  \/ (exists params r w1,
         DataSource.run (DataSource.insertOne now table columns entity) w
         = (r, w1, [DataSource.ExecuteSql text params])
         /\ List.length params = List.length columns).
Proof.
  intros text. subst text. unfold DataSource.insertOne.
  destruct (foldM _ columns (VObj [])) as [persisted|e];
    cbn [DataSource.lift DataSource.bind].
  - right. rewrite run_bind, run_query.
    destruct (DataSource.respond w _) as [[v|e] w1]; cbn [fst snd];
      eexists _, _, _; (split; [reflexivity|]);
      unfold SqlGenerator.insert; cbn [SqlGenerator.params]; apply length_map.
  - left. exists e. reflexivity.
Qed.

Lemma insertAll_run (table : EntityMetadata.t) (columns : list ColumnMetadata.t)
    (items : list value) :
  let text := SqlGenerator.query (SqlGenerator.insert table columns VUndefined) in
  forall w,
    let ran :=
      DataSource.run
        (DataSource.forEach (fun _ entity => DataSource.insertOne now table columns entity)
           items tt) w in
    Forall (fun ev => exists params,
                ev = DataSource.ExecuteSql text params
                /\ List.length params = List.length columns)
      (DataSource.events ran)
    /\ (List.length (DataSource.events ran) <= List.length items)%nat
    /\ (DataSource.outcome ran = Ok tt ->
        List.length (DataSource.events ran) = List.length items).
Proof.
  intros text. induction items as [|entity items IH]; intros w ran; subst ran.
  - simpl. repeat split; constructor.
  - cbn [DataSource.forEach]. rewrite run_bind.
    destruct (insertOne_run table columns entity w)
      as [[e Hrun] | (params & r & w1 & Hrun & Hlen)]; rewrite Hrun.
    + repeat split; [constructor | simpl; lia | discriminate].
    + fold text. destruct r as [[]|e].
      * specialize (IH w1). cbn zeta in IH. destruct IH as (Hall & Hmost & Hexact).
        destruct (DataSource.run _ w1) as [[r' w2] sent].
        unfold DataSource.events, DataSource.outcome in *. cbn [fst snd] in *.
        repeat split.
        -- constructor; [now exists params | exact Hall].
        -- simpl. lia.
        -- intros Hok. simpl. now rewrite (Hexact Hok).
      * unfold DataSource.events, DataSource.outcome. cbn [fst snd].
        repeat split; [|simpl; lia | discriminate].
        repeat constructor. now exists params.
Qed.

(** X11.  [insert] sends one [INSERT] per entity, each with the same text,
    which names every column of the entity, and with one parameter per column.
    It stops at the first entity that fails, so it never sends more statements
    than there are entities, and when it succeeds it has sent exactly one per
    entity.  Nothing else happens: no listener is called. *)
Theorem insert_sends_one_statement_per_entity (target : class)
    (table : EntityMetadata.t) (entities : value) (w : W) :
  findTable storage (IsClass target) = Some table ->
  let columns := columnsOf storage (IsClass target) in
  let text := SqlGenerator.query (SqlGenerator.insert table columns VUndefined) in
  let items := match entities with VArr items => items | _ => [entities] end in
  let ran := DataSource.run (DataSource.insert storage now target entities) w in
  Forall (fun ev => exists params,
              ev = DataSource.ExecuteSql text params
              /\ List.length params = List.length columns)
    (DataSource.events ran)
  /\ (List.length (DataSource.events ran) <= List.length items)%nat
  /\ (DataSource.outcome ran = Ok tt ->
      List.length (DataSource.events ran) = List.length items).
Proof.
  intros Htable columns text items ran. subst ran.
  unfold DataSource.insert, DataSource.tableOf. rewrite Htable.
  cbn [DataSource.bind]. apply insertAll_run.
Qed.

End Running.
End WithHost.
End BulkFacts.
(** ** The registry after [initialize] *)

Module MergeFacts.
Import JsFacts Shape.

Lemma find_filter {A} (p : A -> bool) (xs : list A) :
  find p xs = hd_error (filter p xs).
Proof.
  induction xs as [|x xs IH]; simpl; [reflexivity|].
  destruct (p x); [reflexivity | exact IH].
Qed.

Lemma updateFirst_nil {A J} (p : J -> A -> bool) (f : J -> A -> A) (js : list J) :
  fold_left (fun xs j => DataSource.updateFirst (p j) (f j) xs) js [] = [].
Proof. induction js as [|j js IH]; simpl; [reflexivity | exact IH]. Qed.

(** A merge of join declarations of one kind into the relations: [hits j r]
    tells that the declaration [j] is on the property of [r], and [upd j]
    is what it changes in [r], which is not the class nor the property. *)
Section Merge.
Variable J : Type.
Variable owner : J -> class.
Variable property : J -> string.
Variable upd : J -> RelationMetadata.t -> RelationMetadata.t.
Hypothesis upd_target :
  forall j r, RelationMetadata.target (upd j r) = RelationMetadata.target r.
Hypothesis upd_propertyName :
  forall j r, RelationMetadata.propertyName (upd j r) = RelationMetadata.propertyName r.

Local Abbreviation hits := (declaredBy owner property).
Local Abbreviation merge := (mergedBy owner property upd).
Local Abbreviation all := (changedBy upd).

Lemma declaredOn_upd (c : class) (p : string) (j : J) (r : RelationMetadata.t) :
  DataSource.declaredOn c p (upd j r) = DataSource.declaredOn c p r.
Proof. unfold DataSource.declaredOn. now rewrite upd_target, upd_propertyName. Qed.

Lemma declaredOn_all (c : class) (p : string) (js : list J) (r : RelationMetadata.t) :
  DataSource.declaredOn c p (all js r) = DataSource.declaredOn c p r.
Proof.
  revert r. induction js as [|j js IH]; intros r; simpl; [reflexivity|].
  unfold changedBy in *. now rewrite IH, declaredOn_upd.
Qed.

(** The declarations on the property of the first relation all change that
    relation; the others go on to the rest. *)
Lemma merge_cons (js : list J) (r : RelationMetadata.t) (rest : list RelationMetadata.t) :
  merge js (r :: rest)
  = all (filter (hits r) js) r :: merge (filter (fun j => negb (hits r j)) js) rest.
Proof.
  revert r rest. induction js as [|j js IH]; intros r rest; [reflexivity|].
  unfold mergedBy, changedBy in *. cbn [fold_left DataSource.updateFirst filter].
  fold (hits r j). destruct (hits r j) eqn:Ehit; cbn [negb fold_left].
  - rewrite IH. f_equal.
    + f_equal. apply filter_ext. intros j'. unfold declaredBy. apply declaredOn_upd.
    + f_equal. apply filter_ext. intros j'. unfold declaredBy. now rewrite declaredOn_upd.
  - rewrite IH. reflexivity.
Qed.

Lemma merge_nil (js : list J) : merge js [] = [].
Proof. apply updateFirst_nil. Qed.

(** The relation found for a property after the merge is the relation found
    before, changed by the declarations on that property, in their order. *)
Lemma find_merge (c : class) (p : string) (js : list J) (rs : list RelationMetadata.t) :
  find (DataSource.declaredOn c p) (merge js rs)
  = option_map (all (declarationsOn owner property c p js))
      (find (DataSource.declaredOn c p) rs).
Proof.
  revert js. induction rs as [|r rest IH]; intros js.
  - now rewrite merge_nil.
  - rewrite merge_cons. cbn [find]. rewrite declaredOn_all.
    destruct (DataSource.declaredOn c p r) eqn:Er.
    + cbn [option_map]. f_equal. f_equal. apply filter_ext. intros j.
      unfold declaredBy, DataSource.declaredOn in *.
      apply andb_prop in Er. destruct Er as [Ec Ep].
      unfold same in *. apply Nat.eqb_eq in Ec. apply String.eqb_eq in Ep.
      rewrite Ec, Ep. f_equal; [apply Nat.eqb_sym | apply String.eqb_sym].
    + rewrite IH. f_equal. f_equal. unfold declarationsOn.
      induction js as [|j js IHjs]; [reflexivity|]. cbn [filter].
      destruct (same (owner j) c && (property j =? p)) eqn:Ej.
      * assert (Hmiss : hits r j = false).
        { unfold declaredBy, DataSource.declaredOn in *.
          apply andb_prop in Ej. destruct Ej as [Ec Ep].
          unfold same in *. apply Nat.eqb_eq in Ec. apply String.eqb_eq in Ep.
          rewrite Ec, Ep. exact Er. }
        rewrite Hmiss. cbn [negb filter]. rewrite Ej. now rewrite IHjs.
      * destruct (hits r j); cbn [negb filter]; [exact IHjs|].
        rewrite Ej. exact IHjs.
Qed.

(** Merging twice is merging once, when that is so for one relation. *)
Lemma merge_twice :
  (forall js r, all js (all js r) = all js r) ->
  forall rs js, merge js (merge js rs) = merge js rs.
Proof.
  intros Hall. induction rs as [|r rest IH]; intros js.
  - now rewrite !merge_nil.
  - rewrite merge_cons, merge_cons. f_equal.
    + replace (filter (hits (all (filter (hits r) js) r)) js) with (filter (hits r) js).
      * apply Hall.
      * apply filter_ext. intros j. unfold declaredBy. now rewrite declaredOn_all.
    + replace (filter (fun j => negb (hits (all (filter (hits r) js) r) j)) js)
        with (filter (fun j => negb (hits r j)) js).
      * apply IH.
      * apply filter_ext. intros j. unfold declaredBy. now rewrite declaredOn_all.
Qed.

(** The relations keep what no declaration changes. *)
Lemma merge_keeps (Same : RelationMetadata.t -> RelationMetadata.t -> Prop) :
  (forall r, Same r r) ->
  (forall a b c, Same a b -> Same b c -> Same a c) ->
  (forall j r, Same r (upd j r)) ->
  forall js rs, Forall2 Same rs (merge js rs).
Proof.
  intros Hrefl Htrans Hupd.
  assert (Hall : forall rs, Forall2 Same rs rs).
  { induction rs; constructor; auto. }
  assert (Hone : forall p j rs,
             Forall2 Same rs (DataSource.updateFirst p (upd j) rs)).
  { intros p j rs. induction rs as [|r rest IH]; simpl; [constructor|].
    destruct (p r); constructor; auto. }
  assert (Hcompose : forall xs ys zs,
             Forall2 Same xs ys -> Forall2 Same ys zs -> Forall2 Same xs zs).
  { intros xs ys zs Hxy. revert zs. induction Hxy; intros zs Hyz;
      inversion Hyz; subst; constructor; eauto. }
  induction js as [|j js IH]; intros rs; [apply Hall|].
  unfold mergedBy in *. cbn [fold_left].
  eapply Hcompose; [apply Hone | apply IH].
Qed.

End Merge.

(** What a list of names leaves in a name: the name that was there, or the
    same name whatever was there. *)
Lemma named_fold {J} (name : J -> option string) (js : list J) :
  let after := fold_left (fun previous j => DataSource.named (name j) previous) js in
  (forall x, after x = x) \/ (exists s, forall x, after x = Some s).
Proof.
  induction js as [|j js IH]; intros after; subst after; [now left|].
  cbn [fold_left]. cbn zeta in IH. destruct IH as [Hid | [s Hconst]].
  - destruct (name j) as [n|]; [destruct (n =? "") eqn:En|].
    + left. intros x. rewrite Hid. unfold DataSource.named. now rewrite En.
    + right. exists n. intros x. rewrite Hid. unfold DataSource.named. now rewrite En.
    + left. intros x. now rewrite Hid.
  - right. exists s. intros x. apply Hconst.
Qed.

Lemma tables_change (js : list JoinTableMetadata.t) (r : RelationMetadata.t) :
  changedBy DataSource.withJoinTable js r
  = {| RelationMetadata.target := RelationMetadata.target r;
       RelationMetadata.propertyName := RelationMetadata.propertyName r;
       RelationMetadata.relationType := RelationMetadata.relationType r;
       RelationMetadata.type := RelationMetadata.type r;
       RelationMetadata.inverseSide := RelationMetadata.inverseSide r;
       RelationMetadata.options := RelationMetadata.options r;
       RelationMetadata.joinTable :=
         match js with [] => RelationMetadata.joinTable r | _ :: _ => true end;
       RelationMetadata.joinTableName :=
         fold_left (fun previous j => DataSource.named (JoinTableMetadata.name j) previous)
           js (RelationMetadata.joinTableName r);
       RelationMetadata.joinColumn := RelationMetadata.joinColumn r;
       RelationMetadata.joinColumnName := RelationMetadata.joinColumnName r |}.
Proof.
  revert r. induction js as [|j js IH]; intros r; [now destruct r|].
  unfold changedBy in *. cbn [fold_left]. rewrite IH. destruct js; reflexivity.
Qed.

Lemma columns_change (js : list JoinColumnMetadata.t) (r : RelationMetadata.t) :
  changedBy DataSource.withJoinColumn js r
  = {| RelationMetadata.target := RelationMetadata.target r;
       RelationMetadata.propertyName := RelationMetadata.propertyName r;
       RelationMetadata.relationType := RelationMetadata.relationType r;
       RelationMetadata.type := RelationMetadata.type r;
       RelationMetadata.inverseSide := RelationMetadata.inverseSide r;
       RelationMetadata.options := RelationMetadata.options r;
       RelationMetadata.joinTable := RelationMetadata.joinTable r;
       RelationMetadata.joinTableName := RelationMetadata.joinTableName r;
       RelationMetadata.joinColumn :=
         match js with [] => RelationMetadata.joinColumn r | _ :: _ => true end;
       RelationMetadata.joinColumnName :=
         fold_left
           (fun previous j => DataSource.named (JoinColumnMetadata.name j) previous)
           js (RelationMetadata.joinColumnName r) |}.
Proof.
  revert r. induction js as [|j js IH]; intros r; [now destruct r|].
  unfold changedBy in *. cbn [fold_left]. rewrite IH. destruct js; reflexivity.
Qed.

Lemma tables_change_twice (js : list JoinTableMetadata.t) (r : RelationMetadata.t) :
  changedBy DataSource.withJoinTable js (changedBy DataSource.withJoinTable js r)
  = changedBy DataSource.withJoinTable js r.
Proof.
  rewrite (tables_change js (changedBy _ js r)), (tables_change js r).
  cbn [RelationMetadata.target RelationMetadata.propertyName
       RelationMetadata.relationType RelationMetadata.type
       RelationMetadata.inverseSide RelationMetadata.options
       RelationMetadata.joinTable RelationMetadata.joinTableName
       RelationMetadata.joinColumn RelationMetadata.joinColumnName].
  f_equal.
  - destruct js; reflexivity.
  - destruct (named_fold JoinTableMetadata.name js) as [Hid | [s Hconst]]; cbn zeta in *.
    + now rewrite !Hid.
    + now rewrite !Hconst.
Qed.

Lemma columns_change_twice (js : list JoinColumnMetadata.t) (r : RelationMetadata.t) :
  changedBy DataSource.withJoinColumn js (changedBy DataSource.withJoinColumn js r)
  = changedBy DataSource.withJoinColumn js r.
Proof.
  rewrite (columns_change js (changedBy _ js r)), (columns_change js r).
  cbn [RelationMetadata.target RelationMetadata.propertyName
       RelationMetadata.relationType RelationMetadata.type
       RelationMetadata.inverseSide RelationMetadata.options
       RelationMetadata.joinTable RelationMetadata.joinTableName
       RelationMetadata.joinColumn RelationMetadata.joinColumnName].
  f_equal.
  - destruct js; reflexivity.
  - destruct (named_fold JoinColumnMetadata.name js) as [Hid | [s Hconst]]; cbn zeta in *.
    + now rewrite !Hid.
    + now rewrite !Hconst.
Qed.

Lemma changes_commute (ts : list JoinTableMetadata.t) (cs : list JoinColumnMetadata.t)
    (r : RelationMetadata.t) :
  changedBy DataSource.withJoinTable ts (changedBy DataSource.withJoinColumn cs r)
  = changedBy DataSource.withJoinColumn cs (changedBy DataSource.withJoinTable ts r).
Proof.
  rewrite (tables_change ts (changedBy _ cs r)), (columns_change cs (changedBy _ ts r)).
  rewrite (columns_change cs r), (tables_change ts r). reflexivity.
Qed.

Abbreviation mergeTables :=
  (mergedBy JoinTableMetadata.target JoinTableMetadata.propertyName
     DataSource.withJoinTable).
Abbreviation mergeColumns :=
  (mergedBy JoinColumnMetadata.target JoinColumnMetadata.propertyName
     DataSource.withJoinColumn).

Lemma declaredOn_tables (c : class) (p : string) (js : list JoinTableMetadata.t)
    (r : RelationMetadata.t) :
  DataSource.declaredOn c p (changedBy DataSource.withJoinTable js r)
  = DataSource.declaredOn c p r.
Proof. apply declaredOn_all; reflexivity. Qed.

Lemma declaredOn_columns (c : class) (p : string) (js : list JoinColumnMetadata.t)
    (r : RelationMetadata.t) :
  DataSource.declaredOn c p (changedBy DataSource.withJoinColumn js r)
  = DataSource.declaredOn c p r.
Proof. apply declaredOn_all; reflexivity. Qed.

Lemma tables_cons (js : list JoinTableMetadata.t) (r : RelationMetadata.t)
    (rest : list RelationMetadata.t) :
  mergeTables js (r :: rest)
  = changedBy DataSource.withJoinTable
      (filter (declaredBy JoinTableMetadata.target JoinTableMetadata.propertyName r) js) r
    :: mergeTables
         (filter (fun j => negb (declaredBy JoinTableMetadata.target
                                   JoinTableMetadata.propertyName r j)) js)
         rest.
Proof. apply merge_cons; reflexivity. Qed.

Lemma columns_cons (js : list JoinColumnMetadata.t) (r : RelationMetadata.t)
    (rest : list RelationMetadata.t) :
  mergeColumns js (r :: rest)
  = changedBy DataSource.withJoinColumn
      (filter (declaredBy JoinColumnMetadata.target JoinColumnMetadata.propertyName r) js)
      r
    :: mergeColumns
         (filter (fun j => negb (declaredBy JoinColumnMetadata.target
                                   JoinColumnMetadata.propertyName r j)) js)
         rest.
Proof. apply merge_cons; reflexivity. Qed.

(** A relation that is declared on as [r] is takes the same declarations. *)
Lemma declaredBy_same {J} (owner : J -> class) (property : J -> string)
    (r r' : RelationMetadata.t) (js : list J) :
  (forall c p, DataSource.declaredOn c p r' = DataSource.declaredOn c p r) ->
  filter (declaredBy owner property r') js = filter (declaredBy owner property r) js
  /\ filter (fun j => negb (declaredBy owner property r' j)) js
     = filter (fun j => negb (declaredBy owner property r j)) js.
Proof.
  intros Hsame. split; apply filter_ext; intros j; unfold declaredBy; now rewrite Hsame.
Qed.

Lemma merges_commute (rs : list RelationMetadata.t) :
  forall (ts : list JoinTableMetadata.t) (cs : list JoinColumnMetadata.t),
    mergeTables ts (mergeColumns cs rs) = mergeColumns cs (mergeTables ts rs).
Proof.
  induction rs as [|r rest IH]; intros ts cs.
  - now rewrite !merge_nil.
  - rewrite columns_cons, tables_cons.
    rewrite (tables_cons ts r rest), columns_cons.
    destruct (declaredBy_same JoinTableMetadata.target JoinTableMetadata.propertyName r
                (changedBy DataSource.withJoinColumn
                   (filter (declaredBy JoinColumnMetadata.target
                              JoinColumnMetadata.propertyName r) cs) r)
                ts) as [-> ->].
    { intros c p. apply declaredOn_columns. }
    destruct (declaredBy_same JoinColumnMetadata.target JoinColumnMetadata.propertyName r
                (changedBy DataSource.withJoinTable
                   (filter (declaredBy JoinTableMetadata.target
                              JoinTableMetadata.propertyName r) ts) r)
                cs) as [-> ->].
    { intros c p. apply declaredOn_tables. }
    rewrite IH, changes_commute. reflexivity.
Qed.

(** X12.  [initialize] may run again: the registry it leaves is the registry
    it left the first time.  Whenever it runs, it changes nothing in a
    relation but the four fields the join declarations set, and nothing else
    in the registry. *)
Theorem initialize_merges_once (storage : MetadataArgsStorage) :
  DataSource.merged (DataSource.merged storage) = DataSource.merged storage
  /\ Forall2 sameButJoins (relations storage) (relations (DataSource.merged storage))
  /\ columns (DataSource.merged storage) = columns storage
  /\ tables (DataSource.merged storage) = tables storage
  /\ joinTables (DataSource.merged storage) = joinTables storage
  /\ joinColumns (DataSource.merged storage) = joinColumns storage.
Proof.
  split; [|split; [|repeat split]].
  - unfold DataSource.merged. cbn [columns tables relations indices entityListeners
                                   joinTables joinColumns].
    f_equal. unfold DataSource.mergeJoinColumns, DataSource.mergeJoinTables.
    fold (mergeTables (joinTables storage) (relations storage)).
    fold (mergeColumns (joinColumns storage)
            (mergeTables (joinTables storage) (relations storage))).
    fold (mergeTables (joinTables storage)
            (mergeColumns (joinColumns storage)
               (mergeTables (joinTables storage) (relations storage)))).
    fold (mergeColumns (joinColumns storage)
            (mergeTables (joinTables storage)
               (mergeColumns (joinColumns storage)
                  (mergeTables (joinTables storage) (relations storage))))).
    rewrite merges_commute.
    rewrite (merge_twice _ JoinColumnMetadata.target JoinColumnMetadata.propertyName
               DataSource.withJoinColumn);
      [|reflexivity | reflexivity | apply columns_change_twice].
    rewrite (merge_twice _ JoinTableMetadata.target JoinTableMetadata.propertyName
               DataSource.withJoinTable);
      [|reflexivity | reflexivity | apply tables_change_twice].
    reflexivity.
  - unfold DataSource.merged. cbn [relations].
    assert (Hrefl : forall r, sameButJoins r r) by (intros r; repeat split).
    assert (Htrans : forall a b c, sameButJoins a b -> sameButJoins b c
                                   -> sameButJoins a c).
    { intros a b c (H1 & H2 & H3 & H4 & H5 & H6) (K1 & K2 & K3 & K4 & K5 & K6).
      repeat split; congruence. }
    assert (Hcompose : forall xs ys zs,
               Forall2 sameButJoins xs ys -> Forall2 sameButJoins ys zs
               -> Forall2 sameButJoins xs zs).
    { intros xs ys zs Hxy. revert zs. induction Hxy; intros zs Hyz;
        inversion Hyz; subst; constructor; eauto. }
    eapply Hcompose.
    + apply (merge_keeps _ JoinTableMetadata.target JoinTableMetadata.propertyName
               DataSource.withJoinTable sameButJoins Hrefl Htrans).
      intros j r. repeat split.
    + apply (merge_keeps _ JoinColumnMetadata.target JoinColumnMetadata.propertyName
               DataSource.withJoinColumn sameButJoins Hrefl Htrans).
      intros j r. repeat split.
Qed.

End MergeFacts.
(** ** The junction table of a many-to-many relation *)

Module JunctionFacts.
Import JsFacts RunFacts MergeFacts Shape.

Lemma find_declared (c : class) (p : string) (rs : list RelationMetadata.t) :
  find (fun r => RelationMetadata.propertyName r =? p)
    (filter (fun r => identical (IsClass c) (RelationMetadata.target r)) rs)
  = find (DataSource.declaredOn c p) rs.
Proof.
  induction rs as [|r rest IH]; [reflexivity|].
  assert (Hs : same (RelationMetadata.target r) c = same c (RelationMetadata.target r))
    by (unfold same; apply Nat.eqb_sym).
  cbn [filter find identical]. unfold DataSource.declaredOn in *. rewrite Hs.
  destruct (same c (RelationMetadata.target r)); cbn [find andb]; [|exact IH].
  destruct (RelationMetadata.propertyName r =? p); [reflexivity | exact IH].
Qed.

(** The relation of a property after [initialize]. *)
Lemma findRelation_merged (storage : MetadataArgsStorage) (metadata : EntityMetadata.t)
    (relationName : string) :
  SqlGenerator.findRelation (DataSource.merged storage) metadata relationName
  = option_map
      (fun r =>
         changedBy DataSource.withJoinColumn
           (declarationsOn JoinColumnMetadata.target JoinColumnMetadata.propertyName
              (EntityMetadata.target metadata) relationName (joinColumns storage))
           (changedBy DataSource.withJoinTable
              (declarationsOn JoinTableMetadata.target JoinTableMetadata.propertyName
                 (EntityMetadata.target metadata) relationName (joinTables storage))
              r))
      (SqlGenerator.findRelation storage metadata relationName).
Proof.
  unfold SqlGenerator.findRelation, relationsOf. rewrite !find_declared.
  unfold DataSource.merged. cbn [relations].
  unfold DataSource.mergeJoinColumns, DataSource.mergeJoinTables.
  fold (mergeTables (joinTables storage) (relations storage)).
  fold (mergeColumns (joinColumns storage)
          (mergeTables (joinTables storage) (relations storage))).
  rewrite (find_merge _ JoinColumnMetadata.target JoinColumnMetadata.propertyName
             DataSource.withJoinColumn) by reflexivity.
  rewrite (find_merge _ JoinTableMetadata.target JoinTableMetadata.propertyName
             DataSource.withJoinTable) by reflexivity.
  destruct (find _ (relations storage)); reflexivity.
Qed.

Section WithHost.
Context `{Host} {W : Type} `{DataSource.World W}.
Variable storage : MetadataArgsStorage.

Lemma links_into (target : class) (junction : string) (entity item : value) :
  Spec.Only (Executes ("INSERT INTO " ++ junction ++ " VALUES (?, ?)"))
    (DataSource.linkItem storage target junction entity item).
Proof.
  unfold DataSource.linkItem.
  apply SaveFacts.only_bind; [apply SaveFacts.only_lift|]. intros relatedId.
  destruct (_ && _); [|apply SaveFacts.only_return].
  apply SaveFacts.only_catch; [|intros; apply SaveFacts.only_return].
  apply SaveFacts.only_bind; [|intros; apply SaveFacts.only_return].
  apply SaveFacts.only_query. eexists. reflexivity.
Qed.

End WithHost.

Section Named.
Context `{Host} {W : Type} `{DataSource.World W}.
Variable storage : MetadataArgsStorage.

(** X13.  After [initialize], the three places that name the junction table of
    a many-to-many relation agree: the joins of [select], the [CREATE TABLE]
    of the junction table, and the rows that [save] inserts all use the name
    the relation has then, which is the name of its [@JoinTable] if that has
    one and the names of the two tables joined by [_] otherwise.  This is for
    a relation registered without a name of its own, as the decorators do,
    with at most one [@JoinTable] on its property, and a related type that is
    registered. *)
Theorem junction_table_has_one_name (metadata : EntityMetadata.t)
    (relationName : string) (r : RelationMetadata.t) (relatedTable : EntityMetadata.t) :
  SqlGenerator.findRelation storage metadata relationName = Some r ->
  RelationMetadata.relationType r = RelationType.ManyToMany ->
  RelationMetadata.joinTableName r = None ->
  findTable storage (resolve (RelationMetadata.type r)) = Some relatedTable ->
  (List.length
     (declarationsOn JoinTableMetadata.target JoinTableMetadata.propertyName
        (EntityMetadata.target metadata) relationName (joinTables storage)) <= 1)%nat ->
  let t := EntityMetadata.tableName metadata in
  let related := EntityMetadata.tableName relatedTable in
  exists r' junction,
    SqlGenerator.findRelation (DataSource.merged storage) metadata relationName = Some r'
    /\ junction = or_name (RelationMetadata.joinTableName r') (t ++ "_" ++ related)
    /\ SqlGenerator.joinClause (DataSource.merged storage) metadata relationName
       = " LEFT JOIN " ++ junction ++ " ON " ++ junction ++ "." ++ t ++ "Id = " ++ t
         ++ ".id" ++ " LEFT JOIN " ++ related ++ " ON " ++ related ++ ".id = "
         ++ junction ++ "." ++ related ++ "Id"
    /\ String.prefix ("CREATE TABLE IF NOT EXISTS " ++ junction ++ " (")
         (SqlGenerator.createJunctionTable metadata r' relatedTable) = true
    /\ forall target isUpdate entity,
         Spec.Only (Executes ("INSERT INTO " ++ junction ++ " VALUES (?, ?)"))
           (DataSource.linkManyToMany (DataSource.merged storage) metadata target [r']
              isUpdate entity).
Proof.
  intros Hrel Hkind Hname Hrelated Hone t related.
  pose proof (findRelation_merged storage metadata relationName) as Hmerged.
  rewrite Hrel in Hmerged. cbn [option_map] in Hmerged.
  set (cs := declarationsOn JoinColumnMetadata.target JoinColumnMetadata.propertyName
               (EntityMetadata.target metadata) relationName (joinColumns storage)) in *.
  set (ts := declarationsOn JoinTableMetadata.target JoinTableMetadata.propertyName
               (EntityMetadata.target metadata) relationName (joinTables storage)) in *.
  set (r' := changedBy DataSource.withJoinColumn cs
               (changedBy DataSource.withJoinTable ts r)) in *.
  assert (Hkind' : RelationMetadata.relationType r' = RelationType.ManyToMany).
  { unfold r'. rewrite columns_change, tables_change. exact Hkind. }
  assert (Htype' : RelationMetadata.type r' = RelationMetadata.type r).
  { unfold r'. rewrite columns_change, tables_change. reflexivity. }
  assert (Hname' :
    RelationMetadata.joinTableName r'
    = match hd_error ts with
      | Some jt => DataSource.named (JoinTableMetadata.name jt) None
      | None => None
      end).
  { unfold r'. rewrite columns_change, tables_change.
    cbn [RelationMetadata.joinTableName]. rewrite Hname.
    destruct ts as [|jt [|jt' rest]]; [reflexivity | reflexivity | simpl in Hone; lia]. }
  assert (Hrelated' :
    findTable (DataSource.merged storage) (resolve (RelationMetadata.type r'))
    = Some relatedTable).
  { rewrite Htype'. exact Hrelated. }
  exists r', (or_name (RelationMetadata.joinTableName r') (t ++ "_" ++ related)).
  split; [exact Hmerged|]. split; [reflexivity|]. split; [|split].
  - unfold SqlGenerator.joinClause. rewrite Hmerged, Hrelated', Hkind'.
    cbn [joinTables DataSource.merged]. rewrite find_filter.
    fold (declarationsOn JoinTableMetadata.target JoinTableMetadata.propertyName
            (EntityMetadata.target metadata) relationName (joinTables storage)).
    fold ts. rewrite Hname'. fold t related.
    destruct (hd_error ts) as [jt|]; [|reflexivity].
    unfold DataSource.named, or_name.
    destruct (JoinTableMetadata.name jt) as [n|]; [|reflexivity].
    destruct (n =? "") eqn:En; [reflexivity|]. now rewrite En.
  - unfold SqlGenerator.createJunctionTable. fold t related.
    rewrite !prefix_app_l. reflexivity.
  - intros target isUpdate entity. unfold DataSource.linkManyToMany.
    cbn [DataSource.forEach]. rewrite Hkind'.
    apply SaveFacts.only_bind; [|intros; apply SaveFacts.only_return].
    apply SaveFacts.only_bind.
    + destruct (prop entity _); try apply SaveFacts.only_return.
      destruct (DataSource.cascades _ _); [|apply SaveFacts.only_return].
      apply SaveFacts.only_bind;
        [apply SaveFacts.quiet_only, SaveFacts.quiet_saveItems
        | intros; apply SaveFacts.only_return].
    + intros e'.
      destruct (prop e' _) as [| | | | | |[|item items]|];
        try apply SaveFacts.only_return.
      rewrite Hrelated'.
      apply SaveFacts.only_bind; [|intros; apply SaveFacts.only_return].
      apply SaveFacts.only_forEach. intros [] x. fold t related. apply links_into.
Qed.

End Named.
End JunctionFacts.
(** ** Schema synchronisation *)

Module SchemaFacts.
Import JsFacts RunFacts EventFacts Shape.

Lemma creates_table (sql : string) :
  creates ("CREATE TABLE IF NOT EXISTS " ++ sql) = true.
Proof. unfold creates. now rewrite prefix_append. Qed.

Lemma creates_index (metadata : EntityMetadata.t) (index : IndexMetadata.t) :
  creates (SqlGenerator.createIndex metadata index) = true.
Proof.
  unfold creates, SqlGenerator.createIndex.
  destruct (IndexMetadata.unique index).
  - replace ("CREATE " ++ "UNIQUE " ++ "INDEX IF NOT EXISTS " ++ _)
      with ("CREATE UNIQUE INDEX IF NOT EXISTS "
            ++ or_name (IndexMetadata.name index)
                 ("IDX_" ++ EntityMetadata.tableName metadata ++ "_"
                  ++ String.concat "_" (IndexMetadata.columns index))
            ++ " ON " ++ EntityMetadata.tableName metadata ++ " ("
            ++ String.concat ", " (IndexMetadata.columns index) ++ ")")
      by reflexivity.
    rewrite prefix_append. now rewrite !orb_true_r.
  - replace ("CREATE " ++ "" ++ "INDEX IF NOT EXISTS " ++ _)
      with ("CREATE INDEX IF NOT EXISTS "
            ++ or_name (IndexMetadata.name index)
                 ("IDX_" ++ EntityMetadata.tableName metadata ++ "_"
                  ++ String.concat "_" (IndexMetadata.columns index))
            ++ " ON " ++ EntityMetadata.tableName metadata ++ " ("
            ++ String.concat ", " (IndexMetadata.columns index) ++ ")")
      by reflexivity.
    rewrite prefix_append. now rewrite orb_true_r.
Qed.

Section Running.
Context `{Host} {W : Type} `{DataSource.World W}.

Lemma synchronizeTable_creates (storage : MetadataArgsStorage)
    (table : EntityMetadata.t) :
  Always Creates (DataSource.synchronizeTable storage table).
Proof.
  unfold DataSource.synchronizeTable. apply always_bind.
  - apply always_query. eexists. split; [reflexivity|].
    unfold SqlGenerator.createTable. apply creates_table.
  - intros _. apply always_bind; [apply always_lift|]. intros indices.
    apply always_bind.
    + apply always_forEach. intros [] index _.
      apply always_bind; [|intros; apply always_return].
      apply always_query. eexists. split; [reflexivity | apply creates_index].
    + intros _. apply always_forEach. intros [] relation _.
      unfold DataSource.synchronizeRelation.
      destruct (RelationMetadata.relationType relation); try apply always_return.
      destruct (DataSource.hasJoinTable storage table relation);
        [|apply always_return].
      destruct (findTable storage _) as [relatedTable|]; [|apply always_return].
      apply always_bind; [|intros; apply always_return].
      apply always_query. eexists. split; [reflexivity|].
      unfold SqlGenerator.createJunctionTable. apply creates_table.
Qed.

(** The first event of [synchronizeTable] is the creation of the table. *)
Lemma synchronizeTable_first (storage : MetadataArgsStorage)
    (table : EntityMetadata.t) (w : W) :
  hd_error (DataSource.events (DataSource.run (DataSource.synchronizeTable storage table) w))
  = Some (DataSource.ExecuteSql
            (SqlGenerator.createTable storage table
               (columnsOf storage (IsClass (EntityMetadata.target table)))) []).
Proof.
  unfold DataSource.synchronizeTable. rewrite events_bind, run_query.
  destruct (DataSource.respond w _) as [[v|e] w1]; reflexivity.
Qed.

Lemma synchronize_reaches (storage : MetadataArgsStorage)
    (tables : list EntityMetadata.t) (table : EntityMetadata.t) :
  In table tables ->
  forall w,
    let ran :=
      DataSource.run
        (DataSource.forEach (fun _ table => DataSource.synchronizeTable storage table)
           tables tt) w in
    DataSource.outcome ran = Ok tt ->
    In (DataSource.ExecuteSql
          (SqlGenerator.createTable storage table
             (columnsOf storage (IsClass (EntityMetadata.target table)))) [])
      (DataSource.events ran).
Proof.
  induction tables as [|first rest IH]; intros Hin w ran; [contradiction|].
  subst ran. cbn [DataSource.forEach]. rewrite run_bind.
  pose proof (synchronizeTable_first storage first w) as Hfirst.
  destruct (DataSource.run (DataSource.synchronizeTable storage first) w)
    as [[[[]|e] w1] sent]; [|discriminate].
  specialize (fun H => IH H w1). cbn zeta in IH.
  destruct (DataSource.run _ w1) as [[r w2] more].
  unfold DataSource.outcome, DataSource.events in *. cbn [fst snd] in *.
  intros Hok. apply in_or_app. destruct Hin as [<- | Hin].
  - left. destruct sent as [|ev sent]; [discriminate|].
    injection Hfirst as ->. now left.
  - right. now apply IH.
Qed.

(** X14.  [synchronize] only creates: every event of every run is a statement
    without parameters that begins with [CREATE TABLE IF NOT EXISTS], [CREATE
    INDEX IF NOT EXISTS] or [CREATE UNIQUE INDEX IF NOT EXISTS]; no table is
    dropped or altered and no row is touched.  A run that succeeds has sent
    the [CREATE TABLE] of every registered entity.  [initialize] sends [PRAGMA
    foreign_keys = ON] first and, unless the option [synchronize] is set,
    nothing else. *)
Theorem synchronize_only_creates (storage : MetadataArgsStorage) :
  Always Creates (DataSource.synchronize storage)
  /\ (forall w table,
         DataSource.outcome (DataSource.run (DataSource.synchronize storage) w) = Ok tt ->
         In table (tables storage) ->
         In (DataSource.ExecuteSql
               (SqlGenerator.createTable storage table
                  (columnsOf storage (IsClass (EntityMetadata.target table)))) [])
           (DataSource.events (DataSource.run (DataSource.synchronize storage) w)))
  /\ (forall w,
         DataSource.events (DataSource.run (DataSource.initialize storage false) w)
         = [DataSource.ExecuteSql "PRAGMA foreign_keys = ON" []])
  /\ forall w, exists created,
       DataSource.events (DataSource.run (DataSource.initialize storage true) w)
       = DataSource.ExecuteSql "PRAGMA foreign_keys = ON" [] :: created
       /\ Forall Creates created.
Proof.
  split; [|split; [|split]].
  - unfold DataSource.synchronize. apply always_forEach. intros [] table _.
    apply synchronizeTable_creates.
  - intros w table Hok Hin. exact (synchronize_reaches storage _ table Hin w Hok).
  - intros w. unfold DataSource.initialize. rewrite events_bind, run_query.
    destruct (DataSource.respond w _) as [[v|e] w1]; reflexivity.
  - intros w. unfold DataSource.initialize. rewrite events_bind, run_query.
    destruct (DataSource.respond w _) as [[v|e] w1]; cbn [fst snd app].
    + eexists. split; [reflexivity|].
      unfold DataSource.synchronize. apply always_forEach. intros [] table _.
      apply synchronizeTable_creates.
    + exists []. split; [reflexivity | constructor].
Qed.

End Running.
End SchemaFacts.
(** ** The query builder *)

Module BuilderFacts.
Import JsFacts TextFacts RunFacts EventFacts Shape.

(** What the chaining methods keep: the entity of the builder, and an order
    that is not set or is one property with a direction. *)
Lemma chain_keeps (calls : list QueryBuilder.call) :
  forall qb,
    (QueryBuilder.order qb = VUndefined
     \/ exists sort direction,
          QueryBuilder.order qb = VObj [(sort, VStr (QueryBuilder.text direction))]) ->
    QueryBuilder.metadata (QueryBuilder.chain calls qb) = QueryBuilder.metadata qb
    /\ (QueryBuilder.order (QueryBuilder.chain calls qb) = VUndefined
        \/ exists sort direction,
             QueryBuilder.order (QueryBuilder.chain calls qb)
             = VObj [(sort, VStr (QueryBuilder.text direction))]).
Proof.
  induction calls as [|c calls IH]; intros qb Horder; [now split|].
  unfold QueryBuilder.chain in *. cbn [fold_left].
  assert (Hstep :
    QueryBuilder.metadata (QueryBuilder.apply c qb) = QueryBuilder.metadata qb
    /\ (QueryBuilder.order (QueryBuilder.apply c qb) = VUndefined
        \/ exists sort direction,
             QueryBuilder.order (QueryBuilder.apply c qb)
             = VObj [(sort, VStr (QueryBuilder.text direction))])).
  { destruct c; cbn; split; try reflexivity; try exact Horder.
    right. eexists _, _. reflexivity. }
  destruct Hstep as [Hm Ho]. destruct (IH _ Ho) as [Hm' Ho'].
  split; [now rewrite Hm' | exact Ho'].
Qed.

Section WithHost.
Context `{Host}.
Variable storage : MetadataArgsStorage.

Lemma direction_text (direction : QueryBuilder.Direction) :
  SqlGenerator.direction (VStr (QueryBuilder.text direction))
  = QueryBuilder.text direction.
Proof. destruct direction; reflexivity. Qed.

(** The ordering the builder appends is the ordering of the generator. *)
Lemma ordering_orderSql (qb : QueryBuilder.t) :
  (QueryBuilder.order qb = VUndefined
   \/ exists sort direction,
        QueryBuilder.order qb = VObj [(sort, VStr (QueryBuilder.text direction))]) ->
  QueryBuilder.ordering qb = SqlGenerator.orderSql (QueryBuilder.order qb).
Proof.
  unfold QueryBuilder.ordering, SqlGenerator.orderSql.
  intros [-> | (sort & direction & ->)]; [reflexivity|].
  cbn. rewrite String.eqb_refl, direction_text. reflexivity.
Qed.

(** A builder for a registered entity runs the query that [find] runs with
    the conditions, relations, order, limit and offset the builder holds,
    without a selection of columns and without the soft-deleted rows. *)
Lemma getMany_find_state (qb : QueryBuilder.t) (metadata : EntityMetadata.t) :
  QueryBuilder.metadata qb = Some metadata ->
  findTable storage (IsClass (EntityMetadata.target metadata)) = Some metadata ->
  (QueryBuilder.order qb = VUndefined
   \/ exists sort direction,
        QueryBuilder.order qb = VObj [(sort, VStr (QueryBuilder.text direction))]) ->
  QueryBuilder.getMany storage qb
  = DataSource.find storage (EntityMetadata.target metadata)
      (QueryBuilder.whereClauses qb) (QueryBuilder.relations qb)
      (QueryBuilder.order qb) (QueryBuilder.takeCount qb) (QueryBuilder.skipCount qb)
      None false.
Proof.
  intros Hmeta Htable Horder.
  unfold QueryBuilder.getMany, DataSource.find, DataSource.tableOf.
  rewrite Hmeta, Htable. cbn [DataSource.bind]. f_equal. f_equal.
  rewrite (ordering_orderSql qb Horder). unfold SqlGenerator.select.
  destruct (SqlGenerator.filterClauses _) as [[clauses params]|e]; cbn [Js.bind];
    [|reflexivity].
  cbn [SqlGenerator.orderSql truthy Js.bind SqlGenerator.query SqlGenerator.params].
  destruct (SqlGenerator.orderSql (QueryBuilder.order qb)) as [ordered|e];
    cbn [Js.bind]; [|reflexivity].
  f_equal. f_equal. unfold QueryBuilder.paging, SqlGenerator.limitSql.
  cbn [is_undefined]. rewrite !append_assoc. cbn [append]. reflexivity.
Qed.

(** X15.  Whatever methods are chained on a builder made for a registered
    entity, [getMany] is the [find] of the data source with what the builder
    holds at the end: its conditions, relations, order, limit and offset, no
    selection of columns, soft-deleted rows left out.  [getOne] is the first
    entity of that [find]. *)
Theorem builder_runs_the_query_of_find (metadata : EntityMetadata.t)
    (alias : option string) (calls : list QueryBuilder.call) :
  findTable storage (IsClass (EntityMetadata.target metadata)) = Some metadata ->
  let qb :=
    QueryBuilder.chain calls
      (QueryBuilder.create storage (QueryBuilder.OfClass (EntityMetadata.target metadata))
         alias) in
  let found :=
    DataSource.find storage (EntityMetadata.target metadata)
      (QueryBuilder.whereClauses qb) (QueryBuilder.relations qb)
      (QueryBuilder.order qb) (QueryBuilder.takeCount qb) (QueryBuilder.skipCount qb)
      None false in
  QueryBuilder.getMany storage qb = found
  /\ QueryBuilder.getOne storage qb
     = DataSource.bind found (fun entities => DataSource.Return (first entities)).
Proof.
  intros Htable qb found.
  destruct (chain_keeps calls
              (QueryBuilder.create storage
                 (QueryBuilder.OfClass (EntityMetadata.target metadata)) alias))
    as [Hmeta Horder]; [now left|].
  fold qb in Hmeta, Horder. cbn [QueryBuilder.create QueryBuilder.metadata] in Hmeta.
  rewrite Htable in Hmeta.
  assert (Hmany : QueryBuilder.getMany storage qb = found)
    by exact (getMany_find_state qb metadata Hmeta Htable Horder).
  split; [exact Hmany|]. unfold QueryBuilder.getOne. now rewrite Hmany.
Qed.

Section Running.
Context {W : Type} `{DataSource.World W}.

(** X16.  A builder made for the name of a table, for nothing, or for a class
    that is not a registered entity is made without complaint and takes every
    chained call, but it cannot run:  [getMany] and [getOne] fail before
    anything happens. *)
Theorem builder_needs_a_registered_entity (made : QueryBuilder.source)
    (alias : option string) (calls : list QueryBuilder.call) :
  match made with
  | QueryBuilder.OfClass c => findTable storage (IsClass c) = None
  | _ => True
  end ->
  let qb := QueryBuilder.chain calls (QueryBuilder.create storage made alias) in
  let e := Error "Entity metadata not found for QueryBuilder" in
  Rejects (QueryBuilder.getMany storage qb) e
  /\ Rejects (QueryBuilder.getOne storage qb) e.
Proof.
  intros Hmade qb e.
  destruct (chain_keeps calls (QueryBuilder.create storage made alias))
    as [Hmeta _]; [now left|].
  fold qb in Hmeta. cbn [QueryBuilder.create QueryBuilder.metadata] in Hmeta.
  assert (Hnone : QueryBuilder.metadata qb = None).
  { rewrite Hmeta. destruct made; [exact Hmade | reflexivity | reflexivity]. }
  assert (Hmany : Rejects (QueryBuilder.getMany storage qb) e).
  { intros w. unfold QueryBuilder.getMany. now rewrite Hnone. }
  split; [exact Hmany|]. unfold QueryBuilder.getOne. now apply rejects_bind.
Qed.

End Running.
End WithHost.

(** *** Conditions added with [andWhere] *)

Lemma assoc_none (k : string) (fields : list (string * value)) :
  ~ In k (map fst fields) -> assoc k fields = None.
Proof.
  induction fields as [|[k0 v0] rest IH]; [reflexivity|]. simpl. intros Hnot.
  destruct (k0 =? k) eqn:E.
  - apply String.eqb_eq in E. exfalso. apply Hnot. now left.
  - apply IH. intros Hin. apply Hnot. now right.
Qed.

Lemma assoc_merged (k : string) (added fields : list (string * value)) :
  NoDup (map fst added) ->
  assoc k (fold_left (fun fields kv => set_field (fst kv) (snd kv) fields) added fields)
  = match assoc k added with
    | Some v => Some v
    | None => assoc k fields
    end.
Proof.
  revert fields. induction added as [|[k0 v0] rest IH]; intros fields Hnd;
    [reflexivity|].
  cbn [fold_left fst snd]. inversion Hnd as [|? ? Hfresh Hrest]; subst.
  rewrite (IH _ Hrest), assoc_set_field. cbn [assoc].
  destruct (k0 =? k) eqn:E; [|reflexivity].
  apply String.eqb_eq in E. subst k0. now rewrite (assoc_none k rest Hfresh).
Qed.

Lemma keys_set_field (k : string) (v : value) (fields : list (string * value)) :
  map fst (set_field k v fields)
  = if existsb (String.eqb k) (map fst fields) then map fst fields
    else (map fst fields ++ [k])%list.
Proof.
  induction fields as [|[k0 v0] rest IH]; [reflexivity|]. cbn [set_field map fst existsb].
  rewrite (String.eqb_sym k k0). destruct (k0 =? k) eqn:E; cbn [orb map fst].
  - apply String.eqb_eq in E. now subst k0.
  - rewrite IH. destruct (existsb (String.eqb k) (map fst rest)); reflexivity.
Qed.

Lemma keys_merged (added fields : list (string * value)) :
  NoDup (map fst added) ->
  map fst (fold_left (fun fields kv => set_field (fst kv) (snd kv) fields) added fields)
  = (map fst fields
     ++ filter (fun k => negb (existsb (String.eqb k) (map fst fields)))
          (map fst added))%list.
Proof.
  revert fields. induction added as [|[k0 v0] rest IH]; intros fields Hnd.
  - simpl. now rewrite app_nil_r.
  - cbn [fold_left fst snd map filter]. inversion Hnd as [|? ? Hfresh Hrest]; subst.
    rewrite (IH _ Hrest), keys_set_field.
    destruct (existsb (String.eqb k0) (map fst fields)) eqn:E; cbn [negb].
    + reflexivity.
    + rewrite <- app_assoc. cbn [app]. f_equal. f_equal.
      apply filter_ext_in. intros k Hin. f_equal.
      rewrite existsb_app. cbn [existsb]. rewrite orb_false_r.
      destruct (k =? k0) eqn:Ek; [|now rewrite orb_false_r].
      apply String.eqb_eq in Ek. subst k. contradiction.
Qed.

(** X17.  [andWhere] does not add a second condition on a property that has
    one: the condition it brings replaces the one the builder held, in its
    place.  The conditions of the builder afterwards are those it held, each
    with the new value if [andWhere] brings one, followed by the new ones,
    each property once.  This is for conditions on properties whose name is
    not a numeral, which JavaScript would enumerate before the others. *)
Theorem andWhere_replaces_a_condition (qb : QueryBuilder.t)
    (held added : list (string * value)) :
  QueryBuilder.whereClauses qb = VObj held ->
  NoDup (map fst added) ->
  Forall (fun k => numeral k = false) (map fst held) ->
  Forall (fun k => numeral k = false) (map fst added) ->
  let after := QueryBuilder.whereClauses (QueryBuilder.andWhere (VObj added) qb) in
  (forall k,
      prop after k
      = if existsb (String.eqb k) (map fst added) then prop (VObj added) k
        else prop (VObj held) k)
  /\ keys after
     = Ok (map fst held
           ++ filter (fun k => negb (existsb (String.eqb k) (map fst held)))
                (map fst added))%list.
Proof.
  intros Hheld Hnd _ _ after. subst after.
  unfold QueryBuilder.andWhere. cbn [QueryBuilder.whereClauses]. rewrite Hheld.
  unfold merge, own. cbn [spread]. split.
  - intros k. cbn [prop]. rewrite (assoc_merged k added held Hnd).
    destruct (existsb (String.eqb k) (map fst added)) eqn:E.
    + apply existsb_In in E. destruct (assoc k added) eqn:Ea; [reflexivity|].
      exfalso. clear - E Ea. induction added as [|[k0 v0] rest IH]; [contradiction|].
      simpl in *. destruct (k0 =? k) eqn:Ek; [discriminate|].
      destruct E as [-> | Hin]; [now rewrite String.eqb_refl in Ek | now apply IH].
    + rewrite assoc_none; [reflexivity|]. intros Hin. apply existsb_In in Hin.
      now rewrite Hin in E.
  - cbn [keys]. now rewrite (keys_merged added held Hnd).
Qed.

End BuilderFacts.
(** ** Splitting texts: relation paths and array columns *)

Module SplitFacts.
Import JsFacts TextFacts Shape.

Lemma split_on_plain (sep : ascii) (s : string) :
  mentions sep s = false -> split_on sep s = [s].
Proof.
  induction s as [|c s IH]; [reflexivity|]. cbn [mentions split_on]. intros Hs.
  apply orb_false_elim in Hs. destruct Hs as [Hc Hs]. rewrite Hc, (IH Hs). reflexivity.
Qed.

Lemma split_on_segment (sep : ascii) (a rest : string) :
  mentions sep a = false ->
  split_on sep (a ++ String sep rest) = a :: split_on sep rest.
Proof.
  induction a as [|c a IH]; cbn [mentions append split_on]; intros Ha.
  - now rewrite Ascii.eqb_refl.
  - apply orb_false_elim in Ha. destruct Ha as [Hc Ha]. rewrite Hc, (IH Ha). reflexivity.
Qed.

Lemma split_comma_split_on (s : string) : split_comma s = split_on "," s.
Proof.
  induction s as [|c s IH]; [reflexivity|]. cbn [split_comma split_on].
  now rewrite IH.
Qed.

(** Joining with a separator and splitting on it gives the pieces back, when
    there is a piece and no piece holds the separator. *)
Lemma split_on_concat (sep : ascii) (xs : list string) :
  xs <> [] ->
  Forall (fun x => mentions sep x = false) xs ->
  split_on sep (String.concat (String sep "") xs) = xs.
Proof.
  induction xs as [|x [|y rest] IH]; intros Hsome Hplain; [contradiction| |].
  - cbn [String.concat]. apply split_on_plain. now inversion Hplain.
  - rewrite concat_cons. inversion Hplain as [|? ? Hx Hrest]; subst.
    cbn [append]. rewrite (split_on_segment sep x _ Hx). f_equal.
    apply IH; [discriminate | exact Hrest].
Qed.

Lemma concat_not_empty (sep : ascii) (xs : list string) :
  xs <> [] -> xs <> [""] -> String.concat (String sep "") xs <> "".
Proof.
  destruct xs as [|x [|y rest]]; intros Hsome Hone; [contradiction| |].
  - cbn [String.concat]. intros ->. now apply Hone.
  - rewrite concat_cons. destruct x; discriminate.
Qed.

(** X18.  [leftJoinAndSelect] joins the second segment of a dotted path,
    whatever follows it, and the path itself if it has no dot or nothing after
    its first dot. *)
Theorem leftJoinAndSelect_joins_the_second_segment (qb : QueryBuilder.t)
    (a b rest alias_ : string) :
  mentions "." a = false ->
  mentions "." b = false ->
  b <> "" ->
  let joined := fun property =>
    QueryBuilder.relations (QueryBuilder.leftJoinAndSelect property alias_ qb) in
  joined (a ++ "." ++ b) = (QueryBuilder.relations qb ++ [b])%list
  /\ joined (a ++ "." ++ b ++ "." ++ rest) = (QueryBuilder.relations qb ++ [b])%list
  /\ joined a = (QueryBuilder.relations qb ++ [a])%list
  /\ joined (a ++ ".") = (QueryBuilder.relations qb ++ [(a ++ ".")%string])%list.
Proof.
  intros Ha Hb Hsome joined. subst joined.
  unfold QueryBuilder.leftJoinAndSelect. cbn [QueryBuilder.relations].
  unfold QueryBuilder.relationOfPath.
  assert (Hnot : (b =? "") = false) by now apply String.eqb_neq.
  repeat split; f_equal; f_equal.
  - cbn [append]. rewrite (split_on_segment "." a b Ha), (split_on_plain "." b Hb).
    cbn [nth_error]. now rewrite Hnot.
  - cbn [append].
    rewrite (split_on_segment "." a _ Ha), (split_on_segment "." b rest Hb).
    cbn [nth_error]. now rewrite Hnot.
  - now rewrite (split_on_plain "." a Ha).
  - cbn [append]. rewrite (split_on_segment "." a "" Ha). reflexivity.
Qed.

Section WithHost.
Context `{Host}.

Lemma join_texts (sep : string) (xs : list string) :
  join sep (map VStr xs) = String.concat sep xs.
Proof. unfold join. rewrite map_map. cbn. now rewrite map_id. Qed.

(** X19.  An array of texts written to a simple-array column and read back is
    the same array, if no text holds a comma and the array is not the one
    empty text: the empty array is stored as the empty text and read back as
    the empty array, and so is the array of the one empty text. *)
Theorem simple_array_round_trip (col : ColumnMetadata.t) (xs : list string) :
  ColumnOptions.transformer (ColumnMetadata.options col) = None ->
  ColumnOptions.type (ColumnMetadata.options col) = Some ColumnType.SimpleArray ->
  Forall (fun x => mentions "," x = false) xs ->
  (xs <> [""] ->
   exists stored,
     DataSource.serialize col (VArr (map VStr xs)) = Ok (VStr stored)
     /\ DataSource.transformValue col (VStr stored) = Ok (VArr (map VStr xs)))
  /\ DataSource.serialize col (VArr [VStr ""]) = Ok (VStr "")
  /\ DataSource.transformValue col (VStr "") = Ok (VArr []).
Proof.
  intros Hnone Htype Hplain.
  unfold DataSource.serialize, DataSource.transformValue. rewrite Hnone, Htype.
  split; [|split; reflexivity].
  intros Hone. exists (String.concat "," xs). rewrite join_texts. split; [reflexivity|].
  destruct xs as [|x rest]; [reflexivity|].
  destruct (String.concat "," (x :: rest) =? "") eqn:E.
  - apply String.eqb_eq in E. exfalso.
    apply (concat_not_empty "," (x :: rest)); [discriminate | exact Hone | exact E].
  - rewrite split_comma_split_on.
    rewrite (split_on_concat "," (x :: rest)); [reflexivity | discriminate | exact Hplain].
Qed.

(** X20.  Without a transformer reading a value never fails: a value that is
    not a text is handed on as it is, and a simple-json text that does not
    parse is handed on as the text. *)
Theorem reading_without_a_transformer_never_fails (col : ColumnMetadata.t)
    (val : value) :
  ColumnOptions.transformer (ColumnMetadata.options col) = None ->
  (exists read, DataSource.transformValue col val = Ok read)
  /\ ((forall s, val <> VStr s) -> DataSource.transformValue col val = Ok val)
  /\ forall s e,
       val = VStr s ->
       ColumnOptions.type (ColumnMetadata.options col) = Some ColumnType.SimpleJson ->
       JSON_parse s = Throw e ->
       DataSource.transformValue col val = Ok val.
Proof.
  intros Hnone. unfold DataSource.transformValue. rewrite Hnone. split; [|split].
  - destruct (ColumnOptions.type (ColumnMetadata.options col)) as [[]|], val;
      try (eexists; reflexivity).
    destruct (JSON_parse s); eexists; reflexivity.
  - intros Hval.
    destruct (ColumnOptions.type (ColumnMetadata.options col)) as [[]|], val;
      try reflexivity; exfalso; eapply Hval; reflexivity.
  - intros s e -> Htype Hparse. now rewrite Htype, Hparse.
Qed.

End WithHost.
End SplitFacts.

(** ** The life cycle of a save *)

Module LifeCycleFacts.
Import JsFacts TextFacts RunFacts EventFacts Shape.

Section Running.
Context `{Host} {W : Type} `{DataSource.World W}.
Variable storage : MetadataArgsStorage.

(** The statement for the row: an [UPDATE] of the table on the update path,
    an [INSERT] into it on the insert path. *)
Lemma persist_row (table : EntityMetadata.t) (target : class)
    (columns : list ColumnMetadata.t) (relations : list RelationMetadata.t)
    (isUpdate : bool) (entity persisted : value) :
  Always
    (Begins (if isUpdate
             then "UPDATE " ++ EntityMetadata.tableName table ++ " SET "
             else "INSERT INTO " ++ EntityMetadata.tableName table ++ " ("))
    (DataSource.persist storage table target columns relations isUpdate entity persisted).
Proof.
  unfold DataSource.persist. destruct isUpdate.
  - destruct (SqlGenerator.update table persisted _) as [q|e] eqn:Eq;
      cbn [DataSource.lift DataSource.bind]; [|apply always_raise].
    apply always_bind; [|intros; apply always_return].
    apply always_query. eexists _, _. split; [reflexivity|].
    exact (SaveFacts.update_text table _ _ q Eq).
  - apply always_bind.
    + apply always_query. eexists _, _. split; [reflexivity|].
      unfold SqlGenerator.insert. cbn [SqlGenerator.query].
      rewrite !prefix_app_l.
      rewrite <- (append_empty " (") at 1. rewrite prefix_app_l. apply prefix_empty.
    + intros res. apply always_bind; [apply always_lift|]. intros insertId.
      destruct (DataSource.pkName storage target); [|apply always_return].
      destruct (_ && _); apply always_return.
Qed.

End Running.
End LifeCycleFacts.

(** ** Bulk update *)

Module UpdateFacts.
Import JsFacts RunFacts EventFacts BuilderFacts Shape.

Section WithHost.
Context `{Host}.
Variable now : Z.

(** The first loop of [update] on an object: it never fails, and it leaves
    the current time in the properties of the update-date columns and
    nothing else. *)
Lemma refresh_loop (columns : list ColumnMetadata.t) :
  forall fields, exists fields',
    foldM (fun partial col =>
             if has_mode (ColumnMetadata.mode col) updateDate then
               assign_strict partial (ColumnMetadata.propertyName col)
                 (VDate (Some now))
             else Ok partial)
          columns (VObj fields)
    = Ok (VObj fields')
    /\ (forall k,
           assoc k fields'
           = if existsb (fun c => has_mode (ColumnMetadata.mode c) updateDate
                                  && (ColumnMetadata.propertyName c =? k)) columns
             then Some (VDate (Some now))
             else assoc k fields)
    /\ forall k,
         In k (map fst fields')
         <-> In k (map fst fields)
             \/ existsb (fun c => has_mode (ColumnMetadata.mode c) updateDate
                                  && (ColumnMetadata.propertyName c =? k)) columns
                = true.
Proof.
  induction columns as [|c columns IH]; intros fields.
  - exists fields. split; [reflexivity|]. split; [reflexivity|].
    intros k. cbn [existsb]. intuition discriminate.
  - cbn [foldM existsb].
    destruct (has_mode (ColumnMetadata.mode c) updateDate); cbn [andb orb].
    + cbn [assign_strict Js.bind].
      destruct (IH (set_field (ColumnMetadata.propertyName c) (VDate (Some now)) fields))
        as (fields' & Hfold & Hprop & Hkeys).
      exists fields'. split; [exact Hfold|]. split.
      * intros k. rewrite Hprop, assoc_set_field.
        destruct (existsb _ columns); [now rewrite orb_true_r|].
        rewrite orb_false_r. reflexivity.
      * intros k. rewrite Hkeys, keys_set_field, orb_true_iff.
        destruct (existsb (String.eqb (ColumnMetadata.propertyName c)) (map fst fields))
          eqn:Ehas.
        -- split; [tauto|]. intros [Hin | [Hc | Hrest]]; [tauto | | tauto].
           left. apply String.eqb_eq in Hc. subst k.
           apply existsb_exists in Ehas. destruct Ehas as (k' & Hin & Hk').
           apply String.eqb_eq in Hk'. now subst k'.
        -- rewrite in_app_iff. cbn [In]. rewrite String.eqb_eq.
           split; [intros [[Hin | [Hc | []]] | Hrest] | intros [Hin | [Hc | Hrest]]];
             tauto.
    + cbn [Js.bind]. exact (IH fields).
Qed.

(** The second loop of [update] changes nothing when no column has a
    transformer. *)
Lemma untransformed (columns : list ColumnMetadata.t) (partial persisted : value) :
  Forall (fun c => ColumnOptions.transformer (ColumnMetadata.options c) = None) columns ->
  foldM (fun persisted col =>
           let p := ColumnMetadata.propertyName col in
           match ColumnOptions.transformer (ColumnMetadata.options col) with
           | Some transformer =>
               let* own := get partial p in
               if negb (is_undefined own) then
                 let* written := ValueTransformer.to transformer own in
                 Ok (assign persisted p written)
               else Ok persisted
           | None => Ok persisted
           end)
        columns persisted
  = Ok persisted.
Proof.
  induction 1 as [|c columns Hc _ IH]; [reflexivity|].
  cbn [foldM]. cbn zeta. rewrite Hc. cbn [Js.bind]. exact IH.
Qed.

Section Running.
Context {W : Type} `{DataSource.World W}.
Variable storage : MetadataArgsStorage.

(** X22.  [update] with a partial entity refreshes the update-date columns:
    the object whose properties it assigns has the properties of the partial
    entity and those of the update-date columns of the entity, with the
    current time in every update-date column and every other property as the
    caller gave it; a version column is not incremented.  This is for an
    entity without transformers.  One statement is sent, the [UPDATE] the
    generator builds from that object and the criteria, or none if the
    generator refuses. *)
Theorem update_refreshes_the_update_date (target : class) (table : EntityMetadata.t)
    (criteria : value) (fields : list (string * value)) :
  findTable storage (IsClass target) = Some table ->
  Forall (fun c => ColumnOptions.transformer (ColumnMetadata.options c) = None)
    (columnsOf storage (IsClass target)) ->
  let refreshed := fun k =>
    existsb (fun c => has_mode (ColumnMetadata.mode c) updateDate
                      && (ColumnMetadata.propertyName c =? k))
      (columnsOf storage (IsClass target)) in
  exists assigned names,
    keys assigned = Ok names
    /\ (forall k, In k names <-> In k (map fst fields) \/ refreshed k = true)
    /\ (forall k,
           prop assigned k
           = if refreshed k then VDate (Some now) else prop (VObj fields) k)
    /\ forall w,
         DataSource.events
           (DataSource.run (DataSource.update storage now target criteria (VObj fields)) w)
         = match SqlGenerator.update table assigned criteria with
           | Ok q =>
               [DataSource.ExecuteSql (SqlGenerator.query q) (SqlGenerator.params q)]
           | Throw _ => []
           end.
Proof.
  intros Htable Hplain is_refreshed. subst is_refreshed.
  destruct (refresh_loop (columnsOf storage (IsClass target)) fields)
    as (fields' & Hfold & Hprop & Hkeys).
  exists (VObj fields'), (map fst fields'). split; [reflexivity|].
  split; [exact Hkeys|]. split.
  - intros k. cbn [prop]. rewrite Hprop. destruct (existsb _ _); reflexivity.
  - intros w. unfold DataSource.update, DataSource.tableOf. rewrite Htable.
    cbn [DataSource.bind]. rewrite Hfold. cbn [DataSource.lift DataSource.bind spread].
    rewrite (untransformed _ _ _ Hplain).
    cbn [DataSource.lift DataSource.bind].
    destruct (SqlGenerator.update table (VObj fields') criteria) as [q|e];
      cbn [DataSource.lift DataSource.bind]; [|reflexivity].
    apply one_query.
Qed.

End Running.
End WithHost.
End UpdateFacts.

(** ** Nested saves *)

Module NestedFacts.
Import JsFacts RunFacts EventFacts Shape.

Section Performing.
Context {W : Type} `{DataSource.World W}.
Variable nested : value -> W -> option (result value * W * list DataSource.event).

Lemma perform_bind {A B} (p : DataSource.Async A) (f : A -> DataSource.Async B) (w : W) :
  DataSource.perform nested (DataSource.bind p f) w
  = match DataSource.perform nested p w with
    | Some (Ok a, w1, t1) =>
        match DataSource.perform nested (f a) w1 with
        | Some (out, w2, t2) => Some (out, w2, (t1 ++ t2)%list)
        | None => None
        end
    | Some (Throw e, w1, t1) => Some (Throw e, w1, t1)
    | None => None
    end.
Proof.
  revert w. induction p as [a|e|ev k IH]; intros w; cbn [DataSource.bind DataSource.perform].
  - destruct (DataSource.perform nested (f a) w) as [[[out w2] t2]|]; reflexivity.
  - reflexivity.
  - destruct ev as [sql params|receiver method|other].
    + destruct (DataSource.respond w _) as [answer w1]. rewrite IH.
      destruct (DataSource.perform nested (k answer) w1) as [[[[a|e] w2] t1]|];
        [|reflexivity|reflexivity].
      destruct (DataSource.perform nested (f a) w2) as [[[out w3] t2]|]; reflexivity.
    + destruct (DataSource.respond w _) as [answer w1]. rewrite IH.
      destruct (DataSource.perform nested (k answer) w1) as [[[[a|e] w2] t1]|];
        [|reflexivity|reflexivity].
      destruct (DataSource.perform nested (f a) w2) as [[[out w3] t2]|]; reflexivity.
    + destruct (nested other w) as [[[answer w1] inner]|]; [|reflexivity]. rewrite IH.
      destruct (DataSource.perform nested (k answer) w1) as [[[[a|e] w2] t1]|];
        [|reflexivity|reflexivity].
      destruct (DataSource.perform nested (f a) w2) as [[[out w3] t2]|];
        [|reflexivity].
      now rewrite app_assoc.
Qed.

(** An operation that has no save of its own runs as it does by itself. *)
Lemma perform_own {A} (p : DataSource.Async A) :
  Emits Own p -> forall w, DataSource.perform nested p w = Some (DataSource.run p w).
Proof.
  induction 1 as [a|e|ev k Hown _ IH]; intros w; cbn [DataSource.perform DataSource.run];
    try reflexivity.
  destruct ev as [sql params|receiver method|other];
    [| |exfalso; exact (Hown other eq_refl)];
    (destruct (DataSource.respond w _) as [answer w1]; rewrite IH;
     destruct (DataSource.run (k answer) w1) as [[out w2] trace]; reflexivity).
Qed.

End Performing.

(** *** What an operation awaits *)

Lemma emits_weaken (P Q : DataSource.event -> Prop) {A} (p : DataSource.Async A) :
  (forall ev, P ev -> Q ev) -> Emits P p -> Emits Q p.
Proof.
  intros HPQ. induction 1 as [a|e|ev k Hev _ IH]; constructor; auto.
Qed.

Lemma emits_bind (P : DataSource.event -> Prop) {A B} (p : DataSource.Async A)
    (f : A -> DataSource.Async B) :
  Emits P p -> (forall a, Emits P (f a)) -> Emits P (DataSource.bind p f).
Proof.
  intros Hp Hf. induction Hp as [a|e|ev k Hev _ IH]; cbn [DataSource.bind].
  - apply Hf.
  - constructor.
  - constructor; [exact Hev | exact IH].
Qed.

Lemma emits_catch (P : DataSource.event -> Prop) {A} (p : DataSource.Async A)
    (h : error -> DataSource.Async A) :
  Emits P p -> (forall e, Emits P (h e)) -> Emits P (DataSource.catch p h).
Proof.
  intros Hp Hh. induction Hp as [a|e|ev k Hev _ IH]; cbn [DataSource.catch].
  - constructor.
  - apply Hh.
  - constructor; [exact Hev | exact IH].
Qed.

Lemma emits_lift (P : DataSource.event -> Prop) {A} (r : result A) :
  Emits P (DataSource.lift r).
Proof. destruct r; constructor. Qed.

Lemma emits_await (P : DataSource.event -> Prop) (ev : DataSource.event) :
  P ev -> Emits P (DataSource.await ev).
Proof. intros Hev. constructor; [exact Hev|]. intros answer. apply emits_lift. Qed.

Lemma emits_forEach (P : DataSource.event -> Prop) {A S}
    (f : S -> A -> DataSource.Async S) (xs : list A) :
  (forall s x, In x xs -> Emits P (f s x)) ->
  forall s, Emits P (DataSource.forEach f xs s).
Proof.
  induction xs as [|x xs IH]; intros Hf s; cbn [DataSource.forEach].
  - constructor.
  - apply emits_bind; [apply Hf; now left|].
    intros s'. apply IH. intros s0 x0 Hin. apply Hf. now right.
Qed.

(** Whatever the surroundings answer, the events of a run are of the kind
    the operation awaits. *)
Lemma emits_always {W : Type} `{DataSource.World W} (P : DataSource.event -> Prop)
    {A} (p : DataSource.Async A) :
  Emits P p -> Always P p.
Proof.
  induction 1 as [a|e|ev k Hev _ IH]; intros w; cbn [DataSource.run DataSource.events snd];
    try constructor.
  destruct (DataSource.respond w ev) as [answer w1]. specialize (IH answer w1).
  destruct (DataSource.run (k answer) w1) as [[out w2] trace].
  constructor; [exact Hev | exact IH].
Qed.

(** *** The parts of a save *)

Section Parts.
Context `{Host}.
Variable storage : MetadataArgsStorage.
Variable now : Z.

Lemma saveOwners_emits (relations : list RelationMetadata.t) (isUpdate : bool)
    (entity : value) :
  Emits Saves (DataSource.saveOwners relations isUpdate entity).
Proof.
  unfold DataSource.saveOwners. apply emits_forEach. intros e relation _.
  destruct (_ && _); [|constructor].
  destruct (truthy _); [|constructor].
  apply emits_bind; [|intros; constructor].
  apply emits_await. eexists. reflexivity.
Qed.

Lemma callListeners_emits (target : class) (type : ListenerType.t) (entity : value) :
  Emits (Calls (listenerNames storage target type))
    (DataSource.callListeners storage target type entity).
Proof.
  unfold DataSource.callListeners. apply emits_forEach. intros e listener Hin.
  destruct (DataSource.callable _ _ _); [|constructor].
  apply emits_await. eexists _, _. split; [reflexivity|].
  unfold listenerNames. now apply in_map.
Qed.

Lemma calls_own (names : list string) (ev : DataSource.event) : Calls names ev -> Own ev.
Proof. intros (receiver & method & -> & _) other. discriminate. Qed.

Lemma statement_own (sql : string) (params : list value) :
  Own (DataSource.ExecuteSql sql params).
Proof. intros other. discriminate. Qed.

Lemma persist_emits (table : EntityMetadata.t) (target : class)
    (columns : list ColumnMetadata.t) (relations : list RelationMetadata.t)
    (isUpdate : bool) (entity persisted : value) :
  Emits Own
    (DataSource.persist storage table target columns relations isUpdate entity persisted).
Proof.
  unfold DataSource.persist. destruct isUpdate.
  - apply emits_bind; [apply emits_lift|]. intros q.
    apply emits_bind; [apply emits_await, statement_own | intros; constructor].
  - apply emits_bind; [apply emits_await, statement_own|]. intros res.
    apply emits_bind; [apply emits_lift|]. intros insertId.
    destruct (DataSource.pkName storage target); [|constructor].
    destruct (_ && _); constructor.
Qed.

Lemma saveChild_emits (relation : RelationMetadata.t) (entity child : value) :
  Emits Saves (DataSource.saveChild relation entity child).
Proof.
  unfold DataSource.saveChild. destruct (negb _); [|constructor].
  apply emits_bind; [apply emits_lift|]. intros c.
  apply emits_await. eexists. reflexivity.
Qed.

Lemma saveChildren_emits (relation : RelationMetadata.t) (entity : value)
    (children : list value) :
  Emits Saves (DataSource.saveChildren relation entity children).
Proof.
  induction children as [|child rest IH]; cbn [DataSource.saveChildren]; [constructor|].
  apply emits_bind; [apply saveChild_emits|]. intros saved.
  apply emits_bind; [exact IH | intros; constructor].
Qed.

Lemma cascadeChildren_emits (relations : list RelationMetadata.t) (isUpdate : bool)
    (entity : value) :
  Emits Saves (DataSource.cascadeChildren relations isUpdate entity).
Proof.
  unfold DataSource.cascadeChildren. apply emits_forEach. intros e relation _.
  destruct (DataSource.cascades _ _); [|constructor].
  destruct (RelationMetadata.relationType relation); try constructor.
  - destruct (RelationMetadata.joinColumn relation); [constructor|].
    destruct (truthy _); [|constructor].
    apply emits_bind; [apply saveChild_emits | intros; constructor].
  - destruct (prop e _); try constructor.
    apply emits_bind; [apply saveChildren_emits | intros; constructor].
Qed.

Lemma saveItems_emits (items : list value) : Emits Saves (DataSource.saveItems items).
Proof.
  induction items as [|item rest IH]; cbn [DataSource.saveItems]; [constructor|].
  apply emits_bind; [apply emits_await; eexists; reflexivity|]. intros saved.
  apply emits_bind; [exact IH | intros; constructor].
Qed.

Lemma linkItem_emits (target : class) (junction : string) (entity item : value) :
  Emits Spec.JunctionInsert (DataSource.linkItem storage target junction entity item).
Proof.
  unfold DataSource.linkItem. apply emits_bind; [apply emits_lift|]. intros relatedId.
  destruct (_ && _); [|constructor].
  apply emits_catch; [|intros; constructor].
  apply emits_bind; [|intros; constructor].
  apply emits_await. eexists _, _, _. reflexivity.
Qed.

Lemma linkManyToMany_emits (table : EntityMetadata.t) (target : class)
    (relations : list RelationMetadata.t) (isUpdate : bool) (entity : value) :
  Emits (fun ev => Saves ev \/ Spec.JunctionInsert ev)
    (DataSource.linkManyToMany storage table target relations isUpdate entity).
Proof.
  unfold DataSource.linkManyToMany. apply emits_forEach. intros e relation _.
  destruct (RelationMetadata.relationType relation); try constructor.
  apply emits_bind.
  - destruct (prop e _); try constructor.
    destruct (DataSource.cascades _ _); [|constructor].
    apply emits_bind; [|intros; constructor].
    apply (emits_weaken Saves); [now left | apply saveItems_emits].
  - intros e'. destruct (prop e' _) as [| | | | | |[|item items]|]; try constructor.
    destruct (findTable storage _); [|constructor].
    apply emits_bind; [|intros; constructor].
    apply emits_forEach. intros [] x _.
    apply (emits_weaken Spec.JunctionInsert); [now right | apply linkItem_emits].
Qed.

Section Running.
Context {W : Type} `{DataSource.World W}.
Variable constructorOf : value -> class.

(** The events of an operation that awaits saves and events of kind [P]. *)
Lemma execute_nested (P : DataSource.event -> Prop) {A} (p : DataSource.Async A) :
  Emits (fun ev => Saves ev \/ P ev) p ->
  forall depth w out w' trace,
    DataSource.execute storage now constructorOf depth p w = Some (out, w', trace) ->
    Nested storage now constructorOf P trace.
Proof.
  unfold DataSource.execute.
  induction 1 as [a|e|ev k Hev _ IH]; intros depth w out w' trace Hrun;
    cbn [DataSource.perform] in Hrun.
  - injection Hrun as _ _ <-. constructor.
  - injection Hrun as _ _ <-. constructor.
  - assert (Hstep : forall answer w1 rest,
              DataSource.perform (DataSource.nestedSave storage now constructorOf depth)
                (k answer) w1 = Some (out, w', rest) ->
              Nested storage now constructorOf P rest)
      by (intros answer w1 rest; apply IH).
    destruct ev as [sql params|receiver method|other].
    + destruct (DataSource.respond w _) as [answer w1].
      destruct (DataSource.perform _ (k answer) w1) as [[[out1 w2] rest]|] eqn:Ek;
        [|discriminate].
      injection Hrun as <- <- <-. apply nested_own.
      * destruct Hev as [[x Hx]|HP]; [discriminate | exact HP].
      * exact (Hstep _ _ _ Ek).
    + destruct (DataSource.respond w _) as [answer w1].
      destruct (DataSource.perform _ (k answer) w1) as [[[out1 w2] rest]|] eqn:Ek;
        [|discriminate].
      injection Hrun as <- <- <-. apply nested_own.
      * destruct Hev as [[x Hx]|HP]; [discriminate | exact HP].
      * exact (Hstep _ _ _ Ek).
    + destruct (DataSource.nestedSave storage now constructorOf depth other w)
        as [[[answer w1] inner]|] eqn:En; [|discriminate].
      destruct (DataSource.perform _ (k answer) w1) as [[[out1 w2] rest]|] eqn:Ek;
        [|discriminate].
      injection Hrun as <- <- <-.
      exact (nested_save storage now constructorOf P depth other w w1 answer inner rest
               En (Hstep _ _ _ Ek)).
Qed.

(** The statement for the row and what [persist] hands on. *)
Lemma run_persist (table : EntityMetadata.t) (target : class) (isUpdate : bool)
    (entity persisted : value) (w : W) :
  DataSource.run
    (DataSource.persist storage table target (columnsOf storage (IsClass target))
       (relationsOf storage (IsClass target)) isUpdate entity persisted) w
  = match rowQuery storage table target isUpdate entity persisted with
    | Throw e => (Throw e, w, [])
    | Ok q =>
        let row := DataSource.ExecuteSql (SqlGenerator.query q) (SqlGenerator.params q) in
        match DataSource.respond w row with
        | (Throw e, w1) => (Throw e, w1, [row])
        | (Ok answer, w1) =>
            if isUpdate then (Ok entity, w1, [row])
            else if nullish answer then (Throw TypeError, w1, [row])
            else (Ok (identified storage target false entity answer), w1, [row])
        end
    end.
Proof.
  unfold DataSource.persist, rowQuery, identified. destruct isUpdate.
  - destruct (SqlGenerator.update table persisted _) as [q|e];
      cbn [DataSource.lift DataSource.bind]; [|reflexivity].
    rewrite run_bind, run_query.
    destruct (DataSource.respond w _) as [[answer|e] w1]; reflexivity.
  - cbn zeta. rewrite run_bind, run_query.
    destruct (DataSource.respond w _) as [[answer|e] w1]; cbn [fst snd]; [|reflexivity].
    unfold get. destruct (nullish answer); cbn [DataSource.lift DataSource.bind];
      [reflexivity|].
    destruct (DataSource.pkName storage target) as [name|]; [|reflexivity].
    destruct (_ && _); reflexivity.
Qed.

(** The course of a save. *)
Lemma execute_save (depth : nat) (target : class) (entity : value)
    (table : EntityMetadata.t) (w : W) :
  findTable storage (IsClass target) = Some table ->
  let isUpdate := DataSource.isUpdate storage target entity in
  let relations := relationsOf storage (IsClass target) in
  let columns := columnsOf storage (IsClass target) in
  DataSource.execute storage now constructorOf depth
    (DataSource.save storage now target entity) w
  = match
      DataSource.execute storage now constructorOf depth
        (DataSource.saveOwners relations isUpdate entity) w
    with
    | None => None
    | Some (Throw e, w1, owners) => Some (Throw e, w1, owners)
    | Some (Ok owned, w1, owners) =>
        match
          DataSource.run
            (DataSource.callListeners storage target (beforeRow isUpdate) owned) w1
        with
        | (Throw e, w2, before) => Some (Throw e, w2, (owners ++ before)%list)
        | (Ok received, w2, before) =>
            let current := DataSource.stampColumns now isUpdate columns received in
            match DataSource.persistColumns columns current with
            | Throw e => Some (Throw e, w2, (owners ++ before)%list)
            | Ok written =>
                let persisted :=
                  DataSource.injectForeignKeys relations current written in
                match
                  DataSource.run
                    (DataSource.persist storage table target columns relations
                       isUpdate current persisted) w2
                with
                | (Throw e, w3, sent) =>
                    Some (Throw e, w3, (owners ++ before ++ sent)%list)
                | (Ok kept, w3, sent) =>
                    match
                      DataSource.run
                        (DataSource.callListeners storage target (afterRow isUpdate)
                           kept) w3
                    with
                    | (Throw e, w4, after) =>
                        Some (Throw e, w4, (owners ++ before ++ sent ++ after)%list)
                    | (Ok handed, w4, after) =>
                        match
                          DataSource.execute storage now constructorOf depth
                            (DataSource.bind
                               (DataSource.cascadeChildren relations isUpdate handed)
                               (DataSource.linkManyToMany storage table target
                                  relations isUpdate)) w4
                        with
                        | None => None
                        | Some (out, w5, rest) =>
                            Some (out, w5,
                                  (owners ++ before ++ sent ++ after ++ rest)%list)
                        end
                    end
                end
            end
        end
    end.
Proof.
  intros Htable isUpdate relations columns.
  unfold DataSource.execute, DataSource.save, DataSource.tableOf. rewrite Htable.
  cbn [DataSource.bind]. fold isUpdate relations columns.
  rewrite perform_bind.
  destruct (DataSource.perform _ (DataSource.saveOwners relations isUpdate entity) w)
    as [[[[owned|e] w1] owners]|]; [|reflexivity|reflexivity].
  rewrite perform_bind.
  rewrite (perform_own _ _
             (emits_weaken _ _ _ (calls_own _)
                (callListeners_emits target _ owned))).
  fold (beforeRow isUpdate).
  destruct (DataSource.run (DataSource.callListeners storage target _ owned) w1)
    as [[[received|e] w2] before]; [|reflexivity].
  cbn zeta.
  destruct (DataSource.persistColumns columns _) as [written|e];
    cbn [DataSource.lift DataSource.bind DataSource.perform];
    [|now rewrite app_nil_r].
  rewrite perform_bind, (perform_own _ _ (persist_emits _ _ _ _ _ _ _)).
  destruct (DataSource.run (DataSource.persist _ _ _ _ _ _ _ _) w2)
    as [[[kept|e] w3] sent]; [|reflexivity].
  rewrite perform_bind.
  rewrite (perform_own _ _
             (emits_weaken _ _ _ (calls_own _)
                (callListeners_emits target _ kept))).
  fold (afterRow isUpdate).
  destruct (DataSource.run (DataSource.callListeners storage target _ kept) w3)
    as [[[handed|e] w4] after]; [|reflexivity].
  destruct (DataSource.perform _ _ w4) as [[[out w5] rest]|]; reflexivity.
Qed.

End Running.
End Parts.

End NestedFacts.

(** ** The course of a save *)

Module CourseFacts.
Import JsFacts TextFacts RunFacts EventFacts NestedFacts Shape.

Section WithHost.
Context `{Host}.
Variable storage : MetadataArgsStorage.
Variable now : Z.

(** The object that [save] fills is an object. *)
Lemma persistColumn_object (entity : value) (fields : list (string * value))
    (col : ColumnMetadata.t) (written : value) :
  DataSource.persistColumn entity (VObj fields) col = Ok written ->
  exists fields', written = VObj fields'.
Proof.
  unfold DataSource.persistColumn.
  destruct (DataSource.serialize col _) as [val|e]; cbn [Js.bind]; [|discriminate].
  destruct (ColumnOptions.transformer _) as [transformer|].
  - destruct (negb (is_undefined val)).
    + destruct (ValueTransformer.to transformer val) as [out|e]; cbn [Js.bind];
        [|discriminate].
      intros [= <-]. eexists. reflexivity.
    + intros [= <-]. eexists. reflexivity.
  - destruct (negb (is_undefined val)); intros [= <-]; eexists; reflexivity.
Qed.

Lemma persistColumns_object (columns : list ColumnMetadata.t) (entity written : value) :
  DataSource.persistColumns columns entity = Ok written ->
  exists fields, written = VObj fields.
Proof.
  unfold DataSource.persistColumns. generalize (@nil (string * value)).
  induction columns as [|col rest IH]; intros fields; cbn [foldM].
  - intros [= <-]. eexists. reflexivity.
  - destruct (DataSource.persistColumn entity (VObj fields) col) as [next|e] eqn:Ec;
      cbn [Js.bind]; [|discriminate].
    destruct (persistColumn_object _ _ _ _ Ec) as [fields' ->]. apply IH.
Qed.

Lemma injectForeignKeys_object (relations : list RelationMetadata.t) (entity : value) :
  forall fields,
    exists fields',
      DataSource.injectForeignKeys relations entity (VObj fields) = VObj fields'.
Proof.
  unfold DataSource.injectForeignKeys.
  induction relations as [|r rest IH]; intros fields; cbn [fold_left].
  - eexists. reflexivity.
  - unfold DataSource.injectForeignKey at 2.
    destruct (SqlGenerator.owning r); [|apply IH].
    destruct (truthy _); [|apply IH]. cbn [assign]. apply IH.
Qed.

Section Running.
Context {W : Type} `{DataSource.World W}.
Variable constructorOf : value -> class.

(** A save that completes has gone through every part. *)
Lemma save_completed (depth : nat) (target : class) (table : EntityMetadata.t)
    (entity saved : value) (w w' : W) (trace : list DataSource.event) :
  findTable storage (IsClass target) = Some table ->
  DataSource.execute storage now constructorOf depth
    (DataSource.save storage now target entity) w
  = Some (Ok saved, w', trace) ->
  let isUpdate := DataSource.isUpdate storage target entity in
  let relations := relationsOf storage (IsClass target) in
  exists owners before received current persisted w2 q answer w3 after handed w4 rest,
    Reaches storage now constructorOf depth target entity w owners before received
      current persisted w2
    /\ rowQuery storage table target isUpdate current persisted = Ok q
    /\ DataSource.respond w2
         (DataSource.ExecuteSql (SqlGenerator.query q) (SqlGenerator.params q))
       = (Ok answer, w3)
    /\ (isUpdate = false -> nullish answer = false)
    /\ DataSource.run
         (DataSource.callListeners storage target (afterRow isUpdate)
            (identified storage target isUpdate current answer)) w3
       = (Ok handed, w4, after)
    /\ DataSource.execute storage now constructorOf depth
         (DataSource.bind (DataSource.cascadeChildren relations isUpdate handed)
            (DataSource.linkManyToMany storage table target relations isUpdate)) w4
       = Some (Ok saved, w', rest)
    /\ trace
       = (owners ++ before
          ++ DataSource.ExecuteSql (SqlGenerator.query q) (SqlGenerator.params q)
             :: after ++ rest)%list.
Proof.
  intros Htable Hrun isUpdate relations.
  rewrite (execute_save storage now constructorOf depth target entity table w Htable)
    in Hrun.
  cbn zeta in Hrun. fold isUpdate relations in Hrun.
  destruct (DataSource.execute storage now constructorOf depth
              (DataSource.saveOwners relations isUpdate entity) w)
    as [[[[owned|e] w1] owners]|] eqn:Eowners; [|discriminate|discriminate].
  destruct (DataSource.run (DataSource.callListeners storage target _ owned) w1)
    as [[[received|e] w2] before] eqn:Ebefore; [|discriminate].
  destruct (DataSource.persistColumns _ _) as [written|e] eqn:Ewritten; [|discriminate].
  rewrite run_persist in Hrun.
  destruct (rowQuery storage table target isUpdate _ _) as [q|e] eqn:Eq; [|discriminate].
  cbn zeta in Hrun.
  destruct (DataSource.respond w2 _) as [[answer|e] w3] eqn:Eanswer; [|discriminate].
  assert (Hkept :
    exists kept,
      (if isUpdate
       then (Ok (DataSource.stampColumns now isUpdate
                   (columnsOf storage (IsClass target)) received), w3,
             [DataSource.ExecuteSql (SqlGenerator.query q) (SqlGenerator.params q)])
       else if nullish answer
            then (Throw TypeError, w3,
                  [DataSource.ExecuteSql (SqlGenerator.query q) (SqlGenerator.params q)])
            else (Ok (identified storage target false
                        (DataSource.stampColumns now isUpdate
                           (columnsOf storage (IsClass target)) received) answer), w3,
                  [DataSource.ExecuteSql (SqlGenerator.query q) (SqlGenerator.params q)]))
      = (Ok kept, w3,
         [DataSource.ExecuteSql (SqlGenerator.query q) (SqlGenerator.params q)])
      /\ kept = identified storage target isUpdate
                  (DataSource.stampColumns now isUpdate
                     (columnsOf storage (IsClass target)) received) answer
      /\ (isUpdate = false -> nullish answer = false)).
  { destruct isUpdate.
    - eexists. split; [reflexivity|]. split; [reflexivity | discriminate].
    - destruct (nullish answer); [discriminate|].
      eexists. split; [reflexivity|]. split; reflexivity. }
  destruct Hkept as (kept & Ekept & -> & Hanswer). rewrite Ekept in Hrun.
  destruct (DataSource.run (DataSource.callListeners storage target _ _) w3)
    as [[[handed|e] w4] after] eqn:Eafter; [|discriminate].
  destruct (DataSource.execute storage now constructorOf depth _ w4)
    as [[[out w5] rest]|] eqn:Erest; [|discriminate].
  injection Hrun as -> -> <-.
  exists owners, before, received,
    (DataSource.stampColumns now isUpdate (columnsOf storage (IsClass target)) received),
    (DataSource.injectForeignKeys relations
       (DataSource.stampColumns now isUpdate (columnsOf storage (IsClass target))
          received) written),
    w2, q, answer, w3, after, handed, w4, rest.
  split; [exists owned, w1, written; repeat split; assumption|].
  repeat split; assumption.
Qed.

(** The events of the parts of a completed save, by kind. *)
Lemma save_kinds (depth : nat) (target : class) (table : EntityMetadata.t)
    (entity : value) (w : W) (owners before : list DataSource.event)
    (received current persisted : value) (w2 : W) :
  Reaches storage now constructorOf depth target entity w owners before received
    current persisted w2 ->
  Nested storage now constructorOf (fun _ => False) owners
  /\ Forall
       (Calls (listenerNames storage target
                 (beforeRow (DataSource.isUpdate storage target entity))))
       before.
Proof.
  intros (owned & w1 & written & Howners & Hbefore & _). split.
  - refine (execute_nested storage now constructorOf _ _ _ _ _ _ _ _ Howners).
    apply (emits_weaken Saves); [now left | apply saveOwners_emits].
  - pose proof (emits_always _ _ (callListeners_emits storage target
                  (beforeRow (DataSource.isUpdate storage target entity)) owned) w1)
      as Hcalls.
    now rewrite Hbefore in Hcalls.
Qed.

Lemma rest_kinds (depth : nat) (table : EntityMetadata.t) (target : class)
    (relations : list RelationMetadata.t) (isUpdate : bool) (handed : value)
    (w4 w' : W) (out : result value) (rest : list DataSource.event) :
  DataSource.execute storage now constructorOf depth
    (DataSource.bind (DataSource.cascadeChildren relations isUpdate handed)
       (DataSource.linkManyToMany storage table target relations isUpdate)) w4
  = Some (out, w', rest) ->
  Nested storage now constructorOf Spec.JunctionInsert rest.
Proof.
  apply execute_nested. apply emits_bind.
  - apply (emits_weaken Saves); [now left | apply cascadeChildren_emits].
  - intros e. apply linkManyToMany_emits.
Qed.

(** C7, as amended.  A save takes the update path exactly when the entity
    type has a primary column and the property of that column holds a truthy
    value, and the insert path otherwise.  A save that completes has sent
    exactly one statement for the row of the entity, after the saves of the
    objects it holds a foreign key to and the calls of its listeners: on the
    update path the [UPDATE <table> SET ...] that [SqlGenerator.update]
    builds, whose [WHERE] clause is [<pk> = ?] bound to the value the
    primary-key property holds then; on the insert path the
    [INSERT INTO <table> (...)] that [SqlGenerator.insert] builds.  What
    follows the calls of the listeners after it are junction rows,
    [INSERT INTO <junction> VALUES (?, ?)], on both paths, and the saves of
    other objects, each a save of its own.  On the insert path the entity
    that is handed on has a truthy insert identifier of the answer in its
    primary-key property. *)
Theorem save_takes_one_path (depth : nat) (target : class) (table : EntityMetadata.t)
    (entity saved : value) (w w' : W) (trace : list DataSource.event) :
  findTable storage (IsClass target) = Some table ->
  DataSource.execute storage now constructorOf depth
    (DataSource.save storage now target entity) w
  = Some (Ok saved, w', trace) ->
  let isUpdate := DataSource.isUpdate storage target entity in
  let t := EntityMetadata.tableName table in
  (isUpdate = true
   <-> exists pk, DataSource.pkName storage target = Some pk
                  /\ pk <> "" /\ truthy (prop entity pk) = true)
  /\ exists owners before received current persisted w2 q answer w3 after handed w4 rest,
       Reaches storage now constructorOf depth target entity w owners before received
         current persisted w2
       /\ rowQuery storage table target isUpdate current persisted = Ok q
       /\ trace
          = (owners ++ before
             ++ DataSource.ExecuteSql (SqlGenerator.query q) (SqlGenerator.params q)
                :: after ++ rest)%list
       /\ Nested storage now constructorOf (fun _ => False) owners
       /\ Forall (Calls (listenerNames storage target (beforeRow isUpdate))) before
       /\ Forall (Calls (listenerNames storage target (afterRow isUpdate))) after
       /\ Nested storage now constructorOf Spec.JunctionInsert rest
       /\ DataSource.respond w2
            (DataSource.ExecuteSql (SqlGenerator.query q) (SqlGenerator.params q))
          = (Ok answer, w3)
       /\ DataSource.run
            (DataSource.callListeners storage target (afterRow isUpdate)
               (identified storage target isUpdate current answer)) w3
          = (Ok handed, w4, after)
       /\ (isUpdate = true ->
           String.prefix ("UPDATE " ++ t ++ " SET ") (SqlGenerator.query q) = true
           /\ forall pk,
                DataSource.pkName storage target = Some pk ->
                pk <> "" ->
                typeof_object (prop current pk) = false ->
                exists assignments values,
                  SqlGenerator.query q
                  = "UPDATE " ++ t ++ " SET " ++ assignments ++ " WHERE " ++ pk ++ " = ?"
                  /\ SqlGenerator.params q = (values ++ [prop current pk])%list)
       /\ (isUpdate = false ->
           String.prefix ("INSERT INTO " ++ t ++ " (") (SqlGenerator.query q) = true
           /\ forall pk,
                DataSource.pkName storage target = Some pk ->
                pk <> "" ->
                truthy (prop answer "insertId") = true ->
                identified storage target isUpdate current answer
                = assign current pk (prop answer "insertId")).
Proof.
  intros Htable Hrun isUpdate t. split; [apply SaveFacts.isUpdate_spec|].
  destruct (save_completed depth target table entity saved w w' trace Htable Hrun)
    as (owners & before & received & current & persisted & w2 & q & answer & w3
        & after & handed & w4 & rest
        & Hreach & Hq & Hanswer & Hnull & Hafter & Hrest & Htrace).
  fold isUpdate in Hq, Hnull, Hafter, Hrest.
  exists owners, before, received, current, persisted, w2, q, answer, w3, after, handed,
    w4, rest.
  destruct (save_kinds depth target table entity w owners before received current
              persisted w2 Hreach) as [Howners Hbefore].
  split; [exact Hreach|]. split; [exact Hq|]. split; [exact Htrace|].
  split; [exact Howners|]. split; [exact Hbefore|]. split.
  { pose proof (emits_always _ _
                  (callListeners_emits storage target (afterRow isUpdate)
                     (identified storage target isUpdate current answer)) w3)
      as Hcalls.
    now rewrite Hafter in Hcalls. }
  split; [exact (rest_kinds _ _ _ _ _ _ _ _ _ _ Hrest)|].
  split; [exact Hanswer|]. split; [exact Hafter|]. split.
  - intros Hup. unfold rowQuery in Hq. rewrite Hup in Hq. split.
    + exact (SaveFacts.update_text table _ _ q Hq).
    + intros pk Hpk Hne Hprim.
      destruct Hreach as (owned & w1 & written & _ & _ & _ & Hwritten & ->).
      destruct (persistColumns_object _ _ _ Hwritten) as [fields ->].
      destruct (injectForeignKeys_object
                  (relationsOf storage (IsClass target)) current fields)
        as [fields' Efields].
      rewrite Efields in Hq.
      destruct (SaveFacts.update_by_primary_key storage table target current fields' pk
                  Hpk Hne Hprim) as (q' & assignments & Hq' & Htext & Hparams).
      rewrite Hq in Hq'. injection Hq' as <-.
      exists assignments, (map (prop (VObj fields')) (map fst fields')).
      split; assumption.
  - intros Hins. unfold rowQuery in Hq. rewrite Hins in Hq. injection Hq as <-. split.
    + unfold SqlGenerator.insert. cbn [SqlGenerator.query]. subst t.
      rewrite !prefix_app_l.
      rewrite <- (append_empty " (") at 1. rewrite prefix_app_l. apply prefix_empty.
    + intros pk Hpk Hne Hid. unfold identified. rewrite Hins, Hpk, Hid.
      apply String.eqb_neq in Hne. now rewrite Hne.
Qed.

(** C5, as amended.  A save that completes has stamped the special columns
    of the entity, as its listeners left it, before the statement for the row
    was built from it (one column per property): a create-timestamp property
    holds the current time when the save is an insert and the property held no
    value (it was [undefined], [null] or otherwise falsy), and is unchanged
    otherwise; an update-timestamp property holds the current time on both
    paths; a version property holds [1] on the insert path and, on the update
    path, its previous number plus one as numbers add: [n + 1] for [n] from
    [-2^53] to [2^53 - 1], the double nearest to [n + 1] in general, and [1]
    when the property held no value. *)
Theorem special_columns_are_stamped (depth : nat) (target : class)
    (table : EntityMetadata.t) (entity saved : value) (w w' : W)
    (trace : list DataSource.event) :
  findTable storage (IsClass target) = Some table ->
  NoDup (map ColumnMetadata.propertyName (columnsOf storage (IsClass target))) ->
  DataSource.execute storage now constructorOf depth
    (DataSource.save storage now target entity) w
  = Some (Ok saved, w', trace) ->
  let isUpdate := DataSource.isUpdate storage target entity in
  exists owners before received current persisted w2 q after rest,
    Reaches storage now constructorOf depth target entity w owners before received
      current persisted w2
    /\ rowQuery storage table target isUpdate current persisted = Ok q
    /\ trace
       = (owners ++ before
          ++ DataSource.ExecuteSql (SqlGenerator.query q) (SqlGenerator.params q)
             :: after ++ rest)%list
    /\ forall fields col,
         received = VObj fields ->
         In col (columnsOf storage (IsClass target)) ->
         let p := ColumnMetadata.propertyName col in
         let old := prop received p in
         let new := prop current p in
         (ColumnMetadata.mode col = Some createDate ->
            (isUpdate = false -> truthy old = false -> new = VDate (Some now))
            /\ (isUpdate = true \/ truthy old = true -> new = old))
         /\ (ColumnMetadata.mode col = Some updateDate -> new = VDate (Some now))
         /\ (ColumnMetadata.mode col = Some version ->
               (isUpdate = false -> new = VNum 1)
               /\ (isUpdate = true ->
                   forall n, old = VNum n ->
                     new = VNum (to_double (n + 1))
                     /\ ((- exact <= n < exact)%Z -> new = VNum (n + 1)))
               /\ (isUpdate = true -> truthy old = false -> new = VNum 1)).
Proof.
  intros Htable Hnd Hrun isUpdate.
  destruct (save_completed depth target table entity saved w w' trace Htable Hrun)
    as (owners & before & received & current & persisted & w2 & q & answer & w3
        & after & handed & w4 & rest
        & Hreach & Hq & _ & _ & _ & _ & Htrace).
  exists owners, before, received, current, persisted, w2, q, after, rest.
  split; [exact Hreach|]. split; [exact Hq|]. split; [exact Htrace|].
  intros fields col -> Hin p old new.
  destruct Hreach as (owned & w1 & written & _ & _ & Hcurrent & _).
  assert (Hat : new = DataSource.stampedValue now isUpdate (ColumnMetadata.mode col) old).
  { subst new old p. rewrite Hcurrent. now apply StampFacts.stampColumns_at. }
  split; [|split]; intros Hm; rewrite Hat, Hm; cbn [DataSource.stampedValue].
  - split.
    + intros -> ->. reflexivity.
    + intros [-> | ->]; [reflexivity|]. now rewrite andb_false_r.
  - reflexivity.
  - split; [|split].
    + intros ->. reflexivity.
    + intros -> n ->. unfold or_else. cbn [truthy].
      destruct (n =? 0)%Z eqn:E; cbn [negb plus_one].
      * apply Z.eqb_eq in E. subst n. split; reflexivity.
      * split; [reflexivity|]. intros Hsafe. f_equal. unfold to_double, exact in *.
        destruct (Z.leb_spec (Z.abs (n + 1)) 9007199254740992); [reflexivity | lia].
    + intros -> Hf. unfold or_else. rewrite Hf. reflexivity.
Qed.

End Running.
End WithHost.
End CourseFacts.

(** ** The key of a related table *)

Module KeyFacts.
Import JsFacts TextFacts RunFacts EventFacts RelationFacts NestedFacts CourseFacts Shape.

Lemma concat_in (sep x : string) (xs : list string) :
  In x xs -> exists before after, String.concat sep xs = before ++ x ++ after.
Proof.
  induction xs as [|y ys IH]; intros Hin; [contradiction|].
  destruct Hin as [->|Hin].
  - exists "". destruct ys as [|z zs].
    + exists "". cbn [String.concat append]. now rewrite append_empty.
    + exists (sep ++ String.concat sep (z :: zs)). reflexivity.
  - destruct (IH Hin) as (before & after & Hrest).
    destruct ys as [|z zs]; [contradiction|].
    exists (y ++ sep ++ before), after. cbn [String.concat].
    cbn [String.concat] in Hrest. rewrite Hrest. normalise. reflexivity.
Qed.

Section WithHost.
Context `{Host}.
Variable storage : MetadataArgsStorage.

(** A definition of a relation of the entity is in the text of
    [createTable]. *)
Lemma createTable_contains (metadata : EntityMetadata.t)
    (columns : list ColumnMetadata.t) (relation : RelationMetadata.t) (def : string) :
  In relation (relationsOf storage (IsClass (EntityMetadata.target metadata))) ->
  In def (SqlGenerator.relationDefs storage relation) ->
  exists before after,
    SqlGenerator.createTable storage metadata columns = before ++ def ++ after.
Proof.
  intros Hrel Hdef. unfold SqlGenerator.createTable.
  destruct (concat_in ", " def
              (map SqlGenerator.columnDef columns
               ++ flat_map (SqlGenerator.relationDefs storage)
                    (relationsOf storage (IsClass (EntityMetadata.target metadata)))))
    as (before & after & Hdefs).
  { apply in_or_app. right. apply in_flat_map. exists relation. now split. }
  rewrite Hdefs.
  exists ("CREATE TABLE IF NOT EXISTS " ++ EntityMetadata.tableName metadata ++ " ("
          ++ before), (after ++ ")").
  normalise. reflexivity.
Qed.

Lemma findRelation_in (metadata : EntityMetadata.t) (relationName : string)
    (relation : RelationMetadata.t) :
  SqlGenerator.findRelation storage metadata relationName = Some relation ->
  In relation (relationsOf storage (IsClass (EntityMetadata.target metadata)))
  /\ RelationMetadata.propertyName relation = relationName.
Proof.
  unfold SqlGenerator.findRelation. intros Hfind. apply find_some in Hfind.
  destruct Hfind as [Hin Heq]. split; [exact Hin | now apply String.eqb_eq].
Qed.

(** *** The foreign key that [save] writes *)

Lemma injectForeignKey_other (entity : value) (fields : list (string * value))
    (fk : string) (r : RelationMetadata.t) :
  writes entity fk r = false ->
  prop (DataSource.injectForeignKey entity (VObj fields) r) fk = prop (VObj fields) fk.
Proof.
  unfold writes, DataSource.injectForeignKey. intros Hw.
  destruct (SqlGenerator.owning r); [|reflexivity].
  destruct (truthy _); [|reflexivity]. cbn [andb] in Hw.
  cbn [assign prop]. now rewrite assoc_set_field, Hw.
Qed.

Lemma injectForeignKey_object (entity : value) (fields : list (string * value))
    (r : RelationMetadata.t) :
  exists fields', DataSource.injectForeignKey entity (VObj fields) r = VObj fields'.
Proof.
  unfold DataSource.injectForeignKey.
  destruct (SqlGenerator.owning r); [|eexists; reflexivity].
  destruct (truthy _); eexists; reflexivity.
Qed.

Lemma injectForeignKeys_other (entity : value) (fk : string)
    (relations : list RelationMetadata.t) :
  existsb (writes entity fk) relations = false ->
  forall fields,
    prop (DataSource.injectForeignKeys relations entity (VObj fields)) fk
    = prop (VObj fields) fk.
Proof.
  unfold DataSource.injectForeignKeys.
  induction relations as [|r rest IH]; intros Hnone fields; [reflexivity|].
  cbn [existsb] in Hnone. apply orb_false_iff in Hnone as [Hr Hrest].
  cbn [fold_left].
  destruct (injectForeignKey_object entity fields r) as [fields' Efields].
  rewrite Efields, (IH Hrest), <- Efields. now apply injectForeignKey_other.
Qed.

(** The value of a foreign-key column is the [id] of a related entity. *)
Lemma injectForeignKeys_id (entity : value) (fk : string)
    (relations : list RelationMetadata.t) :
  existsb (writes entity fk) relations = true ->
  forall fields,
    exists r,
      In r relations
      /\ writes entity fk r = true
      /\ prop (DataSource.injectForeignKeys relations entity (VObj fields)) fk
         = prop (prop entity (RelationMetadata.propertyName r)) "id".
Proof.
  unfold DataSource.injectForeignKeys.
  induction relations as [|r rest IH]; intros Hsome fields; [discriminate|].
  cbn [fold_left].
  destruct (injectForeignKey_object entity fields r) as [fields' Efields].
  rewrite Efields.
  destruct (existsb (writes entity fk) rest) eqn:Erest.
  - destruct (IH eq_refl fields') as (r' & Hin & Hw & Hprop).
    exists r'. split; [now right|]. now split.
  - cbn [existsb] in Hsome. rewrite Erest, orb_false_r in Hsome.
    exists r. split; [now left|]. split; [exact Hsome|].
    pose proof (injectForeignKeys_other entity fk rest Erest fields') as Hkeep.
    unfold DataSource.injectForeignKeys in Hkeep. rewrite Hkeep, <- Efields.
    unfold writes in Hsome. apply andb_true_iff in Hsome as [Hsome Hfk].
    apply andb_true_iff in Hsome as [Hown Htruthy]. apply String.eqb_eq in Hfk.
    subst fk. unfold DataSource.injectForeignKey. rewrite Hown, Htruthy.
    apply prop_assign_same.
Qed.

(** *** The junction rows that [save] writes *)

Section Linking.
Context {W : Type} `{DataSource.World W}.






End Linking.



Section Saved.
Variable now : Z.
Variable constructorOf : value -> class.


End Saved.
End WithHost.
End KeyFacts.

(** ** The order of a save *)

Module OrderFacts.
Import JsFacts TextFacts RunFacts EventFacts NestedFacts CourseFacts Shape.

Section Running.
Context `{Host} {W : Type} `{DataSource.World W}.
Variable storage : MetadataArgsStorage.
Variable now : Z.
Variable constructorOf : value -> class.

(** The statement for the row is sent once, or the save fails before it. *)
Lemma persist_sends (table : EntityMetadata.t) (target : class) (isUpdate : bool)
    (entity persisted : value) (w w' : W) (out : result value)
    (sent : list DataSource.event) :
  DataSource.run
    (DataSource.persist storage table target (columnsOf storage (IsClass target))
       (relationsOf storage (IsClass target)) isUpdate entity persisted) w
  = (out, w', sent) ->
  (sent = [] /\ exists e, out = Throw e) \/ exists row, sent = [row].
Proof.
  rewrite run_persist.
  destruct (rowQuery storage table target isUpdate entity persisted) as [q|e].
  - cbn zeta. destruct (DataSource.respond w _) as [[answer|e] w1].
    + destruct isUpdate; [|destruct (nullish answer)];
        intros [= <- <- <-]; right; eexists; reflexivity.
    + intros [= <- <- <-]. right. eexists. reflexivity.
  - intros [= <- <- <-]. left. split; [reflexivity | now exists e].
Qed.

Ltac conjuncts := repeat match goal with |- _ /\ _ => split end.

(** X21.  What happens in a save happens in this order: first the saves of
    the objects the entity holds a foreign key to; then the calls of the
    [Before] listeners of the path; then the statement for the row, an
    [UPDATE] of the table on the update path and an [INSERT] into it on the
    insert path; then the calls of the [After] listeners of the path; then
    the saves of children, the saves of linked items and the junction rows.
    The statement for the row is sent once at most, and a save that has not
    sent it has failed and has called no [After] listener and saved no child:
    so a save that completes has sent it, and an [After] listener is never
    called before it.  Only methods registered as listeners of the path are
    called by the save itself. *)
Theorem save_calls_the_listeners_around_the_row (depth : nat) (target : class)
    (table : EntityMetadata.t) (entity : value) (w w' : W) (out : result value)
    (trace : list DataSource.event) :
  findTable storage (IsClass target) = Some table ->
  DataSource.execute storage now constructorOf depth
    (DataSource.save storage now target entity) w
  = Some (out, w', trace) ->
  let isUpdate := DataSource.isUpdate storage target entity in
  let t := EntityMetadata.tableName table in
  exists owners before sent after rest,
    trace = (owners ++ before ++ sent ++ after ++ rest)%list
    /\ (exists owned w1,
          DataSource.execute storage now constructorOf depth
            (DataSource.saveOwners (relationsOf storage (IsClass target)) isUpdate
               entity) w
          = Some (owned, w1, owners))
    /\ Nested storage now constructorOf (fun _ => False) owners
    /\ Forall (Calls (listenerNames storage target (beforeRow isUpdate))) before
    /\ Forall
         (Begins (if isUpdate then "UPDATE " ++ t ++ " SET "
                  else "INSERT INTO " ++ t ++ " ("))
         sent
    /\ (List.length sent <= 1)%nat
    /\ Forall (Calls (listenerNames storage target (afterRow isUpdate))) after
    /\ Nested storage now constructorOf Spec.JunctionInsert rest
    /\ (sent = [] -> after = [] /\ rest = [] /\ exists e, out = Throw e).
Proof.
  intros Htable Hrun isUpdate t.
  rewrite (execute_save storage now constructorOf depth target entity table w Htable)
    in Hrun.
  cbn zeta in Hrun. fold isUpdate in Hrun.
  destruct (DataSource.execute storage now constructorOf depth
              (DataSource.saveOwners _ isUpdate entity) w)
    as [[[owned w1] owners]|] eqn:Eowners; [|discriminate].
  assert (Howners : Nested storage now constructorOf (fun _ => False) owners).
  { refine (execute_nested storage now constructorOf _ _ _ _ _ _ _ _ Eowners).
    apply (emits_weaken Saves); [now left | apply saveOwners_emits]. }
  assert (Hpinned : exists owned w1,
            DataSource.execute storage now constructorOf depth
              (DataSource.saveOwners (relationsOf storage (IsClass target)) isUpdate
                 entity) w
            = Some (owned, w1, owners))
    by (now exists owned, w1).
  destruct owned as [owned|e].
  2:{ injection Hrun as <- <- <-. exists owners, [], [], [], [].
      rewrite !app_nil_r. conjuncts; try assumption; try (now constructor); try (cbn; lia);
        try (now eexists _, _).
      intros _. conjuncts; try reflexivity. now exists e. }
  pose proof (emits_always _ _
                (callListeners_emits storage target (beforeRow isUpdate) owned) w1)
    as Hbefore.
  destruct (DataSource.run (DataSource.callListeners storage target _ owned) w1)
    as [[[received|e] w2] before] eqn:Ebefore; cbn [DataSource.events snd] in Hbefore.
  2:{ injection Hrun as <- <- <-. exists owners, before, [], [], [].
      rewrite !app_nil_r. conjuncts; try assumption; try (now constructor); try (cbn; lia);
        try (now eexists _, _).
      intros _. conjuncts; try reflexivity. now exists e. }
  destruct (DataSource.persistColumns _ _) as [written|e].
  2:{ injection Hrun as <- <- <-. exists owners, before, [], [], [].
      rewrite !app_nil_r. conjuncts; try assumption; try (now constructor); try (cbn; lia);
        try (now eexists _, _).
      intros _. conjuncts; try reflexivity. now exists e. }
  pose proof (LifeCycleFacts.persist_row storage table target
                (columnsOf storage (IsClass target))
                (relationsOf storage (IsClass target)) isUpdate
                (DataSource.stampColumns now isUpdate
                   (columnsOf storage (IsClass target)) received)
                (DataSource.injectForeignKeys (relationsOf storage (IsClass target))
                   (DataSource.stampColumns now isUpdate
                      (columnsOf storage (IsClass target)) received) written) w2)
    as Hrow.
  destruct (DataSource.run (DataSource.persist _ _ _ _ _ _ _ _) w2)
    as [[kept w3] sent] eqn:Esent; cbn [DataSource.events snd] in Hrow.
  destruct (persist_sends _ _ _ _ _ _ _ _ _ Esent) as [[-> (e & ->)] | (row & ->)].
  { injection Hrun as <- <- <-. exists owners, before, [], [], [].
    rewrite !app_nil_r. conjuncts; try assumption; try (now constructor); try (cbn; lia);
        try (now eexists _, _).
    intros _. conjuncts; try reflexivity. now exists e. }
  destruct kept as [kept|e].
  2:{ injection Hrun as <- <- <-. exists owners, before, [row], [], [].
      rewrite !app_nil_r.
      conjuncts; try assumption; try (now constructor); try discriminate;
        try (cbn; lia); try (now eexists _, _). }
  pose proof (emits_always _ _
                (callListeners_emits storage target (afterRow isUpdate) kept) w3)
    as Hafter.
  destruct (DataSource.run (DataSource.callListeners storage target _ kept) w3)
    as [[[handed|e] w4] after] eqn:Eafter; cbn [DataSource.events snd] in Hafter.
  2:{ injection Hrun as <- <- <-. exists owners, before, [row], after, [].
      rewrite !app_nil_r.
      conjuncts; try assumption; try (now constructor); try discriminate;
        try (cbn; lia); try (now eexists _, _). }
  destruct (DataSource.execute storage now constructorOf depth _ w4)
    as [[[out5 w5] rest]|] eqn:Erest; [|discriminate].
  injection Hrun as <- <- <-. exists owners, before, [row], after, rest.
  conjuncts; try assumption; try reflexivity; try discriminate; try (cbn; lia);
    try (now eexists _, _).
  exact (rest_kinds storage now constructorOf _ _ _ _ _ _ _ _ _ _ Erest).
Qed.

End Running.
End OrderFacts.

(** ** The foreign key of a one-to-one relation *)

Module JoinColumnFacts.
Import JsFacts TextFacts RunFacts EventFacts MergeFacts JunctionFacts NestedFacts
  CourseFacts KeyFacts Shape.

Lemma removeFirst_filter {A} (keep drop : A -> bool) (xs : list A) :
  (forall x, drop x = true -> keep x = true) ->
  filter keep (removeFirst drop xs) = removeFirst drop (filter keep xs).
Proof.
  intros Himplies. induction xs as [|x rest IH]; [reflexivity|].
  cbn [removeFirst filter]. destruct (drop x) eqn:Edrop.
  - rewrite (Himplies x Edrop). cbn [removeFirst]. now rewrite Edrop.
  - cbn [filter]. destruct (keep x); cbn [removeFirst]; [rewrite Edrop|];
      now rewrite IH.
Qed.

Lemma flat_map_removeFirst {A B} (f : A -> list B) (drop : A -> bool) (x0 : A)
    (xs : list A) :
  find drop xs = Some x0 ->
  f x0 = [] ->
  flat_map f (removeFirst drop xs) = flat_map f xs.
Proof.
  intros Hfind Hnone. induction xs as [|x rest IH]; [discriminate|].
  cbn [find] in Hfind. cbn [removeFirst flat_map]. destruct (drop x).
  - injection Hfind as ->. now rewrite Hnone.
  - cbn [flat_map]. now rewrite (IH Hfind).
Qed.

Lemma removeFirst_ext {A} (p q : A -> bool) (xs : list A) :
  (forall x, In x xs -> p x = q x) -> removeFirst p xs = removeFirst q xs.
Proof.
  induction xs as [|x rest IH]; intros Hsame; [reflexivity|].
  cbn [removeFirst]. rewrite (Hsame x (or_introl eq_refl)).
  destruct (q x); [reflexivity|]. f_equal. apply IH. intros y Hy. apply Hsame. now right.
Qed.

Lemma relationsOf_without (storage : MetadataArgsStorage) (target : class)
    (relationName : string) :
  relationsOf (withoutRelation target relationName storage) (IsClass target)
  = removeFirst (fun r => RelationMetadata.propertyName r =? relationName)
      (relationsOf storage (IsClass target)).
Proof.
  unfold relationsOf at 1. unfold withoutRelation. cbn [relations].
  rewrite removeFirst_filter.
  - fold (relationsOf storage (IsClass target)). apply removeFirst_ext.
    intros x Hx. unfold relationsOf in Hx. apply filter_In in Hx as [_ Hx].
    unfold DataSource.declaredOn. cbn [identical] in Hx. unfold same in *.
    rewrite Nat.eqb_sym, Hx. reflexivity.
  - intros x Hx. unfold DataSource.declaredOn in Hx.
    apply andb_true_iff in Hx as [Hx _]. cbn [identical]. unfold same in *.
    now rewrite Nat.eqb_sym.
Qed.

(** The text of [createTable] without a relation that holds no foreign
    key. *)
Lemma createTable_without `{Host} (storage : MetadataArgsStorage)
    (metadata : EntityMetadata.t) (columns : list ColumnMetadata.t)
    (relationName : string) (r : RelationMetadata.t) :
  SqlGenerator.findRelation storage metadata relationName = Some r ->
  SqlGenerator.owning r = false ->
  SqlGenerator.createTable
    (withoutRelation (EntityMetadata.target metadata) relationName storage) metadata
    columns
  = SqlGenerator.createTable storage metadata columns.
Proof.
  intros Hfind Hown. unfold SqlGenerator.createTable.
  rewrite relationsOf_without.
  change (SqlGenerator.relationDefs
            (withoutRelation (EntityMetadata.target metadata) relationName storage))
    with (SqlGenerator.relationDefs storage).
  rewrite (flat_map_removeFirst _ _ r); [reflexivity|exact Hfind|].
  unfold SqlGenerator.relationDefs. now rewrite Hown.
Qed.

Lemma injectForeignKeys_without (drop : RelationMetadata.t -> bool)
    (r : RelationMetadata.t) (relations : list RelationMetadata.t)
    (entity entityToPersist : value) :
  find drop relations = Some r ->
  SqlGenerator.owning r = false ->
  DataSource.injectForeignKeys (removeFirst drop relations) entity entityToPersist
  = DataSource.injectForeignKeys relations entity entityToPersist.
Proof.
  unfold DataSource.injectForeignKeys. intros Hfind Hown.
  revert entityToPersist.
  induction relations as [|x rest IH]; intros entityToPersist; [discriminate|].
  cbn [find] in Hfind. cbn [removeFirst fold_left]. destruct (drop x).
  - injection Hfind as ->.
    replace (DataSource.injectForeignKey entity entityToPersist r)
      with entityToPersist; [reflexivity|].
    unfold DataSource.injectForeignKey. now rewrite Hown.
  - cbn [fold_left]. apply (IH Hfind).
Qed.

Section Named.
Context `{Host}.
Variable storage : MetadataArgsStorage.
Variable now : Z.
Variable constructorOf : value -> class.

(** X23.  A one-to-one relation holds a foreign key exactly if its property
    carries a [@JoinColumn] when [initialize] merges the declarations.
    Without one, the text of [createTable] and the object that a save builds
    the statement for the row from are what they are in the registry without
    the relation.  With one, the column is named by the [@JoinColumn] if that
    has a non-empty name and [<property>Id] otherwise; the text of
    [createTable] has the definition [<fk> INTEGER] and the clause
    [FOREIGN KEY (<fk>) REFERENCES <related>(id)], the text of a [SELECT] that
    asks for the relation joins the related table on [<related>.id = <t>.<fk>],
    and in a save that completes, of an entity with a related object, the
    property [<fk>] of the object the statement for the row is built from is
    the [id] of a related object.  This is for a relation registered as the
    decorators do, with no join column of its own, with at most one
    [@JoinColumn] on its property, and a related type that is registered. *)
Theorem join_column_makes_a_one_to_one_own_its_key (metadata : EntityMetadata.t)
    (relationName : string) (r : RelationMetadata.t) (relatedTable : EntityMetadata.t) :
  SqlGenerator.findRelation storage metadata relationName = Some r ->
  RelationMetadata.relationType r = RelationType.OneToOne ->
  RelationMetadata.joinColumn r = false ->
  RelationMetadata.joinColumnName r = None ->
  findTable storage (resolve (RelationMetadata.type r)) = Some relatedTable ->
  (List.length
     (declarationsOn JoinColumnMetadata.target JoinColumnMetadata.propertyName
        (EntityMetadata.target metadata) relationName (joinColumns storage)) <= 1)%nat ->
  let t := EntityMetadata.tableName metadata in
  let related := EntityMetadata.tableName relatedTable in
  let target := EntityMetadata.target metadata in
  let merged := DataSource.merged storage in
  let completes := fun (W : Type) (world : DataSource.World W) depth entity saved
                       (w w' : W) trace =>
    findTable merged (IsClass target) = Some metadata
    /\ DataSource.execute merged now constructorOf depth
         (DataSource.save merged now target entity) w
       = Some (Ok saved, w', trace) in
  let course := fun (W : Type) (world : DataSource.World W) depth entity (w : W) trace
                    current persisted =>
    exists owners before received w2 q after rest,
      Reaches merged now constructorOf depth target entity w owners before received
        current persisted w2
      /\ rowQuery merged metadata target (DataSource.isUpdate merged target entity)
           current persisted = Ok q
      /\ trace
         = (owners ++ before
            ++ DataSource.ExecuteSql (SqlGenerator.query q) (SqlGenerator.params q)
               :: after ++ rest)%list in
  exists r',
    SqlGenerator.findRelation merged metadata relationName = Some r'
    /\ match
         hd_error
           (declarationsOn JoinColumnMetadata.target JoinColumnMetadata.propertyName
              target relationName (joinColumns storage))
       with
       | None =>
           (forall columns,
               SqlGenerator.createTable merged metadata columns
               = SqlGenerator.createTable (withoutRelation target relationName merged)
                   metadata columns)
           /\ (forall W world depth entity saved w w' trace,
                  completes W world depth entity saved w w' trace ->
                  exists current persisted written,
                    course W world depth entity w trace current persisted
                    /\ DataSource.persistColumns (columnsOf merged (IsClass target))
                         current = Ok written
                    /\ persisted
                       = DataSource.injectForeignKeys
                           (relationsOf (withoutRelation target relationName merged)
                              (IsClass target))
                           current written)
       | Some declared =>
           let fk := or_name (JoinColumnMetadata.name declared) (relationName ++ "Id") in
           (forall columns,
               (exists before after,
                   SqlGenerator.createTable merged metadata columns
                   = before ++ fk ++ " INTEGER" ++ after)
               /\ (exists before after,
                      SqlGenerator.createTable merged metadata columns
                      = before ++ "FOREIGN KEY (" ++ fk ++ ") REFERENCES " ++ related
                        ++ "(id)" ++ after))
           /\ (forall where_ relations order take skip select withDeleted q,
                  SqlGenerator.select merged metadata where_ relations order take skip
                    select withDeleted = Ok q ->
                  In relationName relations ->
                  exists before after,
                    SqlGenerator.query q
                    = before ++ " LEFT JOIN " ++ related ++ " ON " ++ related ++ ".id = "
                      ++ t ++ "." ++ fk ++ after)
           /\ (forall W world depth entity saved w w' trace,
                  completes W world depth entity saved w w' trace ->
                  exists current persisted,
                    course W world depth entity w trace current persisted
                    /\ (truthy (prop current relationName) = true ->
                        exists r0,
                          In r0 (relationsOf merged (IsClass target))
                          /\ writes current fk r0 = true
                          /\ prop persisted fk
                             = prop (prop current (RelationMetadata.propertyName r0))
                                 "id"))
       end.
Proof.
  intros Hrel Hkind Hjoin Hname Hrelated Hone t related target merged completes course.
  pose proof (findRelation_merged storage metadata relationName) as Hmerged.
  rewrite Hrel in Hmerged. cbn [option_map] in Hmerged.
  assert (Hprop : RelationMetadata.propertyName r = relationName).
  { unfold SqlGenerator.findRelation in Hrel. apply find_some in Hrel.
    destruct Hrel as [_ Heq]. now apply String.eqb_eq in Heq. }
  subst target.
  set (cs := declarationsOn JoinColumnMetadata.target JoinColumnMetadata.propertyName
               (EntityMetadata.target metadata) relationName (joinColumns storage)) in *.
  set (ts := declarationsOn JoinTableMetadata.target JoinTableMetadata.propertyName
               (EntityMetadata.target metadata) relationName (joinTables storage)) in *.
  set (r' := changedBy DataSource.withJoinColumn cs
               (changedBy DataSource.withJoinTable ts r)) in *.
  assert (Hshape :
    RelationMetadata.relationType r' = RelationType.OneToOne
    /\ RelationMetadata.type r' = RelationMetadata.type r
    /\ RelationMetadata.propertyName r' = relationName
    /\ RelationMetadata.options r' = RelationMetadata.options r
    /\ RelationMetadata.joinColumn r' = match cs with [] => false | _ :: _ => true end
    /\ RelationMetadata.joinColumnName r'
       = match hd_error cs with
         | Some declared => DataSource.named (JoinColumnMetadata.name declared) None
         | None => None
         end).
  { unfold r'. rewrite columns_change, tables_change.
    cbn [RelationMetadata.relationType RelationMetadata.type RelationMetadata.propertyName
         RelationMetadata.options RelationMetadata.joinColumn
         RelationMetadata.joinColumnName].
    rewrite Hkind, Hjoin, Hname, Hprop. repeat split.
    destruct cs as [|c [|c' rest]]; [reflexivity | reflexivity | simpl in Hone; lia]. }
  destruct Hshape as (Hkind' & Htype' & Hprop' & Hopts' & Hjoin' & Hname').
  assert (Hrelated' :
    findTable merged (resolve (RelationMetadata.type r')) = Some relatedTable).
  { rewrite Htype'. exact Hrelated. }
  destruct (findRelation_in merged metadata relationName r' Hmerged) as [Hin _].
  assert (Hcourse :
    forall W world depth entity saved w w' trace,
      completes W world depth entity saved w w' trace ->
      exists current persisted written,
        course W world depth entity w trace current persisted
        /\ DataSource.persistColumns
             (columnsOf merged (IsClass (EntityMetadata.target metadata))) current
           = Ok written
        /\ persisted
           = DataSource.injectForeignKeys
               (relationsOf merged (IsClass (EntityMetadata.target metadata)))
               current written).
  { intros W world depth entity saved w w' trace [Htable Hrun].
    destruct (save_completed merged now constructorOf depth _ metadata entity saved
                w w' trace Htable Hrun)
      as (owners & before & received & current & persisted & w2 & q & answer & w3
          & after & handed & w4 & rest
          & Hreach & Hq & _ & _ & _ & _ & Htrace).
    pose proof Hreach as (owned & w1 & written & _ & _ & _ & Hwritten & Hpersisted).
    exists current, persisted, written. split; [|now split].
    now exists owners, before, received, w2, q, after, rest. }
  exists r'. split; [exact Hmerged|].
  destruct cs as [|declared rest] eqn:Ecs; cbn [hd_error] in *.
  - assert (Hown : SqlGenerator.owning r' = false).
    { unfold SqlGenerator.owning. now rewrite Hkind', Hjoin'. }
    split.
    + intros columns. symmetry.
      exact (createTable_without merged metadata columns relationName r' Hmerged Hown).
    + intros W world depth entity saved w w' trace Hdone.
      destruct (Hcourse W world depth entity saved w w' trace Hdone)
        as (current & persisted & written & Hsteps & Hwritten & Hpersisted).
      exists current, persisted, written. split; [exact Hsteps|].
      split; [exact Hwritten|]. rewrite Hpersisted, relationsOf_without.
      symmetry. now apply (injectForeignKeys_without _ r').
  - assert (Hfk :
      SqlGenerator.fkColumn r'
      = or_name (JoinColumnMetadata.name declared) (relationName ++ "Id")).
    { unfold SqlGenerator.fkColumn. rewrite Hname', Hprop'.
      unfold DataSource.named, or_name.
      destruct (JoinColumnMetadata.name declared) as [n|]; [|reflexivity].
      destruct (n =? "") eqn:En; [reflexivity|]. now rewrite En. }
    assert (Hown : SqlGenerator.owning r' = true).
    { unfold SqlGenerator.owning. now rewrite Hkind', Hjoin'. }
    assert (Hdefs :
      SqlGenerator.relationDefs merged r'
      = [SqlGenerator.fkColumn r' ++ " INTEGER";
         "FOREIGN KEY (" ++ SqlGenerator.fkColumn r' ++ ") REFERENCES " ++ related
           ++ "(id)" ++ SqlGenerator.onDeleteOf r']).
    { unfold SqlGenerator.relationDefs. now rewrite Hown, Hrelated'. }
    cbn zeta. rewrite <- Hfk. split; [|split].
    + intros columns. split.
      * destruct (createTable_contains merged metadata columns r'
                    (SqlGenerator.fkColumn r' ++ " INTEGER") Hin)
          as (before & after & Htext).
        { rewrite Hdefs. now left. }
        exists before, after. rewrite Htext. normalise. reflexivity.
      * destruct (createTable_contains merged metadata columns r'
                    ("FOREIGN KEY (" ++ SqlGenerator.fkColumn r' ++ ") REFERENCES "
                     ++ related ++ "(id)" ++ SqlGenerator.onDeleteOf r') Hin)
          as (before & after & Htext).
        { rewrite Hdefs. right. now left. }
        exists before, (SqlGenerator.onDeleteOf r' ++ after). rewrite Htext.
        normalise. reflexivity.
    + intros where_ relations order take skip select withDeleted q Hq Hasked.
      destruct (SelectFacts.select_contains_join merged metadata where_ relations order
                  take skip select withDeleted q relationName Hq Hasked)
        as (before & after & Htext).
      exists before, after. rewrite Htext. clear Hcourse. subst merged.
      unfold SqlGenerator.joinClause. rewrite Hmerged, Hrelated', Hkind', Hjoin'.
      unfold SqlGenerator.fkColumn. rewrite Hprop'. subst t related. normalise.
      reflexivity.
    + intros W world depth entity saved w w' trace Hdone.
      destruct (Hcourse W world depth entity saved w w' trace Hdone)
        as (current & persisted & written & Hsteps & Hwritten & Hpersisted).
      exists current, persisted. split; [exact Hsteps|]. intros Htruthy.
      destruct (persistColumns_object _ _ _ Hwritten) as [fields ->].
      rewrite Hpersisted. apply injectForeignKeys_id. apply existsb_exists.
      exists r'. split; [exact Hin|]. unfold writes.
      now rewrite Hown, Hprop', Htruthy, String.eqb_refl.
Qed.

End Named.
End JoinColumnFacts.

(** ** The transaction wrapper, with the saves of the callback performed *)

Module WrapperFacts.
Import JsFacts RunFacts NestedFacts DataSource.

Section Performing.
Context {W : Type} `{World W}.
Variable nested : value -> W -> option (result value * W * list event).

Lemma perform_query (sql : string) (params : list value) (w : W) :
  perform nested (query sql params) w
  = Some (fst (respond w (ExecuteSql sql params)),
          snd (respond w (ExecuteSql sql params)), [ExecuteSql sql params]).
Proof.
  unfold query, await. cbn [perform].
  destruct (respond w (ExecuteSql sql params)) as [[answer|e] w1]; reflexivity.
Qed.

Lemma perform_catch {A} (p : Async A) (handler : error -> Async A) (w : W) :
  perform nested (catch p handler) w
  = match perform nested p w with
    | Some (Ok a, w1, t1) => Some (Ok a, w1, t1)
    | Some (Throw e, w1, t1) =>
        match perform nested (handler e) w1 with
        | Some (out, w2, t2) => Some (out, w2, (t1 ++ t2)%list)
        | None => None
        end
    | None => None
    end.
Proof.
  revert w. induction p as [a|e|ev k IH]; intros w; cbn [catch perform].
  - reflexivity.
  - destruct (perform nested (handler e) w) as [[[out w2] t2]|]; reflexivity.
  - destruct ev as [sql params|receiver method|other].
    + destruct (respond w _) as [answer w1]. rewrite IH.
      destruct (perform nested (k answer) w1) as [[[[a|e] w2] t1]|];
        [reflexivity| |reflexivity].
      destruct (perform nested (handler e) w2) as [[[out w3] t2]|]; reflexivity.
    + destruct (respond w _) as [answer w1]. rewrite IH.
      destruct (perform nested (k answer) w1) as [[[[a|e] w2] t1]|];
        [reflexivity| |reflexivity].
      destruct (perform nested (handler e) w2) as [[[out w3] t2]|]; reflexivity.
    + destruct (nested other w) as [[[answer w1] inner]|]; [|reflexivity]. rewrite IH.
      destruct (perform nested (k answer) w1) as [[[[a|e] w2] t1]|];
        [reflexivity| |reflexivity].
      destruct (perform nested (handler e) w2) as [[[out w3] t2]|]; [|reflexivity].
      now rewrite app_assoc.
Qed.

(** Every course of the wrapper, by the answers of the driver and the
    outcome of the callback. *)
Lemma perform_transaction {T} (callback : Async T) (w : W) :
  perform nested (transaction callback) w
  = match respond w BEGIN with
    | (Throw e, w1) => Some (Throw e, w1, [BEGIN])
    | (Ok _, w1) =>
        match perform nested callback w1 with
        | Some (Ok r, w2, trace) =>
            match respond w2 COMMIT with
            | (Ok _, w3) => Some (Ok r, w3, (BEGIN :: trace ++ [COMMIT])%list)
            | (Throw e, w3) =>
                match respond w3 ROLLBACK with
                | (Ok _, w4) =>
                    Some (Throw e, w4, (BEGIN :: trace ++ [COMMIT; ROLLBACK])%list)
                | (Throw e', w4) =>
                    Some (Throw e', w4, (BEGIN :: trace ++ [COMMIT; ROLLBACK])%list)
                end
            end
        | Some (Throw e, w2, trace) =>
            match respond w2 ROLLBACK with
            | (Ok _, w3) => Some (Throw e, w3, (BEGIN :: trace ++ [ROLLBACK])%list)
            | (Throw e', w3) => Some (Throw e', w3, (BEGIN :: trace ++ [ROLLBACK])%list)
            end
        | None => None
        end
    end.
Proof.
  unfold transaction, startTransaction, commitTransaction, rollbackTransaction.
  rewrite perform_bind, perform_query. fold BEGIN.
  destruct (respond w BEGIN) as [[began|e] w1]; cbn [fst snd]; [|reflexivity].
  rewrite perform_catch, perform_bind.
  destruct (perform nested callback w1) as [[[[r|e] w2] trace]|]; [| |reflexivity].
  - rewrite perform_bind, perform_query. fold COMMIT.
    destruct (respond w2 COMMIT) as [[committed|e] w3]; cbn [fst snd perform].
    + now rewrite app_nil_r.
    + rewrite perform_bind, perform_query. fold ROLLBACK.
      destruct (respond w3 ROLLBACK) as [[undone|e'] w4]; cbn [fst snd perform];
        rewrite ?app_nil_r, <- ?app_assoc; reflexivity.
  - rewrite perform_bind, perform_query. fold ROLLBACK.
    destruct (respond w2 ROLLBACK) as [[undone|e'] w3]; cbn [fst snd perform];
      rewrite ?app_nil_r; reflexivity.
Qed.

End Performing.

Section Running.
Context `{Host} {W : Type} `{World W}.
Variable storage : MetadataArgsStorage.
Variable now : Z.
Variable constructorOf : value -> class.

(** C9, as amended.  The course of a transaction, the saves of the callback
    performed.  If the driver refuses [BEGIN], its error is thrown and the
    callback is not run.  Once it has accepted [BEGIN]: if the callback
    completes with [r], the events are [BEGIN], those of the callback,
    [COMMIT], in that order, and [r] is returned, when the driver accepts
    [COMMIT]; when it refuses, [ROLLBACK] follows [COMMIT] and the error of
    [COMMIT] is thrown, or that of [ROLLBACK] if the driver refuses that too.
    If the callback throws [e], the events are [BEGIN], those of the callback,
    [ROLLBACK], with no [COMMIT] from the wrapper, and the caller gets the
    same [e] when the driver accepts [ROLLBACK] and the error of [ROLLBACK]
    when it refuses. *)
Theorem transaction_commits_or_rolls_back {T} (callback : Async T) (depth : nat)
    (w : W) :
  let perform := fun p w => execute storage now constructorOf depth (T := T) p w in
  (forall e w1,
      respond w BEGIN = (Throw e, w1) ->
      perform (transaction callback) w = Some (Throw e, w1, [BEGIN]))
  /\ (forall began w1 r w2 trace,
         respond w BEGIN = (Ok began, w1) ->
         perform callback w1 = Some (Ok r, w2, trace) ->
         (forall committed w3,
             respond w2 COMMIT = (Ok committed, w3) ->
             perform (transaction callback) w
             = Some (Ok r, w3, (BEGIN :: trace ++ [COMMIT])%list))
         /\ (forall e w3 answer w4,
                respond w2 COMMIT = (Throw e, w3) ->
                respond w3 ROLLBACK = (answer, w4) ->
                perform (transaction callback) w
                = Some (Throw (match answer with Ok _ => e | Throw e' => e' end), w4,
                        (BEGIN :: trace ++ [COMMIT; ROLLBACK])%list)))
  /\ (forall began w1 e w2 trace answer w3,
         respond w BEGIN = (Ok began, w1) ->
         perform callback w1 = Some (Throw e, w2, trace) ->
         respond w2 ROLLBACK = (answer, w3) ->
         perform (transaction callback) w
         = Some (Throw (match answer with Ok _ => e | Throw e' => e' end), w3,
                 (BEGIN :: trace ++ [ROLLBACK])%list)).
Proof.
  intros perform. subst perform. unfold execute. split; [|split].
  - intros e w1 Hbegin. now rewrite perform_transaction, Hbegin.
  - intros began w1 r w2 trace Hbegin Hcallback. split.
    + intros committed w3 Hcommit.
      now rewrite perform_transaction, Hbegin, Hcallback, Hcommit.
    + intros e w3 answer w4 Hcommit Hrollback.
      rewrite perform_transaction, Hbegin, Hcallback, Hcommit, Hrollback.
      now destruct answer.
  - intros began w1 e w2 trace answer w3 Hbegin Hcallback Hrollback.
    rewrite perform_transaction, Hbegin, Hcallback, Hrollback.
    now destruct answer.
Qed.

End Running.
End WrapperFacts.

(** ** The properties on the sample schemas *)

Module Samples.
Import Shape.

Lemma filters_bind_one_value_per_placeholder_witness :
  exists q,
    @SqlGenerator.delete Blog.host Shop.customers
      (VObj [("name", Operators.Like "B%");
             ("visits", Operators.Between (VNum 1) (VNum 9))])
    = Ok q
    /\ placeholdersIn (SqlGenerator.query q) = 3%nat
    /\ List.length (SqlGenerator.params q) = 3%nat.
Proof.
  eexists. split; [reflexivity|]. split; [|reflexivity].
  refine (proj1 (proj2
            (@PlaceholderFacts.filters_bind_one_value_per_placeholder Blog.host
               Shop.storage Shop.customers
               (VObj [("name", Operators.Like "B%");
                      ("visits", Operators.Between (VNum 1) (VNum 9))])
               eq_refl _)) _ eq_refl).
  exists ["name"; "visits"]. split; [reflexivity|].
  intros k [<-|[<-|[]]]; split; reflexivity.
Defined.

Lemma upsert_updates_the_other_columns_witness :
  SqlGenerator.upsert Shop.tags (columnsOf Shop.storage (IsClass Shop.Tag))
    (VObj [("id", VNum 1); ("label", VStr "new")]) ["id"]
  = Ok {| SqlGenerator.query :=
            "INSERT INTO tags (id, label) VALUES (?, ?)"
            ++ " ON CONFLICT(id) DO UPDATE SET label=excluded.label";
          SqlGenerator.params := [VNum 1; VStr "new"] |}.
Proof.
  exact (proj1 (proj2
           (InsertFacts.upsert_updates_the_other_columns Shop.tags
              (columnsOf Shop.storage (IsClass Shop.Tag))
              (VObj [("id", VNum 1); ("label", VStr "new")]) eq_refl))
           "id" []).
Defined.

Lemma unregistered_entity_is_rejected_witness :
  @DataSource.run nat Blog.accepting value
    (@DataSource.save Blog.host Shop.storage 0 Shop.Draft Shop.bob) 0%nat
  = (Throw (Error "Entity not found in metadata"), 0%nat, []).
Proof.
  exact (proj1
           (@RegistryFacts.unregistered_entity_is_rejected Blog.host nat Blog.accepting
              Shop.storage 0 Shop.Draft eq_refl)
           Shop.bob 0%nat).
Defined.

Lemma delete_is_soft_with_a_delete_date_column_witness :
  Forall (Begins "UPDATE customers SET deletedAt = ? WHERE ")
    (DataSource.events
       (@DataSource.run nat Blog.accepting unit
          (@DataSource.delete Blog.host Shop.storage 5 Shop.Customer (VNum 3)) 0%nat)).
Proof.
  exact (proj1
           (@RemovalFacts.delete_is_soft_with_a_delete_date_column Blog.host nat
              Blog.accepting Shop.storage 5 Shop.Customer Shop.customers (VNum 3)
              eq_refl)
           (Blog.column Shop.Customer "deletedAt" Blog.deleteDateOptions
              (Some deleteDate))
           eq_refl 0%nat).
Defined.

Lemma remove_filters_by_the_primary_key_witness :
  exists before sent after,
    DataSource.events
      (@DataSource.run nat Blog.accepting value
         (@DataSource.remove Blog.host Shop.storage 5 Shop.Customer Shop.carol) 0%nat)
    = (before ++ sent ++ after)%list
    /\ Forall (Calls ["touch"]) before
    /\ Forall (Filters "id") sent
    /\ (List.length sent <= 1)%nat
    /\ Forall (Calls []) after.
Proof.
  exact (proj2
           (@RemovalFacts.remove_filters_by_the_primary_key Blog.host nat Blog.accepting
              Shop.storage 5 Shop.Customer Shop.customers Shop.carol eq_refl)
           "id" eq_refl eq_refl 0%nat).
Defined.

Lemma soft_removal_by_id_witness :
  DataSource.events
    (@DataSource.run nat Blog.accepting unit
       (@DataSource.softRemove Blog.host Shop.storage 5 Shop.Customer
          (VArr [VNum 1; VNum 2])) 0%nat)
  = [DataSource.ExecuteSql "UPDATE customers SET deletedAt = ? WHERE id IN (?, ?)"
       [VNum 5; VNum 1; VNum 2]]
  /\ DataSource.events
       (@DataSource.run nat Blog.accepting unit
          (@DataSource.recover Blog.host Shop.storage Shop.Customer
             (VArr [VNum 1; VNum 2])) 0%nat)
     = [DataSource.ExecuteSql "UPDATE customers SET deletedAt = NULL WHERE id IN (?, ?)"
          [VNum 1; VNum 2]].
Proof.
  exact (proj2 (proj2
           (proj2
              (@SoftRemovalFacts.soft_removal_by_id Blog.host nat Blog.accepting
                 Shop.storage 5 Shop.Customer Shop.customers eq_refl)
              (Blog.column Shop.Customer "deletedAt" Blog.deleteDateOptions
                 (Some deleteDate))
              eq_refl))
           [VNum 1; VNum 2] 0%nat).
Defined.

Lemma counters_update_in_place_witness :
  DataSource.events
    (@DataSource.run nat Blog.accepting unit
       (@DataSource.increment Blog.host Shop.storage Shop.Customer
          (VObj [("id", VNum 3)]) "visits" (VNum 2)) 0%nat)
  = [DataSource.ExecuteSql "UPDATE customers SET visits = visits + ? WHERE id = ?"
       [VNum 2; VNum 3]].
Proof.
  exact (proj1
           (proj2
              (@BulkFacts.counters_update_in_place Blog.host nat Blog.accepting
                 Shop.storage Shop.Customer Shop.customers (VObj [("id", VNum 3)])
                 "visits" (VNum 2) 0%nat eq_refl)
              "id = ?" [VNum 3] eq_refl eq_refl)).
Defined.

Lemma count_ignores_the_delete_date_column_witness :
  DataSource.events
    (@DataSource.run nat Blog.accepting value
       (@DataSource.count Blog.host Shop.storage Shop.Customer VUndefined) 0%nat)
  = [DataSource.ExecuteSql "SELECT COUNT(*) as count FROM customers" []]
  /\ hd_error
       (DataSource.events
          (@DataSource.run nat Blog.accepting (list value)
             (@DataSource.find Blog.host Shop.storage Shop.Customer VUndefined []
                VUndefined VUndefined VUndefined None false) 0%nat))
     = Some (DataSource.ExecuteSql
               "SELECT customers.* FROM customers WHERE customers.deletedAt IS NULL" []).
Proof.
  destruct (@BulkFacts.count_ignores_the_delete_date_column Blog.host nat Blog.accepting
              Shop.storage Shop.Customer Shop.customers
              (Blog.column Shop.Customer "deletedAt" Blog.deleteDateOptions
                 (Some deleteDate))
              VUndefined 0%nat eq_refl eq_refl eq_refl)
    as (Hcount & Hfind & _).
  split; [exact Hcount | exact Hfind].
Defined.

Lemma insert_sends_one_statement_per_entity_witness :
  List.length
    (DataSource.events
       (@DataSource.run nat Blog.accepting unit
          (@DataSource.insert Blog.host Shop.storage 5 Shop.Customer
             (VArr [Shop.bob; Shop.carol])) 0%nat))
  = 2%nat.
Proof.
  exact (proj2 (proj2
           (@BulkFacts.insert_sends_one_statement_per_entity Blog.host nat
              Blog.accepting Shop.storage 5 Shop.Customer Shop.customers
              (VArr [Shop.bob; Shop.carol]) 0%nat eq_refl))
           eq_refl).
Defined.

Lemma junction_table_has_one_name_witness :
  exists r',
    SqlGenerator.findRelation (DataSource.merged Shop.storage) Shop.customers "tags"
    = Some r'
    /\ RelationMetadata.joinTableName r' = Some "customer_tags"
    /\ SqlGenerator.joinClause (DataSource.merged Shop.storage) Shop.customers "tags"
       = " LEFT JOIN customer_tags ON customer_tags.customersId = customers.id"
         ++ " LEFT JOIN tags ON tags.id = customer_tags.tagsId".
Proof.
  destruct (@JunctionFacts.junction_table_has_one_name nat Blog.accepting Shop.storage
              Shop.customers "tags"
              (Blog.relation Shop.Customer "tags" RelationType.ManyToMany Shop.Tag None)
              Shop.tags eq_refl eq_refl eq_refl eq_refl (le_n 1))
    as (r' & junction & Hfound & Hname & Hjoin & _).
  exists r'. split; [exact Hfound|].
  pose proof Hfound as Hr'. vm_compute in Hr'. injection Hr' as <-.
  split; [reflexivity|].
  rewrite Hjoin, Hname. reflexivity.
Defined.

Lemma builder_runs_the_query_of_find_witness :
  @QueryBuilder.getMany Blog.host Shop.storage
    (QueryBuilder.chain
       [QueryBuilder.Where (VObj [("name", VStr "Bob")]);
        QueryBuilder.LeftJoinAndSelect "customer.tags" "tag";
        QueryBuilder.OrderBy "name" QueryBuilder.DESC;
        QueryBuilder.Take 10]
       (QueryBuilder.create Shop.storage (QueryBuilder.OfClass Shop.Customer)
          (Some "customer")))
  = @DataSource.find Blog.host Shop.storage Shop.Customer (VObj [("name", VStr "Bob")])
      ["tags"] (VObj [("name", VStr "DESC")]) (VNum 10) VUndefined None false.
Proof.
  exact (proj1
           (@BuilderFacts.builder_runs_the_query_of_find Blog.host Shop.storage
              Shop.customers (Some "customer")
              [QueryBuilder.Where (VObj [("name", VStr "Bob")]);
               QueryBuilder.LeftJoinAndSelect "customer.tags" "tag";
               QueryBuilder.OrderBy "name" QueryBuilder.DESC;
               QueryBuilder.Take 10]
              eq_refl)).
Defined.

Lemma builder_needs_a_registered_entity_witness :
  @DataSource.run nat Blog.accepting (list value)
    (@QueryBuilder.getMany Blog.host Shop.storage
       (QueryBuilder.chain [QueryBuilder.Take 1]
          (QueryBuilder.create Shop.storage (QueryBuilder.OfTable "customers") None)))
    0%nat
  = (Throw (Error "Entity metadata not found for QueryBuilder"), 0%nat, []).
Proof.
  exact (proj1
           (@BuilderFacts.builder_needs_a_registered_entity Blog.host Shop.storage nat
              Blog.accepting (QueryBuilder.OfTable "customers") None
              [QueryBuilder.Take 1] I)
           0%nat).
Defined.

Lemma leftJoinAndSelect_joins_the_second_segment_witness :
  QueryBuilder.relations
    (QueryBuilder.leftJoinAndSelect "customer.tags" "tag"
       (QueryBuilder.create Shop.storage (QueryBuilder.OfClass Shop.Customer) None))
  = ["tags"].
Proof.
  refine (proj1
            (SplitFacts.leftJoinAndSelect_joins_the_second_segment
               (QueryBuilder.create Shop.storage (QueryBuilder.OfClass Shop.Customer)
                  None)
               "customer" "tags" "" "tag" eq_refl eq_refl _)).
  discriminate.
Defined.

Lemma simple_array_round_trip_witness :
  exists stored,
    @DataSource.serialize Blog.host Shop.labels (VArr [VStr "gold"; VStr "new"])
    = Ok (VStr stored)
    /\ @DataSource.transformValue Blog.host Shop.labels (VStr stored)
       = Ok (VArr [VStr "gold"; VStr "new"]).
Proof.
  refine (proj1
            (@SplitFacts.simple_array_round_trip Blog.host Shop.labels ["gold"; "new"]
               eq_refl eq_refl _) _).
  - repeat constructor.
  - discriminate.
Defined.

Lemma reading_without_a_transformer_never_fails_witness :
  @DataSource.transformValue Blog.host Shop.labels (VNum 7) = Ok (VNum 7).
Proof.
  refine (proj1 (proj2
            (@SplitFacts.reading_without_a_transformer_never_fails Blog.host Shop.labels
               (VNum 7) eq_refl)) _).
  discriminate.
Defined.

Lemma update_refreshes_the_update_date_witness :
  exists assigned names,
    keys assigned = Ok names
    /\ (In "updatedAt" names /\ In "name" names /\ ~ In "visits" names)
    /\ prop assigned "updatedAt" = VDate (Some 5%Z)
    /\ prop assigned "name" = VStr "Carol"
    /\ DataSource.events
         (@DataSource.run nat Blog.accepting unit
            (@DataSource.update Blog.host Shop.storage 5 Shop.Customer
               (VObj [("id", VNum 3)]) (VObj [("name", VStr "Carol")])) 0%nat)
       = match
           @SqlGenerator.update Blog.host Shop.customers assigned (VObj [("id", VNum 3)])
         with
         | Ok q => [DataSource.ExecuteSql (SqlGenerator.query q) (SqlGenerator.params q)]
         | Throw _ => []
         end.
Proof.
  assert (Hplain :
    Forall (fun c => ColumnOptions.transformer (ColumnMetadata.options c) = None)
      (columnsOf Shop.storage (IsClass Shop.Customer))).
  { repeat constructor. }
  destruct (@UpdateFacts.update_refreshes_the_update_date Blog.host 5 nat Blog.accepting
              Shop.storage Shop.Customer Shop.customers (VObj [("id", VNum 3)])
              [("name", VStr "Carol")] eq_refl Hplain)
    as (assigned & names & Hnames & Hkeys & Hprop & Hsent).
  exists assigned, names. split; [exact Hnames|]. split.
  - split; [apply Hkeys; right; reflexivity|].
    split; [apply Hkeys; left; left; reflexivity|].
    intros Hin. apply Hkeys in Hin. destruct Hin as [[Hin | []] | Hin]; discriminate.
  - split; [exact (Hprop "updatedAt")|].
    split; [exact (Hprop "name") | exact (Hsent 0%nat)].
Defined.

Lemma transaction_commits_or_rolls_back_witness :
  @DataSource.execute Blog.host nat Blog.accepting Blog.storage 0 Blog.constructorOf 0
    value (DataSource.transaction Blog.rename) 0%nat
  = Some
      (Ok (VNum 1), 3%nat,
       [DataSource.BEGIN;
        DataSource.ExecuteSql "UPDATE posts SET title = ? WHERE id = ?" [VStr "t"; VNum 5];
        DataSource.COMMIT]).
Proof.
  exact (proj1
           (proj1
              (proj2
                 (@WrapperFacts.transaction_commits_or_rolls_back Blog.host nat
                    Blog.accepting Blog.storage 0 Blog.constructorOf value Blog.rename
                    0%nat 0%nat))
              (VObj [("insertId", VNum 1); ("rowsAffected", VNum 1)]) 1%nat (VNum 1)
              2%nat
              [DataSource.ExecuteSql "UPDATE posts SET title = ? WHERE id = ?"
                 [VStr "t"; VNum 5]]
              eq_refl eq_refl)
           (VObj [("insertId", VNum 3); ("rowsAffected", VNum 1)]) 3%nat eq_refl).
Defined.

(** The save of the post [hello], whose author is saved first. *)
Lemma save_takes_one_path_witness :
  @DataSource.isUpdate Blog.cascading Blog.Post Blog.hello = false
  /\ exists owners q rest,
       String.prefix "INSERT INTO posts (" (SqlGenerator.query q) = true
       /\ Nested (H := Blog.host) (H0 := Blog.accepting) Blog.cascading 0
            Blog.constructorOf (fun _ => False) owners
       /\ [DataSource.ExecuteSql
             "INSERT INTO users (id, name, tags, createdAt, updatedAt, version, deletedAt) VALUES (?, ?, ?, ?, ?, ?, ?)"
             [VUndefined; VStr "Ann"; VUndefined; VDate (Some 0%Z); VDate (Some 0%Z);
              VNum 1; VUndefined];
           DataSource.ExecuteSql
             "INSERT INTO posts (id, title, authorId) VALUES (?, ?, ?)"
             [VUndefined; VStr "Hello"; VNum 1]]
          = (owners
             ++ DataSource.ExecuteSql (SqlGenerator.query q) (SqlGenerator.params q)
                :: rest)%list.
Proof.
  split; [reflexivity|].
  destruct (@CourseFacts.save_takes_one_path Blog.host Blog.cascading 0 nat
              Blog.accepting Blog.constructorOf 1 Blog.Post Blog.posts Blog.hello
              (VObj [("title", VStr "Hello");
                     ("author",
                      VObj [("name", VStr "Ann"); ("createdAt", VDate (Some 0%Z));
                            ("updatedAt", VDate (Some 0%Z)); ("version", VNum 1);
                            ("id", VNum 1)]);
                     ("id", VNum 2)])
              0%nat 2%nat
              [DataSource.ExecuteSql
                 "INSERT INTO users (id, name, tags, createdAt, updatedAt, version, deletedAt) VALUES (?, ?, ?, ?, ?, ?, ?)"
                 [VUndefined; VStr "Ann"; VUndefined; VDate (Some 0%Z);
                  VDate (Some 0%Z); VNum 1; VUndefined];
               DataSource.ExecuteSql
                 "INSERT INTO posts (id, title, authorId) VALUES (?, ?, ?)"
                 [VUndefined; VStr "Hello"; VNum 1]]
              eq_refl eq_refl)
    as (_ & owners & before & received & current & persisted & w2 & q & answer & w3
        & after & handed & w4 & rest
        & _ & _ & Htrace & Howners & Hbefore & Hafter & _ & _ & _ & _ & Hinsert).
  exists owners, q, (after ++ rest)%list.
  split; [exact (proj1 (Hinsert eq_refl))|]. split; [exact Howners|].
  inversion Hbefore as [Hnone|ev more Hcall _ Hsome].
  - rewrite <- Hnone in Htrace. exact Htrace.
  - destruct Hcall as (receiver & method & _ & Hin). destruct Hin.
Defined.

(** The save of a user at version 3. *)
Lemma special_columns_are_stamped_witness :
  let entity := VObj [("id", VNum 7); ("name", VStr "Alice"); ("version", VNum 3)] in
  exists owners before received current persisted w2,
    Reaches (H := Blog.host) (H0 := Blog.accepting) Blog.storage 0 Blog.constructorOf 1
      Blog.User entity 0%nat owners before received current persisted w2
    /\ prop current "updatedAt" = VDate (Some 0%Z)
    /\ prop current "version" = VNum 4.
Proof.
  intros entity.
  assert (Hnd :
    NoDup (map ColumnMetadata.propertyName (columnsOf Blog.storage (IsClass Blog.User)))).
  { vm_compute. repeat (constructor; [simpl; intuition discriminate|]). constructor. }
  destruct (@CourseFacts.special_columns_are_stamped Blog.host Blog.storage 0 nat
              Blog.accepting Blog.constructorOf 1 Blog.User Blog.users entity
              (VObj [("id", VNum 7); ("name", VStr "Alice"); ("version", VNum 4);
                     ("updatedAt", VDate (Some 0%Z))])
              0%nat 1%nat
              [DataSource.ExecuteSql
                 "UPDATE users SET id = ?, name = ?, updatedAt = ?, version = ? WHERE id = ?"
                 [VNum 7; VStr "Alice"; VDate (Some 0%Z); VNum 4; VNum 7]]
              eq_refl Hnd eq_refl)
    as (owners & before & received & current & persisted & w2 & q & after & rest
        & Hreach & _ & _ & Hstamped).
  exists owners, before, received, current, persisted, w2.
  split; [exact Hreach|].
  destruct Hreach as (owned & w1 & written & Howned & Hreceived & _).
  vm_compute in Howned. injection Howned as <- <- <-.
  vm_compute in Hreceived. injection Hreceived as <- <- <-.
  split.
  - refine (proj1 (proj2
              (Hstamped _
                 (Blog.column Blog.User "updatedAt" (Blog.plain ColumnType.DateTime)
                    (Some updateDate))
                 eq_refl _)) eq_refl).
    vm_compute. tauto.
  - refine (proj2
              (proj1 (proj2 (proj2 (proj2
                 (Hstamped _
                    (Blog.column Blog.User "version" (Blog.plain ColumnType.Integer)
                       (Some version))
                    eq_refl _)) eq_refl)) eq_refl 3%Z eq_refl) _).
    + vm_compute. tauto.
    + unfold exact. lia.
Defined.



Lemma andWhere_replaces_a_condition_witness :
  keys
    (QueryBuilder.whereClauses
       (QueryBuilder.andWhere (VObj [("visits", VNum 2); ("name", VStr "Bob")])
          (QueryBuilder.where_ (VObj [("name", VStr "Al"); ("id", VNum 1)])
             (QueryBuilder.create Shop.storage (QueryBuilder.OfClass Shop.Customer)
                None))))
  = Ok ["name"; "id"; "visits"].
Proof.
  refine (proj2
            (BuilderFacts.andWhere_replaces_a_condition
               (QueryBuilder.where_ (VObj [("name", VStr "Al"); ("id", VNum 1)])
                  (QueryBuilder.create Shop.storage (QueryBuilder.OfClass Shop.Customer)
                     None))
               [("name", VStr "Al"); ("id", VNum 1)]
               [("visits", VNum 2); ("name", VStr "Bob")] eq_refl _ _ _)).
  - repeat constructor; simpl; intuition discriminate.
  - repeat constructor.
  - repeat constructor.
Defined.

(** The save of the customer [bob], with its two listeners. *)
Lemma save_calls_the_listeners_around_the_row_witness :
  exists owners before sent after rest,
    [DataSource.Invoke Shop.bob "touch";
     DataSource.ExecuteSql
       "INSERT INTO customers (id, name, visits, labels, updatedAt, deletedAt) VALUES (?, ?, ?, ?, ?, ?)"
       [VUndefined; VStr "Bob"; VNum 0; VUndefined; VDate (Some 0%Z); VUndefined];
     DataSource.Invoke
       (VObj [("name", VStr "Bob"); ("visits", VNum 0);
              ("updatedAt", VDate (Some 0%Z)); ("id", VNum 1)])
       "audit"]
    = (owners ++ before ++ sent ++ after ++ rest)%list
    /\ Forall (Calls ["touch"]) before
    /\ Forall (Begins "INSERT INTO customers (") sent
    /\ Forall (Calls ["audit"]) after
    /\ (sent = [] -> after = []).
Proof.
  destruct (@OrderFacts.save_calls_the_listeners_around_the_row Blog.host nat
              Blog.accepting Shop.storage 0 Shop.constructorOf 1 Shop.Customer
              Shop.customers Shop.bob 0%nat 1%nat
              (Ok (VObj [("name", VStr "Bob"); ("visits", VNum 0);
                         ("updatedAt", VDate (Some 0%Z)); ("id", VNum 1)]))
              [DataSource.Invoke Shop.bob "touch";
               DataSource.ExecuteSql
                 "INSERT INTO customers (id, name, visits, labels, updatedAt, deletedAt) VALUES (?, ?, ?, ?, ?, ?)"
                 [VUndefined; VStr "Bob"; VNum 0; VUndefined; VDate (Some 0%Z);
                  VUndefined];
               DataSource.Invoke
                 (VObj [("name", VStr "Bob"); ("visits", VNum 0);
                        ("updatedAt", VDate (Some 0%Z)); ("id", VNum 1)])
                 "audit"]
              eq_refl eq_refl)
    as (owners & before & sent & after & rest
        & Htrace & _ & _ & Hbefore & Hsent & _ & Hafter & _ & Hnone).
  exists owners, before, sent, after, rest.
  split; [exact Htrace|]. split; [exact Hbefore|]. split; [exact Hsent|].
  split; [exact Hafter|]. intros Hempty. exact (proj1 (Hnone Hempty)).
Defined.

(** The profile of a customer, declared with
    [@JoinColumn({ name: 'profile_id' })]. *)
Lemma join_column_makes_a_one_to_one_own_its_key_witness :
  exists r',
    SqlGenerator.findRelation (DataSource.merged Shop.storage) Shop.customers "profile"
    = Some r'
    /\ forall columns,
         exists before after,
           SqlGenerator.createTable (DataSource.merged Shop.storage) Shop.customers
             columns
           = before ++ "profile_id INTEGER" ++ after.
Proof.
  assert (Hone :
    (List.length
       (declarationsOn JoinColumnMetadata.target JoinColumnMetadata.propertyName
          (EntityMetadata.target Shop.customers) "profile" (joinColumns Shop.storage))
     <= 1)%nat).
  { vm_compute. lia. }
  destruct (@JoinColumnFacts.join_column_makes_a_one_to_one_own_its_key Blog.host
              Shop.storage 0 Shop.constructorOf Shop.customers "profile"
              (Blog.relation Shop.Customer "profile" RelationType.OneToOne Shop.Profile
                 None)
              Shop.profiles eq_refl eq_refl eq_refl eq_refl eq_refl Hone)
    as (r' & Hfound & Hcreate & _).
  exists r'. split; [exact Hfound|]. intros columns. exact (proj1 (Hcreate columns)).
Defined.

End Samples.
